(* ===== verification/_CoqProject ===== *)
-Q . S2P
Prelude.v
Reads.v
Predicates.v
Wrappers.v
Chain.v
Runs.v
Counting.v
Dicts.v
Collector.v
Columns.v
Histograms.v
Manager.v
Destinations.v
Samples.v
Texts.v
Values.v
Simplify.v
Reports.v
Pipeline.v
Cli.v
Accuracy.v
