(* ===== verification/Prelude.v ===== *)
(** * Verification of the atropos read-statistics and read-filter core

    The program (Python, under [src/atropos/commands]) does two jobs for an
    adapter trimmer.  [trim/filters.py] decides for every read or read pair
    whether it is kept or discarded and by which rule; [stats.py] accumulates
    per-read and per-position frequency tables for the quality-control report.
    [reports.py] adds derived fields to the summary of a run and writes it in
    the formats asked for, [scripts/atropos.py] is the command-line entry
    point, and [paper/workflow/bin/show_simulated_accuracy.py] is an offline
    script that turns a table of accuracy measurements into a LaTeX table.

    ** Files of the development, in dependency order

    - [Prelude] (this file): Python's exceptions as the type [exn]; the monad
      [Py S A := S -> S * outcome A] of a method that mutates its object and
      either returns or raises, keeping the mutations made before the raise;
      [for_each], [attempt], [enumerate], the ordered dictionary [od_set] /
      [od_get] and the order of its keys ([first_seen]), [round_div] (Python's [round(n / d)] on non-negative integers,
      ties to even), [str_count]; the relation [preserves R c] (whatever [c]
      answers, the state it leaves is [R]-related to the one it started in)
      with the tactic [solve_preserves] and the hint database [preserves].
    - [Reads]: the input record ([Read]), the callable-predicate interface
      [ReadFilter] that [filters.py] duck-types, the class interface
      [FilterClass], and [qual2int].  The record and [qual2int] live outside
      [src/] and are modelled from the specification.
    - [Predicates]: the seven predicate classes of [filters.py]
      ([MergedReadFilter] ... [NoFilter]), each a [__call__] on a read, and the
      [ReadFilter] instance [AnyFilter] that packs them.
    - [Wrappers]: [FilterWrapper], [SingleWrapper], [PairedWrapper] and
      [FilterFactory]: the discard counter, the single-mate and the paired
      policy with its short-circuit evaluation of mate 2.
    - [Chain]: the class [Filters]: the ordered dictionary of wrappers,
      [add_filter], [filter] (first discarding wrapper wins, the scan stops)
      and [summarize]; the state machine of a pass ([step]) that the
      specification draws.
    - [Runs]: the loop of the caller of [Filters.filter] over the pairs of
      a run ([filter_all]), its closed form ([credited], [dispositions]),
      the relation [same_chain] of dictionaries that differ in their
      counters only, and the chains that a program can build ([built]).
    - [Counting]: [CountingDict] and [NestedDict] of [atropos.util] as finite
      maps (modelled from the specification: the module is not under [src/]),
      the wide table of [NestedDict.flatten], and the order [PyOrd] that
      [sorted] uses.
    - [Dicts]: [BaseDicts] with [extend] and indexing,
      [BaseCountingDicts.flatten] and [BaseNestedDicts.flatten] of [stats.py].
    - [Collector]: [ReadStatCollector]: the constructor, [collect] (written as
      its three phases [activate], [count_read], [tabulate]), [add_base],
      [_extend_bases], [finish], and [__getattr__] with the computed
      attributes [_gc_pct] and [_total_bases].
    - [Columns]: the totals of the positional tables of a collector
      ([bases_at], [quals_at], [tiles_at], [means], [tile_means]) and the
      relation [columns_ok] between them.
    - [Histograms]: the abstract specification of the tables of a collector:
      the cells [cell] of the eight tables, the number [value] that a
      collector stores in a cell, and [histogram], the number of reads of a
      run that fall in it.
    - [Manager]: [ReadStatistics]: the constructor, [_make_collectors],
      [pre_trim], [post_trim], [finish].
    - [Destinations]: a run of [post_trim] over records and their
      destinations ([post_run]), the dictionary it leaves
      ([destination_table]), and runs of both phases.
    - [Samples]: the reads that reach each collector of a manager, written
      down without running it: the first mates, and the second mates
      [passed] on by a first mate that is [collected].
    - [Texts]: the operations of [str] and [os.path] that the report code
      calls ([in], [join], [rfind], [splitext], slicing), modelled from the
      library.
    - [Values]: the Python objects a summary is made of ([value], [key]) and
      the operators the report code applies to them ([getitem], [truediv],
      [py_bool], ...), each answering the exception Python raises.
    - [Simplify]: [BaseReportGenerator.simplify] with its nested function
      [_recurse], and the structural reference [simplify_value].
    - [Reports]: the rest of [BaseReportGenerator] ([__init__],
      [generate_reports], [add_derived_data], [serialize],
      [generate_text_report], [generate_from_template]) and
      [prettyprint_summary], over the class [Platform] of what the module
      imports.
    - [Pipeline]: the dictionaries that the two [finish] methods and
      [Filters.summarize] return, as values of the report model
      ([snapshot_value], [result_value], [summary_value]); the class
      [Statistics] of what the reports need of them, with the collector,
      the manager and the filter chain as instances.
    - [Cli]: [scripts/atropos.py]: the import-time check, [main], the run as a
      program, over the class [Commands].
    - [Accuracy]: [show_simulated_accuracy.py]: the selection of runs, the
      computed columns, the melted table with levels and display names, the
      renaming of data sets and programs from the two optional files, and
      the dispatch of [main] on the formats, over the class [Engine].

    ** How state and effects are modelled

    Every Python object is a [Record]; a method is a [Py Self A] computation.
    An exception leaves the object in the state reached when it was raised:
    [collect] increments [count] before it looks up the tile, so a tile
    mismatch is observable afterwards, and the model keeps that.  Dictionaries
    are [gmap]s; the [OrderedDict] of the filter chain and the dictionary of
    destinations are association lists (insertion order is observable);
    Python sets that are iterated are enumerated with [elements] (an
    unspecified but fixed order).  A predicate is any type with a
    [ReadFilter] instance; the interface lets a predicate carry state, so that
    an instrumented predicate can log its own calls.  An attribute that holds
    [None], or that was never assigned, is an [option] field; reading it
    raises what Python raises ([TypeError], [AttributeError], or
    [RecursionError] through [__getattr__]).  A compiled regular expression
    is a function from a name to the text of its first group.

    The three files that produce output ([Reports], [Cli], [Accuracy]) keep
    the libraries they call behind a class ([Platform], [Commands],
    [Engine]): a field per function called, with the answer or the failure it
    can give.  Theorems are stated for every instance; the laws a theorem
    needs of the platform are a second class ([PlatformLaws], [Healthy]),
    which the instance [posix] (respectively [ideal]) is proved to satisfy
    and on which the witnesses run.  Output is a [log] of events in the order
    of the writes.  The state of [generate_reports] is a [world]: the
    generator object itself (its [report_files] may be a Python generator,
    which iteration consumes), the summary dictionary and the list of template
    paths that the caller shares with it, and the log.

    ** What the theorems show

    - Filters: the N-content filter in both of its modes; the paired policy
      as a function of the two mates and [min_affected], including the case of
      an absent mate; that mate 2 is not evaluated when mate 1 decides; that
      [Filters.filter] refines the first-discard specification: it returns the
      first discarding filter, increments exactly that wrapper's counter and
      leaves all later wrappers untouched; what the scan does with stateful
      callables and exceptions; that counters never decrease and that keys
      keep their order; what [add_filter] and the factory build or raise;
      that a pass is the run of a deterministic machine, which stops after
      one step per wrapper at most, in the one configuration that holds the
      dictionary and the result of [filter] ([filter_machine]).
    - Runs: for pure predicates a run is a sieve: the first wrapper counts
      the pairs it discards and the wrappers behind it see the pairs it
      kept; the dispositions are those of the dictionary the run starts
      with, because the answers do not depend on the counters (the
      functions of the chain are [Proper] for [same_chain]); the sum of the
      counters grows by the number of discarded pairs
      ([run_counts_discards]); every chain built with [add_filter] has
      distinct display names, so that its summary has one entry per
      configured class, with the counter of the sieve ([built_summarize]).
    - Tables: [extend] never shrinks and reaches the requested size;
      [flatten] produces one row per position, numbered from 1, whose counts
      add up to the observations of the position, under a header that starts
      with A, C, G, T and ends with N; [sorted_items] is sorted and complete;
      flattening a tile table stores empty tables in it, which change
      neither its keys nor any row, so that it can be flattened again; the
      wide table of a [NestedDict] has a row per outer key and loses no
      occurrence.
    - Collector: [collect] equals a closed form ([collect_state],
      [collect_result]) on every branch; it returns exactly on a non-empty
      read with qualities whose name matches the tile pattern, and raises
      [ZeroDivisionError], [UnboundLocalError], [TypeError] or [ValueError]
      otherwise, never an index or attribute error; the invariant [inv] holds
      after any sequence of calls ([feed_inv]); after any run [count] is the
      number of reads with bases, the length distribution sums to it and the
      base table is as long as the longest read ([feed_totals]); what the
      tables hold after a successful call; that [finish] returns a consistent
      snapshot, the same when it is asked again, and that [__getattr__] can
      only raise.
    - Columns: whatever reads were fed and whichever calls raised, the base
      table and the quality table have counted the same number of bases at
      every position, no position more than the one before, the tile tables
      no more than the tables they split, and no more mean qualities than
      reads ([feed_columns]); through [flatten], the rows of a snapshot that
      belong to one position add up to the same ([snapshot_rows_agree]).
    - Histograms: after any run, whichever calls raised, every cell of every
      table holds the number of reads of the run that fall in it
      ([feed_histogram], the refinement of [histogram] by [collect]); no
      cell exceeds [count] and the cells out of the range of the run are
      empty ([cell_bounds]); the snapshot that [finish] returns lists the
      histogram, distribution by distribution and row by row
      ([snapshot_histogram]).
    - Manager: the invariant [manager_ok] after any sequence of calls; the
      order in which [pre_trim] feeds the mates; the lazy creation of the
      collectors of a destination; the outcome of [finish]; a whole run
      before trimming as the runs of its collectors: single-end records all
      reach the one collector, and of a pair the second mate reaches its
      collector only if the first was collected without an exception, so
      that the second collector never counts more ([pre_run_pairs]).
    - Destinations: a paired run after trimming leaves every destination
      once, in the order of its first pair, with the collectors of the
      pairs that were sent to it, the second mate of a pair being lost with
      the exception of the first; the destinations partition the pairs, so
      that together they count every pair whose first mate has bases once
      ([post_run_pairs]); a call before trimming and a call after trimming
      commute, so that a run in which the two phases are interleaved leaves
      what the two runs leave one after the other ([run_interleaved]).
    - Samples: composition of the manager with the collectors.  After a
      paired run of both phases, interleaved in any way, the tables of the
      two collectors of the first phase and of every destination are the
      histograms of the first mates and of the second mates that were
      passed on ([run_histograms]).
    - Simplify: [simplify] refines [simplify_value] when the recursion limit
      leaves enough frames; it returns exactly when every tuple key is made of
      texts and the nesting fits the limit, and raises [TypeError],
      [RecursionError] or [AttributeError] otherwise; its result has only
      text keys, each once, is a fixed point, and has no tuple left as a
      key ([encodable], what JSON needs) when no dictionary of the summary
      lies inside a sequence.
    - Reports: the invariant [wf] and the frame [evolves] after any sequence
      of calls; on a healthy platform, with a summary that [simplify]
      makes encodable and keyword arguments that every format accepts, every
      format is written once, in order, to its file; on every platform,
      whatever a call answers, it has reported a prefix of the pairs of
      formats and files, one event per
      pair (on a stream the [repr] of bytes) and none for the report that
      raised; a generator over several files works only once; serializers
      cannot write to a standard stream; formats after JSON or YAML report
      the simplified copy; a keyword argument that the template signature
      does not name stops every template format; a run without records
      raises before anything is written; the file names of a multi-format
      generator lead back to the formats.  The loop over formats and files
      has one induction rule ([report_loop_rule]), from which the statements
      on its events follow.
    - Pipeline: a snapshot and the result of the manager are dictionaries
      with distinct text keys and no dictionary inside a sequence
      ([presentable]), so [simplify] returns them as they are; proved against
      the class [Statistics]: a summary that holds such statistics under a
      name, next to entries that are ready themselves, is written to every
      file, every event carrying the summary with the derived data; for the
      collector, from the reads to the files, the count that the reports
      carry is the number of reads that had bases ([collector_reported]),
      and the same through the manager, from single-end records
      ([manager_reported]); for a filter chain built with [add_filter],
      from the pairs to the files, the reports carry for every configured
      class the number of pairs that the sieve credits to it
      ([filters_reported]).
    - Cli: the program never ends normally, and which exception ends it.
    - Accuracy: the level of each column; that level and display name
      together identify a column; that the total error is the sum of the
      percentages; that nothing is written without [--output]; what is
      written with it, in which order, and that a pivot that raises comes
      after the text file and the pickle ([main_writes]); that a program the
      tool-name file does not list stops the script before it writes the
      LaTeX file; that the order of the formats does not matter.

    ** Numbers, bounds and fuel

    Counts, lengths and percentages are [nat]; [minimum_length],
    [maximum_length] and [min_affected] are [Z]; the N-content cutoff is a
    rational [Q].  Python computes [round(100 * gc / len)] and the mean quality
    through a floating-point division.  [round_div] rounds the exact quotient;
    the two agree as long as the dividend is below 2^52, that is for reads of
    fewer than 2^45 bases, far beyond any sequencing read.  The tables of a
    collector are bounded by the run ([cell_bounds]): a GC percentage is at
    most 100, a position is below the length of the longest read, and a
    cell holds at most the number of reads.  A mean quality is bounded by
    the largest character code only when a read has as many qualities as
    bases, which [collect] does not check.  The only
    recursion of the statistics code that is not structural is the one of
    [__getattr__] through [hasattr]; its fuel [limit] is the number of frames
    that Python's recursion limit leaves, and the theorems hold for every
    value of it.  [_recurse] of [simplify] recurses on the nested
    dictionaries with the same kind of fuel; [simplify_refines] shows that
    [depth v] frames are enough and [simplify_returns_iff] that fewer are
    not.  A float of a summary or of a data frame is the rational it
    denotes; a division by zero raises in Python ([truediv]) and gives an
    infinity or NaN in a data frame ([frame_div]).

    ** Not modelled

    What the libraries do behind the classes: how jinja2 finds and renders
    a template, why a serializer rejects an object or a keyword (the
    instances [posix] and [ideal] follow [json] and [pickle] of the standard
    library in [stdlib_dump]), the file that a failed write leaves behind,
    how pandas pivots, sets the
    levels of an index and averages the error-rate file, what
    [execute_cli] runs.  Lists of a summary are modelled as tuples, and keys
    as scalars or tuples of scalars.  [NestedDict.flatten] and the indexing
    of a read are defined outside [src/]: the record [snapshot] of a
    collector holds the per-tile table itself, [snapshot_value] flattens it
    as the specification describes a flattened table, and the manager takes
    the indexing of a read as a parameter.  How the caller stores the
    statistics in the summary is not part of the sources either: the
    theorems of [Pipeline] hold for every name and every other entry.  [__getattr__] is modelled for the two computed
    attributes and for names that no method or attribute matches. *)

From stdpp Require Import gmap strings list.

(** ** Exceptions and outcomes *)

Inductive exn : Type :=
  | ZeroDivisionError
  | ValueError
  | UnboundLocalError
  | TypeError
  | NameError
  | IndexError
  | KeyError
  | AttributeError
  | AssertionError
  | NotImplementedError
  | RecursionError
  | IOError
  | ImportError
  | SystemExit (code : Z).

#[export] Instance exn_eq_dec : EqDecision exn.
Proof. solve_decision. Defined.

Inductive outcome (A : Type) : Type :=
  | Ret (a : A)
  | Raise (e : exn).
Arguments Ret {A} a.
Arguments Raise {A} e.

#[export] Instance outcome_eq_dec `{EqDecision A} : EqDecision (outcome A).
Proof. solve_decision. Defined.

Definition outcome_map {A B} (f : A → B) (o : outcome A) : outcome B :=
  match o with Ret a => Ret (f a) | Raise e => Raise e end.

(** Outcomes compose like [option]: the first exception wins. *)
#[export] Instance outcome_ret : MRet outcome := @Ret.

#[export] Instance outcome_bind : MBind outcome := λ A B k o,
  match o with
  | Ret a => k a
  | Raise e => Raise e
  end.

#[export] Instance outcome_fmap : FMap outcome := @outcome_map.

(** ** The monad of a method: state of [self], then a result or a raise *)

Definition Py (S A : Type) : Type := S → S * outcome A.

Definition ret {S A} (a : A) : Py S A := λ s, (s, Ret a).

Definition raise {S A} (e : exn) : Py S A := λ s, (s, Raise e).

Definition bind {S A B} (c : Py S A) (k : A → Py S B) : Py S B :=
  λ s, match c s with
       | (s', Ret a) => k a s'
       | (s', Raise e) => (s', Raise e)
       end.

Definition get {S} : Py S S := λ s, (s, Ret s).

Definition modify {S} (f : S → S) : Py S unit := λ s, (f s, Ret tt).

Definition lift {S A} (o : outcome A) : Py S A := λ s, (s, o).

(** [try: c] with the outcome handed to the caller: the state changes made
    before a raise are kept. *)
Definition attempt {S A} (c : Py S A) : Py S (outcome A) :=
  λ s, let '(s', o) := c s in (s', Ret o).

(** [if c: body] with no [else]. *)
Definition when {S} (c : bool) (body : Py S unit) : Py S unit :=
  if c then body else ret tt.

Declare Scope py_scope.
Delimit Scope py_scope with py.
Notation "x <- c ;; k" := (bind c (λ x, k))
  (at level 100, c at next level, right associativity) : py_scope.
Notation "c ;; k" := (bind c (λ _, k))
  (at level 100, right associativity) : py_scope.
Open Scope py_scope.

(** [for x in l: body x]. *)
Fixpoint for_each {S A} (l : list A) (body : A → Py S unit) : Py S unit :=
  match l with
  | [] => ret tt
  | x :: l' => body x ;; for_each l' body
  end.

(** [enumerate(l, start)]. *)
Fixpoint enumerate {A} (start : nat) (l : list A) : list (nat * A) :=
  match l with
  | [] => []
  | x :: l' => (start, x) :: enumerate (S start) l'
  end.

(** ** [OrderedDict]: an association list in insertion order *)

(** [d[k] = v]: a new key goes to the end, an old key keeps its place. *)
Fixpoint od_set `{EqDecision K} {V} (k : K) (v : V) (d : list (K * V)) : list (K * V) :=
  match d with
  | [] => [(k, v)]
  | (k', v') :: d' => if decide (k = k') then (k, v) :: d' else (k', v') :: od_set k v d'
  end.

(** [d.get(k)]. *)
Fixpoint od_get `{EqDecision K} {V} (k : K) (d : list (K * V)) : option V :=
  match d with
  | [] => None
  | (k', v') :: d' => if decide (k = k') then Some v' else od_get k d'
  end.

(** The keys of a dictionary filled in the order of [l]: every key once,
    where it was first seen. *)
Definition first_seen `{EqDecision D} (l : list D) : list D :=
  foldl (λ seen d, if decide (d ∈ seen) then seen else seen ++ [d]) [] l.

(** ** Python arithmetic on non-negative integers *)

(** [round(n / d)] for [d > 0]: nearest integer, ties to the even one. *)
Definition round_div (n d : nat) : nat :=
  let q := n `div` d in
  let r := n `mod` d in
  if decide (2 * r < d) then q
  else if decide (d < 2 * r) then S q
  else if Nat.even q then q else S q.

(** [round(n / d)] with the division that raises on [d = 0]. *)
Definition round_truediv (n d : nat) : outcome nat :=
  if decide (d = 0) then Raise ZeroDivisionError else Ret (round_div n d).

(** [s.count(c)] for a one-character [c]. *)
Definition str_count `{EqDecision A} (c : A) (s : list A) : nat :=
  length (filter (λ x, x = c) s).

(** [sum(f(x) for x in l)]. *)
Definition sum_map {A} (f : A → nat) (l : list A) : nat :=
  foldr (λ x acc, f x + acc) 0 l.

(** ** Tactics *)

Ltac py_unfold :=
  unfold bind, ret, raise, get, modify, lift, when, attempt in *.

Ltac py_simpl := repeat (py_unfold; simpl in *).

(** Close a closed side condition by evaluation. *)
Ltac by_compute :=
  first [ done | vm_compute; first [ reflexivity | done | lia | discriminate | tauto ] ].

Create HintDb py.
Create Rewrite HintDb pyrw.

(** ** Monad laws, pointwise *)

Section monad.
Context {S A B C : Type}.
Implicit Types (s : S) (a : A).

Lemma bind_ret_l a (k : A → Py S B) s : (x <- ret a ;; k x) s = k a s.
Proof. done. Qed.

Lemma bind_ret_r (c : Py S A) s : (x <- c ;; ret x) s = c s.
Proof. unfold bind, ret. by destruct (c s) as [s' []]. Qed.

Lemma bind_assoc (c : Py S A) (k : A → Py S B) (h : B → Py S C) s :
    (y <- (x <- c ;; k x) ;; h y) s = (x <- c ;; y <- k x ;; h y) s.
Proof. unfold bind. by destruct (c s) as [s' []]. Qed.

Lemma bind_raise e (k : A → Py S B) s : (x <- raise e ;; k x) s = (s, Raise e).
Proof. done. Qed.

Lemma bind_ext (c : Py S A) (k k' : A → Py S B) s :
    (∀ a s', k a s' = k' a s') → (x <- c ;; k x) s = (x <- c ;; k' x) s.
Proof. intros H. unfold bind. destruct (c s) as [s' []]; [apply H | done]. Qed.

Lemma bind_returns (c : Py S A) (k : A → Py S B) s s' a :
    c s = (s', Ret a) → (x <- c ;; k x) s = k a s'.
Proof. unfold bind. by intros ->. Qed.

Lemma bind_raises (c : Py S A) (k : A → Py S B) s s' e :
    c s = (s', Raise e) → (x <- c ;; k x) s = (s', Raise e).
Proof. unfold bind. by intros ->. Qed.

(** What a sequence returns, in terms of its two halves. *)
Lemma bind_inv_ret (c : Py S A) (k : A → Py S B) s s2 b :
    (x <- c ;; k x) s = (s2, Ret b) →
    ∃ s1 a, c s = (s1, Ret a) ∧ k a s1 = (s2, Ret b).
Proof. unfold bind. destruct (c s) as [s1 [a|e]]; [eauto | done]. Qed.
End monad.

#[export] Hint Rewrite @bind_ret_l @bind_ret_r @bind_assoc @bind_raise : pyrw.

(** ** Properties kept in every outcome

    [preserves R c]: whatever [c] does, returning or raising, the state it
    leaves is related by [R] to the state it started in. *)

Definition preserves {S A} (R : relation S) (c : Py S A) : Prop :=
  ∀ s, R s (c s).1.

(** [keeps f]: the projection [f] of the state is unchanged. *)
Definition keeps {S X} (f : S → X) : relation S := λ s s', f s' = f s.

#[export] Instance keeps_preorder {S X} (f : S → X) : PreOrder (keeps f).
Proof. split; [by intros s | intros s1 s2 s3; unfold keeps; congruence]. Qed.

(** [grows f]: the projection [f] of the state does not decrease. *)
Definition grows {S} (f : S → nat) : relation S := λ s s', f s ≤ f s'.

#[export] Instance grows_preorder {S} (f : S → nat) : PreOrder (grows f).
Proof. split; [intros s | intros s1 s2 s3]; unfold grows; lia. Qed.

(** [stable P]: once [P] holds of the state, it holds afterwards. *)
Definition stable {S} (P : S → Prop) : relation S := λ s s', P s → P s'.

#[export] Instance stable_preorder {S} (P : S → Prop) : PreOrder (stable P).
Proof. split; [intros s | intros s1 s2 s3]; unfold stable; tauto. Qed.

(** A weaker relation is preserved as well. *)
Lemma preserves_weaken {S A} (R R' : relation S) (c : Py S A) :
  (∀ s s', R s s' → R' s s') → preserves R c → preserves R' c.
Proof. intros HR Hc s. apply HR, Hc. Qed.

Section preserves.
Context {S : Type} (R : relation S) `{!PreOrder R}.

Lemma preserves_ret {A} (a : A) : preserves R (ret a).
Proof. by intros s. Qed.

Lemma preserves_raise {A} e : preserves R (@raise S A e).
Proof. by intros s. Qed.

Lemma preserves_lift {A} (o : outcome A) : preserves R (lift o).
Proof. by intros s. Qed.

Lemma preserves_get : preserves R get.
Proof. by intros s. Qed.

Lemma preserves_modify (f : S → S) : (∀ s, R s (f s)) → preserves R (modify f).
Proof. intros Hf s. apply Hf. Qed.

Lemma preserves_bind {A B} (c : Py S A) (k : A → Py S B) :
  preserves R c → (∀ a, preserves R (k a)) → preserves R (x <- c ;; k x).
Proof.
  intros Hc Hk s. unfold bind. specialize (Hc s).
  destruct (c s) as [s' [a|e]]; simpl in *; [|done].
  etrans; [exact Hc | apply Hk].
Qed.

Lemma preserves_when (b : bool) (c : Py S unit) : preserves R c → preserves R (when b c).
Proof. intros Hc. destruct b; [done | apply preserves_ret]. Qed.

Lemma preserves_if {A} (b : bool) (c1 c2 : Py S A) :
  preserves R c1 → preserves R c2 → preserves R (if b then c1 else c2).
Proof. by destruct b. Qed.

Lemma preserves_for_each {A} (l : list A) (body : A → Py S unit) :
  (∀ x, preserves R (body x)) → preserves R (for_each l body).
Proof.
  intros Hb. induction l as [|x l IH]; simpl; [apply preserves_ret|].
  apply preserves_bind; [apply Hb | done].
Qed.
End preserves.

#[export] Hint Resolve preserves_ret preserves_raise preserves_lift preserves_get
  preserves_bind preserves_when preserves_if preserves_for_each
  preserves_modify : py.

(** Prove [preserves R c] by following the structure of [c]; [unf] unfolds
    the methods that [c] calls, [side] proves that an assignment respects
    [R], and the database [preserves] holds what is known of the methods that
    are not unfolded. *)
Create HintDb preserves.

Ltac solve_preserves unf side :=
  repeat first
    [ match goal with |- PreOrder _ => first [ assumption | typeclasses eauto ] end
    | solve [ eauto 2 with preserves ]
    | apply preserves_ret | apply preserves_raise | apply preserves_lift
    | apply preserves_get
    | apply preserves_bind; [ .. | intros ?]
    | apply preserves_when
    | apply preserves_for_each; [ .. | intros ?]
    | apply preserves_modify; intros ?; solve [ side ]
    | match goal with
      | |- preserves _ (match ?x with _ => _ end) => destruct x
      | |- preserves _ (if ?b then _ else _) => destruct b
      end
    | progress unf ].

Ltac solve_preserves_with unf :=
  solve_preserves unf ltac:(unfold stable, keeps; first [ done | simpl; auto ]).

(** ** Loops *)

Section loops.
Context {S A : Type}.
Implicit Types (l : list A) (body : A → Py S unit) (s : S).

Lemma for_each_app l1 l2 body s :
    for_each (l1 ++ l2) body s = (for_each l1 body ;; for_each l2 body) s.
Proof.
    revert s. induction l1 as [|x l1 IH]; intros s; simpl; [done|].
    rewrite bind_assoc. apply bind_ext. intros _ s'. apply IH.
Qed.

(** A loop whose body never raises and keeps an invariant returns, and the
      invariant holds at the end. *)
Lemma for_each_invariant (I : S → Prop) l body s :
    (∀ x s0, x ∈ l → I s0 → ∃ s1, body x s0 = (s1, Ret tt) ∧ I s1) →
    I s → ∃ s', for_each l body s = (s', Ret tt) ∧ I s'.
Proof.
    revert s. induction l as [|x l IH]; intros s Hb Hs; simpl; [by eexists|].
    destruct (Hb x s) as (s1 & Hx & H1); [left | done |].
    unfold bind. rewrite Hx. apply IH; [|done].
    intros y s0 Hy. apply Hb. by right.
Qed.

(** A fold whose step leaves a projection alone leaves it alone. *)
Lemma foldl_keeps {X} (g : S → X) (f : S → A → S) l s :
    (∀ s0 x, g (f s0 x) = g s0) → g (foldl f s l) = g s.
Proof.
    intros Hf. revert s. induction l as [|x l IH]; intros s; simpl; [done|].
    by rewrite IH, Hf.
Qed.

(** A loop whose body is a pure update [f] on the states of [I] is the left
      fold of [f]. *)
Lemma for_each_foldl (I : S → Prop) (f : S → A → S) l body s :
    (∀ x s0, x ∈ l → I s0 → body x s0 = (f s0 x, Ret tt) ∧ I (f s0 x)) →
    I s → for_each l body s = (foldl f s l, Ret tt) ∧ I (foldl f s l).
Proof.
    revert s. induction l as [|x l IH]; intros s Hb Hs; simpl; [done|].
    destruct (Hb x s) as [Hx H1]; [left | done |].
    unfold bind. rewrite Hx. apply IH; [|done].
    intros y s0 Hy. apply Hb. by right.
Qed.

End loops.

Section enumerate.
Context {A : Type}.
Implicit Types (l : list A).

Lemma enumerate_fst (k : nat) l : (enumerate k l).*1 = seq k (length l).
Proof. revert k. induction l; intros k; simpl; [done | by rewrite IHl]. Qed.

(** [l[i] = f(l[i])] is an update in place. *)
Lemma insert_lookup_alter (f : A → A) (i : nat) l x :
    l !! i = Some x → <[i := f x]> l = alter f i l.
Proof.
    intros Hx. apply list_eq. intros j. destruct (decide (i = j)) as [<-|].
    - rewrite list_lookup_insert_eq, list_lookup_alter_eq, Hx; [done|].
      by eapply lookup_lt_Some.
    - by rewrite list_lookup_insert_ne, list_lookup_alter_ne.
Qed.

Lemma enumerate_fmap {B} (f : A → B) (k : nat) l :
    enumerate k (f <$> l) = (λ id, (id.1, f id.2)) <$> enumerate k l.
Proof. revert k. induction l as [|x l IH]; intros k; simpl; [done|]. by rewrite IH. Qed.

Lemma length_enumerate (k : nat) l : length (enumerate k l) = length l.
Proof. revert k. induction l; intros k; simpl; [done | by rewrite IHl]. Qed.

Lemma enumerate_lookup (k i : nat) l x :
    enumerate k l !! i = Some x ↔ ∃ y, x = (k + i, y) ∧ l !! i = Some y.
Proof.
    revert k i. induction l as [|y l IH]; intros k i; simpl.
    - split; [done | by intros (? & _ & ?)].
    - destruct i as [|i]; simpl.
      + rewrite Nat.add_0_r. split; [intros [= <-]; eauto | by intros (? & -> & [= ->])].
      + rewrite IH. by replace (k + S i) with (S k + i) by lia.
Qed.
(** [for i, x in enumerate(xs, k): ds[i] = f(x, ds[i])], position by position. *)
Lemma foldl_alter_enumerate {D} (f : A → D → D) l (k i : nat) (ds : list D) :
    foldl (λ ds ix, alter (f ix.2) ix.1 ds) ds (enumerate k l) !! i =
      match l !! (i - k) with
      | Some x => if decide (k ≤ i) then f x <$> ds !! i else ds !! i
      | None => ds !! i
      end.
Proof.
    revert k ds. induction l as [|x l IH]; intros k ds; simpl; [done|].
    rewrite IH. destruct (decide (i = k)) as [->|Hne].
    - rewrite Nat.sub_diag. simpl. rewrite decide_True by done.
      replace (k - S k) with 0 by lia. rewrite list_lookup_alter_eq.
      destruct (l !! 0); [by rewrite decide_False by lia | done].
    - rewrite list_lookup_alter_ne by done. destruct (decide (k ≤ i)).
      + replace (i - k) with (S (i - S k)) by lia. simpl.
        destruct (l !! _); [by rewrite decide_True by lia | done].
      + replace (i - S k) with 0 by lia. replace (i - k) with 0 by lia. simpl.
        destruct (l !! 0); [by rewrite decide_False by lia | done].
Qed.
End enumerate.

(** A sequence of two computations returns when both do. *)
Lemma outcome_bind_Ret {A B} (m : outcome A) (k : A → outcome B) y :
  m ≫= k = Ret y ↔ ∃ x, m = Ret x ∧ k x = Ret y.
Proof.
  destruct m as [x|e]; simpl; [|by split; [|intros (? & ? & ?)]].
  split; [by exists x|]. by intros (? & [= <-] & ?).
Qed.

(** A comprehension that returns has computed every item. *)
Lemma mapM_Ret {A B} (f : A → outcome B) l r :
  mapM f l = Ret r → Forall2 (λ x y, f x = Ret y) l r.
Proof.
  revert r. induction l as [|x l IH]; simpl; intros r.
  { intros [= <-]. constructor. }
  destruct (f x) as [y|] eqn:Hy; simpl; [|done].
  destruct (mapM f l) as [k|]; simpl; [|done]. intros [= <-]. constructor; auto.
Qed.

(** ** Ordered dictionaries *)

Section ordered_dict.
Context `{EqDecision K} {V : Type}.
Implicit Types (k : K) (v : V) (d : list (K * V)).

Lemma od_get_set_eq k v d : od_get k (od_set k v d) = Some v.
Proof.
  induction d as [|[k' v'] d IH]; simpl; [by rewrite decide_True|].
  case_decide; simpl; [by rewrite decide_True | by rewrite decide_False].
Qed.

Lemma od_get_set_ne k k' v d : k ≠ k' → od_get k' (od_set k v d) = od_get k' d.
Proof.
  intros Hne. induction d as [|[k0 v0] d IH]; simpl; [by rewrite decide_False|].
  case_decide; simplify_eq; simpl; [by rewrite !decide_False|].
  by rewrite IH.
Qed.

Lemma od_get_None k d : od_get k d = None ↔ k ∉ d.*1.
Proof.
  induction d as [|[k' v'] d IH]; simpl; [split; [intros _; apply not_elem_of_nil | done]|].
  rewrite not_elem_of_cons, <- IH. case_decide; [|tauto].
  split; [done | by intros [? _]].
Qed.

(** A new key is appended: the insertion order is kept. *)
Lemma od_set_fresh k v d : k ∉ d.*1 → od_set k v d = d ++ [(k, v)].
Proof.
  induction d as [|[k' v'] d IH]; simpl; [done|].
  rewrite not_elem_of_cons. intros [Hne Hd]. rewrite decide_False by done.
  by rewrite IH.
Qed.

(** An old key keeps its position; only its value changes. *)
Lemma od_set_keys_present k v d : k ∈ d.*1 → (od_set k v d).*1 = d.*1.
Proof.
  induction d as [|[k' v'] d IH]; simpl; [by intros ?%elem_of_nil|].
  case_decide; simplify_eq; [done|].
  rewrite elem_of_cons. intros [? | Hd]; [done|]. simpl. f_equal. by apply IH.
Qed.

Lemma od_set_NoDup k v d : NoDup d.*1 → NoDup (od_set k v d).*1.
Proof.
  intros Hd. destruct (decide (k ∈ d.*1)) as [Hin | Hout].
  - by rewrite od_set_keys_present.
  - rewrite od_set_fresh, fmap_app by done. simpl.
    apply NoDup_app. split_and!; [done | | apply NoDup_singleton].
    intros x Hx ->%list_elem_of_singleton. done.
Qed.

Lemma od_get_lookup k v d : od_get k d = Some v → (k, v) ∈ d.
Proof.
  induction d as [|[k' v'] d IH]; simpl; [done|].
  case_decide; simplify_eq; [intros [= ->]; left | right; auto].
Qed.

Lemma od_get_NoDup k v d : NoDup d.*1 → (k, v) ∈ d → od_get k d = Some v.
Proof.
  induction d as [|[k' v'] d IH]; simpl; [by intros _ ?%elem_of_nil|].
  rewrite NoDup_cons. intros [Hk Hd] [[= -> ->] | Hin]%elem_of_cons.
  - by rewrite decide_True.
  - rewrite decide_False; [auto|]. intros ->. apply Hk.
    apply list_elem_of_fmap. by exists (k', v).
Qed.

(** A second assignment to a key overrides the first one. *)
Lemma od_set_set k v1 v2 d : od_set k v2 (od_set k v1 d) = od_set k v2 d.
Proof.
  induction d as [|[k' v'] d IH]; simpl; [by rewrite decide_True|].
  case_decide; simpl; [by rewrite decide_True|].
  by rewrite decide_False, IH.
Qed.

Lemma od_set_Forall (P : K * V → Prop) k v d :
  P (k, v) → Forall P d → Forall P (od_set k v d).
Proof.
  intros Hkv. induction 1 as [|[k' v'] d Hx Hd IH]; simpl; [by constructor|].
  case_decide; constructor; auto.
Qed.

Lemma od_set_length k v d : length d ≤ length (od_set k v d) ≤ S (length d).
Proof.
  induction d as [|[k' v'] d IH]; simpl; [lia|]. case_decide; simpl; lia.
Qed.

Lemma od_set_keys k v d k' : k' ∈ (od_set k v d).*1 ↔ k' = k ∨ k' ∈ d.*1.
Proof.
  induction d as [|[k0 v0] d IH]; simpl; [set_solver|].
  case_decide; simplify_eq; simpl; rewrite ?elem_of_cons, ?IH; tauto.
Qed.
(** A dictionary comprehension over distinct keys lists them in order. *)
Lemma foldl_od_set_fresh {A} (f : A → K) (g : A → V) (l : list A) d :
  NoDup (f <$> l) → (∀ x, x ∈ l → f x ∉ d.*1) →
  foldl (λ d x, od_set (f x) (g x) d) d l = d ++ ((λ x, (f x, g x)) <$> l).
Proof.
  revert d. induction l as [|a l IH]; intros d Hnd Hd; simpl; [by rewrite app_nil_r|].
  apply NoDup_cons in Hnd as [Ha Hnd].
  rewrite od_set_fresh by (apply Hd; left). rewrite IH, <- app_assoc; [done..|].
  intros x Hx. rewrite fmap_app, elem_of_app. simpl. rewrite list_elem_of_singleton.
  intros [Hin | Heq]; [by apply (Hd x); [right|]|].
  apply Ha. rewrite <- Heq. by apply list_elem_of_fmap_2.
Qed.
(** Writing back what is there changes nothing. *)
Lemma od_set_get_id k v d : od_get k d = Some v → od_set k v d = d.
Proof.
  induction d as [|[k' v'] d IH]; simpl; [done|].
  case_decide; [by intros [= ->]; subst|]. intros Hget. by rewrite IH.
Qed.

(** A dictionary that is a table of its keys: lookup and update. *)
Lemma od_get_keyed (g : K → V) (ks : list K) k :
  od_get k ((λ k', (k', g k')) <$> ks) = if decide (k ∈ ks) then Some (g k) else None.
Proof.
  induction ks as [|k' ks IH]; [done|]. rewrite fmap_cons. simpl.
  rewrite IH. destruct (decide (k = k')) as [->|Hne].
  { by rewrite decide_True by (apply elem_of_cons; by left). }
  destruct (decide (k ∈ ks)) as [Hin|Hout].
  - by rewrite decide_True by (apply elem_of_cons; by right).
  - by rewrite decide_False by (by intros [?|?]%elem_of_cons).
Qed.

Lemma keyed_keys (g : K → V) (ks : list K) : ((λ k', (k', g k')) <$> ks).*1 = ks.
Proof. induction ks as [|k ks IH]; [done|]. rewrite !fmap_cons. simpl. by rewrite IH. Qed.

Lemma od_set_keyed (g : K → V) (ks : list K) k v :
  NoDup ks → k ∈ ks →
  od_set k v ((λ k', (k', g k')) <$> ks)
  = (λ k', (k', if decide (k' = k) then v else g k')) <$> ks.
Proof.
  induction 1 as [|k' ks Hk' Hnd IH]; [by intros ?%elem_of_nil|].
  rewrite !fmap_cons. simpl. case_decide as Hk.
  - subst k'. intros _. rewrite decide_True by done. f_equal.
    apply list_fmap_ext. intros _ k' Hin%list_elem_of_lookup_2.
    rewrite decide_False; [done|]. by intros ->.
  - rewrite decide_False by done. intros [?|Hin]%elem_of_cons; [done|].
    by rewrite IH.
Qed.
End ordered_dict.

(** ** Sums and first occurrences *)

Section sums.
Context {A : Type}.
Implicit Types (f g : A → nat) (l : list A).

Lemma sum_list_with_add f g l :
  sum_list_with (λ x, f x + g x) l = sum_list_with f l + sum_list_with g l.
Proof. induction l as [|x l IH]; simpl; lia. Qed.

Lemma sum_list_with_mono f g l :
  (∀ x, x ∈ l → f x ≤ g x) → sum_list_with f l ≤ sum_list_with g l.
Proof.
  induction l as [|x l IH]; intros Hfg; simpl; [done|].
  pose proof (Hfg x (list_elem_of_here _ _)).
  assert (sum_list_with f l ≤ sum_list_with g l); [|lia].
  apply IH. intros y Hy. apply Hfg. by right.
Qed.

Lemma sum_list_with_fmap {B} (h : B → A) f (k : list B) :
  sum_list_with f (h <$> k) = sum_list_with (f ∘ h) k.
Proof. induction k as [|x k IH]; simpl; [done|]. f_equal. exact IH. Qed.

Lemma sum_list_with_0 l : sum_list_with (λ _ : A, 0) l = 0.
Proof. induction l; simpl; lia. Qed.

Lemma sum_list_with_ext f g l :
  (∀ x, x ∈ l → f x = g x) → sum_list_with f l = sum_list_with g l.
Proof.
  intros Hfg. apply Nat.le_antisymm; apply sum_list_with_mono; intros x Hx;
    by rewrite Hfg.
Qed.

(** A key of a duplicate-free list is met once. *)
Lemma sum_list_with_indicator `{EqDecision A} l x :
  NoDup l → x ∈ l → sum_list_with (λ y, if decide (x = y) then 1 else 0) l = 1.
Proof.
  induction 1 as [|y l Hy Hnd IH]; [by intros ?%elem_of_nil|]. simpl.
  intros [->|Hin]%elem_of_cons.
  - rewrite decide_True by done.
    assert (sum_list_with (λ y0, if decide (y = y0) then 1 else 0) l
            ≤ sum_list_with (λ _, 0) l) as Hle.
    { apply sum_list_with_mono. intros z Hz. rewrite decide_False; [done|]. by intros ->. }
    rewrite sum_list_with_0 in Hle. lia.
  - rewrite decide_False by (by intros ->). by rewrite IH.
Qed.
End sums.

Section first_seen.
Context `{EqDecision D}.
Implicit Types (l : list D) (d : D).

Lemma first_seen_snoc l d :
  first_seen (l ++ [d]) = if decide (d ∈ first_seen l) then first_seen l else first_seen l ++ [d].
Proof. unfold first_seen. by rewrite foldl_app. Qed.

Lemma elem_of_first_seen l d : d ∈ first_seen l ↔ d ∈ l.
Proof.
  induction l as [|d' l IH] using rev_ind; [done|].
  rewrite first_seen_snoc, elem_of_app, list_elem_of_singleton, <- IH.
  case_decide as Hd; [|rewrite elem_of_app, list_elem_of_singleton; tauto].
  split; [tauto|]. intros [?| ->]; done.
Qed.

Lemma NoDup_first_seen l : NoDup (first_seen l).
Proof.
  induction l as [|d l IH] using rev_ind; [constructor|].
  rewrite first_seen_snoc. case_decide as Hd; [done|].
  apply NoDup_app. split_and!; [done| |apply NoDup_singleton].
  by intros x Hx ->%list_elem_of_singleton.
Qed.

End first_seen.

(** ** Rounding *)

Section rounding.
Implicit Types n d : nat.

Lemma round_truediv_zero n : round_truediv n 0 = Raise ZeroDivisionError.
Proof. done. Qed.

Lemma round_truediv_pos n d : 0 < d → round_truediv n d = Ret (round_div n d).
Proof. intros. unfold round_truediv. case_decide; [lia | done]. Qed.

(** The result is a nearest integer: it is at most one half away. *)
Lemma round_div_nearest n d :
    0 < d → 2 * (round_div n d * d) ≤ 2 * n + d ∧ 2 * n ≤ 2 * (round_div n d * d) + d.
Proof.
    intros Hd. unfold round_div.
    pose proof (Nat.div_mod_eq n d) as E.
    pose proof (Nat.mod_upper_bound n d ltac:(lia)) as U.
    repeat case_decide; try destruct (Nat.even _); nia.
Qed.

Lemma round_div_exact k d : 0 < d → round_div (k * d) d = k.
Proof.
    intros Hd. unfold round_div.
    rewrite Nat.div_mul, Nat.Div0.mod_mul by lia.
    case_decide; [done | lia].
Qed.

Lemma round_div_le n d k : 0 < d → n ≤ k * d → round_div n d ≤ k.
Proof.
    intros Hd Hn. destruct (round_div_nearest n d Hd) as [H1 _]. nia.
Qed.

Lemma round_div_zero d : round_div 0 d = 0.
Proof.
    unfold round_div. destruct d; [done|].
    rewrite Nat.Div0.div_0_l, Nat.Div0.mod_0_l. case_decide; [done | lia].
Qed.

(** A quotient that falls exactly between two integers is rounded to the
    even one, as Python's [round] does. *)
Theorem round_div_half_even q d :
    0 < d → round_div ((2 * q + 1) * d) (2 * d) = if Nat.even q then q else S q.
Proof.
    intros Hd. unfold round_div.
    assert (((2 * q + 1) * d) `div` (2 * d) = q ∧ ((2 * q + 1) * d) `mod` (2 * d) = d)
      as [-> ->].
    { apply (Nat.div_mod_unique (2 * d)); [apply Nat.mod_upper_bound | | ]; try lia.
      rewrite <- Nat.div_mod_eq. lia. }
    rewrite decide_False, decide_False by lia. done.
Qed.
End rounding.

(** ** Counting *)

Section counting.
Context `{EqDecision A}.
Implicit Types (c x : A) (s : list A).

Lemma str_count_nil c : str_count c [] = 0.
Proof. done. Qed.

Lemma str_count_cons c x s :
    str_count c (x :: s) = (if decide (x = c) then 1 else 0) + str_count c s.
Proof. unfold str_count. rewrite filter_cons. by case_decide. Qed.

Lemma str_count_app c s1 s2 :
    str_count c (s1 ++ s2) = str_count c s1 + str_count c s2.
Proof. unfold str_count. by rewrite filter_app, length_app. Qed.

Lemma str_count_le c s : str_count c s ≤ length s.
Proof. apply length_filter. Qed.

Lemma str_count_disjoint c1 c2 s :
    c1 ≠ c2 → str_count c1 s + str_count c2 s ≤ length s.
Proof.
    intros Hne. induction s as [|x s IH]; [done|].
    rewrite !str_count_cons. simpl. repeat case_decide; simplify_eq; lia.
Qed.
End counting.

#[export] Hint Resolve str_count_le : py.
#[export] Hint Rewrite @str_count_cons @str_count_app : pyrw.

(** ** Examples *)

(** 5 / 2 rounds to 2 and 7 / 2 rounds to 4. *)
Lemma round_div_half_even_witness : round_div ((2 * 2 + 1) * 1) (2 * 1) = 2.
Proof. apply (round_div_half_even 2 1). lia. Defined.
