(* ===== verification/Reads.v ===== *)
(** * Reads: the input record and the interface of a filter callable

    [Read.t] is the record that both subsystems consume: a name, a sequence of
    symbols, an optional quality string, the [merged] flag set by the merging
    step and the adapter match ([None] for an untrimmed read).  The class is
    defined outside [src/]; its fields are the ones [filters.py] and
    [stats.py] read.  [ReadFilter] is the contract a wrapper relies on: a
    callable from a read to a boolean, which may update its own state, with an
    optional [name] attribute and a class name. *)

From Stdlib Require Import Ascii.
From stdpp Require Import gmap strings list.
From S2P Require Import Prelude.

Module Read.
Record t : Type := mk {
    name : string;
    sequence : list ascii;
    qualities : option (list ascii);
    merged : bool;
    rmatch : option string;
  }.

(** [len(read)]: the length of the sequence. *)
Definition len (read : t) : nat := length (sequence read).

(** A read without qualities, for examples. *)
Definition of_seq (s : string) : t :=
    mk "read" (String.list_ascii_of_string s) None false None.

(** A read with qualities, for examples. *)
Definition of_fastq (n s q : string) : t :=
    mk n (String.list_ascii_of_string s) (Some (String.list_ascii_of_string q)) false None.
End Read.

(** [ord(c)]. *)
Definition ord (c : ascii) : nat := nat_of_ascii c.

(** [qual2int(q)]: the Phred score of a quality character, offset 33. *)
Definition qual2int (q : ascii) : Z := Z.of_nat (ord q) - 33.

(** Truth value of an optional string: [None] and the empty string are false. *)
Definition truthy {A} (o : option (list A)) : bool :=
  match o with
  | Some (_ :: _) => true
  | _ => false
  end.

(** The callable a wrapper holds. *)
Class ReadFilter (F : Type) : Type := {
  call : F → Read.t → F * bool;
  attr_name : F → option string;
  class_name : F → string;
}.

(** A predicate that does not change when it is called. *)
Class PureFilter (F : Type) `{ReadFilter F} : Prop :=
  call_pure : ∀ (f : F) (r : Read.t), (call f r).1 = f.

(** The boolean a pure predicate answers. *)
Definition test `{ReadFilter F} (f : F) (r : Read.t) : bool := (call f r).2.

(** An instrumented predicate: it answers like [inner] and logs each read it
    is asked about, most recent first. *)
Module Instrumented.
Record t (F : Type) : Type := mk { inner : F; calls : list Read.t }.
Arguments mk {F} inner calls.
Arguments inner {F} _.
Arguments calls {F} _.

Definition wrap {F} (f : F) : t F := mk f [].

#[global] Instance read_filter `{ReadFilter F} : ReadFilter (t F) := {|
    call f r := let '(g, b) := call (inner f) r in (mk g (r :: calls f), b);
    attr_name f := attr_name (inner f);
    class_name f := class_name (inner f);
  |}.
End Instrumented.

Section reads.
Implicit Types (r : Read.t) (c : ascii).

Lemma truthy_Some_cons {A} (x : A) l : truthy (Some (x :: l)) = true.
Proof. done. Qed.

Lemma truthy_true {A} (o : option (list A)) :
    truthy o = true ↔ ∃ x l, o = Some (x :: l).
Proof.
    split; [|by intros (x & l & ->)].
    destruct o as [[|x l]|]; simpl; try done. eauto.
Qed.

Lemma qual2int_inj c1 c2 : qual2int c1 = qual2int c2 → c1 = c2.
Proof.
    unfold qual2int, ord. intros H.
    rewrite <- (ascii_nat_embedding c1), <- (ascii_nat_embedding c2).
    f_equal. lia.
Qed.

Lemma len_of_seq s : Read.len (Read.of_seq s) = String.length s.
Proof.
    unfold Read.len, Read.of_seq. simpl.
    induction s as [|a s IH]; simpl; [done | by rewrite IH].
Qed.

Lemma call_test `{PureFilter F} (f : F) r : call f r = (f, test f r).
Proof. unfold test. rewrite <- (call_pure f r) at 2. by destruct (call f r). Qed.
End reads.

#[export] Hint Rewrite @call_test using typeclasses eauto : pyrw.


(** The filter classes: what a class constructs from its arguments, or the
    exception its constructor raises, and the class [NoFilter] that stands for
    "no filter matched". *)
Class FilterClass (K Args F : Type) : Type := {
  construct : K → Args → outcome F;
  no_filter : K;
}.

(** ** Reads used by the examples *)

(** Four bases, no N, no qualities. *)
Definition read_acgt : Read.t := Read.of_seq "ACGT".

(** Ten bases of which two are N. *)
Definition read_2n : Read.t := Read.of_seq "ACNTACGNAC".

(** A merged read that carries an adapter match. *)
Definition read_merged : Read.t :=
  Read.mk "m" (String.list_ascii_of_string "ACGTAC") None true (Some "adapter1").

(** A read with qualities whose name carries tile 1101. *)
Definition read_tile : Read.t := Read.of_fastq "M1:7:FC:1:1101:15:20" "GCAT" "IIH#".
