(* ===== verification/Predicates.v ===== *)
(** * Predicates: the filter classes of [trim/filters.py]

    One module per class, with the fields its constructor stores and its
    [__call__].  [DISCARD] is [true] and [KEEP] is [false], as in the source.
    [AnyFilter.t] is the closed sum of the seven classes, with the
    [ReadFilter] instance the wrappers use; [filter_type] is the class itself,
    which the chain uses as dictionary key. *)

From Stdlib Require Import Ascii QArith.
From stdpp Require Import gmap strings list.
From S2P Require Import Prelude Reads.

(** Constants used when returning from a filter's [__call__]. *)
Definition DISCARD : bool := true.
Definition KEEP : bool := false.

(** [x > y] on rationals, as a boolean. *)
Definition Qgtb (x y : Q) : bool := negb (Qle_bool x y).

(** [n / d] as a rational, for [d > 0]. *)
Definition Qfrac (n d : nat) : Q := Qmake (Z.of_nat n) (Pos.of_nat d).

(** [c.lower()] on the one letter the filters look for. *)
Definition lower (c : ascii) : ascii :=
  let n := nat_of_ascii c in
  if decide (65 ≤ n ≤ 90)%nat then ascii_of_nat (n + 32) else c.

Module MergedReadFilter.
Record t : Type := mk {}.
Definition __call__ (self : t) (read : Read.t) : bool := Read.merged read.
End MergedReadFilter.

Module TooShortReadFilter.
Record t : Type := mk { minimum_length : Z }.
Definition name : string := "too_short".
Definition __init__ (minimum_length : Z) : t := mk minimum_length.
Definition __call__ (self : t) (read : Read.t) : bool :=
    bool_decide (Z.of_nat (Read.len read) < minimum_length self)%Z.
End TooShortReadFilter.

Module TooLongReadFilter.
Record t : Type := mk { maximum_length : Z }.
Definition name : string := "too_long".
Definition __init__ (maximum_length : Z) : t := mk maximum_length.
Definition __call__ (self : t) (read : Read.t) : bool :=
    bool_decide (Z.of_nat (Read.len read) > maximum_length self)%Z.
End TooLongReadFilter.

Module NContentFilter.
Record t : Type := mk { is_proportion : bool; cutoff : Q }.
Definition name : string := "too_many_n".

(** [assert count >= 0], then the mode is chosen by [count < 1.0]. *)
Definition __init__ (count : Q) : outcome t :=
    if Qle_bool 0 count
    then Ret (mk (negb (Qle_bool 1 count)) count)
    else Raise AssertionError.

(** [read.sequence.lower().count('n')]. *)
Definition n_count (read : Read.t) : nat :=
    str_count "n"%char (lower <$> Read.sequence read).

Definition __call__ (self : t) (read : Read.t) : bool :=
    let n_count := n_count read in
    if is_proportion self then
      if decide (Read.len read = 0)%nat then false
      else Qgtb (Qfrac n_count (Read.len read)) (cutoff self)
    else Qgtb (inject_Z (Z.of_nat n_count)) (cutoff self).
End NContentFilter.

Module UntrimmedFilter.
Record t : Type := mk {}.
Definition __call__ (self : t) (read : Read.t) : bool :=
    bool_decide (Read.rmatch read = None).
End UntrimmedFilter.

Module TrimmedFilter.
Record t : Type := mk {}.
Definition __call__ (self : t) (read : Read.t) : bool :=
    bool_decide (Read.rmatch read ≠ None).
End TrimmedFilter.

Module NoFilter.
Record t : Type := mk {}.
Definition name : string := "NoFilter".
Definition __call__ (self : t) (read : Read.t) : bool := false.
End NoFilter.

(** The classes, as values: what [Filters] uses as keys and returns. *)
Inductive filter_type : Type :=
  | MergedReadFilter
  | TooShortReadFilter
  | TooLongReadFilter
  | NContentFilter
  | UntrimmedFilter
  | TrimmedFilter
  | NoFilter.

#[export] Instance filter_type_eq_dec : EqDecision filter_type.
Proof. solve_decision. Defined.

(** The positional arguments a class is constructed with. *)
Inductive filter_args : Type :=
  | NoArgs
  | IntArg (n : Z)
  | NumArg (q : Q).

Module AnyFilter.
Inductive t : Type :=
    | Merged (f : MergedReadFilter.t)
    | TooShort (f : TooShortReadFilter.t)
    | TooLong (f : TooLongReadFilter.t)
    | NContent (f : NContentFilter.t)
    | Untrimmed (f : UntrimmedFilter.t)
    | Trimmed (f : TrimmedFilter.t)
    | NoF (f : NoFilter.t).

Definition __call__ (self : t) (read : Read.t) : bool :=
    match self with
    | Merged f => MergedReadFilter.__call__ f read
    | TooShort f => TooShortReadFilter.__call__ f read
    | TooLong f => TooLongReadFilter.__call__ f read
    | NContent f => NContentFilter.__call__ f read
    | Untrimmed f => UntrimmedFilter.__call__ f read
    | Trimmed f => TrimmedFilter.__call__ f read
    | NoF f => NoFilter.__call__ f read
    end.

(** The class attribute [name], where the class defines one. *)
Definition name (self : t) : option string :=
    match self with
    | TooShort _ => Some TooShortReadFilter.name
    | TooLong _ => Some TooLongReadFilter.name
    | NContent _ => Some NContentFilter.name
    | NoF _ => Some NoFilter.name
    | Merged _ | Untrimmed _ | Trimmed _ => None
    end.

Definition type_of (self : t) : filter_type :=
    match self with
    | Merged _ => MergedReadFilter
    | TooShort _ => TooShortReadFilter
    | TooLong _ => TooLongReadFilter
    | NContent _ => NContentFilter
    | Untrimmed _ => UntrimmedFilter
    | Trimmed _ => TrimmedFilter
    | NoF _ => NoFilter
    end.

(** [cls.__name__]. *)
Definition class_name_of (cls : filter_type) : string :=
    match cls with
    | MergedReadFilter => "MergedReadFilter"
    | TooShortReadFilter => "TooShortReadFilter"
    | TooLongReadFilter => "TooLongReadFilter"
    | NContentFilter => "NContentFilter"
    | UntrimmedFilter => "UntrimmedFilter"
    | TrimmedFilter => "TrimmedFilter"
    | NoFilter => "NoFilter"
    end.

(** The class applied to its arguments: a wrong number or kind of arguments
    is a [TypeError], a negative N-content cutoff an [AssertionError]. *)
Definition construct (cls : filter_type) (args : filter_args) : outcome t :=
    match cls, args with
    | MergedReadFilter, NoArgs => Ret (Merged MergedReadFilter.mk)
    | TooShortReadFilter, IntArg n => Ret (TooShort (TooShortReadFilter.__init__ n))
    | TooLongReadFilter, IntArg n => Ret (TooLong (TooLongReadFilter.__init__ n))
    | NContentFilter, IntArg n => outcome_map NContent (NContentFilter.__init__ (inject_Z n))
    | NContentFilter, NumArg q => outcome_map NContent (NContentFilter.__init__ q)
    | UntrimmedFilter, NoArgs => Ret (Untrimmed UntrimmedFilter.mk)
    | TrimmedFilter, NoArgs => Ret (Trimmed TrimmedFilter.mk)
    | NoFilter, NoArgs => Ret (NoF NoFilter.mk)
    | _, _ => Raise TypeError
    end.

#[global] Instance read_filter : ReadFilter t := {|
    call f r := (f, __call__ f r);
    attr_name := name;
    class_name f := class_name_of (type_of f);
  |}.

#[global] Instance pure_filter : PureFilter t.
Proof. by intros f r. Qed.

#[global] Instance filter_class : FilterClass filter_type filter_args t := {|
  Reads.construct := construct;
  no_filter := NoFilter;
|}.
End AnyFilter.

(** ** Behaviour of the predicates *)

Section predicates.
Implicit Types (r : Read.t) (n : Z) (q : Q).

Lemma Qgtb_lt x y : Qgtb x y = true ↔ (y < x)%Q.
Proof.
    unfold Qgtb. rewrite negb_true_iff, <- not_true_iff_false, Qle_bool_iff.
    split; [apply Qnot_le_lt | apply Qlt_not_le].
Qed.

Lemma Qgtb_inject_Z (a b : Z) : Qgtb (inject_Z a) (inject_Z b) = bool_decide (b < a)%Z.
Proof.
    apply eq_true_iff_eq. rewrite Qgtb_lt, bool_decide_eq_true.
    by rewrite <- Zlt_Qlt.
Qed.

Lemma lower_n c : lower c = "n"%char ↔ c = "n"%char ∨ c = "N"%char.
Proof.
    split; [|by intros [-> | ->]].
    destruct c as [[] [] [] [] [] [] [] []]; vm_compute; intros [=]; auto.
Qed.

(** The N count is the number of [n] and [N] symbols. *)
Lemma n_count_spec r :
    NContentFilter.n_count r =
    (str_count "n"%char (Read.sequence r) + str_count "N"%char (Read.sequence r))%nat.
Proof.
    unfold NContentFilter.n_count. induction (Read.sequence r) as [|c s IH]; [done|].
    rewrite fmap_cons, !str_count_cons, IH.
    pose proof (lower_n c) as Hc.
    repeat case_decide; simplify_eq; try lia; tauto.
Qed.

Lemma n_count_le_len r : (NContentFilter.n_count r ≤ Read.len r)%nat.
Proof.
    unfold NContentFilter.n_count, Read.len.
    etrans; [apply str_count_le | by rewrite length_fmap].
Qed.
End predicates.

(** ** The length filters *)

Section length_filters.
Implicit Types (r : Read.t) (m : Z).

Lemma too_short_iff m r :
  TooShortReadFilter.__call__ (TooShortReadFilter.__init__ m) r = DISCARD
  ↔ (Z.of_nat (Read.len r) < m)%Z.
Proof. unfold TooShortReadFilter.__call__, DISCARD. simpl. apply bool_decide_eq_true. Qed.

Lemma too_long_iff m r :
  TooLongReadFilter.__call__ (TooLongReadFilter.__init__ m) r = DISCARD
  ↔ (m < Z.of_nat (Read.len r))%Z.
Proof.
  unfold TooLongReadFilter.__call__, DISCARD. simpl.
  rewrite bool_decide_eq_true. lia.
Qed.

(** A read that passes both length filters has its length in the window. *)
Lemma length_window lo hi r :
  TooShortReadFilter.__call__ (TooShortReadFilter.__init__ lo) r = KEEP →
  TooLongReadFilter.__call__ (TooLongReadFilter.__init__ hi) r = KEEP →
  (lo ≤ Z.of_nat (Read.len r) ≤ hi)%Z.
Proof.
  intros Hs Hl. split; apply Z.le_ngt; intros Hlt.
  - apply too_short_iff in Hlt. unfold KEEP, DISCARD in *. congruence.
  - apply too_long_iff in Hlt. unfold KEEP, DISCARD in *. congruence.
Qed.

(** No read is both too short and too long when the window is not empty. *)
Lemma too_short_too_long_exclusive lo hi r :
  (lo ≤ hi + 1)%Z →
  TooShortReadFilter.__call__ (TooShortReadFilter.__init__ lo) r = DISCARD →
  TooLongReadFilter.__call__ (TooLongReadFilter.__init__ hi) r = KEEP.
Proof.
  intros Hw Hs%too_short_iff. unfold KEEP.
  apply not_true_iff_false. intros Hl%too_long_iff. lia.
Qed.

(** Raising the minimum only discards more. *)
Lemma too_short_monotone m m' r :
  (m ≤ m')%Z →
  TooShortReadFilter.__call__ (TooShortReadFilter.__init__ m) r = DISCARD →
  TooShortReadFilter.__call__ (TooShortReadFilter.__init__ m') r = DISCARD.
Proof. rewrite !too_short_iff. lia. Qed.

Lemma trimmed_untrimmed_complement r :
  TrimmedFilter.__call__ TrimmedFilter.mk r
  = negb (UntrimmedFilter.__call__ UntrimmedFilter.mk r).
Proof.
  unfold TrimmedFilter.__call__, UntrimmedFilter.__call__.
  by destruct (Read.rmatch r).
Qed.
End length_filters.

(** ** The N-content filter *)

Section n_content.
Implicit Types (r : Read.t) (f : NContentFilter.t) (count : Q).

Lemma Zpos_of_nat (n : nat) : (0 < n)%nat → Z.pos (Pos.of_nat n) = Z.of_nat n.
Proof. intros. rewrite <- positive_nat_Z, Nat2Pos.id; lia. Qed.

Lemma Qfrac_gt n d q :
  (0 < d)%nat →
  Qgtb (Qfrac n d) q = true ↔ (Qnum q * Z.of_nat d < Z.of_nat n * QDen q)%Z.
Proof.
  intros Hd. rewrite Qgtb_lt. unfold Qlt, Qfrac. simpl. by rewrite Zpos_of_nat.
Qed.

(** The constructor refuses exactly the negative cutoffs. *)
Lemma n_content_init_error count :
  NContentFilter.__init__ count = Raise AssertionError ↔ (count < 0)%Q.
Proof.
  unfold NContentFilter.__init__. destruct (Qle_bool 0 count) eqn:E.
  - apply Qle_bool_iff in E. split; [done | intros H; by apply Qlt_not_le in H].
  - split; [intros _ | done]. apply Qnot_le_lt. rewrite <- Qle_bool_iff. congruence.
Qed.

(** What the constructor stores: the cutoff, non-negative, and the mode. *)
Lemma n_content_init_ok count f :
  NContentFilter.__init__ count = Ret f →
  NContentFilter.cutoff f = count ∧ (0 <= count)%Q ∧
  (NContentFilter.is_proportion f = true ↔ (count < 1)%Q).
Proof.
  unfold NContentFilter.__init__. destruct (Qle_bool 0 count) eqn:E; [|done].
  intros [= <-]. simpl. split; [done|]. split; [by apply Qle_bool_iff|].
  rewrite negb_true_iff, <- not_true_iff_false, Qle_bool_iff.
  split; [apply Qnot_le_lt | apply Qlt_not_le].
Qed.

(** Absolute mode: discard iff the number of Ns is strictly above the cutoff. *)
Lemma n_content_absolute count f r :
  NContentFilter.__init__ count = Ret f → (1 <= count)%Q →
  NContentFilter.__call__ f r = DISCARD
  ↔ (count < inject_Z (Z.of_nat (NContentFilter.n_count r)))%Q.
Proof.
  intros (Hc & _ & Hp)%n_content_init_ok H1. unfold NContentFilter.__call__.
  destruct (NContentFilter.is_proportion f) eqn:E.
  - destruct Hp as [Hp _]. specialize (Hp eq_refl). by apply Qlt_not_le in Hp.
  - unfold DISCARD. by rewrite Qgtb_lt, Hc.
Qed.

(** Proportion mode: discard iff N-count / length is strictly above the
    cutoff; an empty read is kept. *)
Lemma n_content_proportion count f r :
  NContentFilter.__init__ count = Ret f → (count < 1)%Q →
  NContentFilter.__call__ f r = DISCARD
  ↔ (0 < Read.len r)%nat ∧
    (Qnum count * Z.of_nat (Read.len r) < Z.of_nat (NContentFilter.n_count r) * QDen count)%Z.
Proof.
  intros (Hc & _ & Hp)%n_content_init_ok H1. unfold NContentFilter.__call__, DISCARD.
  destruct Hp as [_ Hp]. rewrite (Hp H1). case_decide as Hl.
  - split; [done | lia].
  - rewrite Qfrac_gt, Hc by lia. split; [intros; split; [lia | done] | by intros []].
Qed.

(** C40: The N-content filter, in both of its modes: built with a cutoff below 1
    it discards a read iff the read is not empty and its N count divided by
    its length is strictly above the cutoff; built with a cutoff of at least
    1 it discards a read iff its N count is strictly above the cutoff. *)
Theorem n_content_spec count f r :
  NContentFilter.__init__ count = Ret f →
  NContentFilter.__call__ f r = DISCARD ↔
    if Qlt_le_dec count 1
    then (0 < Read.len r)%nat ∧
         (Qnum count * Z.of_nat (Read.len r)
          < Z.of_nat (NContentFilter.n_count r) * QDen count)%Z
    else (count < inject_Z (Z.of_nat (NContentFilter.n_count r)))%Q.
Proof.
  intros Hi. destruct (Qlt_le_dec count 1).
  - by apply n_content_proportion.
  - by apply n_content_absolute.
Qed.

(** A read without any N passes every N-content filter that can be built. *)
Lemma n_content_no_n_kept count f r :
  NContentFilter.__init__ count = Ret f → NContentFilter.n_count r = 0%nat →
  NContentFilter.__call__ f r = KEEP.
Proof.
  intros Hi Hn. pose proof (n_content_init_ok _ _ Hi) as (Hc & H0 & Hp).
  unfold KEEP. apply not_true_iff_false. intros Hd.
  destruct (Qlt_le_dec count 1) as [Hlt | Hge].
  - apply (n_content_proportion _ _ r Hi Hlt) in Hd as [_ Hd].
    rewrite Hn in Hd. unfold Qle in H0. simpl in *. nia.
  - apply (n_content_absolute _ _ r Hi Hge) in Hd.
    rewrite Hn in Hd. eapply Qlt_not_le; [exact Hd | done].
Qed.

(** A read made only of Ns is discarded by every proportion filter. *)
Lemma n_content_all_n_discarded count f r :
  NContentFilter.__init__ count = Ret f → (count < 1)%Q →
  (0 < Read.len r)%nat → NContentFilter.n_count r = Read.len r →
  NContentFilter.__call__ f r = DISCARD.
Proof.
  intros Hi Hlt Hl Hn. apply (n_content_proportion _ _ r Hi Hlt).
  split; [done|]. rewrite Hn. unfold Qlt in Hlt. simpl in Hlt. nia.
Qed.
End n_content.

(** ** Construction by class *)

Section construct.
Implicit Types (cls : filter_type) (args : filter_args) (f : AnyFilter.t).

(** The object a class constructs is an instance of that class. *)
Lemma construct_type cls args f :
  AnyFilter.construct cls args = Ret f → AnyFilter.type_of f = cls.
Proof.
  destruct cls, args; simpl; try done; try by intros [= <-].
  all: destruct (NContentFilter.__init__ _); simpl; by intros [= <-].
Qed.

(** Only the N-content filter can refuse well-formed arguments. *)
Lemma construct_assertion cls args :
  AnyFilter.construct cls args = Raise AssertionError →
  cls = NContentFilter ∧
  ∃ q, (q < 0)%Q ∧ (args = NumArg q ∨ ∃ n, args = IntArg n ∧ q = inject_Z n).
Proof.
  destruct cls, args; simpl; try done; intros H; split; try done.
  all: destruct (NContentFilter.__init__ _) eqn:E; simplify_eq/=.
  all: apply n_content_init_error in E; eauto 6.
Qed.
End construct.

(** ** The examples of the specification *)

Example too_short_15 :
  TooShortReadFilter.__call__ (TooShortReadFilter.__init__ 20)
    (Read.of_seq "ACGTACGTACGTACG") = DISCARD.
Proof. vm_compute. reflexivity. Qed.

Example too_short_20 :
  TooShortReadFilter.__call__ (TooShortReadFilter.__init__ 20)
    (Read.of_seq "ACGTACGTACGTACGTACGT") = KEEP.
Proof. vm_compute. reflexivity. Qed.

Example n_content_proportion_2_of_10 :
  outcome_map (λ f, NContentFilter.__call__ f (Read.of_seq "ACNTACGNAC"))
    (NContentFilter.__init__ (1 # 10)) = Ret DISCARD.
Proof. vm_compute. reflexivity. Qed.

Example n_content_absolute_1 :
  outcome_map (λ f, (NContentFilter.__call__ f (Read.of_seq "ACNTACG"),
                     NContentFilter.__call__ f (Read.of_seq "ACNTANG")))
    (NContentFilter.__init__ 1) = Ret (KEEP, DISCARD).
Proof. vm_compute. reflexivity. Qed.

(** ** Instances of the theorems on concrete reads *)

Lemma length_window_witness : (3 ≤ Z.of_nat (Read.len read_acgt) ≤ 10)%Z.
Proof. apply (length_window 3 10 read_acgt); by_compute. Defined.

Lemma n_content_absolute_witness :
  NContentFilter.__call__ (NContentFilter.mk false 1) read_2n = DISCARD
  ↔ (1 < inject_Z (Z.of_nat (NContentFilter.n_count read_2n)))%Q.
Proof. apply (n_content_absolute 1 (NContentFilter.mk false 1) read_2n); by_compute. Defined.

Lemma n_content_proportion_witness :
  NContentFilter.__call__ (NContentFilter.mk true (1 # 10)) read_2n = DISCARD
  ↔ (0 < Read.len read_2n)%nat ∧
    (1 * Z.of_nat (Read.len read_2n) < Z.of_nat (NContentFilter.n_count read_2n) * 10)%Z.
Proof. apply (n_content_proportion (1 # 10) (NContentFilter.mk true (1 # 10)) read_2n); by_compute. Defined.

Lemma n_content_no_n_kept_witness :
  NContentFilter.__call__ (NContentFilter.mk true (1 # 10)) read_acgt = KEEP.
Proof. apply (n_content_no_n_kept (1 # 10)); by_compute. Defined.

Lemma n_content_all_n_discarded_witness :
  NContentFilter.__call__ (NContentFilter.mk true (1 # 2)) (Read.of_seq "NNnN") = DISCARD.
Proof. apply (n_content_all_n_discarded (1 # 2)); by_compute. Defined.

Lemma construct_type_witness :
  AnyFilter.type_of (AnyFilter.TooShort (TooShortReadFilter.mk 20)) = TooShortReadFilter.
Proof. apply (construct_type TooShortReadFilter (IntArg 20)); by_compute. Defined.

Lemma too_short_too_long_exclusive_witness :
  TooLongReadFilter.__call__ (TooLongReadFilter.__init__ 100) read_acgt = KEEP.
Proof. apply (too_short_too_long_exclusive 20 100 read_acgt); by_compute. Defined.

Lemma n_content_spec_witness :
  NContentFilter.__call__ (NContentFilter.mk true (1 # 10)) read_2n = DISCARD ↔
    (0 < Read.len read_2n)%nat ∧
    (1 * Z.of_nat (Read.len read_2n) < Z.of_nat (NContentFilter.n_count read_2n) * 10)%Z.
Proof. exact (n_content_spec (1 # 10) (NContentFilter.mk true (1 # 10)) read_2n eq_refl). Defined.

Lemma construct_assertion_witness :
  NContentFilter = NContentFilter ∧
  ∃ q, (q < 0)%Q ∧ (NumArg (-1 # 2) = NumArg q ∨ ∃ n, NumArg (-1 # 2) = IntArg n ∧ q = inject_Z n).
Proof. apply (construct_assertion NContentFilter (NumArg (-1 # 2))). reflexivity. Defined.
