(* ===== verification/Wrappers.v ===== *)
(** * Wrappers: [FilterWrapper], [SingleWrapper], [PairedWrapper], [FilterFactory]

    A wrapper holds a filter callable and the number of reads it discarded.
    The three Python classes share the record [Wrapper.t]; the field [cls]
    says which class the object is, and with it which [_filter] the base
    class's [__call__] reaches.  Everything is stated for an arbitrary
    [ReadFilter], so that the same definitions run a pure predicate and an
    instrumented one. *)

From stdpp Require Import gmap strings list.
From S2P Require Import Prelude Reads Predicates.

Module Wrapper.
(** The class of a wrapper object; [PairedWrapper] carries its threshold. *)
Inductive wrapper_class : Type :=
  | FilterWrapper
  | SingleWrapper
  | PairedWrapper (min_affected : Z).

Record t (F : Type) : Type := mk {
  filtered : nat;
  filter : F;
  cls : wrapper_class;
}.
Arguments mk {F} filtered filter cls.
Arguments filtered {F} _.
Arguments filter {F} _.
Arguments cls {F} _.

Definition set_filter {F} (f : F) (self : t F) : t F :=
  mk (filtered self) f (cls self).

Definition incr_filtered {F} (self : t F) : t F :=
  mk (S (filtered self)) (filter self) (cls self).

(** [self.filter(read)]: the callable answers and may change. *)
Definition call_filter `{ReadFilter F} (read : Read.t) : Py (t F) bool :=
  λ self, let '(f, b) := call (filter self) read in (set_filter f self, Ret b).
End Wrapper.

Module SingleWrapper.
Section defs.
Context `{ReadFilter F}.

Definition __init__ (f : F) : Wrapper.t F := Wrapper.mk 0 f Wrapper.SingleWrapper.

(** Only the first read is inspected. *)
Definition _filter (read1 : Read.t) (read2 : option Read.t) : Py (Wrapper.t F) bool :=
  Wrapper.call_filter read1.
End defs.
End SingleWrapper.

Module PairedWrapper.
Section defs.
Context `{ReadFilter F}.

Definition __init__ (f : F) (min_affected : Z) : outcome (Wrapper.t F) :=
  if decide (min_affected = 1 ∨ min_affected = 2)%Z
  then Ret (Wrapper.mk 0 f (Wrapper.PairedWrapper min_affected))
  else Raise ValueError.

(** [read2 is None or self.filter(read2)]: the right operand is evaluated
    only when there is a second read. *)
Definition none_or_filter (read2 : option Read.t) : Py (Wrapper.t F) bool :=
  match read2 with
  | None => ret true
  | Some r2 => Wrapper.call_filter r2
  end.

Definition _filter (min_affected : Z) (read1 : Read.t) (read2 : option Read.t)
    : Py (Wrapper.t F) bool :=
  let failures := 0%Z in
  b1 <- Wrapper.call_filter read1 ;;
  let failures := if b1 then (failures + 1)%Z else failures in
  b2 <- (if decide (min_affected - failures = 1)%Z
         then none_or_filter read2
         else ret false) ;;
  let failures := if b2 then (failures + 1)%Z else failures in
  ret (bool_decide (failures >= min_affected)%Z).
End defs.
End PairedWrapper.

Module FilterWrapper.
Section defs.
Context `{ReadFilter F}.

Definition __init__ (f : F) : Wrapper.t F := Wrapper.mk 0 f Wrapper.FilterWrapper.

(** The method [__call__] reaches through [self]: the subclass's, or the base
    class's, which raises. *)
Definition _filter (read1 : Read.t) (read2 : option Read.t) : Py (Wrapper.t F) bool :=
  self <- get ;;
  match Wrapper.cls self with
  | Wrapper.FilterWrapper => raise NotImplementedError
  | Wrapper.SingleWrapper => SingleWrapper._filter read1 read2
  | Wrapper.PairedWrapper m => PairedWrapper._filter m read1 read2
  end.

Definition __call__ (read1 : Read.t) (read2 : option Read.t) : Py (Wrapper.t F) bool :=
  b <- _filter read1 read2 ;;
  if b then modify Wrapper.incr_filtered ;; ret true
  else ret false.

(** The filter's [name] attribute if it has one, else its class name. *)
Definition name (self : Wrapper.t F) : string :=
  match attr_name (Wrapper.filter self) with
  | Some n => n
  | None => class_name (Wrapper.filter self)
  end.

(** [dict(records_filtered=self.filtered)]. *)
Definition summarize (self : Wrapper.t F) : list (string * nat) :=
  [("records_filtered", Wrapper.filtered self)].
End defs.
End FilterWrapper.

Module FilterFactory.
Record t : Type := mk {
  paired : option string;
  min_affected : Z;
}.

Definition __init__ (paired : option string) (min_affected : Z) : t :=
  mk paired min_affected.

Section defs.
Context `{FilterClass K Args F}.

Definition __call__ (self : t) (filter_type : K) (args : Args) : outcome (Wrapper.t F) :=
  match construct filter_type args with
  | Raise e => Raise e
  | Ret fltr =>
      if decide (paired self = Some "both")
      then PairedWrapper.__init__ fltr (min_affected self)
      else Ret (SingleWrapper.__init__ fltr)
  end.
End defs.
End FilterFactory.

(** ** Reference semantics of the paired policy

    Count the mates that match the predicate, an absent second mate counting
    as a match, and discard when at least [min_affected] of them do. *)
Definition paired_reference `{ReadFilter F} (min_affected : Z) (f : F)
    (read1 : Read.t) (read2 : option Read.t) : bool :=
  let n1 := if test f read1 then 1%Z else 0%Z in
  let n2 := match read2 with
            | None => 1%Z
            | Some r2 => if test f r2 then 1%Z else 0%Z
            end in
  bool_decide (min_affected ≤ n1 + n2)%Z.

(** The wrapper state is well formed when a paired threshold is 1 or 2. *)
Definition wrapper_ok {F} (w : Wrapper.t F) : Prop :=
  match Wrapper.cls w with
  | Wrapper.PairedWrapper m => m = 1%Z ∨ m = 2%Z
  | _ => True
  end.

Ltac wrapper_simpl :=
  unfold FilterWrapper.__call__, FilterWrapper._filter, SingleWrapper._filter,
    PairedWrapper._filter, PairedWrapper.none_or_filter, Wrapper.call_filter,
    Wrapper.set_filter, Wrapper.incr_filtered in *;
  py_simpl.

(** ** Frame: calling the predicate touches only the [filter] field *)

Section frame.
Context `{ReadFilter F}.
Implicit Types (w : Wrapper.t F) (r : Read.t) (o : option Read.t).

Lemma call_filter_run r w :
  Wrapper.call_filter r w
  = (Wrapper.set_filter (call (Wrapper.filter w) r).1 w, Ret (call (Wrapper.filter w) r).2).
Proof. unfold Wrapper.call_filter. by destruct (call _ _). Qed.

Lemma set_filter_id w : Wrapper.set_filter (Wrapper.filter w) w = w.
Proof. by destruct w. Qed.

Lemma filter_frame r1 o w w' res :
  FilterWrapper._filter r1 o w = (w', res) →
  Wrapper.filtered w' = Wrapper.filtered w ∧ Wrapper.cls w' = Wrapper.cls w.
Proof.
  wrapper_simpl. destruct (Wrapper.cls w) eqn:Hc; simpl.
  - by intros [= <- _].
  - destruct (call _ r1). by intros [= <- _].
  - destruct (call _ r1) as [f1 [|]]; simpl; case_decide; simpl;
      destruct o as [r2|]; simpl; try destruct (call _ r2) as [f2 [|]]; simpl;
      by intros [= <- _].
Qed.
End frame.

#[export] Hint Rewrite @call_filter_run @set_filter_id : pyrw.

(** ** Construction *)

Section construction.
Context `{ReadFilter F}.
Implicit Types (f : F) (m : Z).

(** The constructor accepts thresholds 1 and 2 and raises
    [ValueError] on every other value. *)
Lemma paired_init_spec f m :
  PairedWrapper.__init__ f m
  = if decide (m = 1 ∨ m = 2)%Z
    then Ret (Wrapper.mk 0 f (Wrapper.PairedWrapper m))
    else Raise ValueError.
Proof. done. Qed.

(** The constructor raises [ValueError] exactly when the threshold is neither
    1 nor 2. *)
Lemma paired_init_error f m :
  PairedWrapper.__init__ f m = Raise ValueError ↔ (m ≠ 1 ∧ m ≠ 2)%Z.
Proof. unfold PairedWrapper.__init__. case_decide; split; try done; lia. Qed.

Lemma paired_init_ok f m w :
  PairedWrapper.__init__ f m = Ret w →
  wrapper_ok w ∧ Wrapper.filtered w = 0 ∧ Wrapper.filter w = f
  ∧ Wrapper.cls w = Wrapper.PairedWrapper m.
Proof.
  unfold PairedWrapper.__init__, wrapper_ok. case_decide; [|done].
  by intros [= <-].
Qed.
End construction.

(** ** The two policies on pure predicates *)

Section policies.
Context `{PureFilter F}.
Implicit Types (w : Wrapper.t F) (f : F) (r : Read.t) (o : option Read.t) (m : Z).

Lemma call_filter_pure r w :
  Wrapper.call_filter r w = (w, Ret (test (Wrapper.filter w) r)).
Proof. rewrite call_filter_run, call_test. cbn [fst snd]. by rewrite set_filter_id. Qed.

(** The single-mate policy answers for mate 1 and never looks at mate 2. *)
Lemma single_filter_spec r1 o w :
  SingleWrapper._filter r1 o w = (w, Ret (test (Wrapper.filter w) r1)).
Proof. apply call_filter_pure. Qed.

(** The paired policy, with its short-circuit evaluation, computes the
    reference count-and-compare semantics for thresholds 1 and 2. *)
Lemma paired_filter_reference m r1 o w :
  (m = 1 ∨ m = 2)%Z →
  PairedWrapper._filter m r1 o w
  = (w, Ret (paired_reference m (Wrapper.filter w) r1 o)).
Proof.
  intros Hm. unfold PairedWrapper._filter, PairedWrapper.none_or_filter, paired_reference.
  unfold bind at 1. rewrite call_filter_pure.
  destruct (test (Wrapper.filter w) r1), o as [r2|], Hm as [-> | ->]; simpl;
    unfold bind, ret; simpl; rewrite ?call_filter_pure;
    try destruct (test (Wrapper.filter w) r2); done.
Qed.

(** Threshold 1 discards when any mate matches, threshold 2 when both do. *)
Lemma paired_filter_both_present m r1 r2 w :
  (m = 1 ∨ m = 2)%Z →
  PairedWrapper._filter m r1 (Some r2) w
  = (w, Ret (if decide (m = 1)%Z
             then test (Wrapper.filter w) r1 || test (Wrapper.filter w) r2
             else test (Wrapper.filter w) r1 && test (Wrapper.filter w) r2)).
Proof.
  intros Hm. rewrite paired_filter_reference by done. unfold paired_reference.
  destruct Hm as [-> | ->]; simpl;
    by destruct (test (Wrapper.filter w) r1), (test (Wrapper.filter w) r2).
Qed.

(** An absent second mate counts as a match: with threshold 1 the read is
    discarded whatever the predicate says of it, with threshold 2 the first
    mate alone decides. *)
Lemma paired_filter_mate_absent m r1 w :
  (m = 1 ∨ m = 2)%Z →
  PairedWrapper._filter m r1 None w
  = (w, Ret (if decide (m = 1)%Z then true else test (Wrapper.filter w) r1)).
Proof.
  intros Hm. rewrite paired_filter_reference by done. unfold paired_reference.
  destruct Hm as [-> | ->]; simpl; by destruct (test (Wrapper.filter w) r1).
Qed.
End policies.

(** ** Short-circuit evaluation, for any callable *)

Section short_circuit.
Context `{ReadFilter F}.
Implicit Types (w : Wrapper.t F) (r : Read.t) (o : option Read.t) (m : Z).

(** Mate 1 decides alone when it matches under threshold 1 or does not match
    under threshold 2: the predicate is then called once, on mate 1, and the
    pair's answer is mate 1's answer. *)
Lemma paired_decided_by_mate1 m r1 o w f1 b1 :
  call (Wrapper.filter w) r1 = (f1, b1) →
  (m = 1%Z ∧ b1 = true) ∨ (m = 2%Z ∧ b1 = false) →
  PairedWrapper._filter m r1 o w = (Wrapper.set_filter f1 w, Ret b1).
Proof.
  intros E Hd. unfold PairedWrapper._filter.
  unfold bind at 1. rewrite call_filter_run, E. cbn [fst snd].
  by destruct Hd as [[-> ->] | [-> ->]].
Qed.

(** Otherwise mate 2 is consulted: the predicate is called on mate 1 and then,
    in the state the first call left, on mate 2, whose answer is the pair's. *)
Lemma paired_consults_mate2 m r1 r2 w f1 b1 f2 b2 :
  call (Wrapper.filter w) r1 = (f1, b1) → call f1 r2 = (f2, b2) →
  (m = 1%Z ∧ b1 = false) ∨ (m = 2%Z ∧ b1 = true) →
  PairedWrapper._filter m r1 (Some r2) w = (Wrapper.set_filter f2 w, Ret b2).
Proof.
  intros E1 E2 Hd. unfold PairedWrapper._filter, PairedWrapper.none_or_filter.
  unfold bind at 1. rewrite call_filter_run, E1. cbn [fst snd].
  destruct Hd as [[-> ->] | [-> ->]]; simpl; unfold bind;
    rewrite call_filter_run; simpl; rewrite E2; by destruct b2, w.
Qed.
End short_circuit.

(** ** The instrumented predicate observes the calls *)

Section instrumented.
Context `{ReadFilter F}.
Implicit Types (w : Wrapper.t (Instrumented.t F)) (r : Read.t) (o : option Read.t).

Definition calls_of (w : Wrapper.t (Instrumented.t F)) : list Read.t :=
  Instrumented.calls (Wrapper.filter w).

(** C21: The other mate is not evaluated when the first one decides: with an
    instrumented predicate, when mate 1 matches under threshold 1 or does not
    match under threshold 2, the call log gains mate 1 only and the answer is
    mate 1's. *)
Theorem paired_skips_mate2 m r1 o w b1 :
  (call (Instrumented.inner (Wrapper.filter w)) r1).2 = b1 →
  (m = 1%Z ∧ b1 = true) ∨ (m = 2%Z ∧ b1 = false) →
  ∃ w', PairedWrapper._filter m r1 o w = (w', Ret b1)
        ∧ calls_of w' = r1 :: calls_of w.
Proof.
  intros Hb Hd. destruct (call (Wrapper.filter w) r1) as [f1 b] eqn:E.
  assert (b = b1 ∧ Instrumented.calls f1 = r1 :: calls_of w) as [-> Hc].
  { revert E. unfold calls_of. simpl. destruct (call (Instrumented.inner _) r1).
    simpl in Hb. by intros [= <- <-]. }
  rewrite (paired_decided_by_mate1 m r1 o w f1 b1) by auto. by eexists.
Qed.

(** Whatever the threshold and the answers, a pair costs one or two calls, and
    the single policy exactly one. *)
Lemma filter_call_count r1 o w w' res :
  wrapper_ok w → FilterWrapper._filter r1 o w = (w', Ret res) →
  ∃ l, calls_of w' = l ++ calls_of w ∧
       match Wrapper.cls w with
       | Wrapper.SingleWrapper => l = [r1]
       | _ => l = [r1] ∨ ∃ r2, o = Some r2 ∧ l = [r2; r1]
       end.
Proof.
  unfold wrapper_ok, calls_of. wrapper_simpl.
  destruct (Wrapper.cls w) as [| |m] eqn:Hc; [done| |].
  - intros _. destruct (call _ r1). intros [= <- _]. by exists [r1].
  - intros Hm. destruct (call _ r1) as [g1 [|]]; simpl;
      destruct Hm as [-> | ->], o as [r2|]; simpl;
      try destruct (call _ r2) as [g2 [|]]; simpl; intros [= <- _]; simpl;
      first [by exists [r1]; eauto | by exists [r2; r1]; eauto].
Qed.
End instrumented.

(** ** [__call__]: the discard counter *)

Section counter.
Context `{ReadFilter F}.
Implicit Types (w : Wrapper.t F) (r : Read.t) (o : option Read.t).

(** [__call__] answers what [_filter] answers, and adds one to [filtered]
    exactly when the answer is DISCARD; an exception leaves the counter. *)
Lemma call_counts r1 o w :
  let '(w1, res) := FilterWrapper._filter r1 o w in
  FilterWrapper.__call__ r1 o w
  = (match res with
     | Ret true => Wrapper.incr_filtered w1
     | _ => w1
     end, res).
Proof.
  unfold FilterWrapper.__call__, bind.
  by destruct (FilterWrapper._filter r1 o w) as [w1 [[|]|e]].
Qed.

(** A call adds one to the discard counter exactly when it answers DISCARD;
    KEEP and exceptions leave it, and the class of the wrapper is kept. *)
Lemma call_filtered r1 o w w' res :
  FilterWrapper.__call__ r1 o w = (w', res) →
  Wrapper.filtered w' = Wrapper.filtered w + (if decide (res = Ret true) then 1 else 0)
  ∧ Wrapper.cls w' = Wrapper.cls w.
Proof.
  pose proof (call_counts r1 o w) as Hc.
  destruct (FilterWrapper._filter r1 o w) as [w1 r] eqn:E.
  apply filter_frame in E as [Hf Hcls]. rewrite Hc. intros [= <- <-].
  destruct r as [[|]|e]; simpl; rewrite ?Hf, ?Hcls; split; try done; lia.
Qed.

(** The counter never decreases. *)
Lemma call_filtered_mono r1 o w :
  Wrapper.filtered w ≤ Wrapper.filtered (FilterWrapper.__call__ r1 o w).1.
Proof.
  destruct (FilterWrapper.__call__ r1 o w) as [w' res] eqn:E.
  apply call_filtered in E as [E _]. simpl. lia.
Qed.

(** A wrapper of the base class cannot be called. *)
Lemma base_wrapper_raises (f : F) r1 o :
  FilterWrapper.__call__ r1 o (FilterWrapper.__init__ f)
  = (FilterWrapper.__init__ f, Raise NotImplementedError).
Proof. done. Qed.

(** Well-formedness is kept by a call. *)
Lemma call_ok r1 o w :
  wrapper_ok w → wrapper_ok (FilterWrapper.__call__ r1 o w).1.
Proof.
  destruct (FilterWrapper.__call__ r1 o w) as [w' res] eqn:E.
  apply call_filtered in E as [_ Hc]. unfold wrapper_ok. simpl. by rewrite Hc.
Qed.

(** A call adds one to the discard counter exactly when it answers DISCARD;
    KEEP and exceptions leave the counter alone, and the wrapper keeps its
    class. *)
Theorem call_counter r1 o w :
  let '(w', res) := FilterWrapper.__call__ r1 o w in
  Wrapper.filtered w' = Wrapper.filtered w + (if decide (res = Ret true) then 1 else 0)
  ∧ Wrapper.cls w' = Wrapper.cls w.
Proof.
  destruct (FilterWrapper.__call__ r1 o w) as [w' res] eqn:E. by apply call_filtered in E.
Qed.
End counter.

(** ** The factory *)

Section factory.
Context `{FilterClass K Args F}.
Implicit Types (fac : FilterFactory.t) (k : K) (a : Args) (w : Wrapper.t F).

(** Every wrapper the factory builds is well formed, starts at zero, and is
    paired exactly when the run is configured with [paired = "both"]. *)
Lemma factory_builds fac k a w :
  FilterFactory.__call__ fac k a = Ret w →
  wrapper_ok w ∧ Wrapper.filtered w = 0 ∧ construct k a = Ret (Wrapper.filter w) ∧
  Wrapper.cls w = (if decide (FilterFactory.paired fac = Some "both")
                   then Wrapper.PairedWrapper (FilterFactory.min_affected fac)
                   else Wrapper.SingleWrapper).
Proof.
  unfold FilterFactory.__call__. destruct (construct k a) as [f|e]; [|done].
  case_decide.
  - by intros (? & ? & -> & ?)%paired_init_ok.
  - by intros [= <-].
Qed.

(** The factory fails when the class's constructor fails, or when a paired
    run asks for a threshold other than 1 or 2. *)
Lemma factory_error fac k a e :
  FilterFactory.__call__ fac k a = Raise e ↔
  construct k a = Raise e ∨
  (∃ f, construct k a = Ret f) ∧ e = ValueError ∧
  FilterFactory.paired fac = Some "both" ∧
  (FilterFactory.min_affected fac ≠ 1 ∧ FilterFactory.min_affected fac ≠ 2)%Z.
Proof.
  unfold FilterFactory.__call__. destruct (construct k a) as [f|e'].
  - case_decide as Hp.
    + split.
      * intros He. assert (e = ValueError) as ->.
        { revert He. unfold PairedWrapper.__init__. by case_decide; intros [=]. }
        apply paired_init_error in He. eauto 8.
      * intros [[=] | (_ & -> & _ & Hm)]. by apply paired_init_error.
    + split; [done | intros [[=] | (_ & _ & ? & _)]; done].
  - split; [intros [= ->]; by left | by intros [[= ->] | [[f [=]] _]]].
Qed.
End factory.

(** ** A wrapper around a pure predicate, as a function of the pair *)

(** Whether the wrapper discards the pair: the predicate on mate 1 for the
    single policy, the reference count for the paired one. *)
Definition discards `{ReadFilter F} (read1 : Read.t) (read2 : option Read.t)
    (w : Wrapper.t F) : bool :=
  match Wrapper.cls w with
  | Wrapper.FilterWrapper => false
  | Wrapper.SingleWrapper => test (Wrapper.filter w) read1
  | Wrapper.PairedWrapper m => paired_reference m (Wrapper.filter w) read1 read2
  end.

(** A wrapper that can be called: of a subclass, with a valid threshold. *)
Definition callable {F} (w : Wrapper.t F) : Prop :=
  wrapper_ok w ∧ Wrapper.cls w ≠ Wrapper.FilterWrapper.

Section pure_wrapper.
Context `{PureFilter F}.
Implicit Types (w : Wrapper.t F) (r : Read.t) (o : option Read.t).

Lemma filter_pure_spec r o w :
  callable w → FilterWrapper._filter r o w = (w, Ret (discards r o w)).
Proof.
  unfold callable, wrapper_ok, discards, FilterWrapper._filter. intros [Hok Hc].
  unfold bind, get. destruct (Wrapper.cls w) as [| |m]; [done | |].
  - apply single_filter_spec.
  - by apply paired_filter_reference.
Qed.

(** C4: A paired wrapper that the constructor accepted implements the reference
    policy: its [_filter], reached through [self], leaves the wrapper as it
    is and answers whether the number of matching mates, an absent second
    mate counting as a match, reaches the threshold. *)
Theorem paired_wrapper_reference f m w r o :
  PairedWrapper.__init__ f m = Ret w →
  FilterWrapper._filter r o w = (w, Ret (paired_reference m f r o)).
Proof.
  unfold PairedWrapper.__init__. case_decide as Hm; [|done]. intros [= <-].
  unfold FilterWrapper._filter, bind, get. simpl.
  by rewrite paired_filter_reference.
Qed.

(** Calling a wrapper returns [discards] and counts the discard. *)
Lemma call_pure_spec r o w :
  callable w →
  FilterWrapper.__call__ r o w
  = (if discards r o w then Wrapper.incr_filtered w else w, Ret (discards r o w)).
Proof.
  intros Hw. pose proof (call_counts r o w) as Hc.
  rewrite filter_pure_spec in Hc by done. rewrite Hc. by destruct (discards r o w).
Qed.

Lemma incr_filtered_callable w : callable w → callable (Wrapper.incr_filtered w).
Proof. by destruct w. Qed.

(** With the single policy the second mate is irrelevant. *)
Lemma single_ignores_mate2 r o o' w :
  Wrapper.cls w = Wrapper.SingleWrapper →
  FilterWrapper.__call__ r o w = FilterWrapper.__call__ r o' w.
Proof.
  intros Hc. assert (callable w) by (unfold callable, wrapper_ok; by rewrite Hc).
  rewrite !call_pure_spec by done. unfold discards. by rewrite Hc.
Qed.
End pure_wrapper.

(** ** Instances of the theorems on concrete wrappers *)

(** A too-short filter with minimum 5, and wrappers around it. *)
Definition short5 : AnyFilter.t := AnyFilter.TooShort (TooShortReadFilter.__init__ 5).

Definition paired_short5 (m : Z) : Wrapper.t AnyFilter.t :=
  Wrapper.mk 0 short5 (Wrapper.PairedWrapper m).

Definition single_short5 : Wrapper.t AnyFilter.t := SingleWrapper.__init__ short5.

Definition spy_short5 (m : Z) : Wrapper.t (Instrumented.t AnyFilter.t) :=
  Wrapper.mk 0 (Instrumented.wrap short5) (Wrapper.PairedWrapper m).

Lemma paired_filter_reference_witness :
  PairedWrapper._filter 2 read_acgt (Some read_2n) (paired_short5 2)
  = (paired_short5 2, Ret (paired_reference 2 short5 read_acgt (Some read_2n))).
Proof. apply (paired_filter_reference 2 read_acgt (Some read_2n) (paired_short5 2)); by right. Defined.

Lemma paired_filter_both_present_witness :
  PairedWrapper._filter 1 read_acgt (Some read_2n) (paired_short5 1)
  = (paired_short5 1, Ret (test short5 read_acgt || test short5 read_2n)).
Proof. apply (paired_filter_both_present 1 read_acgt read_2n (paired_short5 1)); by left. Defined.

Lemma paired_filter_mate_absent_witness :
  PairedWrapper._filter 1 read_2n None (paired_short5 1) = (paired_short5 1, Ret true).
Proof. apply (paired_filter_mate_absent 1 read_2n (paired_short5 1)); by left. Defined.

Lemma paired_decided_by_mate1_witness :
  PairedWrapper._filter 1 read_acgt (Some read_2n) (paired_short5 1)
  = (paired_short5 1, Ret true).
Proof.
  apply (paired_decided_by_mate1 1 read_acgt (Some read_2n) (paired_short5 1) short5 true);
    [reflexivity | by left].
Defined.

Lemma paired_wrapper_reference_witness :
  FilterWrapper._filter read_acgt (Some read_2n) (paired_short5 2)
  = (paired_short5 2, Ret (paired_reference 2 short5 read_acgt (Some read_2n))).
Proof. apply (paired_wrapper_reference short5 2 (paired_short5 2)). reflexivity. Defined.

Lemma paired_consults_mate2_witness :
  PairedWrapper._filter 2 read_acgt (Some read_2n) (paired_short5 2)
  = (paired_short5 2, Ret false).
Proof.
  apply (paired_consults_mate2 2 read_acgt read_2n (paired_short5 2) short5 true short5 false);
    [reflexivity | reflexivity | by right].
Defined.

Lemma paired_skips_mate2_witness :
  ∃ w', PairedWrapper._filter 1 read_acgt (Some read_2n) (spy_short5 1) = (w', Ret true)
        ∧ calls_of w' = [read_acgt].
Proof.
  apply (paired_skips_mate2 1 read_acgt (Some read_2n) (spy_short5 1) true);
    [reflexivity | by left].
Defined.

Lemma call_pure_spec_witness :
  FilterWrapper.__call__ read_acgt None single_short5
  = (Wrapper.incr_filtered single_short5, Ret true).
Proof. exact (call_pure_spec read_acgt None single_short5 ltac:(by split)). Defined.

Lemma single_ignores_mate2_witness :
  FilterWrapper.__call__ read_acgt None single_short5
  = FilterWrapper.__call__ read_acgt (Some read_2n) single_short5.
Proof. apply (single_ignores_mate2 read_acgt None (Some read_2n) single_short5). reflexivity. Defined.

Lemma filter_call_count_witness :
  ∃ l, [read_2n; read_acgt] = l ++ [] ∧ (l = [read_acgt] ∨ ∃ r2, Some read_2n = Some r2 ∧ l = [r2; read_acgt]).
Proof.
  apply (filter_call_count read_acgt (Some read_2n) (spy_short5 2)
           (Wrapper.mk 0 (Instrumented.mk short5 [read_2n; read_acgt]) (Wrapper.PairedWrapper 2))
           false); [by right | reflexivity].
Defined.

Lemma factory_builds_witness :
  wrapper_ok (paired_short5 2) ∧ Wrapper.filtered (paired_short5 2) = 0
  ∧ construct TooShortReadFilter (IntArg 5) = Ret short5
  ∧ Wrapper.cls (paired_short5 2) = Wrapper.PairedWrapper 2.
Proof.
  apply (factory_builds (FilterFactory.__init__ (Some "both") 2) TooShortReadFilter (IntArg 5)
           (paired_short5 2)).
  reflexivity.
Defined.
