(* ===== verification/Chain.v ===== *)
(** * Chain: the class [Filters] of [trim/filters.py]

    [Filters.t] holds the ordered dictionary from filter class to wrapper and
    the factory that builds the wrappers.  [filter] walks the dictionary in
    insertion order and stops at the first wrapper that answers DISCARD.  The
    wrappers are the objects stored in the dictionary: calling one updates it
    in place, which the model does by rebuilding the list around it.

    The specification draws a pass as a state machine: pending until a
    wrapper discards, the chain is exhausted, or a wrapper raises.  [step] is
    that machine on configurations (the wrappers called, the wrappers
    waiting, the state), and [filter_machine] shows that [filter] is its
    run. *)

From stdpp Require Import gmap strings list relations.
From S2P Require Import Prelude Reads Predicates Wrappers.

Module Filters.
Section defs.
Context `{EqDecision K} `{FilterClass K Args F} `{!ReadFilter F}.

Record t : Type := mk {
  filters : list (K * Wrapper.t F);
  filter_factory : FilterFactory.t;
}.

Definition __init__ (filter_factory : FilterFactory.t) : t := mk [] filter_factory.

Definition set_filters (l : list (K * Wrapper.t F)) (self : t) : t :=
  mk l (filter_factory self).

(** The wrapper is built first; if that raises, the dictionary is unchanged. *)
Definition add_filter (filter_type : K) (args : Args) : Py t unit :=
  self <- get ;;
  w <- lift (FilterFactory.__call__ (filter_factory self) filter_type args) ;;
  modify (set_filters (od_set filter_type w (filters self))).

(** The loop of [filter]: [dest] is the class of the first wrapper that
    discards; the wrappers after it are not called. *)
Fixpoint scan (items : list (K * Wrapper.t F)) (read1 : Read.t) (read2 : option Read.t)
    : list (K * Wrapper.t F) * outcome K :=
  match items with
  | [] => ([], Ret no_filter)
  | (filter_type, fltr) :: rest =>
      match FilterWrapper.__call__ read1 read2 fltr with
      | (fltr', Ret true) => ((filter_type, fltr') :: rest, Ret filter_type)
      | (fltr', Ret false) =>
          let '(rest', dest) := scan rest read1 read2 in
          ((filter_type, fltr') :: rest', dest)
      | (fltr', Raise e) => ((filter_type, fltr') :: rest, Raise e)
      end
  end.

Definition filter (read1 : Read.t) (read2 : option Read.t) : Py t K :=
  λ self, let '(items, dest) := scan (filters self) read1 read2 in
          (set_filters items self, dest).

Definition __contains__ (self : t) (filter_type : K) : bool :=
  bool_decide (filter_type ∈ (filters self).*1).

Definition __getitem__ (self : t) (filter_type : K) : outcome (Wrapper.t F) :=
  match od_get filter_type (filters self) with
  | Some w => Ret w
  | None => Raise KeyError
  end.

(** A dictionary from each wrapper's name to its summary. *)
Definition summarize (self : t) : list (string * list (string * nat)) :=
  foldl (λ d kw, od_set (FilterWrapper.name kw.2) (FilterWrapper.summarize kw.2) d)
        [] (filters self).
End defs.
Arguments t K F : clear implicits.
End Filters.

(** ** What one pass does to the dictionary *)

(** Every wrapper of [items] after being called once on the pair. *)
Definition called_once `{ReadFilter F} {K} (read1 : Read.t) (read2 : option Read.t)
    (items : list (K * Wrapper.t F)) : list (K * Wrapper.t F) :=
  (λ kw, (kw.1, (FilterWrapper.__call__ read1 read2 kw.2).1)) <$> items.

(** The answer of a wrapper on the pair. *)
Definition answers `{ReadFilter F} (read1 : Read.t) (read2 : option Read.t)
    (res : outcome bool) (w : Wrapper.t F) : Prop :=
  (FilterWrapper.__call__ read1 read2 w).2 = res.

(** The sum of the discard counters of a dictionary. *)
Definition total_filtered {K F} (items : list (K * Wrapper.t F)) : nat :=
  sum_map (λ kw, Wrapper.filtered kw.2) items.

(** ** The pass as a state machine

    The specification describes one pass as a machine: the pair is pending
    while wrappers are asked, and ends discarded by a filter or kept.  An
    exception of a callable is a third way to end.  A configuration holds the
    wrappers that were called, those that were not, and the status. *)

Inductive status (K : Type) : Type :=
  | Pending
  | Discarded (k : K)
  | Kept
  | Failed (e : exn).
Arguments Pending {K}.
Arguments Discarded {K} k.
Arguments Kept {K}.
Arguments Failed {K} e.

Record config (K F : Type) : Type := mk_config {
  called : list (K * Wrapper.t F);
  waiting : list (K * Wrapper.t F);
  state : status K
}.
Arguments mk_config {K F} called waiting state.
Arguments called {K F} _.
Arguments waiting {K F} _.
Arguments state {K F} _.

(** What the answer of a wrapper makes of a pending pair. *)
Definition verdict {K} (k : K) (res : outcome bool) : status K :=
  match res with
  | Ret true => Discarded k
  | Ret false => Pending
  | Raise e => Failed e
  end.

Inductive step `{ReadFilter F} {K} (r : Read.t) (o : option Read.t)
    : relation (config K F) :=
  | step_call done k w todo :
      step r o (mk_config done ((k, w) :: todo) Pending)
        (mk_config (done ++ [(k, (FilterWrapper.__call__ r o w).1)]) todo
           (verdict k (FilterWrapper.__call__ r o w).2))
  | step_kept done :
      step r o (mk_config done [] Pending) (mk_config done [] Kept).

(** The configuration in which a pass starts, and what a configuration
    says of the dictionary and of the answer of [filter]. *)
Definition initial {K F} (items : list (K * Wrapper.t F)) : config K F :=
  mk_config [] items Pending.

Definition dictionary {K F} (c : config K F) : list (K * Wrapper.t F) :=
  called c ++ waiting c.

Definition disposition `{FilterClass K Args F} (c : config K F) : option (outcome K) :=
  match state c with
  | Pending => None
  | Discarded k => Some (Ret k)
  | Kept => Some (Ret no_filter)
  | Failed e => Some (Raise e)
  end.


Section scan.
Context `{EqDecision K} `{FilterClass K Args F} `{!ReadFilter F}.
Implicit Types (items pre post : list (K * Wrapper.t F)) (w : Wrapper.t F) (k : K).
Implicit Types (r : Read.t) (o : option Read.t).

Lemma scan_cons_keep k w items r o :
  answers r o (Ret false) w →
  Filters.scan ((k, w) :: items) r o
  = ((k, (FilterWrapper.__call__ r o w).1) :: (Filters.scan items r o).1,
     (Filters.scan items r o).2).
Proof.
  unfold answers. simpl. destruct (FilterWrapper.__call__ r o w) as [w' res].
  simpl. intros ->. by destruct (Filters.scan items r o).
Qed.

Lemma scan_cons_stop k w items r o res :
  res ≠ Ret false → answers r o res w →
  Filters.scan ((k, w) :: items) r o
  = ((k, (FilterWrapper.__call__ r o w).1) :: items, outcome_map (λ _, k) res).
Proof.
  unfold answers. simpl. destruct (FilterWrapper.__call__ r o w) as [w' res'].
  simpl. intros Hne ->. by destruct res as [[|]|e].
Qed.

(** The wrappers before the first one that does not answer KEEP are each
    called once; that one is called once; the rest is left as it was. *)
Lemma scan_prefix pre k w post r o res :
  Forall (λ kw, answers r o (Ret false) kw.2) pre →
  res ≠ Ret false → answers r o res w →
  Filters.scan (pre ++ (k, w) :: post) r o
  = (called_once r o pre ++ (k, (FilterWrapper.__call__ r o w).1) :: post,
     outcome_map (λ _, k) res).
Proof.
  intros Hpre Hne Hw. induction Hpre as [|[k' w'] pre Hk _ IH].
  - by apply scan_cons_stop.
  - rewrite <- app_comm_cons, scan_cons_keep, IH by done. done.
Qed.

(** When every wrapper answers KEEP, the answer is [NoFilter]. *)
Lemma scan_all_keep items r o :
  Forall (λ kw, answers r o (Ret false) kw.2) items →
  Filters.scan items r o = (called_once r o items, Ret no_filter).
Proof.
  induction 1 as [|[k w] items Hk _ IH]; [done|].
  by rewrite scan_cons_keep, IH.
Qed.

(** Every pass is one of the two: all wrappers keep, or a first one stops
    the scan. *)
Lemma scan_cases items r o :
  Forall (λ kw, answers r o (Ret false) kw.2) items ∨
  ∃ pre k w post res,
    items = pre ++ (k, w) :: post ∧
    Forall (λ kw, answers r o (Ret false) kw.2) pre ∧
    res ≠ Ret false ∧ answers r o res w.
Proof.
  induction items as [|[k w] items IH]; [by left|].
  destruct (FilterWrapper.__call__ r o w) as [w' res] eqn:E.
  destruct (decide (res = Ret false)) as [-> | Hne].
  - destruct IH as [IH | (pre & k' & w2 & post & res & -> & Hpre & Hne & Hw)].
    + left. constructor; [|done]. unfold answers. simpl. by rewrite E.
    + right. exists ((k, w) :: pre), k', w2, post, res. split_and!; try done.
      constructor; [|done]. unfold answers. simpl. by rewrite E.
  - right. exists [], k, w, items, res. split_and!; try done.
    unfold answers. simpl. by rewrite E.
Qed.

(** The keys and their order never change. *)
Lemma scan_keys items r o : (Filters.scan items r o).1.*1 = items.*1.
Proof.
  destruct (scan_cases items r o)
    as [Hall | (pre & k & w & post & res & -> & Hpre & Hne & Hw)].
  - rewrite scan_all_keep by done. unfold called_once. simpl.
    rewrite <- list_fmap_compose. by apply list_fmap_ext.
  - rewrite (scan_prefix _ _ _ _ _ _ res) by done. unfold called_once. simpl.
    rewrite !fmap_app, <- list_fmap_compose. by f_equal.
Qed.
End scan.

(** ** Counters *)

Section counters.
Context `{EqDecision K} `{FilterClass K Args F} `{!ReadFilter F}.
Implicit Types (items pre post : list (K * Wrapper.t F)) (w : Wrapper.t F) (k : K).
Implicit Types (r : Read.t) (o : option Read.t).

Lemma total_filtered_cons k w items :
  total_filtered ((k, w) :: items) = Wrapper.filtered w + total_filtered items.
Proof. done. Qed.

Lemma total_filtered_app pre post :
  total_filtered (pre ++ post) = total_filtered pre + total_filtered post.
Proof.
  induction pre as [|[k w] pre IH]; [done|].
  rewrite <- app_comm_cons, !total_filtered_cons, IH. lia.
Qed.

Lemma answers_filtered r o res w :
  answers r o res w →
  Wrapper.filtered (FilterWrapper.__call__ r o w).1
  = Wrapper.filtered w + (if decide (res = Ret true) then 1 else 0).
Proof.
  unfold answers. destruct (FilterWrapper.__call__ r o w) as [w' res'] eqn:E.
  simpl. intros <-. by apply call_filtered in E as [-> _].
Qed.

Lemma total_filtered_keep items r o :
  Forall (λ kw, answers r o (Ret false) kw.2) items →
  total_filtered (called_once r o items) = total_filtered items.
Proof.
  induction 1 as [|[k w] items Hk _ IH]; [done|].
  unfold called_once in *. rewrite fmap_cons, !total_filtered_cons, IH. simpl.
  rewrite (answers_filtered r o (Ret false)) by done. simpl. lia.
Qed.

(** A pass in which no wrapper discards leaves the sum of the counters. *)
Lemma scan_total_keep items r o :
  Forall (λ kw, answers r o (Ret false) kw.2) items →
  total_filtered (Filters.scan items r o).1 = total_filtered items.
Proof. intros Hall. rewrite scan_all_keep by done. by apply total_filtered_keep. Qed.

(** A pass stopped by a wrapper adds one to the sum when that wrapper
    discards and nothing when it raises. *)
Lemma scan_total_stop pre k w post r o res :
  Forall (λ kw, answers r o (Ret false) kw.2) pre →
  res ≠ Ret false → answers r o res w →
  total_filtered (Filters.scan (pre ++ (k, w) :: post) r o).1
  = total_filtered (pre ++ (k, w) :: post) + (if decide (res = Ret true) then 1 else 0).
Proof.
  intros Hpre Hne Hw. rewrite (scan_prefix _ _ _ _ _ _ res) by done. simpl.
  rewrite !total_filtered_app, !total_filtered_cons, total_filtered_keep by done.
  rewrite (answers_filtered r o res) by done. lia.
Qed.

(** The sum of the counters grows by at most one per pair. *)
Lemma scan_total_bounds items r o :
  total_filtered items ≤ total_filtered (Filters.scan items r o).1 ≤ S (total_filtered items).
Proof.
  destruct (scan_cases items r o)
    as [Hall | (pre & k & w & post & res & -> & Hpre & Hne & Hw)].
  - rewrite scan_total_keep by done. lia.
  - rewrite (scan_total_stop _ _ _ _ _ _ res) by done. case_decide; lia.
Qed.
End counters.

(** ** Abstract specification: the first wrapper that discards

    For pure predicates a pass is a search: find the first wrapper whose
    policy discards the pair, answer its class and count the discard there;
    answer [NoFilter] and change nothing when there is none. *)

Definition first_discard `{ReadFilter F} {K} (r : Read.t) (o : option Read.t)
    (items : list (K * Wrapper.t F)) : option (nat * (K * Wrapper.t F)) :=
  list_find (λ kw, discards r o kw.2 = true) items.

Definition filter_spec `{FilterClass K Args F} `{!ReadFilter F}
    (r : Read.t) (o : option Read.t) (items : list (K * Wrapper.t F))
    : list (K * Wrapper.t F) * K :=
  match first_discard r o items with
  | Some (i, kw) => (<[i := (kw.1, Wrapper.incr_filtered kw.2)]> items, kw.1)
  | None => (items, no_filter)
  end.

(** The dictionary is well formed: distinct keys, callable wrappers. *)
Definition chain_ok {K F} (items : list (K * Wrapper.t F)) : Prop :=
  NoDup items.*1 ∧ Forall (λ kw, callable kw.2) items.

Section refinement.
Context `{EqDecision K} `{FilterClass K Args F} `{!ReadFilter F} `{!PureFilter F}.
Implicit Types (items pre post : list (K * Wrapper.t F)) (w : Wrapper.t F) (k : K).
Implicit Types (r : Read.t) (o : option Read.t) (self : Filters.t K F).

Lemma filter_spec_cons k w items r o :
  filter_spec r o ((k, w) :: items)
  = if discards r o w then ((k, Wrapper.incr_filtered w) :: items, k)
    else ((k, w) :: (filter_spec r o items).1, (filter_spec r o items).2).
Proof.
  unfold filter_spec, first_discard. simpl. destruct (discards r o w); simpl; [done|].
  by destruct (list_find _ items) as [[i kw]|].
Qed.

(** The loop of [filter] implements the search. *)
Lemma scan_refines items r o :
  Forall (λ kw, callable kw.2) items →
  Filters.scan items r o = ((filter_spec r o items).1, Ret (filter_spec r o items).2).
Proof.
  induction 1 as [|[k w] items Hw _ IH]; [done|].
  rewrite filter_spec_cons. simpl in *. rewrite call_pure_spec, IH by done.
  by destruct (discards r o w).
Qed.

(** C1: [filter] returns the class of the first discarding wrapper, or
    [NoFilter]; it never raises on a well-formed dictionary. *)
Lemma filter_refines r o self :
  Forall (λ kw, callable kw.2) (Filters.filters self) →
  Filters.filter r o self
  = (Filters.set_filters (filter_spec r o (Filters.filters self)).1 self,
     Ret (filter_spec r o (Filters.filters self)).2).
Proof. intros Hok. unfold Filters.filter. by rewrite scan_refines. Qed.

(** The first discarding wrapper is the one whose counter moves; the
    wrappers before it and after it are as they were. *)
Lemma filter_first_discard pre k w post r o :
  Forall (λ kw, callable kw.2) (pre ++ (k, w) :: post) →
  Forall (λ kw, discards r o kw.2 = false) pre →
  discards r o w = true →
  Filters.scan (pre ++ (k, w) :: post) r o
  = (pre ++ (k, Wrapper.incr_filtered w) :: post, Ret k).
Proof.
  intros Hok Hpre Hw. rewrite scan_refines by done.
  induction Hpre as [|[k' w'] pre Hk _ IH]; simpl.
  - by rewrite filter_spec_cons, Hw.
  - apply Forall_cons in Hok as [_ Hok]. specialize (IH Hok).
    rewrite filter_spec_cons. simpl in Hk. rewrite Hk. simpl.
    by injection IH as -> ->.
Qed.

(** C15: [filter] for any callables, stateful ones included: the wrappers before
    the first one that does not answer KEEP are each called once, that one is
    called once and decides the result (its class, or the exception it
    raised), and the wrappers after it are left untouched. *)
Theorem filter_prefix pre k w post r o res self :
  Filters.filters self = pre ++ (k, w) :: post →
  Forall (λ kw, answers r o (Ret false) kw.2) pre →
  res ≠ Ret false → answers r o res w →
  Filters.filter r o self
  = (Filters.set_filters
       (called_once r o pre ++ (k, (FilterWrapper.__call__ r o w).1) :: post) self,
     outcome_map (λ _, k) res).
Proof.
  intros Hf Hpre Hne Hw. unfold Filters.filter.
  by rewrite Hf, (scan_prefix _ _ _ _ _ _ res).
Qed.

Lemma filter_none_discards items r o :
  Forall (λ kw, callable kw.2) items →
  Forall (λ kw, discards r o kw.2 = false) items →
  Filters.scan items r o = (items, Ret no_filter).
Proof.
  intros Hok Hall. rewrite scan_refines by done.
  unfold filter_spec, first_discard.
  replace (list_find _ items) with (@None (nat * (K * Wrapper.t F))); [done|].
  symmetry. apply list_find_None. eapply Forall_impl; [exact Hall|].
  simpl. intros kw ->. done.
Qed.

(** Well-formedness is an invariant of [filter]. *)
Lemma filter_spec_ok items r o : chain_ok items → chain_ok (filter_spec r o items).1.
Proof.
  unfold chain_ok, filter_spec, first_discard. intros [Hnd Hall].
  destruct (list_find _ items) as [[i [k w]]|] eqn:E; [|done].
  apply list_find_Some in E as (Hi & _ & _). simpl. split.
  - rewrite list_fmap_insert. simpl. rewrite list_insert_id; [done|].
    by rewrite list_lookup_fmap, Hi.
  - apply Forall_insert; [done|]. simpl. apply incr_filtered_callable.
    by apply (Forall_lookup_1 _ _ _ _ Hall Hi).
Qed.
End refinement.

(** ** The machine runs the pass *)

Section machine.
Context `{EqDecision K} `{FilterClass K Args F} `{!ReadFilter F}.
Implicit Types (items done todo : list (K * Wrapper.t F)) (w : Wrapper.t F) (k : K).
Implicit Types (r : Read.t) (o : option Read.t) (c : config K F).

(** Progress: a configuration can move exactly as long as the pair is
    pending. *)
Lemma red_pending r o c : red (step r o) c ↔ state c = Pending.
Proof.
  split; [by intros [c' []]|]. destruct c as [done [|[k w] todo] st]; simpl; intros ->.
  - eexists. apply step_kept.
  - eexists. apply step_call.
Qed.

Lemma nf_decided r o c : nf (step r o) c ↔ state c ≠ Pending.
Proof. unfold nf. by rewrite red_pending. Qed.

(** The machine is deterministic. *)
Lemma step_det r o c c1 c2 : step r o c c1 → step r o c c2 → c1 = c2.
Proof. intros H1 H2. destruct H1; by inversion H2. Qed.

(** A step calls at most one wrapper, the first that waits, and leaves the
    others where they are. *)
Lemma step_keys r o c c' : step r o c c' → (dictionary c').*1 = (dictionary c).*1.
Proof.
  intros []; unfold dictionary; simpl; [|done].
  by rewrite <- app_assoc, !fmap_app.
Qed.

(** [scan] runs the machine to its end. *)
Lemma scan_runs items r o done :
  ∃ c n,
    nsteps (step r o) n (mk_config done items Pending) c
    ∧ n ≤ S (length items)
    ∧ dictionary c = done ++ (Filters.scan items r o).1
    ∧ disposition c = Some (Filters.scan items r o).2.
Proof.
  revert done. induction items as [|[k w] items IH]; intros done.
  { exists (mk_config done [] Kept), 1. split_and!; [|done..].
    apply nsteps_once, step_kept. }
  pose proof (step_call r o done k w items) as Hstep.
  destruct (FilterWrapper.__call__ r o w) as [w' res] eqn:Hw. simpl in Hstep.
  destruct (decide (res = Ret false)) as [->|Hne].
  - destruct (IH (done ++ [(k, w')])) as (c & n & Hn & Hle & Hd & Ho).
    exists c, (S n). split_and!; [by econstructor|simpl; lia| |].
    + rewrite Hd, <- app_assoc. simpl. rewrite Hw.
      by destruct (Filters.scan items r o).
    + rewrite Ho. simpl. rewrite Hw. by destruct (Filters.scan items r o).
  - eexists _, 1. split_and!; [by apply nsteps_once|simpl; lia| |].
    + unfold dictionary. simpl. rewrite Hw, <- app_assoc. by destruct res as [[]|].
    + unfold disposition. simpl. rewrite Hw. by destruct res as [[]|].
Qed.

(** Where the machine stops is decided by where it starts. *)
Lemma rtc_nf_unique r o c c1 c2 :
  rtc (step r o) c c1 → nf (step r o) c1 →
  rtc (step r o) c c2 → nf (step r o) c2 → c1 = c2.
Proof.
  intros H1 Hnf1 H2 Hnf2. induction H1 as [c|c c' c1 Hs H1 IH].
  - destruct H2 as [|c c' c2 Hs' _]; [done|]. destruct Hnf1. by eexists.
  - destruct H2 as [|c c2' c2 Hs' H2]; [destruct Hnf2; by eexists|].
    rewrite (step_det _ _ _ _ _ Hs Hs') in *. by apply IH.
Qed.

Lemma scan_machine items r o :
  ∃ c n,
    nsteps (step r o) n (initial items) c ∧ n ≤ S (length items)
    ∧ nf (step r o) c
    ∧ (∀ c', rtc (step r o) (initial items) c' → nf (step r o) c' → c' = c)
    ∧ dictionary c = (Filters.scan items r o).1
    ∧ disposition c = Some (Filters.scan items r o).2.
Proof.
  destruct (scan_runs items r o []) as (c & n & Hn & Hle & Hd & Ho).
  assert (nf (step r o) c) as Hnf.
  { apply nf_decided. intros Hp. unfold disposition in Ho. by rewrite Hp in Ho. }
  exists c, n. split_and!; try done.
  intros c' Hc' Hnf'. eapply rtc_nf_unique; eauto using rtc_nsteps_2.
Qed.
(** C14: [filter] is the run of the machine of the specification: started with
    every wrapper waiting and the pair pending, the machine stops after at
    most one step per wrapper and one more, in the only configuration in
    which it can stop; the pair is then discarded by a filter, kept, or the
    call has failed, and that configuration holds the dictionary that
    [filter] leaves and the answer that it gives. *)
Theorem filter_machine r o (self : Filters.t K F) :
  ∃ c n,
    nsteps (step r o) n (initial (Filters.filters self)) c
    ∧ n ≤ S (length (Filters.filters self))
    ∧ nf (step r o) c
    ∧ (∀ c', rtc (step r o) (initial (Filters.filters self)) c' → nf (step r o) c' → c' = c)
    ∧ Filters.filters (Filters.filter r o self).1 = dictionary c
    ∧ disposition c = Some (Filters.filter r o self).2.
Proof.
  destruct (scan_machine (Filters.filters self) r o) as (c & n & Hn & Hle & Hnf & Hu & Hd & Ho).
  exists c, n. unfold Filters.filter. rewrite Hd, Ho.
  by destruct (Filters.scan (Filters.filters self) r o).
Qed.
End machine.

(** ** Building the chain *)

Section building.
Context `{EqDecision K} `{FilterClass K Args F} `{!ReadFilter F}.
Implicit Types (k : K) (a : Args) (w : Wrapper.t F) (self : Filters.t K F).

Lemma add_filter_run k a self :
  Filters.add_filter k a self
  = match FilterFactory.__call__ (Filters.filter_factory self) k a with
    | Ret w => (Filters.set_filters (od_set k w (Filters.filters self)) self, Ret tt)
    | Raise e => (self, Raise e)
    end.
Proof.
  unfold Filters.add_filter. py_simpl.
  by destruct (FilterFactory.__call__ _ k a).
Qed.

(** What the factory builds can be called. *)
Lemma factory_callable fac k a w : FilterFactory.__call__ fac k a = Ret w → callable w.
Proof.
  intros (Hok & _ & _ & Hc)%factory_builds. split; [done|].
  rewrite Hc. by case_decide.
Qed.

(** Adding a filter keeps the dictionary well formed. *)
Lemma add_filter_ok k a self :
  chain_ok (Filters.filters self) →
  chain_ok (Filters.filters (Filters.add_filter k a self).1).
Proof.
  destruct self as [items fac]. intros [Hnd Hall]. rewrite add_filter_run. simpl in *.
  destruct (FilterFactory.__call__ _ k a) as [w|e] eqn:E; [|done].
  simpl. split; [by apply od_set_NoDup|].
  apply factory_callable in E. clear Hnd.
  induction Hall as [|[k' w'] l Hw Hl IH]; simpl; [by constructor|].
  case_decide; by constructor.
Qed.

(** A class that is not yet in the chain goes to its end, with a counter at
    zero: filters run in the order in which they were added. *)
Lemma add_filter_appends k a self w :
  k ∉ (Filters.filters self).*1 →
  FilterFactory.__call__ (Filters.filter_factory self) k a = Ret w →
  Filters.filters (Filters.add_filter k a self).1 = Filters.filters self ++ [(k, w)]
  ∧ Wrapper.filtered w = 0.
Proof.
  intros Hk E. rewrite add_filter_run, E. simpl.
  rewrite od_set_fresh by done. split; [done|]. by apply factory_builds in E as (_ & ? & _).
Qed.

(** Adding a class again replaces its wrapper where it stands. *)
Lemma add_filter_replaces k a self :
  k ∈ (Filters.filters self).*1 →
  (Filters.filters (Filters.add_filter k a self).1).*1 = (Filters.filters self).*1.
Proof.
  intros Hk. rewrite add_filter_run.
  destruct (FilterFactory.__call__ _ k a); simpl; [by apply od_set_keys_present | done].
Qed.

(** [__getitem__] finds what [add_filter] stored. *)
Lemma getitem_add_filter k a self w :
  FilterFactory.__call__ (Filters.filter_factory self) k a = Ret w →
  Filters.__getitem__ (Filters.add_filter k a self).1 k = Ret w.
Proof.
  intros E. rewrite add_filter_run, E. unfold Filters.__getitem__. simpl.
  by rewrite od_get_set_eq.
Qed.

Lemma getitem_contains k self :
  Filters.__contains__ self k = false ↔ Filters.__getitem__ self k = Raise KeyError.
Proof.
  unfold Filters.__contains__, Filters.__getitem__.
  rewrite bool_decide_eq_false, <- od_get_None.
  destruct (od_get k _); split; done.
Qed.
End building.

(** ** Instances of the theorems on a concrete chain *)

(** A paired run with threshold 1: too-short below 5, then N content above 10%. *)
Definition chain_empty : Filters.t filter_type AnyFilter.t :=
  Filters.__init__ (FilterFactory.__init__ (Some "both") 1).

Definition chain_short_n : Filters.t filter_type AnyFilter.t :=
  ((Filters.add_filter TooShortReadFilter (IntArg 5) ;;
    Filters.add_filter NContentFilter (NumArg (QArith_base.Qmake 1 10))) chain_empty).1.

Definition wrapper_short : Wrapper.t AnyFilter.t := paired_short5 1.

Definition wrapper_n : Wrapper.t AnyFilter.t :=
  Wrapper.mk 0 (AnyFilter.NContent (NContentFilter.mk true (QArith_base.Qmake 1 10))) (Wrapper.PairedWrapper 1).

(** A single-policy wrapper that discards every read: longer than -1. *)
Definition wrapper_all : Wrapper.t AnyFilter.t :=
  SingleWrapper.__init__ (AnyFilter.TooLong (TooLongReadFilter.__init__ (-1))).

Lemma chain_short_n_items :
  Filters.filters chain_short_n
  = [(TooShortReadFilter, wrapper_short); (NContentFilter, wrapper_n)].
Proof. reflexivity. Qed.

Lemma chain_short_n_callable :
  Forall (λ kw : filter_type * Wrapper.t AnyFilter.t, callable kw.2)
    [(TooShortReadFilter, wrapper_short); (NContentFilter, wrapper_n)].
Proof. repeat (constructor; [split; [by left | done]|]). constructor. Qed.

Lemma wrapper_all_discards r o : discards r o wrapper_all = true.
Proof.
  unfold discards, test. simpl. apply bool_decide_eq_true.
  unfold TooLongReadFilter.__init__. simpl. lia.
Qed.

Lemma scan_refines_witness :
  Filters.scan [(TooShortReadFilter, wrapper_short); (NContentFilter, wrapper_n)]
    read_2n (Some read_2n)
  = ([(TooShortReadFilter, wrapper_short); (NContentFilter, Wrapper.incr_filtered wrapper_n)],
     Ret NContentFilter).
Proof. exact (scan_refines _ read_2n (Some read_2n) chain_short_n_callable). Defined.

Lemma filter_refines_witness :
  Filters.filter read_acgt (Some read_2n) chain_short_n
  = (Filters.set_filters
       [(TooShortReadFilter, Wrapper.incr_filtered wrapper_short); (NContentFilter, wrapper_n)]
       chain_short_n, Ret TooShortReadFilter).
Proof. exact (filter_refines read_acgt (Some read_2n) chain_short_n chain_short_n_callable). Defined.

Lemma filter_first_discard_witness :
  Filters.scan ([(TooShortReadFilter, wrapper_short)] ++ (NContentFilter, wrapper_n) :: [])
    read_2n (Some read_2n)
  = ([(TooShortReadFilter, wrapper_short)] ++ (NContentFilter, Wrapper.incr_filtered wrapper_n) :: [],
     Ret NContentFilter).
Proof.
  apply (filter_first_discard [(TooShortReadFilter, wrapper_short)] NContentFilter wrapper_n []);
    [exact chain_short_n_callable | by repeat constructor | reflexivity].
Defined.

Lemma filter_none_discards_witness :
  Filters.scan [(TooShortReadFilter, wrapper_short); (NContentFilter, wrapper_n)]
    (Read.of_seq "ACGTAC") (Some (Read.of_seq "ACGTAC"))
  = ([(TooShortReadFilter, wrapper_short); (NContentFilter, wrapper_n)], Ret NoFilter).
Proof.
  refine (filter_none_discards
            [(TooShortReadFilter, wrapper_short); (NContentFilter, wrapper_n)]
            (Read.of_seq "ACGTAC") (Some (Read.of_seq "ACGTAC")) chain_short_n_callable _).
  by repeat constructor.
Defined.

Lemma filter_spec_ok_witness :
  chain_ok (filter_spec read_2n (Some read_2n)
              [(TooShortReadFilter, wrapper_short); (NContentFilter, wrapper_n)]).1.
Proof.
  apply (filter_spec_ok _ read_2n (Some read_2n)). split; [|exact chain_short_n_callable].
  apply NoDup_cons. split; [by intros [=]%list_elem_of_singleton | apply NoDup_singleton].
Defined.

Lemma add_filter_ok_witness :
  chain_ok (Filters.filters (Filters.add_filter TooShortReadFilter (IntArg 5) chain_empty).1).
Proof.
  apply (add_filter_ok TooShortReadFilter (IntArg 5) chain_empty).
  split; [apply NoDup_nil_2 | constructor].
Defined.

Lemma add_filter_appends_witness :
  Filters.filters (Filters.add_filter TooShortReadFilter (IntArg 5) chain_empty).1
  = [] ++ [(TooShortReadFilter, wrapper_short)]
  ∧ Wrapper.filtered wrapper_short = 0.
Proof.
  apply (add_filter_appends TooShortReadFilter (IntArg 5) chain_empty wrapper_short);
    [apply not_elem_of_nil | reflexivity].
Defined.

Lemma scan_prefix_witness :
  Filters.scan ([(TooShortReadFilter, wrapper_short)] ++ (NContentFilter, wrapper_n) :: [])
    read_2n (Some read_2n)
  = (called_once read_2n (Some read_2n) [(TooShortReadFilter, wrapper_short)]
       ++ (NContentFilter, (FilterWrapper.__call__ read_2n (Some read_2n) wrapper_n).1) :: [],
     outcome_map (λ _, NContentFilter) (Ret true)).
Proof.
  apply (scan_prefix [(TooShortReadFilter, wrapper_short)] NContentFilter wrapper_n []
           read_2n (Some read_2n) (Ret true));
    [by repeat constructor | done | reflexivity].
Defined.

Lemma filter_prefix_witness :
  Filters.filter read_2n (Some read_2n) chain_short_n
  = (Filters.set_filters
       (called_once read_2n (Some read_2n) [(TooShortReadFilter, wrapper_short)]
          ++ (NContentFilter, (FilterWrapper.__call__ read_2n (Some read_2n) wrapper_n).1) :: [])
       chain_short_n,
     outcome_map (λ _, NContentFilter) (Ret true)).
Proof.
  apply (filter_prefix [(TooShortReadFilter, wrapper_short)] NContentFilter wrapper_n []
           read_2n (Some read_2n) (Ret true) chain_short_n);
    [reflexivity | by repeat constructor | done | reflexivity].
Defined.

Lemma scan_total_stop_witness :
  total_filtered
    (Filters.scan ([(TooShortReadFilter, wrapper_short)] ++ (NContentFilter, wrapper_n) :: [])
       read_2n (Some read_2n)).1
  = total_filtered ([(TooShortReadFilter, wrapper_short)] ++ (NContentFilter, wrapper_n) :: []) + 1.
Proof.
  apply (scan_total_stop [(TooShortReadFilter, wrapper_short)] NContentFilter wrapper_n []
           read_2n (Some read_2n) (Ret true));
    [by repeat constructor | done | reflexivity].
Defined.

(** The example of the specification: an always-discarding filter in front of
    a never-discarding one. *)
Example always_before_never :
  Filters.scan [(TooLongReadFilter, wrapper_all);
                (NoFilter, SingleWrapper.__init__ (AnyFilter.NoF NoFilter.mk))]
    read_acgt None
  = ([(TooLongReadFilter, Wrapper.incr_filtered wrapper_all);
      (NoFilter, SingleWrapper.__init__ (AnyFilter.NoF NoFilter.mk))],
     Ret TooLongReadFilter).
Proof. vm_compute. reflexivity. Qed.

(** The machine on that example: one step, and the pair is discarded by the
    first filter. *)
Example machine_always_before_never :
  step read_acgt None
    (initial [(TooLongReadFilter, wrapper_all);
              (NoFilter, SingleWrapper.__init__ (AnyFilter.NoF NoFilter.mk))])
    (mk_config [(TooLongReadFilter, Wrapper.incr_filtered wrapper_all)]
       [(NoFilter, SingleWrapper.__init__ (AnyFilter.NoF NoFilter.mk))]
       (Discarded TooLongReadFilter)).
Proof.
  exact (step_call read_acgt None [] TooLongReadFilter wrapper_all
           [(NoFilter, SingleWrapper.__init__ (AnyFilter.NoF NoFilter.mk))]).
Qed.
