(* ===== verification/Runs.v ===== *)
(** * Runs: a filter chain over the pairs of a run

    The caller of [Filters.filter] passes every pair of the input through the
    chain, in order, and asks for [summarize] at the end.  [filter_all] is
    that loop.  For pure predicates its outcome has a closed form, the sieve
    [credited]: the first wrapper counts the pairs it discards, the wrappers
    behind it see the pairs it kept.  Dictionaries that differ in their
    counters only ([same_chain]) give every pair the same disposition, so
    that the dispositions of a run are those of the dictionary it starts
    with.  The section on the module's own classes shows that every chain a
    program can build has distinct display names, so that the summary has
    one entry per configured class. *)

From stdpp Require Import gmap strings list relations.
From S2P Require Import Prelude Reads Predicates Wrappers Chain.

(** ** One pass per pair, in order *)

Fixpoint filter_all `{EqDecision K} `{FilterClass K Args F} `{!ReadFilter F}
    (pairs : list (Read.t * option Read.t)) : Py (Filters.t K F) (list K) :=
  match pairs with
  | [] => ret []
  | (r, o) :: rest =>
      d <- Filters.filter r o ;;
      ds <- filter_all rest ;;
      ret (d :: ds)
  end.

Definition add_filtered {F} (n : nat) (w : Wrapper.t F) : Wrapper.t F :=
  Wrapper.mk (n + Wrapper.filtered w) (Wrapper.filter w) (Wrapper.cls w).

Section runs.
Context `{EqDecision K} `{FilterClass K Args F} `{!ReadFilter F} `{!PureFilter F}.
Implicit Types (items : list (K * Wrapper.t F)) (w : Wrapper.t F) (k : K).
Implicit Types (r : Read.t) (o : option Read.t) (self : Filters.t K F).
Implicit Types (pairs : list (Read.t * option Read.t)).

Lemma add_filtered_callable n w : callable w → callable (add_filtered n w).
Proof. by destruct w. Qed.

Lemma add_filtered_incr n w :
  add_filtered n (Wrapper.incr_filtered w) = add_filtered (S n) w.
Proof. unfold add_filtered. simpl. f_equal. lia. Qed.

Lemma discards_add_filtered n r o w : discards r o (add_filtered n w) = discards r o w.
Proof. done. Qed.

(** A filter that discards every pair, placed first, takes every pair: all
    dispositions name it, its counter is the number of pairs, and every filter
    behind it is left exactly as it was. *)
Lemma first_filter_shadows k w items fac pairs :
  callable w → (∀ r o, discards r o w = true) →
  filter_all pairs (Filters.mk ((k, w) :: items) fac)
  = (Filters.mk ((k, add_filtered (length pairs) w) :: items) fac,
     Ret (replicate (length pairs) k)).
Proof.
  intros Hw Hd. revert w Hw Hd. induction pairs as [|[r o] pairs IH]; intros w Hw Hd.
  - by destruct w.
  - simpl. unfold bind at 1. unfold Filters.filter. simpl.
    rewrite call_pure_spec, Hd by done. simpl.
    unfold Filters.set_filters. simpl. unfold bind.
    rewrite (IH (Wrapper.incr_filtered w)); [|by apply incr_filtered_callable|done].
    unfold ret. by rewrite add_filtered_incr.
Qed.
End runs.

(** ** A run as a sieve

    For pure predicates the counters do not influence the answers, so the
    outcome of a run can be told from the dictionary it starts with: the
    first wrapper counts the pairs it discards, and the wrappers behind it
    see the pairs it kept.  Dictionaries that differ in the counters only
    ([same_chain]) give every pair the same disposition. *)

(** The same wrapper object but for the counter. *)
Definition same_filter {F} : relation (Wrapper.t F) :=
  λ w w', Wrapper.filter w = Wrapper.filter w' ∧ Wrapper.cls w = Wrapper.cls w'.

Definition same_entry {K F} : relation (K * Wrapper.t F) :=
  λ a b, a.1 = b.1 ∧ same_filter a.2 b.2.

Definition same_chain {K F} : relation (list (K * Wrapper.t F)) := Forall2 same_entry.

(** The pairs that a wrapper discards, and those it keeps. *)
Definition discarded_by `{ReadFilter F} (w : Wrapper.t F)
    (pairs : list (Read.t * option Read.t)) : list (Read.t * option Read.t) :=
  filter (λ p, discards p.1 p.2 w = true) pairs.

Definition kept_by `{ReadFilter F} (w : Wrapper.t F)
    (pairs : list (Read.t * option Read.t)) : list (Read.t * option Read.t) :=
  filter (λ p, discards p.1 p.2 w = false) pairs.

(** The dictionary after a run over [pairs]. *)
Fixpoint credited `{ReadFilter F} {K} (items : list (K * Wrapper.t F))
    (pairs : list (Read.t * option Read.t)) : list (K * Wrapper.t F) :=
  match items with
  | [] => []
  | (k, w) :: rest =>
      (k, add_filtered (length (discarded_by w pairs)) w) :: credited rest (kept_by w pairs)
  end.

(** The dispositions of a run over [pairs]. *)
Definition dispositions `{FilterClass K Args F} `{!ReadFilter F}
    (items : list (K * Wrapper.t F)) (pairs : list (Read.t * option Read.t)) : list K :=
  (λ p, (filter_spec p.1 p.2 items).2) <$> pairs.

(** The pairs that some wrapper of the dictionary discards. *)
Definition discarded `{ReadFilter F} {K} (items : list (K * Wrapper.t F))
    (pairs : list (Read.t * option Read.t)) : list (Read.t * option Read.t) :=
  filter (λ p, existsb (λ kw, discards p.1 p.2 kw.2) items = true) pairs.

(** The names under which [summarize] files the wrappers. *)
Definition names `{ReadFilter F} {K} (items : list (K * Wrapper.t F)) : list string :=
  (λ kw, FilterWrapper.name kw.2) <$> items.

Section same.
Context `{ReadFilter F} {K : Type}.
Implicit Types (w : Wrapper.t F) (items : list (K * Wrapper.t F)).

#[export] Instance same_filter_equiv : Equivalence (same_filter (F := F)).
Proof.
  split; [done| |]; unfold same_filter.
  - by intros w1 w2 [-> ->].
  - by intros w1 w2 w3 [-> ->] [-> ->].
Qed.

#[export] Instance same_entry_equiv : Equivalence (same_entry (K := K) (F := F)).
Proof.
  split; [done| |]; unfold same_entry.
  - by intros a b [-> ->].
  - by intros a b c [-> ->] [-> ->].
Qed.

#[export] Instance same_chain_equiv : Equivalence (same_chain (K := K) (F := F)).
Proof. apply _. Qed.

#[export] Instance discards_proper r o : Proper (same_filter ==> eq) (discards (F := F) r o).
Proof. intros w w' [Hf Hc]. unfold discards. by rewrite Hf, Hc. Qed.

Lemma add_filtered_0 w : add_filtered 0 w = w.
Proof. by destruct w. Qed.
End same.

Section sieve.
Context `{EqDecision K} `{FilterClass K Args F} `{!ReadFilter F} `{!PureFilter F}.
Implicit Types (items : list (K * Wrapper.t F)) (w : Wrapper.t F) (k : K).
Implicit Types (r : Read.t) (o : option Read.t) (self : Filters.t K F).
Implicit Types (pairs : list (Read.t * option Read.t)).

#[export] Instance filter_spec_proper r o :
  Proper (same_chain ==> eq) (λ items, (filter_spec r o items).2).
Proof.
  intros items items' Hs. induction Hs as [|[k w] [k' w'] items items' [Hk Hw] _ IH]; [done|].
  simpl in *. subst k'. rewrite !filter_spec_cons, <- Hw. by destruct (discards r o w).
Qed.

Lemma filter_spec_same r o items : same_chain items (filter_spec r o items).1.
Proof.
  induction items as [|[k w] items IH]; [constructor|].
  rewrite filter_spec_cons. destruct (discards r o w); simpl.
  - constructor; [done|reflexivity].
  - by constructor.
Qed.

Lemma dispositions_proper_chain pairs :
  Proper (same_chain ==> eq) (λ items, dispositions items pairs).
Proof.
  intros items items' Hs. unfold dispositions. apply list_fmap_ext. intros _ [r o] _.
  by apply filter_spec_proper.
Qed.

Lemma discarded_by_cons r o w pairs :
  discarded_by w ((r, o) :: pairs)
  = if discards r o w then (r, o) :: discarded_by w pairs else discarded_by w pairs.
Proof. unfold discarded_by. rewrite filter_cons. simpl. by destruct (discards r o w). Qed.

Lemma kept_by_cons r o w pairs :
  kept_by w ((r, o) :: pairs)
  = if discards r o w then kept_by w pairs else (r, o) :: kept_by w pairs.
Proof. unfold kept_by. rewrite filter_cons. simpl. by destruct (discards r o w). Qed.

Lemma credited_nil items : credited items [] = items.
Proof.
  induction items as [|[k w] items IH]; [done|]. cbn [credited].
  unfold kept_by, discarded_by. rewrite !filter_nil. fold (kept_by w []).
  cbn [length]. by rewrite IH, add_filtered_0.
Qed.

(** One pass, then the sieve of the rest, is the sieve of the whole run. *)
Lemma credited_cons r o items pairs :
  credited (filter_spec r o items).1 pairs = credited items ((r, o) :: pairs).
Proof.
  revert pairs. induction items as [|[k w] items IH]; intros pairs; [done|].
  rewrite filter_spec_cons. cbn [credited]. rewrite discarded_by_cons, kept_by_cons.
  destruct (discards r o w) eqn:Hd; cbn [fst credited].
  - cbn [length]. by rewrite <- add_filtered_incr.
  - by rewrite IH.
Qed.

Lemma credited_callable items pairs :
  Forall (λ kw, callable kw.2) items → Forall (λ kw, callable kw.2) (credited items pairs).
Proof.
  intros Hok. revert pairs. induction Hok as [|[k w] items Hw _ IH]; intros pairs; [done|].
  constructor; [by apply add_filtered_callable|apply IH].
Qed.

Lemma credited_same items pairs : same_chain items (credited items pairs).
Proof.
  revert pairs. induction items as [|[k w] items IH]; intros pairs; [constructor|].
  constructor; [done|apply IH].
Qed.

(** A run over pure predicates is the sieve: the dispositions are those of
    the dictionary the run starts with. *)
Lemma filter_all_sieve pairs self :
  Forall (λ kw, callable kw.2) (Filters.filters self) →
  filter_all pairs self
  = (Filters.set_filters (credited (Filters.filters self) pairs) self,
     Ret (dispositions (Filters.filters self) pairs)).
Proof.
  revert self. induction pairs as [|[r o] pairs IH]; intros [items fac] Hok; simpl in *.
  { by rewrite credited_nil. }
  unfold bind at 1, Filters.filter at 1. cbn [Filters.filters].
  rewrite scan_refines by done. cbn [fst snd Filters.set_filters].
  unfold bind. simpl. rewrite IH; simpl.
  - unfold ret, Filters.set_filters. simpl. rewrite credited_cons. do 3 f_equal.
    symmetry. apply dispositions_proper_chain, filter_spec_same.
  - pose proof (credited_callable items [(r, o)] Hok) as Hc.
    by rewrite <- credited_cons, credited_nil in Hc.
Qed.

(** ** Conservation: every discarded pair is counted once *)

Lemma discarded_pair items r o pairs :
  discarded items ((r, o) :: pairs)
  = if existsb (λ kw, discards r o kw.2) items
    then (r, o) :: discarded items pairs else discarded items pairs.
Proof. unfold discarded. rewrite filter_cons. simpl. by destruct (existsb _ items). Qed.

Lemma discarded_nil pairs : discarded (K := K) [] pairs = [].
Proof. induction pairs as [|[r o] pairs IH]; [done|]. by rewrite discarded_pair. Qed.

Lemma discarded_cons k w items pairs :
  length (discarded ((k, w) :: items) pairs)
  = length (discarded_by w pairs) + length (discarded items (kept_by w pairs)).
Proof.
  induction pairs as [|[r o] pairs IH]; [done|].
  rewrite discarded_pair, discarded_by_cons, kept_by_cons. cbn [existsb snd].
  destruct (discards r o w); cbn [orb length]; [lia|].
  rewrite discarded_pair. destruct (existsb _ items); cbn [length]; lia.
Qed.

Lemma total_filtered_credited items pairs :
  total_filtered (credited items pairs) = total_filtered items + length (discarded items pairs).
Proof.
  revert pairs. induction items as [|[k w] items IH]; intros pairs.
  - by rewrite discarded_nil.
  - cbn [credited]. rewrite !total_filtered_cons, IH, discarded_cons. simpl. lia.
Qed.

(** The dispositions that name a filter are those of the discarded pairs,
    unless a wrapper is filed under the class [NoFilter] itself. *)
Lemma filter_spec_no_filter r o items :
  no_filter ∉ items.*1 →
  (filter_spec r o items).2 = no_filter ↔ existsb (λ kw, discards r o kw.2) items = false.
Proof.
  induction items as [|[k w] items IH]; [done|].
  rewrite fmap_cons, not_elem_of_cons, filter_spec_cons. cbn [existsb fst snd].
  intros [Hk Hno]. destruct (discards r o w); cbn [orb snd]; [|by apply IH].
  split; [by intros ->|done].
Qed.

Lemma dispositions_discarded items pairs :
  no_filter ∉ items.*1 →
  length (filter (λ k, k ≠ no_filter) (dispositions items pairs))
  = length (discarded items pairs).
Proof.
  intros Hno. induction pairs as [|[r o] pairs IH]; [done|].
  unfold dispositions in *. rewrite fmap_cons, filter_cons, discarded_pair. cbn [fst snd].
  pose proof (filter_spec_no_filter r o items Hno) as Hiff.
  destruct (existsb _ items); case_decide as Hd; cbn [length]; rewrite ?IH; try done.
  - by apply Hiff in Hd.
  - destruct Hd. by apply Hiff.
Qed.

(** C17: A run over pure predicates returns one disposition per pair, and the
    sum of the counters after it is the sum before it plus the number of
    pairs whose disposition names a filter: every discarded pair is counted
    once, by one wrapper, and no kept pair is counted. *)
Theorem run_counts_discards pairs self :
  Forall (λ kw, callable kw.2) (Filters.filters self) →
  no_filter ∉ (Filters.filters self).*1 →
  ∃ ds, (filter_all pairs self).2 = Ret ds ∧ length ds = length pairs
    ∧ total_filtered (Filters.filters (filter_all pairs self).1)
      = total_filtered (Filters.filters self) + length (filter (λ k, k ≠ no_filter) ds).
Proof.
  intros Hok Hno. rewrite filter_all_sieve by done. eexists. split; [done|].
  unfold dispositions at 1. rewrite length_fmap. split; [done|]. simpl.
  by rewrite total_filtered_credited, dispositions_discarded.
Qed.

(** ** The summary of a run *)

#[export] Instance name_proper : Proper (same_filter ==> eq) (FilterWrapper.name (F := F)).
Proof. intros w w' [Hf _]. unfold FilterWrapper.name. by rewrite Hf. Qed.

#[export] Instance names_proper : Proper (same_chain ==> eq) (names (K := K) (F := F)).
Proof.
  intros items items' Hs. unfold names.
  induction Hs as [|a b items items' [_ Hw] _ IH]; [done|].
  rewrite !fmap_cons. f_equal; [by apply name_proper|done].
Qed.

(** With distinct names the summary has one entry per wrapper, in the order
    of the dictionary. *)
Lemma summarize_distinct self :
  NoDup (names (Filters.filters self)) →
  Filters.summarize self
  = (λ kw, (FilterWrapper.name kw.2, [("records_filtered"%string, Wrapper.filtered kw.2)]))
      <$> Filters.filters self.
Proof.
  intros Hnd. unfold Filters.summarize.
  rewrite (foldl_od_set_fresh (λ kw, FilterWrapper.name kw.2)); [done..|].
  intros x _. apply not_elem_of_nil.
Qed.

(** The summary after a run names every configured filter once, in
    configuration order, with the number of pairs that reached it and that it
    discarded added to its counter. *)
Lemma summarize_after_run pairs self :
  Forall (λ kw, callable kw.2) (Filters.filters self) →
  NoDup (names (Filters.filters self)) →
  Filters.summarize (filter_all pairs self).1
  = (λ kw, (FilterWrapper.name kw.2, [("records_filtered"%string, Wrapper.filtered kw.2)]))
      <$> credited (Filters.filters self) pairs.
Proof.
  intros Hok Hnd. rewrite filter_all_sieve by done. cbn [fst].
  rewrite summarize_distinct; [done|]. cbn [Filters.filters Filters.set_filters].
  by rewrite <- (credited_same (Filters.filters self) pairs).
Qed.
End sieve.

(** ** Chains of the classes of the module *)

(** The name a class is summarised under: its [name] attribute, or the name
    of the class. *)
Definition display_name (cls : filter_type) : string :=
  match cls with
  | TooShortReadFilter => TooShortReadFilter.name
  | TooLongReadFilter => TooLongReadFilter.name
  | NContentFilter => NContentFilter.name
  | NoFilter => NoFilter.name
  | cls => AnyFilter.class_name_of cls
  end.

(** Every wrapper holds an instance of the class it is filed under. *)
Definition typed (items : list (filter_type * Wrapper.t AnyFilter.t)) : Prop :=
  Forall (λ kw, AnyFilter.type_of (Wrapper.filter kw.2) = kw.1) items.

(** The chains a program reaches from the constructor. *)
Inductive built : Filters.t filter_type AnyFilter.t → Prop :=
  | built_init fac : built (Filters.__init__ fac)
  | built_add k a self : built self → built (Filters.add_filter k a self).1
  | built_filter r o self : built self → built (Filters.filter r o self).1.

Section built.
Implicit Types (items : list (filter_type * Wrapper.t AnyFilter.t)).
Implicit Types (w : Wrapper.t AnyFilter.t) (self : Filters.t filter_type AnyFilter.t).
Implicit Types (pairs : list (Read.t * option Read.t)).

#[export] Instance display_name_inj : Inj (=) (=) display_name.
Proof. intros [] []; done. Qed.

Lemma name_display w :
  FilterWrapper.name w = display_name (AnyFilter.type_of (Wrapper.filter w)).
Proof. by destruct w as [n [] c]. Qed.

#[export] Instance typed_proper : Proper (same_chain ==> iff) typed.
Proof.
  assert (∀ items items', same_chain items items' → typed items → typed items') as Himp.
  { intros items items' Hs. unfold typed.
    induction Hs as [|a b items items' [Hk [Hf _]] _ IH]; [done|].
    rewrite !Forall_cons, <- Hk, <- Hf. tauto. }
  intros items items' Hs. split; apply Himp; [done|by symmetry].
Qed.

Lemma typed_names items : typed items → names items = display_name <$> items.*1.
Proof.
  unfold names. induction 1 as [|[k w] items Hk _ IH]; [done|].
  rewrite !fmap_cons, IH, name_display. simpl in *. by rewrite Hk.
Qed.

Lemma typed_names_NoDup items : NoDup items.*1 → typed items → NoDup (names items).
Proof. intros Hnd ->%typed_names. by apply (NoDup_fmap_2 _). Qed.

(** Construction and passes keep the dictionary well formed and typed. *)
Lemma built_ok self :
  built self → chain_ok (Filters.filters self) ∧ typed (Filters.filters self).
Proof.
  induction 1 as [fac|k a self _ [[Hnd Hc] Ht]|r o self _ [[Hnd Hc] Ht]].
  - by repeat split; constructor.
  - rewrite add_filter_run.
    destruct (FilterFactory.__call__ _ k a) as [w|e] eqn:Hw; [|done]. simpl.
    pose proof (factory_builds _ _ _ _ Hw) as (_ & _ & Hcons & _).
    repeat split.
    + by apply od_set_NoDup.
    + apply od_set_Forall; [|done]. by apply (factory_callable _ _ _ _ Hw).
    + apply od_set_Forall; [|done]. by apply (construct_type _ a).
  - unfold Filters.filter. rewrite scan_refines by done. simpl. split.
    + by apply filter_spec_ok.
    + by rewrite <- (filter_spec_same r o (Filters.filters self)).
Qed.

(** The summary after a run of a chain that was built with [add_filter]:
    one entry for every configured class, in configuration order, under the
    display name of the class, holding the counter that the sieve gives the
    class: the pairs it discarded among those that every class before it
    kept. *)
Lemma built_summarize pairs self :
  built self →
  Filters.summarize (filter_all pairs self).1
  = (λ kw, (display_name kw.1, [("records_filtered"%string, Wrapper.filtered kw.2)]))
      <$> credited (Filters.filters self) pairs.
Proof.
  intros [[Hnd Hc] Ht]%built_ok.
  rewrite summarize_after_run by auto using typed_names_NoDup.
  apply Forall_fmap_ext_1. rewrite (credited_same _ pairs) in Ht.
  eapply Forall_impl; [exact Ht|]. intros [k w] Hk. by rewrite name_display, Hk.
Qed.
End built.

(** ** Instances of the theorems on a concrete chain *)

Lemma first_filter_shadows_witness :
  filter_all [(read_acgt, None); (read_2n, Some read_acgt)]
    (Filters.mk [(TooLongReadFilter, wrapper_all); (NContentFilter, wrapper_n)]
       (FilterFactory.__init__ None 1))
  = (Filters.mk [(TooLongReadFilter, add_filtered 2 wrapper_all); (NContentFilter, wrapper_n)]
       (FilterFactory.__init__ None 1),
     Ret [TooLongReadFilter; TooLongReadFilter]).
Proof.
  apply (first_filter_shadows TooLongReadFilter wrapper_all [(NContentFilter, wrapper_n)]
           (FilterFactory.__init__ None 1) [(read_acgt, None); (read_2n, Some read_acgt)]);
    [by split | exact wrapper_all_discards].
Defined.

(** A run of four pairs through the chain: two are too short, one has too
    many N, one is kept. *)
Definition run_pairs : list (Read.t * option Read.t) :=
  [(read_acgt, Some read_2n); (read_2n, Some read_2n);
   (Read.of_seq "ACGTAC", Some (Read.of_seq "ACGTAC")); (read_acgt, None)].

Lemma chain_short_n_built : built chain_short_n.
Proof.
  exact (built_add NContentFilter (NumArg (QArith_base.Qmake 1 10)) _
           (built_add TooShortReadFilter (IntArg 5) _
              (built_init (FilterFactory.__init__ (Some "both") 1)))).
Qed.

Lemma run_counts_discards_witness :
  ∃ ds, (filter_all run_pairs chain_short_n).2 = Ret ds ∧ length ds = length run_pairs
    ∧ total_filtered (Filters.filters (filter_all run_pairs chain_short_n).1)
      = total_filtered (Filters.filters chain_short_n)
        + length (filter (λ k, k ≠ no_filter) ds).
Proof.
  apply run_counts_discards; [exact chain_short_n_callable|].
  rewrite chain_short_n_items. cbn [fmap list_fmap fst].
  repeat (apply not_elem_of_cons; split; [done|]). apply not_elem_of_nil.
Defined.

Lemma built_summarize_witness :
  Filters.summarize (filter_all run_pairs chain_short_n).1
  = [("too_short", [("records_filtered", 2)]);
     ("too_many_n", [("records_filtered", 1)])]%string.
Proof. exact (built_summarize run_pairs chain_short_n chain_short_n_built). Defined.

Example run_dispositions :
  (filter_all run_pairs chain_short_n).2
  = Ret [TooShortReadFilter; NContentFilter; NoFilter; TooShortReadFilter].
Proof. vm_compute. reflexivity. Qed.

(** A wrapper filed under [NoFilter] in a paired run discards a read without
    a mate: the disposition is [NoFilter], as for a pair that is kept, and
    the counter moves. *)
Example no_filter_entry_counts :
  filter_all [(read_acgt, None)]
    ((Filters.add_filter NoFilter NoArgs) chain_empty).1
  = (Filters.set_filters
       [(NoFilter, Wrapper.mk 1 (AnyFilter.NoF NoFilter.mk) (Wrapper.PairedWrapper 1))]
       chain_empty,
     Ret [NoFilter]).
Proof. vm_compute. reflexivity. Qed.
