(* ===== verification/Counting.v ===== *)
(** * Counting: [CountingDict], [NestedDict] and sorted enumeration

    [atropos.util] is not part of the sources, so its two dictionary classes
    are modelled from the specification: a [CountingDict] is a frequency
    table whose missing keys read as zero, a [NestedDict] maps a key to a
    [CountingDict] that it creates on first access.  Both are finite maps.
    [NestedDict.flatten] is the wide table of the specification: the inner
    keys as a header, a row of counts per outer key.
    [PyOrd] is the order Python's [sorted] uses on the keys that occur:
    integers, characters and strings. *)

From Stdlib Require Import Ascii.
From stdpp Require Import gmap strings list sorting.
From S2P Require Import Prelude.

(** ** The order of [sorted] *)

Class PyOrd (K : Type) : Type := {
  key_le : relation K;
  key_le_dec :: RelDecision key_le;
  key_le_po :: PartialOrder key_le;
  key_le_total :: Total key_le;
}.

(** [sorted(l)]. *)
Definition py_sorted `{PyOrd K} (l : list K) : list K := merge_sort key_le l.

#[export] Instance nat_py_ord : PyOrd nat := {| key_le := le |}.

(** Characters compare by code point. *)
Definition ascii_le (a b : ascii) : Prop := nat_of_ascii a ≤ nat_of_ascii b.

#[export] Instance ascii_le_dec : RelDecision ascii_le.
Proof. intros a b. unfold ascii_le. apply _. Defined.

#[export] Instance ascii_le_po : PartialOrder ascii_le.
Proof.
  unfold ascii_le. split; [split|].
  - by intros a.
  - intros a b c. lia.
  - intros a b H1 H2.
    rewrite <- (ascii_nat_embedding a), <- (ascii_nat_embedding b). f_equal. lia.
Qed.

#[export] Instance ascii_le_total : Total ascii_le.
Proof. intros a b. unfold ascii_le. lia. Qed.

#[export] Instance ascii_py_ord : PyOrd ascii := {| key_le := ascii_le |}.

(** Strings compare lexicographically, character by character. *)
Fixpoint string_le (s1 s2 : string) : Prop :=
  match s1, s2 with
  | EmptyString, _ => True
  | String _ _, EmptyString => False
  | String a s1', String b s2' =>
      nat_of_ascii a < nat_of_ascii b ∨ (a = b ∧ string_le s1' s2')
  end.

#[export] Instance string_le_dec : RelDecision string_le.
Proof.
  intros s1. induction s1 as [|a s1 IH]; intros [|b s2]; simpl; apply _.
Defined.

#[export] Instance string_le_po : PartialOrder string_le.
Proof.
  split; [split|].
  - intros s. induction s; simpl; auto.
  - intros s1. induction s1 as [|a s1 IH]; intros [|b s2] [|c s3]; simpl; try done.
    intros [? | [-> ?]] [? | [-> ?]]; eauto with lia.
  - intros s1. induction s1 as [|a s1 IH]; intros [|b s2]; simpl; try done.
    intros [? | [-> ?]] [? | [? ?]]; simplify_eq; try lia. f_equal. auto.
Qed.

#[export] Instance string_le_total : Total string_le.
Proof.
  intros s1. induction s1 as [|a s1 IH]; intros [|b s2]; simpl; auto.
  destruct (decide (a = b)) as [-> | Hne]; [destruct (IH s2); auto 6|].
  assert (nat_of_ascii a ≠ nat_of_ascii b).
  { intros E. apply Hne. rewrite <- (ascii_nat_embedding a), <- (ascii_nat_embedding b).
    by f_equal. }
  destruct (decide (nat_of_ascii a < nat_of_ascii b)); [by left; left | right; left; lia].
Qed.

#[export] Instance string_py_ord : PyOrd string := {| key_le := string_le |}.

Section sorted.
Context `{PyOrd K}.
Implicit Types (l : list K) (k : K).

Lemma py_sorted_perm l : py_sorted l ≡ₚ l.
Proof. apply merge_sort_Permutation. Qed.

Lemma py_sorted_sorted l : StronglySorted key_le (py_sorted l).
Proof. apply StronglySorted_merge_sort; apply _. Qed.

Lemma elem_of_py_sorted k l : k ∈ py_sorted l ↔ k ∈ l.
Proof. by rewrite py_sorted_perm. Qed.

Lemma length_py_sorted l : length (py_sorted l) = length l.
Proof. by rewrite py_sorted_perm. Qed.

Lemma NoDup_py_sorted l : NoDup l → NoDup (py_sorted l).
Proof. by rewrite py_sorted_perm. Qed.

(** The result depends on the elements only, not on the order they come in. *)
Lemma py_sorted_unique l1 l2 : l1 ≡ₚ l2 → py_sorted l1 = py_sorted l2.
Proof.
  intros Hp. apply (StronglySorted_unique key_le); try apply py_sorted_sorted.
  by rewrite !py_sorted_perm.
Qed.
End sorted.

(** ** [CountingDict] *)

Module CountingDict.
Section defs.
Context `{Countable K}.
Implicit Types (d : gmap K nat) (k : K).

(** [d[k]]: the count, zero for a key that was never counted. *)
Definition __getitem__ (d : gmap K nat) (k : K) : nat := default 0 (d !! k).

(** [d[k] += 1]. *)
Definition incr (k : K) (d : gmap K nat) : gmap K nat := <[k := S (__getitem__ d k)]> d.

(** [d.keys()], in an order of the dictionary's own. *)
Definition keys (d : gmap K nat) : gset K := dom d.

(** The number of occurrences counted, over all keys. *)
Definition total (d : gmap K nat) : nat := sum_list (snd <$> map_to_list d).

(** [d.sorted_items()]: the items by increasing key. *)
Definition sorted_items `{!PyOrd K} (d : gmap K nat) : list (K * nat) :=
  (λ k, (k, __getitem__ d k)) <$> py_sorted (elements (dom d)).
End defs.
End CountingDict.

(** ** [NestedDict]: key to [CountingDict], created on first access *)

Module NestedDict.
Section defs.
Context `{Countable K1} `{Countable K2}.
Implicit Types (d : gmap K1 (gmap K2 nat)).

(** [d[k1]]: the inner dictionary, which is stored if it was absent. *)
Definition __getitem__ (k1 : K1) : Py (gmap K1 (gmap K2 nat)) (gmap K2 nat) :=
  λ d, match d !! k1 with
       | Some c => (d, Ret c)
       | None => (<[k1 := ∅]> d, Ret ∅)
       end.

(** [d[k1][k2] += 1]. *)
Definition incr (k1 : K1) (k2 : K2) (d : gmap K1 (gmap K2 nat)) : gmap K1 (gmap K2 nat) :=
  <[k1 := CountingDict.incr k2 (default ∅ (d !! k1))]> d.

Definition total (d : gmap K1 (gmap K2 nat)) : nat :=
  sum_list ((λ kv, CountingDict.total kv.2) <$> map_to_list d).

(** The inner keys of all outer keys, sorted. *)
Definition columns `{!PyOrd K2} (d : gmap K1 (gmap K2 nat)) : list K2 :=
  py_sorted (elements (⋃ (dom <$> (map_to_list d).*2) : gset K2)).

(** [d.flatten(shape="wide")], a flattened table as the specification
    describes it: the header lists the inner keys in order, and there is one
    row per outer key, in order, which holds the key and the count of every
    key of the header, zero where the outer key has not seen it. *)
Definition flatten `{!PyOrd K1, !PyOrd K2} (d : gmap K1 (gmap K2 nat))
    : list K2 * list (K1 * list nat) :=
  let keys2 := columns d in
  (keys2,
   (λ k1, (k1, (λ k2, CountingDict.__getitem__ (default ∅ (d !! k1)) k2) <$> keys2))
     <$> py_sorted (elements (dom d))).
End defs.
End NestedDict.

(** ** Frequency tables count *)

Section counting_dict.
Context `{Countable K}.
Implicit Types (d : gmap K nat) (k : K).

Lemma getitem_empty k : CountingDict.__getitem__ (∅ : gmap K nat) k = 0.
Proof. unfold CountingDict.__getitem__. by rewrite lookup_empty. Qed.

Lemma getitem_incr k k' d :
  CountingDict.__getitem__ (CountingDict.incr k d) k'
  = CountingDict.__getitem__ d k' + (if decide (k = k') then 1 else 0).
Proof.
  unfold CountingDict.incr, CountingDict.__getitem__.
  rewrite lookup_insert. case_decide; simplify_eq; simpl; lia.
Qed.

Lemma keys_incr k d : CountingDict.keys (CountingDict.incr k d) = {[k]} ∪ CountingDict.keys d.
Proof. unfold CountingDict.keys, CountingDict.incr. apply dom_insert_L. Qed.

Lemma total_empty : CountingDict.total (∅ : gmap K nat) = 0.
Proof. unfold CountingDict.total. by rewrite map_to_list_empty. Qed.

Lemma total_insert k n d :
  CountingDict.total (<[k := n]> d) + CountingDict.__getitem__ d k = CountingDict.total d + n.
Proof.
  unfold CountingDict.total, CountingDict.__getitem__.
  assert (map_to_list (<[k:=n]> d) ≡ₚ (k, n) :: map_to_list (delete k d)) as ->.
  { rewrite <- insert_delete_eq. apply map_to_list_insert, lookup_delete_eq. }
  rewrite fmap_cons. destruct (d !! k) as [v|] eqn:E; simpl.
  - rewrite <- (map_to_list_delete d k v E), fmap_cons. simpl. lia.
  - rewrite delete_id by done. lia.
Qed.

(** Every increment is one more occurrence. *)
Lemma total_incr k d : CountingDict.total (CountingDict.incr k d) = S (CountingDict.total d).
Proof. unfold CountingDict.incr. pose proof (total_insert k (S (CountingDict.__getitem__ d k)) d). lia. Qed.

(** No key counts more than the whole table. *)
Lemma getitem_le_total k d : CountingDict.__getitem__ d k ≤ CountingDict.total d.
Proof.
  unfold CountingDict.__getitem__, CountingDict.total.
  destruct (d !! k) as [v|] eqn:E; simpl; [|lia].
  rewrite <- (map_to_list_delete d k v E), fmap_cons. simpl. lia.
Qed.

(** A key is present exactly when it was counted at least once, provided no
    stored count is zero; [incr] keeps that. *)
Definition positive (d : gmap K nat) : Prop := ∀ k v, d !! k = Some v → 0 < v.

Lemma positive_empty : positive (∅ : gmap K nat).
Proof. intros k v. by rewrite lookup_empty. Qed.

Lemma positive_incr k d : positive d → positive (CountingDict.incr k d).
Proof.
  intros Hd k' v. unfold CountingDict.incr. rewrite lookup_insert.
  case_decide; [intros [= <-]; lia | apply Hd].
Qed.

Lemma positive_keys k d : positive d → k ∈ CountingDict.keys d ↔ 0 < CountingDict.__getitem__ d k.
Proof.
  intros Hd. unfold CountingDict.keys, CountingDict.__getitem__. rewrite elem_of_dom.
  destruct (d !! k) as [v|] eqn:E; simpl; split; try done; try lia.
  intros _. by apply (Hd k).
Qed.
End counting_dict.

(** ** Nested tables count *)

Section nested_dict.
Context `{Countable K1} `{Countable K2}.
Implicit Types (d : gmap K1 (gmap K2 nat)) (c : gmap K2 nat).

Lemma nested_total_empty : NestedDict.total (∅ : gmap K1 (gmap K2 nat)) = 0.
Proof. unfold NestedDict.total. by rewrite map_to_list_empty. Qed.

(** Storing an inner table replaces the occurrences of the one it had. *)
Lemma nested_total_insert k c d :
  NestedDict.total (<[k := c]> d) + CountingDict.total (default ∅ (d !! k))
  = NestedDict.total d + CountingDict.total c.
Proof.
  unfold NestedDict.total.
  assert (map_to_list (<[k:=c]> d) ≡ₚ (k, c) :: map_to_list (delete k d)) as ->.
  { rewrite <- insert_delete_eq. apply map_to_list_insert, lookup_delete_eq. }
  rewrite fmap_cons. destruct (d !! k) as [c'|] eqn:E; simpl.
  - rewrite <- (map_to_list_delete d k c' E), fmap_cons. simpl. lia.
  - rewrite delete_id, total_empty by done. lia.
Qed.

(** Every increment is one more occurrence. *)
Lemma nested_total_incr k k2 d :
  NestedDict.total (NestedDict.incr k k2 d) = S (NestedDict.total d).
Proof.
  unfold NestedDict.incr.
  pose proof (nested_total_insert k (CountingDict.incr k2 (default ∅ (d !! k))) d) as Hi.
  rewrite total_incr in Hi. lia.
Qed.

(** An empty inner table that an access has stored counts nothing. *)
Lemma nested_total_touch k d :
  d !! k = None → NestedDict.total (<[k := ∅]> d) = NestedDict.total d.
Proof.
  intros Hk. pose proof (nested_total_insert k ∅ d) as Hi.
  rewrite Hk in Hi. simpl in Hi. rewrite (total_empty (K := K2)) in Hi. lia.
Qed.
End nested_dict.

Section sorted_items.
Context `{Countable K} `{!PyOrd K}.
Implicit Types (d : gmap K nat) (k : K).

Lemma sorted_items_keys d :
  (CountingDict.sorted_items d).*1 = py_sorted (elements (dom d)).
Proof.
  unfold CountingDict.sorted_items. rewrite <- list_fmap_compose.
  rewrite <- (list_fmap_id (py_sorted _)) at 2. by apply list_fmap_ext.
Qed.

Lemma sorted_items_NoDup d : NoDup (CountingDict.sorted_items d).*1.
Proof. rewrite sorted_items_keys. apply NoDup_py_sorted, NoDup_elements. Qed.

Lemma elem_of_sorted_items d k n : (k, n) ∈ CountingDict.sorted_items d ↔ d !! k = Some n.
Proof.
  unfold CountingDict.sorted_items, CountingDict.__getitem__.
  rewrite list_elem_of_fmap. setoid_rewrite elem_of_py_sorted.
  setoid_rewrite elem_of_elements. setoid_rewrite elem_of_dom. split.
  - intros (k' & [= -> ->] & [v Hv]). by rewrite Hv.
  - intros Hk. exists k. rewrite Hk. eauto.
Qed.

(** [sorted_items] lists each key once, by increasing key, with its count. *)
Theorem sorted_items_spec d :
  StronglySorted key_le (CountingDict.sorted_items d).*1
  ∧ NoDup (CountingDict.sorted_items d).*1
  ∧ ∀ k n, (k, n) ∈ CountingDict.sorted_items d ↔ d !! k = Some n.
Proof.
  split_and!; [|apply sorted_items_NoDup|apply elem_of_sorted_items].
  rewrite sorted_items_keys. apply py_sorted_sorted.
Qed.
Lemma sorted_items_perm d : CountingDict.sorted_items d ≡ₚ map_to_list d.
Proof.
  apply NoDup_Permutation; [|apply NoDup_map_to_list|].
  - apply (NoDup_fmap_1 fst), sorted_items_NoDup.
  - intros [k n]. by rewrite elem_of_map_to_list, elem_of_sorted_items.
Qed.

(** The counts listed by [sorted_items] add up to the total of the table. *)
Lemma sorted_items_total d :
  sum_list (CountingDict.sorted_items d).*2 = CountingDict.total d.
Proof. unfold CountingDict.total. by rewrite sorted_items_perm. Qed.
End sorted_items.
