(* ===== verification/Dicts.v ===== *)
(** * Dicts: the positional table sets of [stats.py]

    [BaseDicts] is a list of dictionaries, one per read position, that grows
    on demand.  [BaseCountingDicts] holds one frequency table per position and
    [BaseNestedDicts] one tile-to-table dictionary per position; each has a
    [flatten] that turns the set into a header and one row per position.
    The lemmas on the wide table of [NestedDict.flatten] are here as well,
    next to the sums over columns that they share with the others. *)

From Stdlib Require Import Ascii.
From stdpp Require Import gmap strings list sorting.
From S2P Require Import Prelude Reads Counting.

Module BaseDicts.
Record t (D : Type) : Type := mk { dicts : list D }.
Arguments mk {D} dicts.
Arguments dicts {D} _.

Section defs.
Context {D : Type}.

Definition __init__ : t D := mk [].

(** [self.dicts[idx]], for the non-negative indices the callers use. *)
Definition __getitem__ (self : t D) (idx : nat) : outcome D :=
  match dicts self !! idx with
  | Some d => Ret d
  | None => Raise IndexError
  end.

(** Append [size - len] fresh dictionaries when that number is positive. *)
Definition extend (dict_class : D) (size : nat) (self : t D) : t D :=
  let n := (Z.of_nat size - Z.of_nat (length (dicts self)))%Z in
  if decide (n > 0)%Z
  then mk (dicts self ++ replicate (Z.to_nat n) dict_class)
  else self.
End defs.
End BaseDicts.

(** A column of a flattened table: a key as it is, or a Phred score. *)
Inductive header_key : Type :=
  | HKey (c : ascii)
  | HQual (q : Z).

#[export] Instance header_key_eq_dec : EqDecision header_key.
Proof. solve_decision. Defined.

Module BaseCountingDicts.
(** [dict_class = CountingDict]. *)
Definition dict_class : gmap ascii nat := ∅.

Definition extend (size : nat) (self : BaseDicts.t (gmap ascii nat)) : BaseDicts.t (gmap ascii nat) :=
  BaseDicts.extend dict_class size self.

Definition acgt : list ascii := ["A"; "C"; "G"; "T"]%char.

(** The union of the keys of all positions. *)
Definition all_keys (dicts : list (gmap ascii nat)) : gset ascii :=
  ⋃ (dom <$> dicts).

(** The columns: A, C, G, T, then the other observed symbols in the set's
    order, then N if it was observed, for datatype ["n"]; the sorted keys
    otherwise. *)
Definition flatten_keys (datatype : option string) (dicts : list (gmap ascii nat)) : list ascii :=
  let keys := all_keys dicts in
  if decide (datatype = Some "n") then
    let N := if decide ("N"%char ∈ keys) then ["N"%char] else [] in
    acgt ++ elements (keys ∖ list_to_set (acgt ++ N)) ++ N
  else py_sorted (elements keys).

Definition flatten (datatype : option string) (self : BaseDicts.t (gmap ascii nat))
    : list header_key * list (nat * list nat) :=
  let keys := flatten_keys datatype (BaseDicts.dicts self) in
  let header := if decide (datatype = Some "q")
                then (λ k, HQual (qual2int k)) <$> keys
                else HKey <$> keys in
  (header,
   (λ id, (id.1, (λ k, default 0 (id.2 !! k)) <$> keys))
     <$> enumerate 1 (BaseDicts.dicts self)).
End BaseCountingDicts.

Module BaseNestedDicts.
(** [dict_class = NestedDict]. *)
Definition dict_class : gmap string (gmap ascii nat) := ∅.

Definition extend (size : nat) (self : BaseDicts.t (gmap string (gmap ascii nat)))
    : BaseDicts.t (gmap string (gmap ascii nat)) :=
  BaseDicts.extend dict_class size self.

Definition keys1 (dicts : list (gmap string (gmap ascii nat))) : list string :=
  py_sorted (elements (⋃ (dom <$> dicts) : gset string)).

Definition keys2 (dicts : list (gmap string (gmap ascii nat))) : list ascii :=
  py_sorted (elements (⋃ ((λ d1, ⋃ (dom <$> (map_to_list d1).*2)) <$> dicts) : gset ascii)).

(** Reading [d[k1]] stores an empty table for a tile the position has not
    seen; it is read once per column, so not at all without columns. *)
Definition touch (k1s : list string) (k2s : list ascii) (d : gmap string (gmap ascii nat))
    : gmap string (gmap ascii nat) :=
  if decide (k2s = []) then d
  else foldr (λ k1 d, if d !! k1 is None then <[k1 := ∅]> d else d) d k1s.

Definition flatten (datatype : option string)
    : Py (BaseDicts.t (gmap string (gmap ascii nat)))
         (list header_key * list (nat * string * list nat)) :=
  λ self,
    let dicts := BaseDicts.dicts self in
    let keys1 := keys1 dicts in
    let keys2 := keys2 dicts in
    let header := if decide (datatype = Some "q")
                  then (λ k, HQual (qual2int k)) <$> keys2
                  else HKey <$> keys2 in
    let rows :=
      k1 ← keys1;
      (λ id, (id.1, k1, (λ k2, default 0 (default ∅ (id.2 !! k1) !! k2)) <$> keys2))
        <$> enumerate 1 dicts in
    (BaseDicts.mk (touch keys1 keys2 <$> dicts), Ret (header, rows)).
End BaseNestedDicts.

(** ** [extend] *)

Section extend.
Context {D : Type}.
Implicit Types (c : D) (self : BaseDicts.t D) (size i : nat).

Lemma dicts_inj (x y : BaseDicts.t D) : BaseDicts.dicts x = BaseDicts.dicts y → x = y.
Proof. destruct x, y. simpl. by intros ->. Qed.

(** [extend] appends [size - len] fresh tables, and nothing when the set is
    already long enough. *)
Lemma extend_dicts c size self :
  BaseDicts.dicts (BaseDicts.extend c size self)
  = BaseDicts.dicts self ++ replicate (size - length (BaseDicts.dicts self)) c.
Proof.
  unfold BaseDicts.extend. case_decide; simpl.
  - do 2 f_equal. lia.
  - replace (size - _) with 0 by lia. by rewrite app_nil_r.
Qed.

(** The table of position [i] once the set covers it: the one that was
    there, or a fresh one. *)
Lemma extend_lookup c size self i :
  i < size →
  BaseDicts.dicts (BaseDicts.extend c size self) !! i
  = Some (default c (BaseDicts.dicts self !! i)).
Proof.
  intros Hi. rewrite extend_dicts.
  destruct (BaseDicts.dicts self !! i) as [d|] eqn:Hd; simpl.
  - by rewrite lookup_app_l, Hd by by eapply lookup_lt_Some.
  - apply lookup_ge_None in Hd. rewrite lookup_app_r by done.
    by rewrite lookup_replicate_2 by lia.
Qed.

(** The set reaches the requested size and never shrinks. *)
Lemma extend_length c size self :
  length (BaseDicts.dicts (BaseDicts.extend c size self))
  = size `max` length (BaseDicts.dicts self).
Proof. rewrite extend_dicts, length_app, length_replicate. lia. Qed.

Lemma extend_noop c size self :
  size ≤ length (BaseDicts.dicts self) → BaseDicts.extend c size self = self.
Proof. intros. unfold BaseDicts.extend. case_decide; [lia | done]. Qed.

(** The tables that were there are the same objects at the same positions. *)
Lemma extend_lookup_old c size self i :
  i < length (BaseDicts.dicts self) →
  BaseDicts.dicts (BaseDicts.extend c size self) !! i = BaseDicts.dicts self !! i.
Proof. intros. rewrite extend_dicts. by apply lookup_app_l. Qed.

(** The tables that were added are empty. *)
Lemma extend_lookup_new c size self i :
  length (BaseDicts.dicts self) ≤ i < size →
  BaseDicts.dicts (BaseDicts.extend c size self) !! i = Some c.
Proof.
  intros. rewrite extend_dicts, lookup_app_r by lia.
  apply lookup_replicate_2. lia.
Qed.

(** Extending twice is extending to the larger size. *)
Lemma extend_extend c n m self :
  BaseDicts.extend c n (BaseDicts.extend c m self) = BaseDicts.extend c (n `max` m) self.
Proof.
  apply dicts_inj. rewrite !extend_dicts, length_app, length_replicate.
  rewrite <- app_assoc, <- replicate_add. do 2 f_equal. lia.
Qed.

(** After [extend], every position below the size can be read. *)
Lemma getitem_extend c size self i :
  i < size → ∃ d, BaseDicts.__getitem__ (BaseDicts.extend c size self) i = Ret d.
Proof.
  intros Hi. unfold BaseDicts.__getitem__.
  destruct (BaseDicts.dicts _ !! i) as [d|] eqn:E; [by eexists|].
  apply lookup_ge_None in E. rewrite extend_length in E. lia.
Qed.

(** The positional table set only grows: after [extend] it has at least the
    requested size and at least its previous length, and every table that
    was there is still at its position. *)
Theorem extend_spec c size self :
  size ≤ length (BaseDicts.dicts (BaseDicts.extend c size self))
  ∧ length (BaseDicts.dicts self) ≤ length (BaseDicts.dicts (BaseDicts.extend c size self))
  ∧ ∀ i d, BaseDicts.dicts self !! i = Some d →
           BaseDicts.dicts (BaseDicts.extend c size self) !! i = Some d.
Proof.
  rewrite extend_length. split_and!; [lia | lia |].
  intros i d Hd. rewrite extend_lookup_old; [done | by eapply lookup_lt_Some].
Qed.

(** Reading a position raises [IndexError] exactly when the position is not
    below the number of tables. *)
Lemma getitem_error self i :
  BaseDicts.__getitem__ self i = Raise IndexError ↔ length (BaseDicts.dicts self) ≤ i.
Proof.
  unfold BaseDicts.__getitem__. rewrite <- lookup_ge_None.
  destruct (BaseDicts.dicts self !! i); split; done.
Qed.
End extend.

(** ** Summing a table over a list of columns *)

Section cover.
Context `{Countable K}.
Implicit Types (d : gmap K nat) (ks : list K).

Lemma total_delete k d :
  CountingDict.total d = CountingDict.__getitem__ d k + CountingDict.total (delete k d).
Proof.
  unfold CountingDict.total, CountingDict.__getitem__.
  destruct (d !! k) as [v|] eqn:E; simpl.
  - by rewrite <- (map_to_list_delete d k v E), fmap_cons.
  - by rewrite delete_id.
Qed.

(** Columns that are distinct and cover the keys of a table add up to the
    table's total. *)
Lemma sum_cover ks d :
  NoDup ks → dom d ⊆ list_to_set ks →
  sum_list ((λ k, default 0 (d !! k)) <$> ks) = CountingDict.total d.
Proof.
  intros Hnd. revert d. induction Hnd as [|k ks Hk Hnd IH]; intros d Hd.
  - simpl in *. assert (d = ∅) as ->.
    { apply dom_empty_iff_L, elem_of_equiv_empty_L. intros x Hx%Hd. by apply elem_of_empty in Hx. }
    symmetry. apply total_empty.
  - rewrite fmap_cons, (total_delete k d). simpl. f_equal.
    rewrite <- (IH (delete k d)).
    2:{ intros x. rewrite dom_delete_L, elem_of_difference, not_elem_of_singleton.
        intros [Hx Hne]. apply Hd in Hx. rewrite list_to_set_cons, elem_of_union, elem_of_singleton in Hx.
        by destruct Hx. }
    f_equal. apply list_fmap_ext. intros i k' Hk'.
    rewrite lookup_delete_ne; [done|]. intros ->.
    apply Hk. by eapply list_elem_of_lookup_2.
Qed.
End cover.

(** The keys of a finite map, as its domain lists them and as its items do. *)
Lemma elements_dom_perm `{Countable K} {V} (m : gmap K V) :
  elements (dom m) ≡ₚ (map_to_list m).*1.
Proof.
  apply NoDup_Permutation; [apply NoDup_elements|apply NoDup_fst_map_to_list|].
  intros k. rewrite elem_of_elements, elem_of_dom, list_elem_of_fmap. split.
  - intros [v Hv]. exists (k, v). by rewrite elem_of_map_to_list.
  - intros ([k' v] & -> & Hv%elem_of_map_to_list). by exists v.
Qed.

(** ** [NestedDict.flatten]: the wide table *)

Section wide.
Context `{Countable K1} `{Countable K2} `{!PyOrd K1, !PyOrd K2}.
Implicit Types (d : gmap K1 (gmap K2 nat)).

Lemma elem_of_columns d k2 :
  k2 ∈ NestedDict.columns d ↔ ∃ k1 c, d !! k1 = Some c ∧ k2 ∈ dom c.
Proof.
  unfold NestedDict.columns.
  rewrite elem_of_py_sorted, elem_of_elements, elem_of_union_list. split.
  - intros (X & (c & -> & ([k1 c'] & -> & Hc%elem_of_map_to_list)%list_elem_of_fmap)
              %list_elem_of_fmap & Hk). eauto.
  - intros (k1 & c & Hc & Hk). exists (dom c). split; [|done].
    apply list_elem_of_fmap. exists c. split; [done|].
    apply list_elem_of_fmap. exists (k1, c). by rewrite elem_of_map_to_list.
Qed.

Lemma NoDup_columns d : NoDup (NestedDict.columns d).
Proof. apply NoDup_py_sorted, NoDup_elements. Qed.

(** A row adds up to the total of its outer key. *)
Lemma wide_row_total d k1 :
  sum_list ((λ k2, CountingDict.__getitem__ (default ∅ (d !! k1)) k2) <$> NestedDict.columns d)
  = CountingDict.total (default ∅ (d !! k1)).
Proof.
  apply sum_cover; [apply NoDup_columns|].
  intros k2 Hk. apply elem_of_list_to_set, elem_of_columns.
  destruct (d !! k1) as [c|] eqn:Hc; simpl in Hk; [by eauto|].
  by rewrite dom_empty_L in Hk.
Qed.

(** The table has one row per outer key, by increasing key, every row as
    wide as the header, and its cells add up to the number of occurrences
    counted. *)
Theorem wide_spec d :
  (NestedDict.flatten d).2.*1 = py_sorted (elements (dom d))
  ∧ Forall (λ row, length row.2 = length (NestedDict.flatten d).1) (NestedDict.flatten d).2
  ∧ sum_list ((λ row, sum_list row.2) <$> (NestedDict.flatten d).2) = NestedDict.total d.
Proof.
  unfold NestedDict.flatten. simpl. split_and!.
  - rewrite <- list_fmap_compose. by rewrite <- (list_fmap_id (py_sorted _)) at 2.
  - apply Forall_fmap, Forall_true. intros k1. simpl. by rewrite length_fmap.
  - rewrite <- list_fmap_compose. unfold NestedDict.total.
    rewrite (py_sorted_perm (elements (dom d))), (elements_dom_perm d).
    rewrite <- list_fmap_compose. f_equal. apply list_fmap_ext.
    intros i [k1 c] Hi%list_elem_of_lookup_2%elem_of_map_to_list. simpl.
    by rewrite wide_row_total, Hi.
Qed.
End wide.

(** ** [BaseCountingDicts.flatten] *)

Section flatten.
Implicit Types (dicts : list (gmap ascii nat)) (self : BaseDicts.t (gmap ascii nat)).
Implicit Types (dt : option string) (k : ascii).

Lemma elem_of_all_keys k dicts :
  k ∈ BaseCountingDicts.all_keys dicts ↔ ∃ d, d ∈ dicts ∧ k ∈ dom d.
Proof.
  unfold BaseCountingDicts.all_keys. rewrite elem_of_union_list. split.
  - intros (X & (d & -> & Hd)%list_elem_of_fmap & Hk). eauto.
  - intros (d & Hd & Hk). exists (dom d). split; [|done].
    apply list_elem_of_fmap. eauto.
Qed.

Lemma NoDup_acgt : NoDup BaseCountingDicts.acgt.
Proof. by apply (bool_decide_unpack _). Qed.

(** Bases ordering: A, C, G, T come first, whether observed or not; then every
    other observed symbol except N, once; then N, if and only if it was
    observed. *)
Lemma flatten_keys_bases dicts :
  ∃ others,
    BaseCountingDicts.flatten_keys (Some "n") dicts
    = BaseCountingDicts.acgt ++ others
      ++ (if decide ("N"%char ∈ BaseCountingDicts.all_keys dicts) then ["N"%char] else [])
    ∧ NoDup others
    ∧ ∀ k, k ∈ others ↔ (k ∈ BaseCountingDicts.all_keys dicts)
                           ∧ (k ∉ BaseCountingDicts.acgt) ∧ (k ≠ "N"%char).
Proof.
  unfold BaseCountingDicts.flatten_keys. rewrite decide_True by done.
  eexists. split; [done|]. split; [apply NoDup_elements|].
  intros k. rewrite elem_of_elements, elem_of_difference, elem_of_list_to_set, elem_of_app.
  case_decide; [rewrite list_elem_of_singleton | rewrite elem_of_nil]; split.
  - intros [? Hn]. split_and!; [done | tauto | tauto].
  - intros (? & ? & ?). split; [done | tauto].
  - intros [? Hn]. split_and!; [done | tauto | congruence].
  - intros (? & ? & ?). split; [done | tauto].
Qed.

(** The columns are distinct in both orderings. *)
Lemma flatten_keys_NoDup dt dicts : NoDup (BaseCountingDicts.flatten_keys dt dicts).
Proof.
  destruct (decide (dt = Some "n")) as [-> | Hdt].
  - destruct (flatten_keys_bases dicts) as (others & -> & Hnd & Ho).
    apply NoDup_app. split_and!; [apply NoDup_acgt | |].
    + intros k Hk [Hin | Hin]%elem_of_app; [apply Ho in Hin; tauto|].
      case_decide; [|by apply elem_of_nil in Hin].
      apply list_elem_of_singleton in Hin as ->. revert Hk.
      by apply (bool_decide_unpack _).
    + apply NoDup_app. split_and!; [done | |].
      * intros k Hk Hin. case_decide; [|by apply elem_of_nil in Hin].
        apply list_elem_of_singleton in Hin as ->. apply Ho in Hk. tauto.
      * case_decide; [apply NoDup_singleton | apply NoDup_nil_2].
  - unfold BaseCountingDicts.flatten_keys. rewrite decide_False by done.
    apply NoDup_py_sorted, NoDup_elements.
Qed.

(** Every observed key has a column. *)
Lemma flatten_keys_cover dt dicts k :
  k ∈ BaseCountingDicts.all_keys dicts → k ∈ BaseCountingDicts.flatten_keys dt dicts.
Proof.
  intros Hk. destruct (decide (dt = Some "n")) as [-> | Hdt].
  - destruct (flatten_keys_bases dicts) as (others & -> & _ & Ho).
    rewrite !elem_of_app, Ho.
    destruct (decide (k ∈ BaseCountingDicts.acgt)); [by left|]. right.
    destruct (decide (k = "N"%char)) as [-> | ?]; [right | by left].
    rewrite decide_True by done. by apply list_elem_of_singleton.
  - unfold BaseCountingDicts.flatten_keys. rewrite decide_False by done.
    by rewrite elem_of_py_sorted, elem_of_elements.
Qed.

(** One row per position, numbered from 1, with the count of every column,
    zero for a key the position has not seen. *)
Lemma flatten_row dt self i row :
  (BaseCountingDicts.flatten dt self).2 !! i = Some row ↔
  ∃ d, BaseDicts.dicts self !! i = Some d ∧
       row = (S i, CountingDict.__getitem__ d
                     <$> BaseCountingDicts.flatten_keys dt (BaseDicts.dicts self)).
Proof.
  unfold BaseCountingDicts.flatten. simpl. rewrite list_lookup_fmap, fmap_Some.
  setoid_rewrite enumerate_lookup. split.
  - intros ([j d] & (d' & [= -> ->] & Hd) & ->). eauto.
  - intros (d & Hd & ->). exists (S i, d). eauto.
Qed.

Lemma flatten_rows_length dt self :
  length (BaseCountingDicts.flatten dt self).2 = length (BaseDicts.dicts self).
Proof. unfold BaseCountingDicts.flatten. simpl. by rewrite length_fmap, length_enumerate. Qed.

(** Every row is as wide as the header. *)
Lemma flatten_row_width dt self i row :
  (BaseCountingDicts.flatten dt self).2 !! i = Some row →
  length row.2 = length (BaseCountingDicts.flatten dt self).1.
Proof.
  intros (d & _ & ->)%flatten_row. unfold BaseCountingDicts.flatten. simpl.
  case_decide; by rewrite !length_fmap.
Qed.

(** The rows are numbered from 1: the row of position [i] carries [i + 1]. *)
Theorem flatten_row_numbers dt self :
  (BaseCountingDicts.flatten dt self).2.*1 = seq 1 (length (BaseDicts.dicts self)).
Proof.
  unfold BaseCountingDicts.flatten. cbn [snd].
  rewrite <- list_fmap_compose, <- enumerate_fst. by apply list_fmap_ext.
Qed.

(** The counts of a row add up to the number of symbols counted at that
    position: no observation is lost or doubled by flattening. *)
Lemma flatten_row_sum dt self i row d :
  (BaseCountingDicts.flatten dt self).2 !! i = Some row →
  BaseDicts.dicts self !! i = Some d →
  sum_list row.2 = CountingDict.total d.
Proof.
  intros (d' & Hd' & ->)%flatten_row Hd. rewrite Hd in Hd'. injection Hd' as <-. simpl.
  apply sum_cover; [apply flatten_keys_NoDup|].
  intros k Hk. apply elem_of_list_to_set, flatten_keys_cover, elem_of_all_keys.
  exists d. split; [by eapply list_elem_of_lookup_2 | done].
Qed.

Lemma qual2int_mono k1 k2 : key_le k1 k2 → (qual2int k1 ≤ qual2int k2)%Z.
Proof. unfold qual2int, ord. simpl. unfold ascii_le. lia. Qed.

(** Quality ordering: the header lists Phred scores in increasing order. *)
Lemma flatten_header_quality self :
  ∃ ks, (BaseCountingDicts.flatten (Some "q") self).1 = HQual <$> ks
        ∧ StronglySorted Z.le ks
        ∧ ks = qual2int <$> BaseCountingDicts.flatten_keys (Some "q") (BaseDicts.dicts self).
Proof.
  eexists. split_and!; [| |done].
  - unfold BaseCountingDicts.flatten. simpl. by rewrite <- list_fmap_compose.
  - unfold BaseCountingDicts.flatten_keys. rewrite decide_False by done.
    generalize (py_sorted_sorted (elements (BaseCountingDicts.all_keys (BaseDicts.dicts self)))).
    generalize (py_sorted (elements (BaseCountingDicts.all_keys (BaseDicts.dicts self)))).
    induction 1 as [|k l Hl IH Hk]; simpl; constructor; [done|].
    rewrite Forall_fmap. eapply Forall_impl; [exact Hk|]. apply qual2int_mono.
Qed.

(** C39: Bases ordering of the flattened header: A, C, G, T first, whether
    observed or not; then every other observed symbol except N, once; then N
    exactly when it was observed. *)
Theorem flatten_header_bases self :
  ∃ others,
    (BaseCountingDicts.flatten (Some "n") self).1
    = HKey <$> (BaseCountingDicts.acgt ++ others
        ++ (if decide ("N"%char ∈ BaseCountingDicts.all_keys (BaseDicts.dicts self))
            then ["N"%char] else []))
    ∧ NoDup others
    ∧ ∀ k, k ∈ others ↔ (k ∈ BaseCountingDicts.all_keys (BaseDicts.dicts self))
                           ∧ (k ∉ BaseCountingDicts.acgt) ∧ (k ≠ "N"%char).
Proof.
  destruct (flatten_keys_bases (BaseDicts.dicts self)) as (others & Hk & Hnd & Ho).
  exists others. split_and!; [|done..].
  unfold BaseCountingDicts.flatten. cbn [fst]. rewrite decide_False by done. by rewrite Hk.
Qed.
End flatten.

(** ** [BaseNestedDicts.flatten] *)

Section nested.
Implicit Types (d : gmap string (gmap ascii nat)).
Implicit Types (dicts : list (gmap string (gmap ascii nat))).
Implicit Types (self : BaseDicts.t (gmap string (gmap ascii nat))).
Implicit Types (k1s : list string) (k2s : list ascii).

(** What [touch] leaves under a tile: the table that was there, or an empty
    one for a tile of the row keys that the position had not seen. *)
Lemma lookup_touch k1s k2s d k1 :
  BaseNestedDicts.touch k1s k2s d !! k1 =
    match d !! k1 with
    | Some c => Some c
    | None => if decide (k2s ≠ [] ∧ k1 ∈ k1s) then Some ∅ else None
    end.
Proof.
  unfold BaseNestedDicts.touch. destruct (decide (k2s = [])) as [->|Hk2].
  { rewrite decide_False by tauto. by destruct (d !! k1). }
  revert k1. induction k1s as [|k k1s IH]; intros k1; simpl.
  { rewrite decide_False by (rewrite elem_of_nil; tauto). by destruct (d !! k1). }
  set (F := foldr _ d k1s) in *. destruct (decide (k1 = k)) as [->|Hne].
  - trans (Some (default ∅ (F !! k))).
    { destruct (F !! k) eqn:E; simpl; [done|apply lookup_insert_eq]. }
    rewrite IH. destruct (d !! k); [done|].
    rewrite (decide_True (P := _ ∧ k ∈ k :: k1s)); [|by split; [|left]].
    by case_decide.
  - trans (F !! k1).
    { destruct (F !! k); [done|by apply lookup_insert_ne]. }
    rewrite IH. destruct (d !! k1); [done|].
    apply decide_ext. rewrite elem_of_cons. tauto.
Qed.

(** The cell that a row reads is not changed by the reading. *)
Lemma touch_cell k1s k2s d k1 :
  default ∅ (BaseNestedDicts.touch k1s k2s d !! k1) = default ∅ (d !! k1).
Proof. rewrite lookup_touch. destruct (d !! k1); [done|]. by case_decide. Qed.

Lemma touch_touch k1s k2s d :
  BaseNestedDicts.touch k1s k2s (BaseNestedDicts.touch k1s k2s d)
  = BaseNestedDicts.touch k1s k2s d.
Proof.
  apply map_eq. intros k1. rewrite !lookup_touch.
  destruct (d !! k1); [done|]. by case_decide.
Qed.

Lemma elem_of_keys1 dicts k1 :
  k1 ∈ BaseNestedDicts.keys1 dicts ↔ ∃ d, d ∈ dicts ∧ is_Some (d !! k1).
Proof.
  unfold BaseNestedDicts.keys1.
  rewrite elem_of_py_sorted, elem_of_elements, elem_of_union_list. split.
  - intros (X & (d & -> & Hd)%list_elem_of_fmap & Hk%elem_of_dom). eauto.
  - intros (d & Hd & Hk). exists (dom d). split; [|by apply elem_of_dom].
    apply list_elem_of_fmap. eauto.
Qed.

Lemma elem_of_keys2 dicts k2 :
  k2 ∈ BaseNestedDicts.keys2 dicts ↔
  ∃ d k1 c, d ∈ dicts ∧ d !! k1 = Some c ∧ is_Some (c !! k2).
Proof.
  unfold BaseNestedDicts.keys2.
  rewrite elem_of_py_sorted, elem_of_elements, elem_of_union_list. split.
  - intros (X & (d & -> & Hd)%list_elem_of_fmap & Hk).
    apply elem_of_union_list in Hk as (Y & (c & -> & Hc)%list_elem_of_fmap & Hk).
    apply list_elem_of_fmap in Hc as ([k1 c'] & -> & Hc%elem_of_map_to_list).
    exists d, k1, c'. by rewrite <- elem_of_dom.
  - intros (d & k1 & c & Hd & Hc & Hk). eexists. split.
    + apply list_elem_of_fmap. by exists d.
    + apply elem_of_union_list. exists (dom c). split; [|by apply elem_of_dom].
      apply list_elem_of_fmap. exists c. split; [done|].
      apply list_elem_of_fmap. exists (k1, c). by rewrite elem_of_map_to_list.
Qed.

(** Two sets of tables with the same tiles and the same keys have the same
    row and column keys. *)
Lemma keys1_ext dicts dicts' :
  (∀ k1, k1 ∈ BaseNestedDicts.keys1 dicts ↔ k1 ∈ BaseNestedDicts.keys1 dicts') →
  BaseNestedDicts.keys1 dicts = BaseNestedDicts.keys1 dicts'.
Proof.
  intros Hk. apply py_sorted_unique, NoDup_Permutation; [apply NoDup_elements..|].
  intros k1. specialize (Hk k1). unfold BaseNestedDicts.keys1 in Hk.
  by rewrite !elem_of_py_sorted in Hk.
Qed.

Lemma keys2_ext dicts dicts' :
  (∀ k2, k2 ∈ BaseNestedDicts.keys2 dicts ↔ k2 ∈ BaseNestedDicts.keys2 dicts') →
  BaseNestedDicts.keys2 dicts = BaseNestedDicts.keys2 dicts'.
Proof.
  intros Hk. apply py_sorted_unique, NoDup_Permutation; [apply NoDup_elements..|].
  intros k2. specialize (Hk k2). unfold BaseNestedDicts.keys2 in Hk.
  by rewrite !elem_of_py_sorted in Hk.
Qed.

(** Reading the rows adds no row key and no column key. *)
Lemma keys1_touch dicts k2s :
  BaseNestedDicts.keys1 (BaseNestedDicts.touch (BaseNestedDicts.keys1 dicts) k2s <$> dicts)
  = BaseNestedDicts.keys1 dicts.
Proof.
  apply keys1_ext. intros k1. rewrite !elem_of_keys1. split.
  - intros (d' & (d & -> & Hd)%list_elem_of_fmap & Hk). rewrite lookup_touch in Hk.
    destruct (d !! k1) eqn:E; [by eauto|]. case_decide as Hin; [|by destruct Hk].
    apply elem_of_keys1. tauto.
  - intros (d & Hd & [c Hk]). exists (BaseNestedDicts.touch (BaseNestedDicts.keys1 dicts) k2s d).
    split; [by apply list_elem_of_fmap_2|]. by rewrite lookup_touch, Hk.
Qed.

Lemma keys2_touch dicts k1s k2s :
  BaseNestedDicts.keys2 (BaseNestedDicts.touch k1s k2s <$> dicts) = BaseNestedDicts.keys2 dicts.
Proof.
  apply keys2_ext. intros k2. rewrite !elem_of_keys2. split.
  - intros (d' & k1 & c & (d & -> & Hd)%list_elem_of_fmap & Hc & Hk).
    rewrite lookup_touch in Hc. destruct (d !! k1) eqn:E; [simplify_eq; by eauto 6|].
    case_decide; simplify_eq. rewrite lookup_empty in Hk. by destruct Hk.
  - intros (d & k1 & c & Hd & Hc & Hk).
    exists (BaseNestedDicts.touch k1s k2s d), k1, c.
    split_and!; [by apply list_elem_of_fmap_2| |done]. by rewrite lookup_touch, Hc.
Qed.

(** [flatten] can be asked again: the dictionaries that the first call
    stored change neither the header nor any row, and the second call
    stores nothing new. *)
Lemma nested_flatten_again dt self :
  BaseNestedDicts.flatten dt (BaseNestedDicts.flatten dt self).1
  = BaseNestedDicts.flatten dt self.
Proof.
  unfold BaseNestedDicts.flatten. cbn [fst BaseDicts.dicts].
  rewrite keys1_touch, keys2_touch. f_equal.
  - f_equal. rewrite <- list_fmap_compose. apply list_fmap_ext. intros i d _.
    apply touch_touch.
  - do 2 f_equal. apply list_bind_ext; [|done]. intros k1.
    rewrite enumerate_fmap, <- list_fmap_compose. apply list_fmap_ext. intros i [n d] _.
    simpl. by rewrite touch_cell.
Qed.

(** One row per tile and position, tile after tile. *)
Lemma nested_flatten_rows dt self header rows :
  (BaseNestedDicts.flatten dt self).2 = Ret (header, rows) →
  length rows
  = length (BaseNestedDicts.keys1 (BaseDicts.dicts self)) * length (BaseDicts.dicts self)
  ∧ Forall (λ row, length row.2 = length header) rows.
Proof.
  unfold BaseNestedDicts.flatten. intros [= <- <-]. split.
  - induction (BaseNestedDicts.keys1 _) as [|k1 k1s IH]; [done|].
    cbn [mbind list_bind]. rewrite length_app, IH, length_fmap, length_enumerate. done.
  - apply Forall_forall. intros row (k1 & ([i d] & -> & _)%list_elem_of_fmap & _)%list_elem_of_bind.
    simpl. case_decide; by rewrite !length_fmap.
Qed.
End nested.

(** ** Examples *)

(** One position that has seen A twice and N once. *)
Definition bases_a2n1 : BaseDicts.t (gmap ascii nat) :=
  BaseDicts.mk [CountingDict.incr "A"%char (CountingDict.incr "N"%char
                  (CountingDict.incr "A"%char ∅))].

Lemma flatten_row_sum_witness :
  sum_list [2; 0; 0; 0; 1]
  = CountingDict.total (CountingDict.incr "A"%char (CountingDict.incr "N"%char
                          (CountingDict.incr "A"%char ∅))).
Proof.
  exact (flatten_row_sum (Some "n"%string) bases_a2n1 0 (1, [2; 0; 0; 0; 1]) _
           ltac:(by vm_compute) eq_refl).
Defined.

(** The flattened table of that position: header A, C, G, T, N and one row,
    numbered 1. *)
Example flatten_a2n1 :
  BaseCountingDicts.flatten (Some "n"%string) bases_a2n1
  = (HKey <$> ["A"; "C"; "G"; "T"; "N"]%char, [(1, [2; 0; 0; 0; 1])]).
Proof. by vm_compute. Qed.

(** Two positions, of which only the first has seen tile 1101: the rows of
    the tile list both positions, and reading the second one stores an empty
    table there. *)
Definition tiles_first_only : BaseDicts.t (gmap string (gmap ascii nat)) :=
  BaseDicts.mk [NestedDict.incr "1101"%string "I"%char ∅; ∅].

Example nested_flatten_touches :
  BaseNestedDicts.flatten (Some "q"%string) tiles_first_only
  = (BaseDicts.mk [NestedDict.incr "1101"%string "I"%char ∅; {["1101"%string := ∅]}],
     Ret ([HQual 40], [(1, "1101"%string, [1]); (2, "1101"%string, [0])])).
Proof. by vm_compute. Qed.
