(* ===== verification/Collector.v ===== *)
(** * Collector: the class [ReadStatCollector] of [stats.py]

    One collector accumulates the statistics of one read stream: the number of
    reads, the distributions of length and GC percentage, the base
    composition per position and, once a read with qualities has been seen
    (or when the constructor asks for it), the distribution of mean quality
    and the quality composition per position, per tile if a tile pattern is
    configured.  A compiled pattern is a function from a read name to the
    text of its first group, [None] when the name does not match.

    The module holds the methods; after it come the specification ([inv],
    the closed form [collect_state] / [collect_result], [reachable]), the
    lemmas on each phase of [collect], the invariant, and the theorems on
    [collect], [finish] and [__getattr__]. *)

From Stdlib Require Import Ascii.
From stdpp Require Import gmap strings list sorting.
From S2P Require Import Prelude Reads Counting Dicts.

Module ReadStatCollector.
(** A value of the cache of computed attributes: the quotient of two
    non-negative integers (an integer when the denominator is 1). *)
Definition number : Type := (nat * nat)%type.

(** The snapshot that [finish] returns; an absent key is [None].  The last
    field holds the table that is handed to [NestedDict.flatten], which is
    not part of the sources. *)
Record snapshot : Type := mk_snapshot {
  snap_count : nat;
  snap_length : list (nat * nat);
  snap_gc : list (nat * nat);
  snap_bases : list header_key * list (nat * list nat);
  snap_qualities : option (list (nat * nat));
  snap_base_qualities : option (list header_key * list (nat * list nat));
  snap_tile_base_qualities : option (list header_key * list (nat * string * list nat));
  snap_tile_sequence_qualities : option (gmap string (gmap nat nat));
}.

(** The names that [__getattr__] is asked for: the two computed attributes,
    or a name [s] for which the object has no attribute [_s], [__s], ... *)
Inductive attribute : Type :=
  | gc_pct
  | total_bases
  | missing (s : string).

Definition attribute_name (a : attribute) : string :=
  match a with
  | gc_pct => "gc_pct"
  | total_bases => "total_bases"
  | missing s => s
  end.

Record t : Type := mk {
  _cache : gmap string number;
  max_read_len : nat;
  count : nat;
  sequence_lengths : gmap nat nat;
  sequence_gc : gmap nat nat;
  bases : BaseDicts.t (gmap ascii nat);
  tile_key_regexp : option (string → option string);
  qualities : option bool;
  sequence_qualities : option (gmap nat nat);
  base_qualities : option (BaseDicts.t (gmap ascii nat));
  tile_base_qualities : option (BaseDicts.t (gmap string (gmap ascii nat)));
  tile_sequence_qualities : option (gmap string (gmap nat nat));
}.

(** ** Field updates *)

Definition set_count (f : nat → nat) (s : t) : t :=
  mk (_cache s) (max_read_len s) (f (count s)) (sequence_lengths s) (sequence_gc s) (bases s)
     (tile_key_regexp s) (qualities s) (sequence_qualities s) (base_qualities s)
     (tile_base_qualities s) (tile_sequence_qualities s).

Definition set_sequence_lengths (f : gmap nat nat → gmap nat nat) (s : t) : t :=
  mk (_cache s) (max_read_len s) (count s) (f (sequence_lengths s)) (sequence_gc s) (bases s)
     (tile_key_regexp s) (qualities s) (sequence_qualities s) (base_qualities s)
     (tile_base_qualities s) (tile_sequence_qualities s).

Definition set_sequence_gc (f : gmap nat nat → gmap nat nat) (s : t) : t :=
  mk (_cache s) (max_read_len s) (count s) (sequence_lengths s) (f (sequence_gc s)) (bases s)
     (tile_key_regexp s) (qualities s) (sequence_qualities s) (base_qualities s)
     (tile_base_qualities s) (tile_sequence_qualities s).

Definition set_bases (b : BaseDicts.t (gmap ascii nat)) (s : t) : t :=
  mk (_cache s) (max_read_len s) (count s) (sequence_lengths s) (sequence_gc s) b
     (tile_key_regexp s) (qualities s) (sequence_qualities s) (base_qualities s)
     (tile_base_qualities s) (tile_sequence_qualities s).

Definition set_qualities (q : option bool) (s : t) : t :=
  mk (_cache s) (max_read_len s) (count s) (sequence_lengths s) (sequence_gc s) (bases s)
     (tile_key_regexp s) q (sequence_qualities s) (base_qualities s)
     (tile_base_qualities s) (tile_sequence_qualities s).

Definition set_sequence_qualities (q : option (gmap nat nat)) (s : t) : t :=
  mk (_cache s) (max_read_len s) (count s) (sequence_lengths s) (sequence_gc s) (bases s)
     (tile_key_regexp s) (qualities s) q (base_qualities s)
     (tile_base_qualities s) (tile_sequence_qualities s).

Definition set_base_qualities (q : option (BaseDicts.t (gmap ascii nat))) (s : t) : t :=
  mk (_cache s) (max_read_len s) (count s) (sequence_lengths s) (sequence_gc s) (bases s)
     (tile_key_regexp s) (qualities s) (sequence_qualities s) q
     (tile_base_qualities s) (tile_sequence_qualities s).

Definition set_tile_base_qualities
    (q : option (BaseDicts.t (gmap string (gmap ascii nat)))) (s : t) : t :=
  mk (_cache s) (max_read_len s) (count s) (sequence_lengths s) (sequence_gc s) (bases s)
     (tile_key_regexp s) (qualities s) (sequence_qualities s) (base_qualities s)
     q (tile_sequence_qualities s).

Definition set_tile_sequence_qualities (q : option (gmap string (gmap nat nat))) (s : t) : t :=
  mk (_cache s) (max_read_len s) (count s) (sequence_lengths s) (sequence_gc s) (bases s)
     (tile_key_regexp s) (qualities s) (sequence_qualities s) (base_qualities s)
     (tile_base_qualities s) q.

Definition set_cache (f : gmap string number → gmap string number) (s : t) : t :=
  mk (f (_cache s)) (max_read_len s) (count s) (sequence_lengths s) (sequence_gc s) (bases s)
     (tile_key_regexp s) (qualities s) (sequence_qualities s) (base_qualities s)
     (tile_base_qualities s) (tile_sequence_qualities s).

(** Truth value of [self.qualities]: [None] and [False] are false. *)
Definition tracking (s : t) : bool := default false (qualities s).

(** ** Methods *)

Definition _init_qualities : Py t unit :=
  modify (set_sequence_qualities (Some ∅)) ;;
  modify (set_base_qualities (Some BaseDicts.__init__)) ;;
  self <- get ;;
  when (bool_decide (is_Some (tile_key_regexp self)))
       (modify (set_tile_base_qualities (Some BaseDicts.__init__)) ;;
        modify (set_tile_sequence_qualities (Some ∅))).

Definition __init__ (qualities : option bool)
    (tile_key_regexp : option (string → option string)) : t :=
  let self := mk ∅ 0 0 ∅ ∅ BaseDicts.__init__ tile_key_regexp qualities None None None None in
  if default false qualities then (_init_qualities self).1 else self.

(** The property [track_tiles], as a truth value. *)
Definition track_tiles (s : t) : bool :=
  tracking s && bool_decide (is_Some (tile_key_regexp s)).

(** An attribute that holds [None] where an object is needed. *)
Definition required {A} (field : t → option A) (e : exn) : Py t A :=
  self <- get ;;
  match field self with
  | Some a => ret a
  | None => raise e
  end.

Definition _extend_bases (new_size : nat) : Py t unit :=
  self <- get ;;
  modify (set_bases (BaseCountingDicts.extend new_size (bases self))) ;;
  when (tracking self)
       (bq <- required base_qualities AttributeError ;;
        modify (set_base_qualities (Some (BaseCountingDicts.extend new_size bq))) ;;
        when (track_tiles self)
             (tq <- required tile_base_qualities AttributeError ;;
              modify (set_tile_base_qualities (Some (BaseNestedDicts.extend new_size tq))))).

(** [table[i][key] += 1] on a positional table set. *)
Definition incr_at {K} `{Countable K} (i : nat) (key : K) (b : BaseDicts.t (gmap K nat))
    : outcome (BaseDicts.t (gmap K nat)) :=
  match BaseDicts.__getitem__ b i with
  | Ret d => Ret (BaseDicts.mk (<[i := CountingDict.incr key d]> (BaseDicts.dicts b)))
  | Raise e => Raise e
  end.

(** [table[i][tile][qual] += 1] on a nested positional table set. *)
Definition incr_nested_at (i : nat) (tile : string) (qual : ascii)
    (b : BaseDicts.t (gmap string (gmap ascii nat)))
    : outcome (BaseDicts.t (gmap string (gmap ascii nat))) :=
  match BaseDicts.__getitem__ b i with
  | Ret d => Ret (BaseDicts.mk (<[i := NestedDict.incr tile qual d]> (BaseDicts.dicts b)))
  | Raise e => Raise e
  end.

Definition add_base (i : nat) (base : ascii) (qual : option ascii) (tile : option string)
    : Py t unit :=
  self <- get ;;
  b <- lift (incr_at i base (bases self)) ;;
  modify (set_bases b) ;;
  match qual with
  | None => ret tt
  | Some qual =>
      bq <- required base_qualities TypeError ;;
      bq <- lift (incr_at i qual bq) ;;
      modify (set_base_qualities (Some bq)) ;;
      match tile with
      | Some tile =>
          when (negb (bool_decide (tile = ""%string)))
               (tq <- required tile_base_qualities TypeError ;;
                tq <- lift (incr_nested_at i tile qual tq) ;;
                modify (set_tile_base_qualities (Some tq)))
      | None => ret tt
      end
  end.

(** The quality block of [collect]: the mean quality, its table, the tile. *)
Definition collect_qualities (record : Read.t) (seqlen : nat)
    : Py t (list ascii * option string) :=
  quals <- lift (match Read.qualities record with
                 | Some q => Ret q
                 | None => Raise TypeError
                 end) ;;
  meanqual <- lift (round_truediv (sum_map ord quals) seqlen) ;;
  sq <- required sequence_qualities TypeError ;;
  modify (set_sequence_qualities (Some (CountingDict.incr meanqual sq))) ;;
  self <- get ;;
  if track_tiles self then
    re <- required tile_key_regexp AttributeError ;;
    match re (Read.name record) with
    | Some tile =>
        tsq <- required tile_sequence_qualities RecursionError ;;
        modify (set_tile_sequence_qualities (Some (NestedDict.incr tile meanqual tsq))) ;;
        ret (quals, Some tile)
    | None => raise ValueError
    end
  else ret (quals, None).

(** [collect], first statement: quality tracking starts with the first read
    that carries qualities, unless the constructor was told [False]. *)
Definition activate (record : Read.t) : Py t unit :=
  self <- get ;;
  when (bool_decide (qualities self = None) && truthy (Read.qualities record))
       (modify (set_qualities (Some true)) ;; _init_qualities).

(** [round((seq.count('C') + seq.count('G')) * 100 / seqlen)]. *)
Definition gc_percent (seq : list ascii) : outcome nat :=
  round_truediv ((str_count "C"%char seq + str_count "G"%char seq) * 100) (length seq).

(** [collect], the per-read counters: the GC percentage (which divides by the
    length), then the read count and the two distributions. *)
Definition count_read (record : Read.t) : Py t unit :=
  let seq := Read.sequence record in
  let seqlen := length seq in
  gc <- lift (gc_percent seq) ;;
  modify (set_count S) ;;
  modify (set_sequence_lengths (CountingDict.incr seqlen)) ;;
  modify (set_sequence_gc (CountingDict.incr gc)).

(** [collect], the positional part: grow the tables, record the qualities of
    the read, then count every (base, quality) pair at its position. *)
Definition tabulate (record : Read.t) : Py t unit :=
  let seq := Read.sequence record in
  let seqlen := length seq in
  self <- get ;;
  when (bool_decide (max_read_len self < seqlen)) (_extend_bases seqlen) ;;
  self <- get ;;
  qt <- (if tracking self
         then x <- collect_qualities record seqlen ;; ret (Some x.1, x.2)
         else ret (@None (list ascii), @None string)) ;;
  match qt.1 with
  | None => raise UnboundLocalError
  | Some quals =>
      for_each (enumerate 0 (zip seq quals))
               (λ ibq, add_base ibq.1 ibq.2.1 (Some ibq.2.2) qt.2)
  end.

Definition collect (record : Read.t) : Py t unit :=
  activate record ;; count_read record ;; tabulate record.

(** [sum(base['C'] + base['G'] for base in self.bases)]: the object is
    iterated through [__getitem__], position by position. *)
Definition gc_sum (b : BaseDicts.t (gmap ascii nat)) : nat :=
  sum_map (λ base, CountingDict.__getitem__ base "C"%char
                   + CountingDict.__getitem__ base "G"%char) (BaseDicts.dicts b).

(** [self.bases.items()]: a [BaseCountingDicts] has no method [items]. *)
Definition _total_bases : Py t number := raise AttributeError.

(** The sum is computed first, then the attribute [total_bases] is read
    through [__getattr__], here [getattr]. *)
Definition _gc_pct (getattr : attribute → Py t number) : Py t number :=
  self <- get ;;
  let gc := gc_sum (bases self) in
  total <- getattr total_bases ;;
  if decide (total.1 = 0) then raise ZeroDivisionError
  else ret (gc * total.2, total.1).

(** [__getattr__]: the cache, then the method [_name].  For a name without
    such a method, [hasattr] looks the method name up through [__getattr__]
    again, one frame deeper; [limit] is the number of frames left before
    Python raises [RecursionError].  [hasattr] turns an [AttributeError] into
    [False] and lets every other exception through. *)
Fixpoint __getattr__ (limit : nat) (name : attribute) : Py t number :=
  match limit with
  | 0 => raise RecursionError
  | S limit =>
      self <- get ;;
      match _cache self !! attribute_name name with
      | Some v => ret v
      | None =>
          v <- match name with
               | total_bases => _total_bases
               | gc_pct => _gc_pct (__getattr__ limit)
               | missing s =>
                   found <- attempt (__getattr__ limit (missing (String "_" s))) ;;
                   match found with
                   | Raise AttributeError => raise ValueError
                   | Raise e => raise e
                   | Ret _ => raise TypeError
                   end
               end ;;
          modify (set_cache (insert (attribute_name name) v)) ;;
          ret v
      end
  end.

(** [finish]: the snapshot.  Flattening the tile table reads [d[k1]] and so
    may store empty tables in it; nothing else is written. *)
Definition finish : Py t snapshot :=
  self <- get ;;
  let qualities :=
    match sequence_qualities self with
    | Some sq => if decide (sq = ∅) then None else Some (CountingDict.sorted_items sq)
    | None => None
    end in
  let base_qualities :=
    BaseCountingDicts.flatten (Some "q"%string) <$> base_qualities self in
  let result tbq tsq :=
    mk_snapshot (count self)
      (CountingDict.sorted_items (sequence_lengths self))
      (CountingDict.sorted_items (sequence_gc self))
      (BaseCountingDicts.flatten (Some "n"%string) (bases self))
      qualities base_qualities tbq tsq in
  if track_tiles self then
    tq <- required tile_base_qualities AttributeError ;;
    let flat := BaseNestedDicts.flatten (Some "q"%string) tq in
    modify (set_tile_base_qualities (Some flat.1)) ;;
    tbq <- lift flat.2 ;;
    tsq <- required tile_sequence_qualities RecursionError ;;
    ret (result (Some tbq) (Some tsq))
  else ret (result None None).
End ReadStatCollector.

Import ReadStatCollector.

Ltac unfold_collector :=
  unfold collect, activate, count_read, tabulate, _init_qualities, _extend_bases,
    collect_qualities, add_base, required.

(** ** Specification of [collect] *)

(** The quality tables exist whenever quality tracking is on, and the tile
    tables whenever a tile pattern is configured as well. *)
Definition allocated (s : t) : Prop :=
  tracking s = true →
    is_Some (sequence_qualities s) ∧ is_Some (base_qualities s) ∧
    (is_Some (tile_key_regexp s) →
       is_Some (tile_base_qualities s) ∧ is_Some (tile_sequence_qualities s)).

(** The two distributions count every read that [count] counts. *)
Definition consistent (s : t) : Prop :=
  CountingDict.total (sequence_lengths s) = count s ∧
  CountingDict.total (sequence_gc s) = count s.

(** GC percentages are percentages and recorded lengths are positive. *)
Definition in_range (s : t) : Prop :=
  set_Forall (λ gc, gc ≤ 100) (CountingDict.keys (sequence_gc s)) ∧
  set_Forall (λ len, 0 < len) (CountingDict.keys (sequence_lengths s)).

(** The mean-quality distribution counts at most the reads counted. *)
Definition qualities_bounded (s : t) : Prop :=
  ∀ sq, sequence_qualities s = Some sq → CountingDict.total sq ≤ count s.

(** What holds of a collector between two calls. *)
Record inv (s : t) : Prop := mk_inv {
  inv_cache : _cache s = ∅;
  inv_max_read_len : max_read_len s = 0;
  inv_allocated : allocated s;
  inv_consistent : consistent s;
  inv_in_range : in_range s;
  inv_qualities_bounded : qualities_bounded s;
}.

(** The positional tables that a tracking collector needs for a read of
    [n] bases are there and have at least [n] positions. *)
Definition ready (n : nat) (s : t) : Prop :=
  tracking s = true ∧
  n ≤ length (BaseDicts.dicts (bases s)) ∧
  is_Some (sequence_qualities s) ∧
  (∃ bq, base_qualities s = Some bq ∧ n ≤ length (BaseDicts.dicts bq)) ∧
  (is_Some (tile_key_regexp s) →
     is_Some (tile_sequence_qualities s) ∧
     ∃ tq, tile_base_qualities s = Some tq ∧ n ≤ length (BaseDicts.dicts tq)).

(** Whether quality tracking is on once [collect] has looked at the read. *)
Definition activated (record : Read.t) (s : t) : bool :=
  tracking s || (bool_decide (qualities s = None) && truthy (Read.qualities record)).

(** The state after the three counters have been updated. *)
Definition counted (record : Read.t) (s : t) : t :=
  let seq := Read.sequence record in
  let gc := round_div ((str_count "C"%char seq + str_count "G"%char seq) * 100) (length seq) in
  set_sequence_gc (CountingDict.incr gc)
    (set_sequence_lengths (CountingDict.incr (length seq)) (set_count S s)).

(** What [collect] answers, as a decision on the read and the configuration. *)
Definition collect_result (record : Read.t) (s : t) : outcome unit :=
  if bool_decide (Read.sequence record = []) then Raise ZeroDivisionError
  else if negb (activated record s) then Raise UnboundLocalError
  else match Read.qualities record, tile_key_regexp s with
       | None, _ => Raise TypeError
       | Some _, None => Ret tt
       | Some _, Some re =>
           match re (Read.name record) with Some _ => Ret tt | None => Raise ValueError end
       end.

(** [round(sum(ord(q) for q in quals) / seqlen)], for a read that has bases. *)
Definition mean_quality (quals : list ascii) (seqlen : nat) : nat :=
  round_div (sum_map ord quals) seqlen.

(** The state after [collect_qualities] has recorded the mean quality. *)
Definition with_mean_quality (meanqual : nat) (s : t) : t :=
  set_sequence_qualities (CountingDict.incr meanqual <$> sequence_qualities s) s.

(** ... and the mean quality of the tile. *)
Definition with_tile_quality (tile : string) (meanqual : nat) (s : t) : t :=
  set_tile_sequence_qualities
    (NestedDict.incr tile meanqual <$> tile_sequence_qualities s) s.

(** One table of a positional set updated in place. *)
Definition tally_at {D} (f : D → D) (i : nat) (b : BaseDicts.t D) : BaseDicts.t D :=
  BaseDicts.mk (alter f i (BaseDicts.dicts b)).

(** The state after [add_base] has counted a base and its quality. *)
Definition add_base_state (tile : option string) (s : t) (ibq : nat * (ascii * ascii)) : t :=
  let '(i, (base, qual)) := ibq in
  let s1 := set_bases (tally_at (CountingDict.incr base) i (bases s)) s in
  let s2 := set_base_qualities (tally_at (CountingDict.incr qual) i <$> base_qualities s1) s1 in
  match tile with
  | Some tile =>
      if bool_decide (tile = ""%string) then s2
      else set_tile_base_qualities
             (tally_at (NestedDict.incr tile qual) i <$> tile_base_qualities s2) s2
  | None => s2
  end.

(** The state after [_extend_bases]. *)
Definition extended (n : nat) (s : t) : t :=
  let s1 := set_bases (BaseCountingDicts.extend n (bases s)) s in
  if tracking s then
    let s2 := set_base_qualities (BaseCountingDicts.extend n <$> base_qualities s) s1 in
    if track_tiles s
    then set_tile_base_qualities (BaseNestedDicts.extend n <$> tile_base_qualities s) s2
    else s2
  else s1.

(** The collector that [tabulate] leaves, on every branch: with the extended
    tables when the loop cannot start; with the mean quality as well when the
    tile pattern does not match; with every position counted when the call
    returns. *)
Definition tabulate_state (record : Read.t) (s : t) : t :=
  let seq := Read.sequence record in
  let n := length seq in
  let s1 := extended n s in
  match tracking s, Read.qualities record with
  | true, Some quals =>
      let s2 := with_mean_quality (mean_quality quals n) s1 in
      match tile_key_regexp s with
      | None => foldl (add_base_state None) s2 (enumerate 0 (zip seq quals))
      | Some re =>
          match re (Read.name record) with
          | None => s2
          | Some tile =>
              foldl (add_base_state (Some tile))
                    (with_tile_quality tile (mean_quality quals n) s2)
                    (enumerate 0 (zip seq quals))
          end
      end
  | _, _ => s1
  end.

(** What [tabulate] answers. *)
Definition tabulate_result (record : Read.t) (s : t) : outcome unit :=
  match tracking s, Read.qualities record, tile_key_regexp s with
  | false, _, _ => Raise UnboundLocalError
  | true, None, _ => Raise TypeError
  | true, Some _, None => Ret tt
  | true, Some _, Some re =>
      match re (Read.name record) with Some _ => Ret tt | None => Raise ValueError end
  end.

(** The collector that [collect] leaves, on every branch: after the
    activation alone when the read is empty, after the counters and
    [tabulate] otherwise. *)
Definition collect_state (record : Read.t) (s : t) : t :=
  let s0 := (activate record s).1 in
  if bool_decide (Read.sequence record = []) then s0
  else tabulate_state record (counted record s0).

(** The fields that neither [_extend_bases] nor [add_base] writes. *)
Definition scalars (s : t) :=
  (max_read_len s, count s, sequence_lengths s, sequence_gc s, qualities s,
   tile_key_regexp s, sequence_qualities s).

(** A run: the collector after a list of reads, errors caught by the caller. *)
Definition feed (records : list Read.t) (s : t) : t :=
  foldl (λ s record, (collect record s).1) s records.

(** The positional quality table before a read is counted: the one the
    collector has when it tracks qualities already, none when the read turns
    tracking on. *)
Definition qualities_before (s : t) : list (gmap ascii nat) :=
  if tracking s then default [] (BaseDicts.dicts <$> base_qualities s) else [].

(** The number of positions of the base table, and whether a read has
    any. *)
Definition table_length (s : t) : nat := length (BaseDicts.dicts (bases s)).

Definition has_bases (r : Read.t) : bool := negb (bool_decide (Read.sequence r = [])).

(** The collectors that a program can hold: built by the constructor, then
    fed reads, asked for a snapshot or for a computed attribute; a call that
    raises still leaves a collector behind. *)
Inductive reachable : t → Prop :=
  | reachable_init q re : reachable (__init__ q re)
  | reachable_collect s record : reachable s → reachable (collect record s).1
  | reachable_finish s : reachable s → reachable (finish s).1
  | reachable_getattr s limit name : reachable s → reachable (__getattr__ limit name s).1.

(** What [__getattr__] raises while the cache is empty. *)
Definition getattr_error (limit : nat) (name : attribute) : exn :=
  match name, limit with
  | total_bases, S _ => AttributeError
  | gc_pct, S (S _) => AttributeError
  | _, _ => RecursionError
  end.

(** ** Collectors and reads used by the examples *)

(** A tile pattern that accepts the names of instrument M1 and captures the
    tile 1101. *)
Definition tile_of_m1 (name : string) : option string :=
  if String.prefix "M1:" name then Some "1101"%string else None.

(** A fresh collector, quality tracking undecided, no tile pattern. *)
Definition fresh : t := __init__ None None.

(** A fresh collector with a tile pattern. *)
Definition fresh_tiles : t := __init__ None (Some tile_of_m1).

(** A fresh collector told not to track qualities. *)
Definition fresh_untracked : t := __init__ (Some false) None.

(** A fresh collector told to track qualities. *)
Definition fresh_tracked : t := __init__ (Some true) None.

(** The snapshot, given the two tile tables. *)
Definition snapshot_with (s : t)
    (tbq : option (list header_key * list (nat * string * list nat)))
    (tsq : option (gmap string (gmap nat nat))) : snapshot :=
  mk_snapshot (count s)
    (CountingDict.sorted_items (sequence_lengths s))
    (CountingDict.sorted_items (sequence_gc s))
    (BaseCountingDicts.flatten (Some "n"%string) (bases s))
    (match sequence_qualities s with
     | Some sq => if decide (sq = ∅) then None else Some (CountingDict.sorted_items sq)
     | None => None
     end)
    (BaseCountingDicts.flatten (Some "q"%string) <$> base_qualities s) tbq tsq.

(** The snapshot of a collector, empty if [finish] raises. *)
Definition snapshot_of (s : t) : snapshot :=
  match (finish s).2 with
  | Ret snap => snap
  | Raise _ => mk_snapshot 0 [] [] ([], []) None None None None
  end.

(** A read with qualities whose name the pattern rejects. *)
Definition read_other : Read.t := Read.of_fastq "HWI:3:17" "GGCA" "II##".

(** A read with no bases. *)
Definition read_empty : Read.t := Read.of_fastq "M1:7:FC:1:1101:15:21" "" "".

(** Every case of [activate]: the constructor argument, the read, the pattern. *)
Ltac activate_cases s r :=
  unfold activate, _init_qualities, tracking;
  destruct s as [? ? ? ? ? ? [?|] [[]|] ? ? ? ?];
  destruct (truthy (Read.qualities r)) eqn:?;
  py_simpl; try done.

(** ** What each phase leaves alone *)

Section frames.
Implicit Types (r : Read.t) (s : t) (n i : nat).

(** The configuration never changes. *)
Lemma collect_keeps_regexp r : preserves (keeps tile_key_regexp) (collect r).
Proof. solve_preserves_with unfold_collector. Qed.

(** [max_read_len] is never written: it stays at its initial value. *)
Lemma collect_keeps_max_read_len r : preserves (keeps max_read_len) (collect r).
Proof. solve_preserves_with unfold_collector. Qed.

(** Activation writes the quality fields only. *)
Lemma activate_frame r :
  preserves (keeps (λ s, (max_read_len s, count s, sequence_lengths s, sequence_gc s,
                          bases s, tile_key_regexp s))) (activate r).
Proof. solve_preserves_with unfold_collector. Qed.

Lemma tabulate_keeps_counters r :
  preserves (keeps (λ s, (count s, sequence_lengths s, sequence_gc s))) (tabulate r).
Proof. solve_preserves_with unfold_collector. Qed.

Lemma count_read_keeps_tables r :
  preserves (keeps (λ s, (bases s, qualities s, sequence_qualities s, base_qualities s,
                          tile_base_qualities s, tile_sequence_qualities s)))
            (count_read r).
Proof. solve_preserves_with unfold_collector. Qed.

Lemma collect_keeps_cache r : preserves (keeps _cache) (collect r).
Proof. solve_preserves_with unfold_collector. Qed.

(** [finish] writes the tile table only. *)
Lemma finish_frame :
  preserves (keeps (λ s, (_cache s, max_read_len s, count s, sequence_lengths s,
                          sequence_gc s, bases s, tile_key_regexp s, qualities s,
                          sequence_qualities s, base_qualities s,
                          tile_sequence_qualities s))) finish.
Proof. solve_preserves_with ltac:(unfold finish, required). Qed.

(** Once quality tracking is on, it stays on. *)
Lemma collect_keeps_tracking r :
  preserves (stable (λ s, tracking s = true)) (collect r).
Proof. solve_preserves_with unfold_collector. Qed.

(** The quality tables, once there, stay while the counters and the
    positional tables are updated. *)
Lemma count_read_allocated r : preserves (stable allocated) (count_read r).
Proof. solve_preserves unfold_collector ltac:(intros Ha; exact Ha). Qed.

Lemma tabulate_allocated r : preserves (stable allocated) (tabulate r).
Proof.
  solve_preserves unfold_collector
    ltac:(unfold stable, allocated; simpl; intros Ha Ht;
          destruct (Ha Ht) as (? & ? & Hre); split_and!; eauto;
          intros ?; destruct Hre; eauto).
Qed.
End frames.

(** ** Activation of quality tracking *)

Section activate.
Implicit Types (r : Read.t) (s : t).

Lemma activate_returns r s : (activate r s).2 = Ret tt.
Proof. activate_cases s r. Qed.

Lemma activate_tracking r s : tracking (activate r s).1 = activated r s.
Proof. unfold activated. activate_cases s r. Qed.

Lemma activate_allocated r s : allocated s → allocated (activate r s).1.
Proof.
  unfold allocated. activate_cases s r.
  all: intros _ _; split_and!; eauto; by intros [? [=]].
Qed.

Lemma activate_qualities_bounded r s :
  qualities_bounded s → qualities_bounded (activate r s).1.
Proof.
  unfold qualities_bounded. activate_cases s r.
  all: intros _ sq [= <-]; rewrite total_empty; lia.
Qed.
End activate.

(** ** The per-read counters *)

Section count_read.
Implicit Types (r : Read.t) (s : t) (seq : list ascii).

Lemma gc_percent_empty : gc_percent [] = Raise ZeroDivisionError.
Proof. done. Qed.

Lemma gc_percent_nonempty seq :
  seq ≠ [] →
  gc_percent seq =
    Ret (round_div ((str_count "C"%char seq + str_count "G"%char seq) * 100) (length seq)).
Proof. intros. apply round_truediv_pos. destruct seq; [done | simpl; lia]. Qed.

(** A GC percentage is at most 100: C and G are counted among the bases. *)
Lemma gc_percent_le seq gc : gc_percent seq = Ret gc → gc ≤ 100.
Proof.
  unfold gc_percent, round_truediv. case_decide; [done|]. intros [= <-].
  apply round_div_le; [lia|].
  pose proof (str_count_disjoint "C"%char "G"%char seq ltac:(done)). lia.
Qed.

(** The GC percentage of a read that has bases is computed, and it is at
    most 100. *)
Theorem gc_percent_total seq :
  seq ≠ [] → ∃ gc, gc_percent seq = Ret gc ∧ gc ≤ 100.
Proof.
  intros Hne. eexists. split; [by apply gc_percent_nonempty|].
  eapply gc_percent_le. by apply gc_percent_nonempty.
Qed.

Lemma count_read_empty r s :
  Read.sequence r = [] → count_read r s = (s, Raise ZeroDivisionError).
Proof. unfold count_read. by intros ->. Qed.

Lemma count_read_run r s :
  Read.sequence r ≠ [] → count_read r s = (counted r s, Ret tt).
Proof. intros Hne. unfold count_read. by rewrite gc_percent_nonempty. Qed.

Lemma counted_consistent r s : consistent s → consistent (counted r s).
Proof. unfold consistent, counted. simpl. rewrite !total_incr. lia. Qed.

Lemma counted_in_range r s : Read.sequence r ≠ [] → in_range s → in_range (counted r s).
Proof.
  intros Hne [Hgc Hlen]. unfold in_range, counted. simpl. rewrite !keys_incr.
  split; apply set_Forall_union; try done; apply set_Forall_singleton.
  - eapply gc_percent_le, gc_percent_nonempty, Hne.
  - destruct (Read.sequence r); [done | simpl; lia].
Qed.

Lemma counted_qualities_bounded r s : qualities_bounded s → qualities_bounded (counted r s).
Proof. intros Hq sq Hsq. specialize (Hq sq Hsq). simpl. lia. Qed.

(** The counters never go down, whatever [count_read] answers. *)
Lemma count_read_grows r : preserves (grows count) (count_read r).
Proof.
  intros s. destruct (decide (Read.sequence r = [])) as [He|Hne].
  - by rewrite count_read_empty.
  - rewrite count_read_run by done. unfold grows. simpl. lia.
Qed.
End count_read.

(** ** The positional tables *)

Section tables.
Implicit Types (r : Read.t) (s : t) (n i : nat).

Lemma incr_at_run `{Countable K} i (key : K) (b : BaseDicts.t (gmap K nat)) :
  i < length (BaseDicts.dicts b) → incr_at i key b = Ret (tally_at (CountingDict.incr key) i b).
Proof.
  intros Hi. unfold incr_at, BaseDicts.__getitem__, tally_at.
  destruct (lookup_lt_is_Some_2 _ _ Hi) as [d Hd]. rewrite Hd.
  by rewrite (insert_lookup_alter _ _ _ _ Hd).
Qed.

Lemma incr_nested_at_run i tile qual (b : BaseDicts.t (gmap string (gmap ascii nat))) :
  i < length (BaseDicts.dicts b) →
  incr_nested_at i tile qual b = Ret (tally_at (NestedDict.incr tile qual) i b).
Proof.
  intros Hi. unfold incr_nested_at, BaseDicts.__getitem__, tally_at.
  destruct (lookup_lt_is_Some_2 _ _ Hi) as [d Hd]. rewrite Hd.
  by rewrite (insert_lookup_alter _ _ _ _ Hd).
Qed.

Lemma length_tally_at {D} (f : D → D) i (b : BaseDicts.t D) :
  length (BaseDicts.dicts (tally_at f i b)) = length (BaseDicts.dicts b).
Proof. apply length_alter. Qed.
Lemma ready_set_bases n b s :
  ready n s → n ≤ length (BaseDicts.dicts b) → ready n (set_bases b s).
Proof. intros (? & ? & ? & ? & ?) ?. by split_and!. Qed.

Lemma ready_set_base_qualities n bq s :
  ready n s → n ≤ length (BaseDicts.dicts bq) → ready n (set_base_qualities (Some bq) s).
Proof. intros (? & ? & ? & ? & ?) ?. split_and!; eauto. Qed.

Lemma ready_set_tile_base_qualities n tq s :
  ready n s → (is_Some (tile_key_regexp s) → n ≤ length (BaseDicts.dicts tq)) →
  ready n (set_tile_base_qualities (Some tq) s).
Proof.
  intros (? & ? & ? & ? & Ht) ?. split_and!; try done.
  intros Hre. destruct (Ht Hre) as [? _]. eauto.
Qed.

Lemma ready_set_sequence_qualities n sq s :
  ready n s → ready n (set_sequence_qualities (Some sq) s).
Proof. intros (? & ? & ? & ? & ?). split_and!; eauto. Qed.

Lemma ready_set_tile_sequence_qualities n tsq s :
  ready n s → ready n (set_tile_sequence_qualities (Some tsq) s).
Proof.
  intros (? & ? & ? & ? & Ht). split_and!; try done.
  intros Hre. destruct (Ht Hre) as [_ ?]. eauto.
Qed.

(** [add_base] on a collector that is ready for position [i]: it returns, and
    the state is the one [add_base_state] computes. *)
Lemma add_base_run n i base qual tile s :
  ready n s → i < n → (is_Some tile → is_Some (tile_key_regexp s)) →
  add_base i base (Some qual) tile s = (add_base_state tile s (i, (base, qual)), Ret tt).
Proof.
  intros (_ & Hb & _ & (bq & Hbq & Hq) & Htile) Hi Hre.
  unfold add_base, required, add_base_state. py_simpl.
  rewrite incr_at_run by lia. simpl. rewrite Hbq. simpl.
  rewrite incr_at_run by lia. simpl.
  destruct tile as [tile|]; [|done].
  destruct (bool_decide (tile = ""%string)); simpl; [done|].
  destruct Htile as (_ & tq & Htq & Ht); [by apply Hre|].
  rewrite Htq. simpl. by rewrite incr_nested_at_run by lia.
Qed.

Lemma add_base_state_ready n tile s ibq : ready n s → ready n (add_base_state tile s ibq).
Proof.
  intros Hr. destruct ibq as [i [base qual]].
  pose proof Hr as (_ & Hb & _ & (bq & Hbq & Hq) & Htile).
  unfold add_base_state. simpl. rewrite Hbq. simpl.
  assert (ready n (set_base_qualities (Some (tally_at (CountingDict.incr qual) i bq))
            (set_bases (tally_at (CountingDict.incr base) i (bases s)) s))) as Hr2.
  { apply ready_set_base_qualities; [apply ready_set_bases|]; by rewrite ?length_tally_at. }
  destruct tile as [tile|]; [|done]. destruct (bool_decide _); [done|].
  destruct (tile_base_qualities s) as [tq|] eqn:Htq; simpl.
  - apply ready_set_tile_base_qualities; [done|]. rewrite length_tally_at. intros Hre.
    destruct (Htile Hre) as (_ & tq' & ? & ?). by simplify_eq.
  - destruct Hr2 as (? & ? & ? & ? & Ht2). by split_and!.
Qed.

Lemma add_base_state_regexp tile s ibq :
  tile_key_regexp (add_base_state tile s ibq) = tile_key_regexp s.
Proof.
  destruct ibq as [i [base qual]]. unfold add_base_state.
  destruct tile; [destruct (bool_decide _)|]; done.
Qed.

(** The loop of [collect] on a collector that is ready for the read: it
    returns, and the state is the fold of [add_base_state] over the
    positions. *)
Lemma tally_loop n tile s (pairs : list (ascii * ascii)) :
  ready n s → length pairs ≤ n → (is_Some tile → is_Some (tile_key_regexp s)) →
  for_each (enumerate 0 pairs) (λ ibq, add_base ibq.1 ibq.2.1 (Some ibq.2.2) tile) s
  = (foldl (add_base_state tile) s (enumerate 0 pairs), Ret tt).
Proof.
  intros Hr Hn Hre.
  apply (for_each_foldl
    (λ s0, ready n s0 ∧ tile_key_regexp s0 = tile_key_regexp s)); [|done].
  intros [i [base qual]] s0 [j Hj]%list_elem_of_lookup [Hr0 Hre0]. cbn [fst snd].
  apply enumerate_lookup in Hj as (y & [= -> <-] & Hy%lookup_lt_Some).
  rewrite (add_base_run n) by (rewrite ?Hre0; done || lia).
  split_and!; [done | by apply add_base_state_ready | by rewrite add_base_state_regexp].
Qed.
End tables.


(** ** Growing the tables and recording the mean quality *)

Section tabulate.
Implicit Types (r : Read.t) (s : t) (n i : nat).

Lemma extend_bases_run n s : allocated s → _extend_bases n s = (extended n s, Ret tt).
Proof.
  intros Ha. unfold _extend_bases, extended, required, track_tiles. py_simpl.
  destruct (tracking s) eqn:Ht; simpl; [|done].
  destruct (Ha Ht) as (_ & [bq Hbq] & Htile). rewrite Hbq. simpl.
  destruct (bool_decide (is_Some (tile_key_regexp s))) eqn:Hre; simpl; [|done].
  apply bool_decide_eq_true in Hre. by destruct (Htile Hre) as ([tq ->] & _).
Qed.

Lemma extended_ready n s : allocated s → tracking s = true → ready n (extended n s).
Proof.
  intros Ha Ht. destruct (Ha Ht) as (Hsq & [bq Hbq] & Htile).
  unfold extended, track_tiles, ready. rewrite Ht, Hbq. simpl.
  assert (∀ {D} (c : D) b, n ≤ length (BaseDicts.dicts (BaseDicts.extend c n b))) as Hlen.
  { intros. rewrite extend_length. lia. }
  case_bool_decide as Hre; simpl.
  - destruct (Htile Hre) as ([tq ->] & ?). simpl. split_and!; eauto.
  - split_and!; eauto. by intros ?.
Qed.

Lemma extended_untracked n s :
  tracking s = false → extended n s = set_bases (BaseCountingDicts.extend n (bases s)) s.
Proof. unfold extended. by intros ->. Qed.
Lemma ready_with_mean_quality n m s : ready n s → ready n (with_mean_quality m s).
Proof.
  intros Hr. pose proof Hr as (_ & _ & [sq Hsq] & _).
  unfold with_mean_quality. rewrite Hsq. by apply ready_set_sequence_qualities.
Qed.

Lemma ready_with_tile_quality n tile m s :
  ready n s → is_Some (tile_key_regexp s) → ready n (with_tile_quality tile m s).
Proof.
  intros Hr Hre. pose proof Hr as (_ & _ & _ & _ & Ht). destruct (Ht Hre) as [[tsq Htsq] _].
  unfold with_tile_quality. rewrite Htsq. by apply ready_set_tile_sequence_qualities.
Qed.

Lemma collect_qualities_none r n s :
  Read.qualities r = None → collect_qualities r n s = (s, Raise TypeError).
Proof. unfold collect_qualities. by intros ->. Qed.

(** The quality block on a read with qualities, for a collector whose
    tables exist. *)
Lemma collect_qualities_run r n m s quals :
  n ≠ 0 → ready m s → Read.qualities r = Some quals →
  collect_qualities r n s =
    let s2 := with_mean_quality (mean_quality quals n) s in
    match tile_key_regexp s with
    | None => (s2, Ret (quals, None))
    | Some re =>
        match re (Read.name r) with
        | None => (s2, Raise ValueError)
        | Some tile =>
            (with_tile_quality tile (mean_quality quals n) s2, Ret (quals, Some tile))
        end
    end.
Proof.
  intros Hn (Ht & _ & [sq Hsq] & _ & Htile) Hq.
  unfold collect_qualities, required, track_tiles, with_mean_quality, with_tile_quality,
    tracking in *.
  rewrite Hq. destruct s. py_simpl. rewrite round_truediv_pos by lia. simplify_eq/=. rewrite Ht.
  destruct tile_key_regexp0 as [re|]; simpl; [|done].
  destruct (re (Read.name r)) as [tile|]; [|done].
  by destruct Htile as ([tsq ->] & _).
Qed.
Lemma extended_tracking n s : tracking (extended n s) = tracking s.
Proof. unfold extended. by repeat case_match. Qed.

Lemma extended_regexp n s : tile_key_regexp (extended n s) = tile_key_regexp s.
Proof. unfold extended. by repeat case_match. Qed.

(** [tabulate] on every branch, for a read that has bases. *)
Lemma tabulate_run r s :
  max_read_len s = 0 → allocated s → Read.sequence r ≠ [] →
  tabulate r s = (tabulate_state r s, tabulate_result r s).
Proof.
  intros Hmax Ha Hne. unfold tabulate, tabulate_state, tabulate_result.
  set (n := length (Read.sequence r)).
  assert (n ≠ 0) as Hn by (subst n; destruct (Read.sequence r); done).
  unfold bind at 1; simpl. unfold bind at 1. rewrite Hmax, bool_decide_true by lia. simpl.
  rewrite extend_bases_run by done. unfold bind at 1; simpl.
  rewrite extended_tracking. destruct (tracking s) eqn:Ht; [|done].
  pose proof (extended_ready n s Ha Ht) as Hr. revert Hr.
  rewrite <- (extended_regexp n s). generalize (extended n s). intros s1 Hr.
  destruct (Read.qualities r) as [quals|] eqn:Hq.
  - unfold bind at 1 2. rewrite (collect_qualities_run r n n _ quals) by done.
    assert (length (zip (Read.sequence r) quals) ≤ n) as Hz.
    { rewrite length_zip_with. lia. }
    destruct (tile_key_regexp s1) as [re|] eqn:Hre;
      [destruct (re (Read.name r)) as [tile|]|]; simpl; try done.
    + apply (tally_loop n); [|done|by simpl; rewrite Hre].
      apply ready_with_tile_quality; [by apply ready_with_mean_quality | by simpl; rewrite Hre].
    + apply (tally_loop n); [by apply ready_with_mean_quality | done | by intros [? [=]]].
  - unfold bind. by rewrite collect_qualities_none.
Qed.
End tabulate.



(** ** [collect] on every branch *)

Section collect.
Implicit Types (r : Read.t) (s : t) (n i : nat).

Lemma activate_run r s : activate r s = ((activate r s).1, Ret tt).
Proof. rewrite <- (activate_returns r s). by destruct (activate r s). Qed.

Lemma counted_allocated r s : allocated s → allocated (counted r s).
Proof. done. Qed.

Lemma tabulate_result_counted r s :
  Read.sequence r ≠ [] →
  tabulate_result r (counted r (activate r s).1) = collect_result r s.
Proof.
  intros Hne. unfold tabulate_result, collect_result. rewrite bool_decide_false by done.
  change (tracking (counted r ?s)) with (tracking s).
  change (tile_key_regexp (counted r ?s)) with (tile_key_regexp s).
  pose proof (activate_frame r s) as [= _ _ _ _ _ ->].
  rewrite activate_tracking. by destruct (activated r s).
Qed.
(** [collect] is [collect_state] and [collect_result]: the state it leaves and
    what it answers, on every branch. *)
Lemma collect_run r s :
  max_read_len s = 0 → allocated s →
  collect r s = (collect_state r s, collect_result r s).
Proof.
  intros Hmax Ha. unfold collect, collect_state.
  unfold bind at 1. rewrite activate_run. unfold bind at 1.
  case_bool_decide as Hseq.
  - rewrite count_read_empty by done. unfold collect_result.
    by rewrite bool_decide_true.
  - rewrite count_read_run, <- tabulate_result_counted by done.
    pose proof (activate_frame r s) as [= Hmax' _ _ _ _ _].
    apply tabulate_run; [exact (eq_trans Hmax' Hmax) | | done].
    by apply counted_allocated, activate_allocated.
Qed.

End collect.


(** ** The invariant *)

Section invariant.
Implicit Types (r : Read.t) (s : t) (n i : nat).

Lemma extended_scalars n s : scalars (extended n s) = scalars s.
Proof. unfold extended. by repeat case_match. Qed.

Lemma add_base_state_scalars tile s ibq : scalars (add_base_state tile s ibq) = scalars s.
Proof.
  destruct ibq as [i [base qual]]. unfold add_base_state.
  destruct tile; [destruct (bool_decide _)|]; done.
Qed.

Lemma tallied_scalars tile s (l : list (nat * (ascii * ascii))) :
  scalars (foldl (add_base_state tile) s l) = scalars s.
Proof. apply foldl_keeps. intros. apply add_base_state_scalars. Qed.

Lemma with_mean_quality_scalars m s s' :
  scalars s = scalars s' → scalars (with_mean_quality m s) = scalars (with_mean_quality m s').
Proof. unfold scalars, with_mean_quality. simpl. by intros [= -> -> -> -> -> -> ->]. Qed.

(** [tabulate] adds at most one read to the mean-quality distribution, and
    that is all it does to the fields outside the positional tables. *)
Lemma tabulate_state_scalars r s :
  scalars (tabulate_state r s) = scalars s ∨
  ∃ m, scalars (tabulate_state r s) = scalars (with_mean_quality m s).
Proof.
  pose proof (extended_scalars (length (Read.sequence r)) s) as He.
  unfold tabulate_state. repeat case_match; eauto; right; eexists.
  all: rewrite ?tallied_scalars.
  all: try change (scalars (with_tile_quality ?t ?m ?x)) with (scalars x).
  all: by apply with_mean_quality_scalars.
Qed.

Lemma tabulate_state_bounded r s :
  qualities_bounded s → qualities_bounded (tabulate_state r (counted r s)).
Proof.
  intros Hq sq'.
  destruct (tabulate_state_scalars r (counted r s)) as [[= _ -> _ _ _ _ ->]|[m [= _ -> _ _ _ _ ->]]].
  - intros Hsq. specialize (Hq _ Hsq). simpl. lia.
  - simpl. destruct (sequence_qualities s) as [sq|] eqn:Hsq; [|done]. intros [= <-].
    specialize (Hq _ Hsq). rewrite total_incr. lia.
Qed.
Lemma activate_stable_allocated r : preserves (stable allocated) (activate r).
Proof. intros s Ha. by apply activate_allocated. Qed.

Lemma collect_allocated r : preserves (stable allocated) (collect r).
Proof.
  unfold collect. repeat (apply preserves_bind; [apply _ | | intros _]).
  - apply activate_stable_allocated.
  - apply count_read_allocated.
  - apply tabulate_allocated.
Qed.

Lemma count_read_counters r :
  preserves (stable (λ s, consistent s ∧ in_range s)) (count_read r).
Proof.
  intros s [Hc Hr]. destruct (decide (Read.sequence r = [])) as [He|Hne].
  - by rewrite count_read_empty.
  - rewrite count_read_run by done. split; [by apply counted_consistent | by apply counted_in_range].
Qed.

Lemma collect_counters r :
  preserves (stable (λ s, consistent s ∧ in_range s)) (collect r).
Proof.
  assert (∀ s s', keeps (λ s, (count s, sequence_lengths s, sequence_gc s)) s s' →
    stable (λ s, consistent s ∧ in_range s) s s') as Hk.
  { unfold keeps, stable, consistent, in_range. by intros s s' [= -> -> ->]. }
  unfold collect. repeat (apply preserves_bind; [apply _ | | intros _]).
  - intros s. pose proof (activate_frame r s) as [= _ Hc Hl Hg _ _]. apply Hk.
    unfold keeps. by rewrite Hc, Hl, Hg.
  - apply count_read_counters.
  - apply (preserves_weaken _ _ _ Hk), tabulate_keeps_counters.
Qed.
End invariant.


(** ** The computed attributes and the snapshot *)

Section attributes.
Implicit Types (s : t) (limit : nat) (name : attribute).

(** A name without a method recurses until the frames run out. *)
Lemma getattr_missing limit str s :
  _cache s = ∅ → __getattr__ limit (missing str) s = (s, Raise RecursionError).
Proof.
  intros Hc. revert str. induction limit as [|limit IH]; intros str; [done|].
  simpl. unfold bind at 1, get. rewrite Hc, lookup_empty.
  unfold bind at 1 2, attempt. by rewrite IH.
Qed.

(** While the cache is empty, [__getattr__] raises and changes nothing. *)
Lemma getattr_run limit name s :
  _cache s = ∅ → __getattr__ limit name s = (s, Raise (getattr_error limit name)).
Proof.
  intros Hc. destruct name as [| |str]; [| |by destruct limit; apply getattr_missing].
  all: destruct limit as [|[|limit]]; try done.
  all: unfold __getattr__, _gc_pct, _total_bases, bind, get, raise; simpl.
  all: by repeat (rewrite Hc, lookup_empty; simpl).
Qed.

Lemma finish_allocated : preserves (stable allocated) finish.
Proof.
  solve_preserves ltac:(unfold finish, required)
    ltac:(unfold stable, allocated; simpl; intros Ha Ht;
          destruct (Ha Ht) as (? & ? & Hre); split_and!; eauto;
          intros ?; destruct Hre; eauto).
Qed.

Lemma finish_inv s : inv s → inv (finish s).1.
Proof.
  intros [Hcache Hmax Ha Hc Hr Hq].
  pose proof (finish_frame s) as [= E1 E2 E3 E4 E5 _ _ _ E6 _ _].
  split; [congruence | congruence | by apply finish_allocated | | |].
  - unfold consistent. by rewrite E3, E4, E5.
  - unfold in_range. by rewrite E4, E5.
  - unfold qualities_bounded. by rewrite E3, E6.
Qed.
End attributes.

(** ** The collectors a program can reach *)

Section reachable.
Implicit Types (r : Read.t) (s : t) (n i : nat).

Lemma init_inv q re : inv (__init__ q re).
Proof.
  destruct q as [[]|], re; split; try done.
  all: match goal with
       | |- consistent _ => split; apply total_empty
       | |- in_range _ => split; apply set_Forall_empty
       | |- qualities_bounded _ => intros sq [= <-]; by rewrite total_empty
       | |- allocated _ => intros _; split_and!; eauto; by intros [? [=]]
       end.
Qed.

(** [collect] keeps the invariant, whatever it answers. *)
Lemma collect_inv r s : inv s → inv (collect r s).1.
Proof.
  intros [Hcache Hmax Ha Hc Hr Hq].
  destruct (collect_counters r s) as [? ?]; [done|].
  split; try done.
  - by rewrite (collect_keeps_cache r s).
  - by rewrite (collect_keeps_max_read_len r s).
  - by apply collect_allocated.
  - rewrite collect_run by done. unfold collect_state. simpl.
    case_bool_decide; [by apply activate_qualities_bounded|].
    by apply tabulate_state_bounded, activate_qualities_bounded.
Qed.

(** Every collector a program can hold satisfies the invariant. *)
Lemma reachable_inv s : reachable s → inv s.
Proof.
  induction 1 as [| | |s limit name _ IH];
    [apply init_inv | by apply collect_inv | by apply finish_inv |].
  by rewrite getattr_run by apply IH.
Qed.

(** On a reachable collector, [collect] is its closed form. *)
Lemma collect_reachable r s :
  reachable s → collect r s = (collect_state r s, collect_result r s).
Proof. intros [_ ? ? _ _ _]%reachable_inv. by apply collect_run. Qed.

Lemma feed_app (l1 l2 : list Read.t) s : feed (l1 ++ l2) s = feed l2 (feed l1 s).
Proof. unfold feed. by rewrite foldl_app. Qed.

Lemma reachable_feed records s : reachable s → reachable (feed records s).
Proof.
  revert s. induction records as [|r records IH]; intros s Hs; [done|].
  apply IH. by constructor.
Qed.

(** C2: [collect] is [collect_state] and [collect_result], and the state it
    leaves satisfies the invariant again: the closed form of every branch,
    the four exceptions included. *)
Theorem collect_spec r s :
  inv s →
  collect r s = (collect_state r s, collect_result r s) ∧ inv (collect_state r s).
Proof.
  intros Hs. pose proof (collect_inv r s Hs) as Hi. destruct Hs as [_ ? ? _ _ _].
  rewrite collect_run in Hi |- * by done. done.
Qed.

(** C5: Whatever reads a collector is fed after its construction, and whether
    the calls return or raise, it satisfies the invariant: [max_read_len] is
    still 0, the quality tables exist when tracking is on, the length and GC
    distributions sum to [count], GC keys are at most 100, length keys are
    positive, and the mean-quality distribution sums to at most [count]. *)
Theorem feed_inv q re records : inv (feed records (__init__ q re)).
Proof. apply reachable_inv, reachable_feed, reachable_init. Qed.
End reachable.

(** ** The snapshot and the computed attributes of a reachable collector *)

Section finish.
Implicit Types (s : t) (limit : nat) (name : attribute).


Lemma finish_tiles s tq tsq :
  track_tiles s = true → tile_base_qualities s = Some tq →
  tile_sequence_qualities s = Some tsq →
  finish s =
    (set_tile_base_qualities (Some (BaseNestedDicts.flatten (Some "q"%string) tq).1) s,
     (λ tbq, snapshot_with s (Some tbq) (Some tsq))
       <$> (BaseNestedDicts.flatten (Some "q"%string) tq).2).
Proof.
  intros Ht Htq Htsq. unfold finish, required. unfold bind at 1, get. rewrite Ht.
  py_simpl. rewrite Htq. simpl. by rewrite Htsq.
Qed.

Lemma finish_no_tiles s :
  track_tiles s = false → finish s = (s, Ret (snapshot_with s None None)).
Proof. intros Ht. unfold finish. unfold bind at 1, get. by rewrite Ht. Qed.

(** [finish] can be asked again: the empty tables that flattening stored
    in the tile table change nothing of the second snapshot. *)
Lemma finish_again s :
  allocated s → finish (finish s).1 = ((finish s).1, (finish s).2).
Proof.
  intros Ha. destruct (track_tiles s) eqn:Ht.
  - pose proof Ht as [Htr Hre%bool_decide_eq_true]%andb_true_iff.
    destruct (Ha Htr) as (_ & _ & Htile). destruct (Htile Hre) as [[tq Htq] [tsq Htsq]].
    rewrite (finish_tiles s tq tsq) by done. cbn [fst snd].
    rewrite (finish_tiles _ (BaseNestedDicts.flatten (Some "q"%string) tq).1 tsq) by done.
    by rewrite nested_flatten_again.
  - rewrite (finish_no_tiles s) by done. by apply finish_no_tiles.
Qed.

Lemma finish_returns s :
  allocated s →
  ∃ tbq tsq,
    (finish s).2 = Ret (mk_snapshot (count s)
      (CountingDict.sorted_items (sequence_lengths s))
      (CountingDict.sorted_items (sequence_gc s))
      (BaseCountingDicts.flatten (Some "n"%string) (bases s))
      (match sequence_qualities s with
       | Some sq => if decide (sq = ∅) then None else Some (CountingDict.sorted_items sq)
       | None => None
       end)
      (BaseCountingDicts.flatten (Some "q"%string) <$> base_qualities s) tbq tsq)
    ∧ (is_Some tbq ↔ track_tiles s = true) ∧ (is_Some tsq ↔ track_tiles s = true).
Proof.
  intros Ha. unfold finish, required. unfold bind at 1, get.
  destruct (track_tiles s) eqn:Ht.
  - apply andb_true_iff in Ht as [Ht Hre%bool_decide_eq_true].
    destruct (Ha Ht) as (_ & _ & Htile). destruct (Htile Hre) as [[tq Htq] [tsq Htsq]].
    py_simpl. rewrite Htq. simpl. rewrite Htsq. simpl. do 2 eexists. split; [done|].
    split; (split; [done | eauto]).
  - exists None, None. split; [done|]. split; (split; [by intros [? [=]] | done]).
Qed.

(** The snapshot of a reachable collector is the one [finish] returns. *)
Lemma finish_snapshot_of s :
  reachable s →
  finish s = ((finish s).1, Ret (snapshot_of s))
  ∧ snap_count (snapshot_of s) = count s.
Proof.
  intros [_ _ Ha _ _ _]%reachable_inv. unfold snapshot_of.
  destruct (finish_returns s Ha) as (tbq & tsq & Hsnap & _).
  destruct (finish s) as [s' o]. simpl in *. by subst o.
Qed.

(** C34: [finish] returns on every reachable collector, does not reset anything
    it reports, and its snapshot is consistent: the counts of the length and
    of the GC distribution both add up to [count].  Asked again, it returns
    the same snapshot and changes nothing more. *)
Theorem finish_spec s :
  reachable s →
  ∃ snap, (finish s).2 = Ret snap
    ∧ snap_count snap = count s
    ∧ sum_list (snap_length snap).*2 = count s
    ∧ sum_list (snap_gc snap).*2 = count s
    ∧ snap_bases snap = BaseCountingDicts.flatten (Some "n"%string) (bases s)
    ∧ count (finish s).1 = count s
    ∧ bases (finish s).1 = bases s
    ∧ finish (finish s).1 = ((finish s).1, Ret snap).
Proof.
  intros [_ _ Ha [Hl Hg] _ _]%reachable_inv. rewrite (finish_again s Ha).
  destruct (finish_returns s Ha) as (tbq & tsq & -> & _).
  pose proof (finish_frame s) as [= _ _ Hc _ _ Hb _ _ _ _ _].
  eexists. split; [done|]. simpl. by rewrite !sorted_items_total.
Qed.

(** Which quality keys a snapshot has: [qualities] when the mean-quality
    table exists and is not empty, [base_qualities] when the positional
    table exists. *)
Theorem finish_quality_keys s snap :
  reachable s → (finish s).2 = Ret snap →
  (is_Some (snap_qualities snap) ↔ ∃ sq, sequence_qualities s = Some sq ∧ sq ≠ ∅)
  ∧ (is_Some (snap_base_qualities snap) ↔ is_Some (base_qualities s)).
Proof.
  intros [_ _ Ha _ _ _]%reachable_inv.
  destruct (finish_returns s Ha) as (tbq & tsq & -> & _). intros [= <-]. simpl. split.
  - destruct (sequence_qualities s) as [sq|]; [|split; [by intros [? [=]] | by intros (? & [=] & _)]].
    case_decide as Hsq; (split; [intros [? E]; simplify_eq; eauto | intros (? & [= <-] & ?); eauto]).
    done.
  - by rewrite fmap_is_Some.
Qed.
End finish.

(** ** What [collect] answers and what it leaves *)

Section outcomes.
Implicit Types (r : Read.t) (s : t) (n i : nat).

Lemma collect_empty r s :
  Read.sequence r = [] → collect r s = ((activate r s).1, Raise ZeroDivisionError).
Proof. intros He. unfold collect, bind. by rewrite activate_run, count_read_empty. Qed.

(** C18: [collect] returns exactly on a non-empty read that carries qualities,
    given to a collector that tracks qualities (or starts to with this read)
    and whose tile pattern, if there is one, matches the name of the read. *)
Theorem collect_returns_iff r s :
  reachable s →
  (collect r s).2 = Ret tt ↔
    Read.sequence r ≠ [] ∧ activated r s = true ∧ is_Some (Read.qualities r) ∧
    ∀ re, tile_key_regexp s = Some re → is_Some (re (Read.name r)).
Proof.
  intros Hs. rewrite collect_reachable by done. unfold collect_result. simpl.
  case_bool_decide as Hseq; [split; [done | by intros [? _]]|].
  destruct (activated r s); simpl; [|split; [done | by intros (_ & [=] & _)]].
  destruct (Read.qualities r) as [quals|]; [|split; [done | by intros (_ & _ & [? [=]] & _)]].
  destruct (tile_key_regexp s) as [re|];
    [|split; [intros _; split_and!; eauto; by intros re [=] | done]].
  destruct (re (Read.name r)) as [tile|] eqn:Hre.
  - split; [intros _; split_and!; eauto; intros re' [= <-]; rewrite Hre; eauto | done].
  - split; [done|]. intros (_ & _ & _ & Hm). destruct (Hm re eq_refl) as [? Hx]. congruence.
Qed.

(** The exceptions of [collect]: a division by zero, an unbound local, a
    [None] where the qualities are expected, a tile pattern that does not
    match.  No index, attribute or recursion error can escape. *)
Theorem collect_raises_only r s :
  reachable s →
  (collect r s).2 ∈ [Ret tt; Raise ZeroDivisionError; Raise UnboundLocalError;
                     Raise TypeError; Raise ValueError].
Proof.
  intros Hs. rewrite collect_reachable by done. unfold collect_result. simpl.
  repeat case_match; set_solver.
Qed.

(** An empty read raises [ZeroDivisionError] before anything is counted,
    on any collector. *)
Theorem collect_empty_read r s :
  Read.sequence r = [] →
  (collect r s).2 = Raise ZeroDivisionError ∧ count (collect r s).1 = count s.
Proof.
  intros He. rewrite collect_empty by done. simpl.
  split; [done|]. by pose proof (activate_frame r s) as [= _ -> _ _ _ _].
Qed.

(** The read is counted on every branch but the division by zero: when
    [collect] raises later, the counters have been updated already. *)
Theorem collect_count r s :
  reachable s →
  count (collect r s).1 = if bool_decide (Read.sequence r = []) then count s else S (count s).
Proof.
  intros Hs. case_bool_decide as Hseq.
  { rewrite collect_empty by done. simpl.
    by pose proof (activate_frame r s) as [= _ -> _ _ _ _]. }
  rewrite collect_reachable by done. unfold collect_state. simpl.
  rewrite bool_decide_false by done.
  pose proof (activate_frame r s) as [= _ Hc _ _ _ _].
  destruct (tabulate_state_scalars r (counted r (activate r s).1))
    as [[= _ -> _ _ _ _ _]|[m [= _ -> _ _ _ _ _]]]; simpl; by rewrite Hc.
Qed.

(** C36: A collector that does not track qualities cannot finish a call: on every
    non-empty read it counts the read, grows the base table and raises
    [UnboundLocalError] when the loop reads [quals]. *)
Theorem collect_untracked_raises r s :
  reachable s → activated r s = false → Read.sequence r ≠ [] →
  collect r s =
    (set_bases (BaseCountingDicts.extend (length (Read.sequence r)) (bases s)) (counted r s),
     Raise UnboundLocalError).
Proof.
  intros Hs Hact Hseq. rewrite collect_reachable by done.
  unfold collect_state, collect_result, tabulate_state. rewrite Hact, bool_decide_false by done.
  assert ((activate r s).1 = s) as ->.
  { unfold activated in Hact. apply orb_false_elim in Hact as [_ Hact].
    unfold activate. py_simpl. by rewrite Hact. }
  apply orb_false_elim in Hact as [Ht _].
  change (tracking (counted r s)) with (tracking s). rewrite Ht. simpl.
  by rewrite extended_untracked.
Qed.
Lemma tabulate_state_mean_quality r s quals :
  tracking s = true → Read.qualities r = Some quals →
  sequence_qualities (tabulate_state r s)
  = CountingDict.incr (mean_quality quals (length (Read.sequence r))) <$> sequence_qualities s.
Proof.
  intros Ht Hq. unfold tabulate_state. rewrite Ht, Hq.
  pose proof (extended_scalars (length (Read.sequence r)) s) as [= _ _ _ _ _ _ Hsq].
  repeat case_match.
  all: try (match goal with |- context [foldl (add_base_state ?t) ?s ?l] =>
         pose proof (tallied_scalars t s l) as [= _ _ _ _ _ _ ->] end).
  all: unfold with_mean_quality; simpl; by rewrite Hsq.
Qed.

(** The mean quality that [collect] records is the rounded quotient of the
    sum of the character codes of the qualities by the number of bases: the
    codes are not converted to Phred scores, and the divisor is the length of
    the sequence. *)
Theorem collect_mean_quality r s quals :
  reachable s → (collect r s).2 = Ret tt → Read.qualities r = Some quals →
  sequence_qualities (collect r s).1
  = CountingDict.incr (round_div (sum_map ord quals) (length (Read.sequence r)))
      <$> sequence_qualities (activate r s).1.
Proof.
  intros Hs Hret Hq. rewrite collect_reachable in * by done.
  unfold collect_state, collect_result in *. simpl in *.
  case_bool_decide as Hseq; [done|]. destruct (activated r s) eqn:Hact; [|done].
  rewrite (tabulate_state_mean_quality _ _ quals); [done | | done].
  change (tracking (counted r ?x)) with (tracking x). by rewrite activate_tracking.
Qed.

(** A read whose name the tile pattern does not match raises [ValueError]
    after the read has been counted and its mean quality recorded: the call
    is not atomic. *)
Theorem collect_tile_mismatch r s re quals :
  reachable s → Read.sequence r ≠ [] → activated r s = true →
  Read.qualities r = Some quals → tile_key_regexp s = Some re → re (Read.name r) = None →
  (collect r s).2 = Raise ValueError ∧
  count (collect r s).1 = S (count s) ∧
  sequence_qualities (collect r s).1 =
    CountingDict.incr (mean_quality quals (length (Read.sequence r)))
      <$> sequence_qualities (activate r s).1.
Proof.
  intros Hs Hseq Hact Hq Hre Hm. rewrite <- activate_tracking in Hact.
  pose proof (activate_frame r s) as [= _ Hc _ _ _ Hre'].
  rewrite collect_reachable by done.
  unfold collect_state, collect_result, tabulate_state. simpl.
  rewrite bool_decide_false, <- activate_tracking by done.
  change (tracking (counted r ?x)) with (tracking x).
  change (tile_key_regexp (counted r ?x)) with (tile_key_regexp x).
  rewrite Hact, Hq, Hre', Hre, Hm. simpl.
  pose proof (extended_scalars (length (Read.sequence r)) (counted r (activate r s).1))
    as [= _ -> _ _ _ _ ->].
  by rewrite <- Hc.
Qed.

Lemma tallied_bases tile s (l : list (nat * (ascii * ascii))) :
  BaseDicts.dicts (bases (foldl (add_base_state tile) s l)) =
  foldl (λ ds ibq, alter (CountingDict.incr ibq.2.1) ibq.1 ds) (BaseDicts.dicts (bases s)) l.
Proof.
  revert s. induction l as [|[i [base qual]] l IH]; intros s; simpl; [done|].
  rewrite IH. f_equal. by destruct tile; [destruct (bool_decide _)|].
Qed.

Lemma tabulate_state_bases r s quals :
  tabulate_result r s = Ret tt → Read.qualities r = Some quals →
  BaseDicts.dicts (bases (tabulate_state r s)) =
  foldl (λ ds ibq, alter (CountingDict.incr ibq.2.1) ibq.1 ds)
        (BaseDicts.dicts (BaseCountingDicts.extend (length (Read.sequence r)) (bases s)))
        (enumerate 0 (zip (Read.sequence r) quals)).
Proof.
  unfold tabulate_result, tabulate_state. intros Hres ->.
  assert (bases (extended (length (Read.sequence r)) s)
          = BaseCountingDicts.extend (length (Read.sequence r)) (bases s)) as Hb.
  { unfold extended. by repeat case_match. }
  repeat case_match; try done; by rewrite tallied_bases, <- Hb.
Qed.

Lemma activate_base_qualities r s :
  allocated s → tracking (activate r s).1 = true →
  BaseDicts.dicts <$> base_qualities (activate r s).1 = Some (qualities_before s).
Proof.
  unfold qualities_before, allocated. activate_cases s r.
  all: intros H _; destruct H as (_ & [bq ->] & _); done.
Qed.

Lemma tallied_base_qualities tile s (l : list (nat * (ascii * ascii))) :
  base_qualities (foldl (add_base_state tile) s l) =
  (λ bq, BaseDicts.mk (foldl (λ ds ibq, alter (CountingDict.incr ibq.2.2) ibq.1 ds)
                         (BaseDicts.dicts bq) l)) <$> base_qualities s.
Proof.
  revert s. induction l as [|[i [base qual]] l IH]; intros s; cbn [foldl].
  { by destruct (base_qualities s) as [[]|]. }
  rewrite IH.
  assert (base_qualities (add_base_state tile s (i, (base, qual)))
          = tally_at (CountingDict.incr qual) i <$> base_qualities s) as ->.
  { unfold add_base_state. by destruct tile; [destruct (bool_decide _)|]. }
  by destruct (base_qualities s).
Qed.

Lemma tabulate_state_base_qualities r s quals :
  tabulate_result r s = Ret tt → Read.qualities r = Some quals →
  base_qualities (tabulate_state r s) =
  (λ bq, BaseDicts.mk
     (foldl (λ ds ibq, alter (CountingDict.incr ibq.2.2) ibq.1 ds)
        (BaseDicts.dicts (BaseCountingDicts.extend (length (Read.sequence r)) bq))
        (enumerate 0 (zip (Read.sequence r) quals)))) <$> base_qualities s.
Proof.
  unfold tabulate_result, tabulate_state. intros Hres ->.
  destruct (tracking s) eqn:Ht; [|done].
  assert (base_qualities (extended (length (Read.sequence r)) s)
          = BaseCountingDicts.extend (length (Read.sequence r)) <$> base_qualities s) as Hb.
  { unfold extended. rewrite Ht. by destruct (track_tiles s). }
  repeat case_match; try done; rewrite tallied_base_qualities; simpl; rewrite Hb;
    by destruct (base_qualities s).
Qed.

(** [tabulate] returns on a tracking collector only. *)
Lemma tabulate_tracking r s :
  tabulate_result r (counted r s) = Ret tt → tracking s = true.
Proof.
  unfold tabulate_result. change (tracking (counted r ?x)) with (tracking x).
  by destruct (tracking s).
Qed.

(** When [collect] returns, every position that has a base and a quality
    has counted that base once more in the base table and that quality once
    more in the quality table; a position that did not exist starts from an
    empty table, and so does every position when the read has turned quality
    tracking on. *)
Theorem collect_counts_bases r s quals i base qual :
  reachable s → (collect r s).2 = Ret tt →
  Read.qualities r = Some quals → Read.sequence r !! i = Some base → quals !! i = Some qual →
  BaseDicts.dicts (bases (collect r s).1) !! i
  = Some (CountingDict.incr base (default ∅ (BaseDicts.dicts (bases s) !! i)))
  ∧ ∃ bq, base_qualities (collect r s).1 = Some bq
          ∧ BaseDicts.dicts bq !! i
            = Some (CountingDict.incr qual (default ∅ (qualities_before s !! i))).
Proof.
  intros Hs Hret Hq Hi Hqi. pose proof (reachable_inv s Hs) as [_ _ Ha _ _ _].
  rewrite collect_reachable in * by done. simpl in *.
  assert (Read.sequence r ≠ []) as Hseq by (by intros E; rewrite E in Hi).
  unfold collect_state. rewrite bool_decide_false by done.
  rewrite <- tabulate_result_counted in Hret by done.
  rewrite (tabulate_state_bases _ _ quals), (tabulate_state_base_qualities _ _ quals)
    by done.
  change (base_qualities (counted r ?x)) with (base_qualities x).
  change (bases (counted r ?x)) with (bases x).
  pose proof (activate_frame r s) as [= _ _ _ _ -> _].
  assert (zip (Read.sequence r) quals !! i = Some (base, qual)) as Hz.
  { apply lookup_zip_with_Some. eauto. }
  apply lookup_lt_Some in Hi. split.
  - rewrite (foldl_alter_enumerate (λ bq : ascii * ascii, CountingDict.incr bq.1)).
    rewrite Nat.sub_0_r, Hz, decide_True by lia. unfold BaseCountingDicts.extend.
    by rewrite extend_lookup.
  - pose proof (activate_base_qualities r s Ha (tabulate_tracking _ _ Hret)) as Hb.
    destruct (base_qualities (activate r s).1) as [bq|]; [|done]. injection Hb as Hb.
    eexists. split; [done|]. simpl.
    rewrite (foldl_alter_enumerate (λ bq : ascii * ascii, CountingDict.incr bq.2)).
    rewrite Nat.sub_0_r, Hz, decide_True by lia. unfold BaseCountingDicts.extend.
    by rewrite extend_lookup, Hb.
Qed.
End outcomes.

(** ** Totals of a run *)

Section totals.
Implicit Types (r : Read.t) (s : t) (n : nat).

Lemma tallied_length tile s (l : list (nat * (ascii * ascii))) :
  table_length (foldl (add_base_state tile) s l) = table_length s.
Proof.
  unfold table_length. rewrite tallied_bases. generalize (BaseDicts.dicts (bases s)).
  induction l as [|ibq l IH]; intros ds; simpl; [done|]. by rewrite IH, length_alter.
Qed.

Lemma extended_length n s : table_length (extended n s) = table_length s `max` n.
Proof.
  unfold table_length, extended.
  assert (length (BaseDicts.dicts (BaseCountingDicts.extend n (bases s)))
          = length (BaseDicts.dicts (bases s)) `max` n) as Hl.
  { unfold BaseCountingDicts.extend. rewrite extend_dicts, length_app, length_replicate.
    lia. }
  by repeat case_match.
Qed.

Lemma tabulate_state_length r s :
  table_length (tabulate_state r s) = table_length s `max` length (Read.sequence r).
Proof.
  unfold tabulate_state. repeat case_match; rewrite ?tallied_length;
    apply extended_length.
Qed.

Lemma collect_table_length r s :
  reachable s →
  table_length (collect r s).1 = table_length s `max` length (Read.sequence r).
Proof.
  intros Hs. rewrite collect_reachable by done. unfold collect_state. simpl.
  pose proof (activate_frame r s) as [= _ _ _ _ Hb _].
  case_bool_decide as Hseq.
  - unfold table_length. rewrite Hb, Hseq. simpl. lia.
  - rewrite tabulate_state_length. unfold table_length.
    change (bases (counted r ?x)) with (bases x). by rewrite Hb.
Qed.

Lemma feed_reachable_totals records s :
  reachable s →
  count (feed records s) = count s + length (filter (λ r, has_bases r = true) records)
  ∧ table_length (feed records s)
    = table_length s `max` max_list ((λ r, length (Read.sequence r)) <$> records).
Proof.
  revert s. induction records as [|r records IH]; intros s Hs; simpl.
  { split; lia. }
  destruct (IH (collect r s).1) as [-> ->]; [by constructor|].
  rewrite collect_count, collect_table_length by done. unfold has_bases.
  rewrite filter_cons. case_bool_decide; simpl;
    (split; [lia|symmetry; apply Nat.max_assoc]).
Qed.

Lemma init_totals q re : count (__init__ q re) = 0 ∧ table_length (__init__ q re) = 0.
Proof. by destruct q as [[]|], re. Qed.

(** A new collector counts the reads that have bases. *)
Lemma count_feed_init q re (reads : list Read.t) :
  count (feed reads (__init__ q re)) = length (filter (λ r, has_bases r = true) reads).
Proof.
  destruct (feed_reachable_totals reads _ (reachable_init q re)) as [-> _].
  by destruct (init_totals q re) as [-> _].
Qed.

(** C6: The totals of a run, whatever the reads and whether the calls return
    or raise: [count] is the number of reads that have bases (a read without
    bases raises before it is counted), the length distribution sums to
    [count], and the base table has exactly as many positions as the longest
    read has bases. *)
Theorem feed_totals q re records :
  let s := feed records (__init__ q re) in
  count s = length (filter (λ r, has_bases r = true) records)
  ∧ CountingDict.total (sequence_lengths s) = count s
  ∧ table_length s = max_list ((λ r, length (Read.sequence r)) <$> records).
Proof.
  intros s. destruct (feed_reachable_totals records (__init__ q re)) as [Hc Hl];
    [constructor|].
  pose proof (reachable_inv _ (reachable_feed records _ (reachable_init q re)))
    as [_ _ _ [Hcons _] _ _].
  destruct (init_totals q re) as [Hc0 Hl0]. rewrite Hc0 in Hc. rewrite Hl0 in Hl.
  split_and!; [exact Hc|exact Hcons|exact Hl].
Qed.
End totals.



(** ** Examples *)

Lemma collect_spec_witness :
  collect read_tile fresh_tiles
  = (collect_state read_tile fresh_tiles, collect_result read_tile fresh_tiles)
  ∧ inv (collect_state read_tile fresh_tiles).
Proof. apply collect_spec, init_inv. Defined.

Lemma gc_percent_total_witness :
  ∃ gc, gc_percent (String.list_ascii_of_string "GCAT") = Ret gc ∧ gc ≤ 100.
Proof. apply gc_percent_total. discriminate. Defined.

Lemma feed_totals_witness :
  count (feed [read_empty; read_other] fresh) = 1
  ∧ CountingDict.total (sequence_lengths (feed [read_empty; read_other] fresh)) = 1
  ∧ table_length (feed [read_empty; read_other] fresh) = 4.
Proof.
  destruct (feed_totals None None [read_empty; read_other]) as (Hc & Ht & Hl).
  unfold fresh. rewrite Ht, Hc, Hl. by vm_compute.
Defined.

Lemma collect_returns_iff_witness :
  (collect read_tile fresh_tiles).2 = Ret tt ↔
    Read.sequence read_tile ≠ [] ∧ activated read_tile fresh_tiles = true ∧
    is_Some (Read.qualities read_tile) ∧
    ∀ re, tile_key_regexp fresh_tiles = Some re → is_Some (re (Read.name read_tile)).
Proof. apply collect_returns_iff, reachable_init. Defined.

Lemma collect_raises_only_witness :
  (collect read_acgt fresh).2 ∈ [Ret tt; Raise ZeroDivisionError; Raise UnboundLocalError;
                                 Raise TypeError; Raise ValueError].
Proof. apply collect_raises_only, reachable_init. Defined.

Lemma collect_empty_read_witness :
  (collect read_empty fresh).2 = Raise ZeroDivisionError ∧
  count (collect read_empty fresh).1 = count fresh.
Proof. apply collect_empty_read. reflexivity. Defined.

Lemma collect_count_witness :
  count (collect read_other fresh_tiles).1 =
    if bool_decide (Read.sequence read_other = []) then count fresh_tiles
    else S (count fresh_tiles).
Proof. apply collect_count, reachable_init. Defined.

Lemma collect_untracked_raises_witness :
  collect read_tile fresh_untracked =
    (set_bases (BaseCountingDicts.extend (length (Read.sequence read_tile))
                  (bases fresh_untracked)) (counted read_tile fresh_untracked),
     Raise UnboundLocalError).
Proof.
  apply collect_untracked_raises; [apply reachable_init | reflexivity | discriminate].
Defined.

Lemma collect_tile_mismatch_witness :
  (collect read_other fresh_tiles).2 = Raise ValueError ∧
  count (collect read_other fresh_tiles).1 = S (count fresh_tiles) ∧
  sequence_qualities (collect read_other fresh_tiles).1 =
    CountingDict.incr (mean_quality (String.list_ascii_of_string "II##")
                                    (length (Read.sequence read_other)))
      <$> sequence_qualities (activate read_other fresh_tiles).1.
Proof.
  apply (collect_tile_mismatch read_other fresh_tiles tile_of_m1);
    [apply reachable_init | discriminate | reflexivity..].
Defined.

Lemma collect_counts_bases_witness :
  BaseDicts.dicts (bases (collect read_tile fresh).1) !! 0
  = Some (CountingDict.incr "G"%char (default ∅ (BaseDicts.dicts (bases fresh) !! 0)))
  ∧ ∃ bq, base_qualities (collect read_tile fresh).1 = Some bq
          ∧ BaseDicts.dicts bq !! 0
            = Some (CountingDict.incr "I"%char (default ∅ (qualities_before fresh !! 0))).
Proof.
  apply (collect_counts_bases read_tile fresh (String.list_ascii_of_string "IIH#"));
    [apply reachable_init | by vm_compute | reflexivity..].
Defined.

(** A read of four bases with qualities on a fresh collector: one read, GC
    content 50 %, mean quality 63 as a character code. *)
Example collect_gcat :
  let s := (collect read_tile fresh).1 in
  (collect read_tile fresh).2 = Ret tt ∧ count s = 1 ∧
  CountingDict.sorted_items (sequence_gc s) = [(50, 1)] ∧
  CountingDict.sorted_items <$> sequence_qualities s = Some [(63, 1)].
Proof. by vm_compute. Qed.

Lemma collect_mean_quality_witness :
  sequence_qualities (collect read_tile fresh).1
  = CountingDict.incr (round_div (sum_map ord (String.list_ascii_of_string "IIH#"))
                                 (length (Read.sequence read_tile)))
      <$> sequence_qualities (activate read_tile fresh).1.
Proof.
  apply (collect_mean_quality read_tile fresh);
    [apply reachable_init | by vm_compute | reflexivity].
Defined.


Lemma finish_spec_witness :
  let s := (collect read_tile fresh_tiles).1 in
  ∃ snap, (finish s).2 = Ret snap
    ∧ snap_count snap = count s
    ∧ sum_list (snap_length snap).*2 = count s
    ∧ sum_list (snap_gc snap).*2 = count s
    ∧ snap_bases snap = BaseCountingDicts.flatten (Some "n"%string) (bases s)
    ∧ count (finish s).1 = count s
    ∧ bases (finish s).1 = bases s
    ∧ finish (finish s).1 = ((finish s).1, Ret snap).
Proof. apply finish_spec, reachable_collect, reachable_init. Defined.

(** A collector that tracks qualities and has seen no read reports
    [base_qualities] without [qualities]. *)
Lemma finish_quality_keys_witness :
  (is_Some (snap_qualities (snapshot_of fresh_tracked))
     ↔ ∃ sq, sequence_qualities fresh_tracked = Some sq ∧ sq ≠ ∅)
  ∧ (is_Some (snap_base_qualities (snapshot_of fresh_tracked))
     ↔ is_Some (base_qualities fresh_tracked)).
Proof.
  apply (finish_quality_keys fresh_tracked (snapshot_of fresh_tracked));
    [apply reachable_init | by vm_compute].
Defined.

Example finish_fresh_tracked :
  snap_qualities (snapshot_of fresh_tracked) = None
  ∧ snap_base_qualities (snapshot_of fresh_tracked) = Some ([], []).
Proof. by vm_compute. Qed.

(** The snapshot after one read of four bases. *)
Example finish_gcat :
  let snap := snapshot_of (collect read_tile fresh).1 in
  snap_count snap = 1 ∧ snap_length snap = [(4, 1)] ∧ snap_gc snap = [(50, 1)]
  ∧ snap_bases snap
    = (HKey <$> ["A"; "C"; "G"; "T"]%char,
       [(1, [0; 0; 1; 0]); (2, [0; 1; 0; 0]); (3, [1; 0; 0; 0]); (4, [0; 0; 0; 1])])
  ∧ snap_qualities snap = Some [(63, 1)].
Proof. by vm_compute. Qed.
