(* ===== verification/Columns.v ===== *)
(** * Columns: how many bases the positional tables of a collector count

    [ReadStatCollector.collect] of [stats.py] counts every base of a read in
    [bases], its quality in [base_qualities] and, under the tile of the read,
    in [tile_base_qualities]; the mean quality of the read goes to
    [sequence_qualities] and, under the tile, to [tile_sequence_qualities].
    The tables are written by different statements, some of them behind
    conditions, and a call can raise between two of them.  This file shows
    what nevertheless holds of their totals after any run: the base table and
    the quality table count the same number of bases at every position, a
    position never counts more than the one before it, no tile table counts
    more than the table it splits, and no position counts more bases than
    reads have a mean quality.

    The proof goes through the closed form [collect_state] of [Collector]:
    each measure after [tabulate] is the measure before plus [hit], which is
    one on the positions that the loop of [collect] visits. *)

From Stdlib Require Import Ascii.
From stdpp Require Import gmap strings list.
From S2P Require Import Prelude Reads Counting Dicts Collector.

Import ReadStatCollector.

(** ** Measures *)

(** The total of a position, zero where the table does not reach. *)
Definition total_at (totals : list nat) (i : nat) : nat := default 0 (totals !! i).

Definition column_totals `{Countable K} (b : BaseDicts.t (gmap K nat)) : list nat :=
  CountingDict.total <$> BaseDicts.dicts b.

Definition tile_totals (b : BaseDicts.t (gmap string (gmap ascii nat))) : list nat :=
  NestedDict.total <$> BaseDicts.dicts b.

(** The bases, the qualities and the qualities under a tile that were
    counted at position [i]; a table that does not exist counts nothing. *)
Definition bases_at (i : nat) (s : t) : nat := total_at (column_totals (bases s)) i.

Definition quals_at (i : nat) (s : t) : nat :=
  total_at (default [] (column_totals <$> base_qualities s)) i.

Definition tiles_at (i : nat) (s : t) : nat :=
  total_at (default [] (tile_totals <$> tile_base_qualities s)) i.

(** The reads whose mean quality was recorded, in all and under a tile. *)
Definition means (s : t) : nat := default 0 (CountingDict.total <$> sequence_qualities s).

Definition tile_means (s : t) : nat :=
  default 0 (NestedDict.total <$> tile_sequence_qualities s).

(** What holds of the tables of a collector between two calls. *)
Record columns_ok (s : t) : Prop := mk_columns_ok {
  (** before quality tracking has started there is no quality table *)
  col_fresh :
    qualities s = None →
    sequence_qualities s = None ∧ base_qualities s = None
    ∧ tile_base_qualities s = None ∧ tile_sequence_qualities s = None;
  (** a base is counted with its quality *)
  col_agree i : bases_at i s = quals_at i s;
  (** a read that reaches a position has reached the one before *)
  col_prefix i : bases_at (S i) s ≤ bases_at i s;
  (** a tile counts no more than all tiles together *)
  col_tiles i : tiles_at i s ≤ bases_at i s;
  (** a read with a base has a mean quality *)
  col_first : bases_at 0 s ≤ means s;
  col_tile_means : tile_means s ≤ means s;
}.

(** The positions that the loop of [collect] visits: those that have a base
    and a quality, when [tabulate] gets that far. *)
Definition hit (r : Read.t) (s : t) (i : nat) : nat :=
  match tabulate_result r s with
  | Ret _ =>
      if bool_decide (i < length (zip (Read.sequence r) (default [] (Read.qualities r))))
      then 1 else 0
  | Raise _ => 0
  end.

(** Whether [tabulate] records a mean quality. *)
Definition rated (r : Read.t) (s : t) : nat :=
  if tracking s && bool_decide (is_Some (Read.qualities r)) then 1 else 0.

(** ** Totals of a table that grows and is tallied *)

Section totals.
Context {A D : Type} (total : D → nat).
Implicit Types (ds : list D) (i n : nat).

Lemma total_at_extend c n (b : BaseDicts.t D) i :
  total c = 0 →
  total_at (total <$> BaseDicts.dicts (BaseDicts.extend c n b)) i
  = total_at (total <$> BaseDicts.dicts b) i.
Proof.
  intros Hc. unfold total_at. rewrite extend_dicts, fmap_app, fmap_replicate, Hc.
  destruct (decide (i < length (BaseDicts.dicts b))) as [Hi|Hi].
  - by rewrite lookup_app_l by by rewrite length_fmap.
  - rewrite lookup_app_r by (rewrite length_fmap; lia).
    rewrite (proj2 (lookup_ge_None (total <$> _) i)) by (rewrite length_fmap; lia).
    by destruct (replicate _ 0 !! _) eqn:E; [apply lookup_replicate in E as [-> _]|].
Qed.

(** One more at every position that the list and the table both have. *)
Lemma total_at_tally (f : A → D → D) (l : list A) ds i :
  (∀ a d, total (f a d) = S (total d)) →
  total_at (total <$> foldl (λ ds ix, alter (f ix.2) ix.1 ds) ds (enumerate 0 l)) i
  = total_at (total <$> ds) i
    + (if bool_decide (i < length l `min` length ds) then 1 else 0).
Proof.
  intros Hf. unfold total_at. rewrite !list_lookup_fmap, foldl_alter_enumerate.
  rewrite Nat.sub_0_r. destruct (l !! i) as [a|] eqn:Hl.
  - apply lookup_lt_Some in Hl. rewrite decide_True by lia.
    destruct (ds !! i) as [d|] eqn:Hd; simpl.
    + apply lookup_lt_Some in Hd. rewrite bool_decide_true by lia. rewrite Hf. lia.
    + apply lookup_ge_None in Hd. rewrite bool_decide_false by lia. lia.
  - apply lookup_ge_None in Hl. rewrite bool_decide_false by lia. lia.
Qed.
End totals.

(** ** The measures after each part of [tabulate] *)

Section parts.
Implicit Types (r : Read.t) (s : t) (n i : nat) (l : list (ascii * ascii)).

Lemma extended_measures n s i :
  bases_at i (extended n s) = bases_at i s
  ∧ quals_at i (extended n s) = quals_at i s
  ∧ tiles_at i (extended n s) = tiles_at i s
  ∧ sequence_qualities (extended n s) = sequence_qualities s
  ∧ tile_sequence_qualities (extended n s) = tile_sequence_qualities s.
Proof.
  unfold bases_at, quals_at, tiles_at, column_totals, tile_totals, extended.
  pose proof (λ b i, total_at_extend (D := gmap ascii nat) CountingDict.total ∅ n b i
                       total_empty) as Hc.
  pose proof (λ b i, total_at_extend NestedDict.total (∅ : gmap string (gmap ascii nat))
                       n b i nested_total_empty) as Ht.
  unfold BaseCountingDicts.extend, BaseNestedDicts.extend,
    BaseCountingDicts.dict_class, BaseNestedDicts.dict_class.
  destruct (tracking s), (track_tiles s), (base_qualities s) eqn:Hq,
    (tile_base_qualities s) eqn:Htq; simpl; by rewrite ?Hq, ?Htq, ?Hc, ?Ht.
Qed.

Lemma tallied_tile_base_qualities tile s (l : list (nat * (ascii * ascii))) :
  tile_base_qualities (foldl (add_base_state tile) s l) =
  match tile with
  | Some t =>
      if bool_decide (t = ""%string) then tile_base_qualities s
      else (λ tq, BaseDicts.mk
              (foldl (λ ds ibq, alter (NestedDict.incr t ibq.2.2) ibq.1 ds)
                 (BaseDicts.dicts tq) l)) <$> tile_base_qualities s
  | None => tile_base_qualities s
  end.
Proof.
  revert s. induction l as [|[i [base qual]] l IH]; intros s; cbn [foldl].
  { destruct tile as [t|]; [|done]. case_bool_decide; [done|].
    by destruct (tile_base_qualities s) as [[]|]. }
  rewrite IH. unfold add_base_state.
  destruct tile as [t|]; [|done]. case_bool_decide; [done|]. simpl.
  by destruct (tile_base_qualities s).
Qed.

Lemma tallied_tile_sequence_qualities tile s (l : list (nat * (ascii * ascii))) :
  tile_sequence_qualities (foldl (add_base_state tile) s l) = tile_sequence_qualities s.
Proof.
  apply (foldl_keeps tile_sequence_qualities). intros s0 [i [base qual]].
  unfold add_base_state. by destruct tile; [destruct (bool_decide _)|].
Qed.

(** The loop over the pairs of a read, on tables that reach [length l]. *)
Lemma tallied_measures tile s l i :
  length l ≤ table_length s →
  (∀ bq, base_qualities s = Some bq → length l ≤ length (BaseDicts.dicts bq)) →
  let s' := foldl (add_base_state tile) s (enumerate 0 l) in
  let one := if bool_decide (i < length l) then 1 else 0 in
  bases_at i s' = bases_at i s + one
  ∧ quals_at i s' = quals_at i s + (if base_qualities s is Some _ then one else 0)
  ∧ tiles_at i s' ≤ tiles_at i s + one
  ∧ means s' = means s ∧ tile_means s' = tile_means s.
Proof.
  intros Hb Hq s' one.
  unfold s', bases_at, quals_at, tiles_at, means, tile_means, column_totals, tile_totals.
  rewrite tallied_bases, tallied_base_qualities, tallied_tile_base_qualities,
    tallied_tile_sequence_qualities.
  pose proof (tallied_scalars tile s (enumerate 0 l)) as [= _ _ _ _ _ _ ->].
  split_and!; [| | |done..].
  - rewrite (total_at_tally _ (λ bq : ascii * ascii, CountingDict.incr bq.1))
      by (intros; apply total_incr).
    unfold table_length in Hb. unfold one. by rewrite Nat.min_l by done.
  - destruct (base_qualities s) as [bq|]; simpl; [|done].
    rewrite (total_at_tally _ (λ bq : ascii * ascii, CountingDict.incr bq.2))
      by (intros; apply total_incr).
    unfold one. by rewrite Nat.min_l by eauto.
  - destruct tile as [t|]; [|lia]. case_bool_decide; [lia|].
    destruct (tile_base_qualities s) as [tq|]; simpl; [|unfold total_at; simpl; lia].
    rewrite (total_at_tally _ (λ bq : ascii * ascii, NestedDict.incr t bq.2))
      by (intros; apply nested_total_incr).
    unfold one. repeat case_bool_decide; lia.
Qed.

End parts.

(** ** The measures after [tabulate] *)

Section tabulate.
Implicit Types (r : Read.t) (s : t) (n i m : nat).

Lemma with_mean_quality_measures m s i :
  bases_at i (with_mean_quality m s) = bases_at i s
  ∧ quals_at i (with_mean_quality m s) = quals_at i s
  ∧ tiles_at i (with_mean_quality m s) = tiles_at i s
  ∧ tile_means (with_mean_quality m s) = tile_means s
  ∧ means (with_mean_quality m s)
    = means s + (if sequence_qualities s is Some _ then 1 else 0).
Proof.
  split_and!; try done. unfold means, with_mean_quality. simpl.
  destruct (sequence_qualities s); simpl; [rewrite total_incr|]; lia.
Qed.

Lemma with_tile_quality_measures tile m s i :
  bases_at i (with_tile_quality tile m s) = bases_at i s
  ∧ quals_at i (with_tile_quality tile m s) = quals_at i s
  ∧ tiles_at i (with_tile_quality tile m s) = tiles_at i s
  ∧ means (with_tile_quality tile m s) = means s
  ∧ tile_means (with_tile_quality tile m s)
    = tile_means s + (if tile_sequence_qualities s is Some _ then 1 else 0).
Proof.
  split_and!; try done. unfold tile_means, with_tile_quality. simpl.
  destruct (tile_sequence_qualities s); simpl; [rewrite nested_total_incr|]; lia.
Qed.

(** The tables of an extended collector reach the length asked for. *)
Lemma extended_reaches n s :
  n ≤ table_length (extended n s)
  ∧ (tracking s = true →
     ∀ bq, base_qualities (extended n s) = Some bq → n ≤ length (BaseDicts.dicts bq)).
Proof.
  split; [rewrite extended_length; lia|]. intros Ht bq. unfold extended. rewrite Ht.
  assert (∀ b : BaseDicts.t (gmap ascii nat),
            n ≤ length (BaseDicts.dicts (BaseCountingDicts.extend n b))) as Hn.
  { intros b. unfold BaseCountingDicts.extend. rewrite extend_length. lia. }
  destruct (track_tiles s), (base_qualities s) eqn:Hq; simpl; rewrite ?Hq; simpl;
    by intros [= <-].
Qed.

Lemma hit_prefix r s i : hit r s (S i) ≤ hit r s i ∧ hit r s 0 ≤ rated r s.
Proof.
  unfold hit, rated, tabulate_result.
  destruct (tracking s), (Read.qualities r) as [quals|]; simpl; try lia.
  all: repeat case_match; repeat case_bool_decide; try lia.
  all: exfalso; eauto.
Qed.

(** The loop of [tabulate] on the state that the quality block leaves. *)
Lemma tallied_extended tile n s0 s (l : list (ascii * ascii)) i :
  tracking s = true → length l ≤ n →
  bases s0 = bases (extended n s) → base_qualities s0 = base_qualities (extended n s) →
  let s' := foldl (add_base_state tile) s0 (enumerate 0 l) in
  let one := if bool_decide (i < length l) then 1 else 0 in
  bases_at i s' = bases_at i s0 + one
  ∧ quals_at i s' = quals_at i s0 + (if base_qualities s0 is Some _ then one else 0)
  ∧ tiles_at i s' ≤ tiles_at i s0 + one
  ∧ means s' = means s0 ∧ tile_means s' = tile_means s0.
Proof.
  intros Ht Hl Hb Hq. destruct (extended_reaches n s) as [Hlen Hbq].
  apply tallied_measures.
  - unfold table_length in *. rewrite Hb. lia.
  - intros bq Hs0. rewrite Hq in Hs0. specialize (Hbq Ht bq Hs0). lia.
Qed.

(** What [tabulate] adds to each measure, on every branch. *)
Lemma tabulate_measures r s i :
  allocated s →
  bases_at i (tabulate_state r s) = bases_at i s + hit r s i
  ∧ quals_at i (tabulate_state r s) = quals_at i s + hit r s i
  ∧ tiles_at i (tabulate_state r s) ≤ tiles_at i s + hit r s i
  ∧ means (tabulate_state r s) = means s + rated r s
  ∧ tile_means (tabulate_state r s) ≤ tile_means s + rated r s.
Proof.
  intros Ha. set (n := length (Read.sequence r)).
  destruct (extended_measures n s i) as (Eb & Eq & Et & Esq & Etsq).
  assert (means (extended n s) = means s) as Em by (unfold means; by rewrite Esq).
  assert (tile_means (extended n s) = tile_means s) as Etm
    by (unfold tile_means; by rewrite Etsq).
  unfold tabulate_state, hit, rated, tabulate_result. fold n.
  destruct (tracking s) eqn:Ht; simpl; [|rewrite Eb, Eq, Et, Em, Etm; lia].
  destruct (Read.qualities r) as [quals|] eqn:Hq; simpl;
    [|rewrite Eb, Eq, Et, Em, Etm; lia].
  destruct (Ha Ht) as ([sq Hsq] & [bq Hbq] & Htile).
  set (m := mean_quality quals n). set (s2 := with_mean_quality m (extended n s)).
  destruct (with_mean_quality_measures m (extended n s) i) as (Mb & Mq & Mt & Mtm & Mm).
  rewrite Esq, Hsq in Mm. fold s2 in Mb, Mq, Mt, Mtm, Mm.
  assert (is_Some (base_qualities s2)) as [bq2 Hbq2].
  { unfold s2, extended. rewrite Ht, Hbq. by destruct (track_tiles s). }
  assert (length (zip (Read.sequence r) quals) ≤ n) as Hz by (rewrite length_zip; lia).
  destruct (tile_key_regexp s) as [re|] eqn:Hre; [destruct (re (Read.name r)) as [tile|]|].
  - destruct (with_tile_quality_measures tile m s2 i) as (Tb & Tq & Tt & Tm & Ttm).
    destruct (tallied_extended (Some tile) n (with_tile_quality tile m s2) s
                (zip (Read.sequence r) quals) i) as (Lb & Lq & Lt & Lm & Ltm); [done..|].
    change (base_qualities (with_tile_quality tile m s2)) with (base_qualities s2) in Lq.
    rewrite Hbq2 in Lq. destruct (tile_sequence_qualities s2); lia.
  - lia.
  - destruct (tallied_extended None n s2 s (zip (Read.sequence r) quals) i)
      as (Lb & Lq & Lt & Lm & Ltm); [done..|].
    rewrite Hbq2 in Lq. lia.
Qed.

End tabulate.

(** ** Every call keeps the tables in step *)

Section steps.
Implicit Types (r : Read.t) (s : t) (n i : nat).

(** The collector when quality tracking starts: empty tables. *)
Definition started (s : t) : t :=
  let s1 := set_base_qualities (Some BaseDicts.__init__)
              (set_sequence_qualities (Some ∅) (set_qualities (Some true) s)) in
  if bool_decide (is_Some (tile_key_regexp s))
  then set_tile_sequence_qualities (Some ∅)
         (set_tile_base_qualities (Some BaseDicts.__init__) s1)
  else s1.

Lemma activate_state r s :
  (activate r s).1
  = if bool_decide (qualities s = None) && truthy (Read.qualities r) then started s else s.
Proof. unfold started. activate_cases s r. Qed.

Lemma init_columns q re : columns_ok (__init__ q re).
Proof. destruct q as [[]|], re; by split. Qed.

Lemma started_measures s i :
  tile_base_qualities s = None → tile_sequence_qualities s = None →
  bases_at i (started s) = bases_at i s ∧ quals_at i (started s) = 0
  ∧ tiles_at i (started s) = 0 ∧ means (started s) = 0 ∧ tile_means (started s) = 0.
Proof.
  intros Htq Htsq. unfold started, bases_at, quals_at, tiles_at, means, tile_means.
  case_bool_decide; simpl; rewrite ?Htq, ?Htsq; simpl;
    by rewrite ?(total_empty (K := nat)), ?(nested_total_empty (K1 := string) (K2 := nat)).
Qed.

Lemma started_columns s : qualities s = None → columns_ok s → columns_ok (started s).
Proof.
  intros Hq [Hf Ha Hp Ht H1 Hm]. destruct (Hf Hq) as (Hsq & Hbq & Htq & Htsq).
  assert (∀ i, bases_at i s = 0) as Hz.
  { intros i. rewrite Ha. unfold quals_at. by rewrite Hbq. }
  pose proof (λ i, started_measures s i Htq Htsq) as Hst.
  split.
  - unfold started. by case_bool_decide.
  - intros i. destruct (Hst i) as (-> & -> & _). apply Hz.
  - intros i. destruct (Hst i) as (-> & _). destruct (Hst (S i)) as (-> & _). apply Hp.
  - intros i. destruct (Hst i) as (-> & _ & -> & _). lia.
  - destruct (Hst 0) as (-> & _ & _ & -> & _). by rewrite Hz.
  - by destruct (Hst 0) as (_ & _ & _ & -> & ->).
Qed.

Lemma activate_columns r s : columns_ok s → columns_ok (activate r s).1.
Proof.
  intros Hok. rewrite activate_state.
  destruct (bool_decide (qualities s = None)) eqn:Hq; simpl; [|done].
  destruct (truthy _); [|done]. apply started_columns; [|done].
  by apply bool_decide_eq_true in Hq.
Qed.

Lemma counted_columns r s : columns_ok s → columns_ok (counted r s).
Proof. intros [? ? ? ? ? ?]. by split. Qed.

Lemma tabulate_fresh r s :
  tracking s = false → tabulate_state r s = extended (length (Read.sequence r)) s.
Proof. intros Ht. unfold tabulate_state. by rewrite Ht. Qed.

Lemma tabulate_columns r s : allocated s → columns_ok s → columns_ok (tabulate_state r s).
Proof.
  intros Hal [Hf Ha Hp Ht H1 Hm].
  pose proof (tabulate_measures r s) as Hmeasures.
  destruct (hit_prefix r s 0) as [_ H0].
  split.
  - pose proof (tabulate_state_scalars r s) as Hs. intros Hq.
    assert (qualities s = None) as Hq'.
    { destruct Hs as [[= _ _ _ _ <- _ _]|[m [= _ _ _ _ <- _ _]]]; done. }
    rewrite tabulate_fresh by (unfold tracking; by rewrite Hq').
    unfold extended, tracking. rewrite Hq'. by apply Hf.
  - intros i. destruct (Hmeasures i Hal) as (-> & -> & _). by rewrite Ha.
  - intros i. destruct (Hmeasures i Hal) as (-> & _).
    destruct (Hmeasures (S i) Hal) as (-> & _).
    destruct (hit_prefix r s i) as [? _]. specialize (Hp i). lia.
  - intros i. destruct (Hmeasures i Hal) as (-> & _ & ? & _). specialize (Ht i). lia.
  - destruct (Hmeasures 0 Hal) as (-> & _ & _ & -> & _). lia.
  - destruct (Hmeasures 0 Hal) as (_ & _ & _ & -> & ?). lia.
Qed.

Lemma collect_columns r s : reachable s → columns_ok s → columns_ok (collect r s).1.
Proof.
  intros Hs Hok. pose proof (reachable_inv s Hs) as [_ _ Hal _ _ _].
  rewrite collect_reachable by done. unfold collect_state. simpl.
  case_bool_decide; [by apply activate_columns|].
  apply tabulate_columns; [by apply counted_allocated, activate_allocated|].
  by apply counted_columns, activate_columns.
Qed.

End steps.

(** ** Every reachable collector *)

Section reachable.
Implicit Types (r : Read.t) (s : t) (n i : nat).

(** The empty tables that flattening stores count nothing. *)
Lemma nested_total_touched k1s k2s (d : gmap string (gmap ascii nat)) :
  NestedDict.total (BaseNestedDicts.touch k1s k2s d) = NestedDict.total d.
Proof.
  unfold BaseNestedDicts.touch. case_decide; [done|].
  induction k1s as [|k1 k1s IH]; simpl; [done|].
  destruct (foldr _ d k1s !! k1) eqn:Hk; [done|]. by rewrite nested_total_touch.
Qed.

Lemma finish_columns s : allocated s → columns_ok s → columns_ok (finish s).1.
Proof.
  intros Hal Hok. destruct (track_tiles s) eqn:Ht; [|by rewrite finish_no_tiles].
  pose proof Ht as [Htr Hre%bool_decide_eq_true]%andb_true_iff.
  destruct (Hal Htr) as (_ & _ & Htile). destruct (Htile Hre) as [[tq Htq] [tsq Htsq]].
  rewrite (finish_tiles s tq tsq) by done. cbn [fst].
  assert (∀ i, tiles_at i (set_tile_base_qualities
                 (Some (BaseNestedDicts.flatten (Some "q"%string) tq).1) s) = tiles_at i s)
    as Hti.
  { intros i. unfold tiles_at, tile_totals. rewrite Htq. simpl.
    rewrite <- list_fmap_compose. f_equal. apply list_fmap_ext.
    intros j d _. apply nested_total_touched. }
  destruct Hok as [Hf Ha Hp Hte H1 Hm]. split; try done.
  - intros Hq. simpl in Hq. unfold tracking in Htr. by rewrite Hq in Htr.
  - intros i. rewrite Hti. apply Hte.
Qed.

Lemma reachable_columns s : reachable s → columns_ok s.
Proof.
  induction 1 as [q re|s r Hs IH|s Hs IH|s limit name Hs IH].
  - apply init_columns.
  - by apply collect_columns.
  - apply finish_columns; [|done]. by destruct (reachable_inv s Hs).
  - rewrite getattr_run; [done|]. by destruct (reachable_inv s Hs).
Qed.

(** C7: The tables of a collector stay in step, whatever reads it was fed and
    whichever calls raised: at every position the base table and the quality
    table have counted the same number of bases, no position has counted
    more than the one before it, the tile table has counted no more than the
    base table, the first position has counted no more bases than reads have
    a mean quality, and those are no more than the tiles' mean qualities at
    least and the reads counted at most. *)
Theorem feed_columns q re records i :
  let s := feed records (__init__ q re) in
  bases_at i s = quals_at i s
  ∧ bases_at (S i) s ≤ bases_at i s
  ∧ tiles_at i s ≤ bases_at i s
  ∧ bases_at 0 s ≤ means s
  ∧ tile_means s ≤ means s ≤ count s.
Proof.
  intros s. pose proof (reachable_feed records _ (reachable_init q re)) as Hs.
  destruct (reachable_columns _ Hs) as [_ Ha Hp Ht H1 Hm].
  pose proof (reachable_inv _ Hs) as [_ _ _ _ _ Hq].
  split_and!; auto. unfold means. fold s in Hq.
  destruct (sequence_qualities s) as [sq|] eqn:Hsq; simpl; [by apply Hq|lia].
Qed.

(** C30: In the snapshot of a reachable collector, the row of a position in
    the table of bases and the row of the same position in the table of
    base qualities are numbered alike, from 1, and add up to the same
    number. *)
Theorem snapshot_rows_agree s snap header rows i row_b row_q :
  reachable s → (finish s).2 = Ret snap →
  snap_base_qualities snap = Some (header, rows) →
  (snap_bases snap).2 !! i = Some row_b → rows !! i = Some row_q →
  row_b.1 = S i ∧ row_q.1 = S i ∧ sum_list row_b.2 = sum_list row_q.2.
Proof.
  intros Hs Hsnap Hbq Hb Hq. pose proof (reachable_inv s Hs) as [_ _ Hal _ _ _].
  destruct (reachable_columns s Hs) as [_ Ha _ _ _ _]. specialize (Ha i).
  destruct (finish_returns s Hal) as (tbq & tsq & Hret & _).
  rewrite Hret in Hsnap. injection Hsnap as <-.
  cbn [snap_bases snap_base_qualities] in Hb, Hbq.
  destruct (base_qualities s) as [bq|] eqn:Hbqs; [|done]. apply (inj Some) in Hbq.
  assert ((BaseCountingDicts.flatten (Some "q"%string) bq).2 !! i = Some row_q) as Hq'
    by by rewrite Hbq.
  pose proof Hb as (db & Hdb & ->)%flatten_row.
  pose proof Hq' as (dq & Hdq & ->)%flatten_row. split_and!; [done..|].
  rewrite (flatten_row_sum _ _ _ _ db Hb Hdb), (flatten_row_sum _ _ _ _ dq Hq' Hdq).
  unfold bases_at, quals_at, total_at, column_totals in Ha. rewrite Hbqs in Ha.
  simpl in Ha. by rewrite !list_lookup_fmap, Hdb, Hdq in Ha.
Qed.

End reachable.

(** ** Witnesses and examples *)

Lemma snapshot_rows_agree_witness :
  (1, [0; 0; 1; 0]).1 = 1 ∧ (1, [0; 0; 1]).1 = 1
  ∧ sum_list (1, [0; 0; 1; 0]).2 = sum_list (1, [0; 0; 1]).2.
Proof.
  apply (snapshot_rows_agree (collect read_tile fresh).1
           (snapshot_of (collect read_tile fresh).1)
           [HQual 2; HQual 39; HQual 40]
           [(1, [0; 0; 1]); (2, [0; 0; 1]); (3, [0; 1; 0]); (4, [1; 0; 0])] 0).
  - apply reachable_collect, reachable_init.
  - by vm_compute.
  - by vm_compute.
  - by vm_compute.
  - by vm_compute.
Defined.

(** A read whose name the tile pattern rejects is counted and rated, and
    tabulated neither under a tile nor at all: the inequalities are strict. *)
Example columns_after_mismatch :
  let s := feed [read_tile; read_other] fresh_tiles in
  count s = 2 ∧ means s = 2 ∧ tile_means s = 1
  ∧ bases_at 0 s = 1 ∧ quals_at 0 s = 1 ∧ tiles_at 0 s = 1 ∧ bases_at 4 s = 0.
Proof. by vm_compute. Qed.

(** A tile that is the empty text is rated under its tile and tabulated
    under none. *)
Example columns_empty_tile :
  let s := feed [read_tile] (__init__ None (Some (λ _, Some ""%string))) in
  tile_means s = 1 ∧ bases_at 0 s = 1 ∧ tiles_at 0 s = 0.
Proof. by vm_compute. Qed.
