(* ===== verification/Histograms.v ===== *)
(** * Histograms: what the tables of a collector hold after a run

    [ReadStatCollector.collect] of [stats.py] updates eight tables, some of
    them nested and positional, by statements that are spread over
    [collect], [collect_qualities], [_extend_bases] and [add_base].  This
    file states what the tables are for: every cell of every table is the
    number of reads of the run that fall in it.

    The abstract specification is [histogram]: a cell [c] counts the reads
    that [counts] selects among the reads of the [sample], which is the whole
    run for the three tables that are kept without qualities, and for the
    five others the reads from the one on that turned quality tracking on.
    The abstraction function is [value]: the number a table stores in a
    cell, zero where the table, the position or the key does not exist.

    - [feed_histogram] is the refinement: the two agree after any run, the
      calls that raised included.  It follows from [collect_value], what one
      call adds to a cell, which is read off the closed form
      [collect_state] of [Collector] part by part.
    - [cell_bounds] bounds the tables: no cell exceeds [count], and the
      cells [out_of_range] of the run are empty.
    - [snapshot_histogram] carries the histogram to the snapshot that
      [finish] returns: the distributions list the cells that are not empty
      ([stored]: every stored number is positive), and the flattened tables
      hold the cells row by row ([flatten_cells]). *)

From Stdlib Require Import Ascii.
From stdpp Require Import gmap strings list.
From S2P Require Import Prelude Reads Counting Dicts Collector Columns.

Import ReadStatCollector.

(** ** Cells and their values *)

(** The cells of the eight tables: the counter, a read length, a GC
    percentage, a base at a position, a quality at a position, a mean
    quality, a quality at a position under a tile, a mean quality under a
    tile. *)
Inductive cell : Type :=
  | Reads
  | Lengths (n : nat)
  | Gc (pct : nat)
  | Bases (i : nat) (base : ascii)
  | Quals (i : nat) (qual : ascii)
  | Means (m : nat)
  | TileQuals (i : nat) (tile : string) (qual : ascii)
  | TileMeans (tile : string) (m : nat).

(** [d[k1][k2]] read without storing anything. *)
Definition nested_getitem `{Countable K1} `{Countable K2}
    (d : gmap K1 (gmap K2 nat)) (k1 : K1) (k2 : K2) : nat :=
  CountingDict.__getitem__ (default ∅ (d !! k1)) k2.

(** A measure of the table at position [i], zero past the end. *)
Definition column {D} (measure : D → nat) (b : BaseDicts.t D) (i : nat) : nat :=
  total_at (measure <$> BaseDicts.dicts b) i.

(** The number that the collector stores in a cell. *)
Definition value (c : cell) (s : t) : nat :=
  match c with
  | Reads => count s
  | Lengths n => CountingDict.__getitem__ (sequence_lengths s) n
  | Gc pct => CountingDict.__getitem__ (sequence_gc s) pct
  | Bases i base => column (λ d, CountingDict.__getitem__ d base) (bases s) i
  | Quals i qual =>
      default 0 ((λ b, column (λ d, CountingDict.__getitem__ d qual) b i) <$> base_qualities s)
  | Means m => default 0 ((λ d, CountingDict.__getitem__ d m) <$> sequence_qualities s)
  | TileQuals i tile qual =>
      default 0 ((λ b, column (λ d, nested_getitem d tile qual) b i) <$> tile_base_qualities s)
  | TileMeans tile m =>
      default 0 ((λ d, nested_getitem d tile m) <$> tile_sequence_qualities s)
  end.

(** ** The histogram of a run *)

(** The GC percentage, the tile and the mean quality of a read. *)
Definition gc_content (r : Read.t) : nat :=
  let seq := Read.sequence r in
  round_div ((str_count "C"%char seq + str_count "G"%char seq) * 100) (length seq).

Definition tile_of (re : option (string → option string)) (r : Read.t) : option string :=
  re ≫= (λ f, f (Read.name r)).

Definition mean_of (r : Read.t) : option nat :=
  (λ quals, mean_quality quals (length (Read.sequence r))) <$> Read.qualities r.

(** The bases of a read with their qualities: none when the read has no
    qualities or when its name does not show the tile that is asked for. *)
Definition pairs (re : option (string → option string)) (r : Read.t) : list (ascii * ascii) :=
  if bool_decide (is_Some re → is_Some (tile_of re r))
  then zip (Read.sequence r) (default [] (Read.qualities r))
  else [].

(** Whether a read falls in a cell. *)
Definition counts (re : option (string → option string)) (c : cell) (r : Read.t) : bool :=
  has_bases r &&
  match c with
  | Reads => true
  | Lengths n => bool_decide (length (Read.sequence r) = n)
  | Gc pct => bool_decide (gc_content r = pct)
  | Bases i base => bool_decide (fst <$> pairs re r !! i = Some base)
  | Quals i qual => bool_decide (snd <$> pairs re r !! i = Some qual)
  | Means m => bool_decide (mean_of r = Some m)
  | TileQuals i tile qual =>
      bool_decide (tile_of re r = Some tile ∧ tile ≠ ""%string
                   ∧ snd <$> pairs re r !! i = Some qual)
  | TileMeans tile m => bool_decide (tile_of re r = Some tile ∧ mean_of r = Some m)
  end.

(** The cells that are kept only while qualities are tracked. *)
Definition needs_qualities (c : cell) : bool :=
  match c with Reads | Lengths _ | Gc _ => false | _ => true end.

(** The setting of [qualities] after a read: a collector that was not told
    decides on the first read that has qualities. *)
Definition next_qualities (q : option bool) (r : Read.t) : option bool :=
  match q with
  | None => if truthy (Read.qualities r) then Some true else None
  | Some _ => q
  end.

(** The reads that are tabulated with quality tracking on. *)
Fixpoint tracked (q : option bool) (reads : list Read.t) : list Read.t :=
  match reads with
  | [] => []
  | r :: rest =>
      let q' := next_qualities q r in
      (if default false q' then [r] else []) ++ tracked q' rest
  end.

Definition sample (q : option bool) (c : cell) (reads : list Read.t) : list Read.t :=
  if needs_qualities c then tracked q reads else reads.

(** The specification: the reads of the sample that fall in the cell. *)
Definition histogram (q : option bool) (re : option (string → option string))
    (reads : list Read.t) (c : cell) : nat :=
  length (filter (λ r, counts re c r = true) (sample q c reads)).

(** One for a condition that holds. *)
Definition one (b : bool) : nat := if b then 1 else 0.

#[export] Instance cell_eq_dec : EqDecision cell.
Proof. solve_decision. Defined.

(** ** What the proofs measure *)

(** Whether the loop of [tabulate] over the pairs [l] counts in a cell. *)
Definition hits (tile : option string) (c : cell) (l : list (ascii * ascii)) : bool :=
  match c with
  | Bases i base => bool_decide (fst <$> l !! i = Some base)
  | Quals i qual => bool_decide (snd <$> l !! i = Some qual)
  | TileQuals i t qual =>
      bool_decide (tile = Some t ∧ t ≠ ""%string ∧ snd <$> l !! i = Some qual)
  | _ => false
  end.

(** The length of the longest read of a run. *)
Definition widest (reads : list Read.t) : nat :=
  max_list ((λ r, length (Read.sequence r)) <$> reads).

(** The cells that no read of at most [n] bases falls in: the length 0 and
    the lengths above [n], the GC percentages above 100, the positions from
    [n] on, and the positions of the tile without a name. *)
Definition out_of_range (n : nat) (c : cell) : bool :=
  match c with
  | Reads | Means _ | TileMeans _ _ => false
  | Lengths l => bool_decide (l = 0 ∨ n < l)
  | Gc pct => bool_decide (100 < pct)
  | Bases i _ | Quals i _ => bool_decide (n ≤ i)
  | TileQuals i tile _ => bool_decide (n ≤ i ∨ tile = ""%string)
  end.

(** Every number that the three distributions store is positive: a key is
    stored when it is first counted. *)
Definition stored (s : t) : Prop :=
  positive (sequence_lengths s) ∧ positive (sequence_gc s)
  ∧ ∀ sq, sequence_qualities s = Some sq → positive sq.

(** The header of a flattened table, from its keys. *)
Definition header_of (dt : option string) (keys : list ascii) : list header_key :=
  if decide (dt = Some "q"%string) then (λ k, HQual (qual2int k)) <$> keys else HKey <$> keys.

(** A run on a collector with a tile pattern that was not told whether to
    track qualities: a read without qualities, which is counted and not
    tabulated; the read of tile 1101; a read of another instrument, which is
    rated and not tabulated; a read without bases, which is not counted. *)
Definition run_mixed : list Read.t :=
  [Read.of_seq "GG"; read_tile; read_other; read_empty].

(** ** The sample *)

Section sample.
Implicit Types (r : Read.t) (reads : list Read.t) (q : option bool).

Lemma tracked_on reads : tracked (Some true) reads = reads.
Proof. induction reads as [|r reads IH]; simpl; [done | by rewrite IH]. Qed.

Lemma tracked_off reads : tracked (Some false) reads = [].
Proof. by induction reads. Qed.

(** A collector that was not told tracks from the first read with
    qualities on. *)
Lemma tracked_auto reads r rest :
  Forall (λ r, truthy (Read.qualities r) = false) reads → truthy (Read.qualities r) = true →
  tracked None (reads ++ r :: rest) = r :: rest.
Proof.
  intros Hreads Hr. induction Hreads as [|r0 reads H0 _ IH]; simpl.
  - by rewrite Hr, tracked_on.
  - by rewrite H0.
Qed.

Lemma tracked_never reads :
  Forall (λ r, truthy (Read.qualities r) = false) reads → tracked None reads = [].
Proof. induction 1 as [|r reads H0 _ IH]; simpl; [done | by rewrite H0]. Qed.

Lemma histogram_nil q re c : histogram q re [] c = 0.
Proof. unfold histogram, sample. by destruct (needs_qualities c). Qed.

Lemma histogram_cons q re r reads c :
  histogram q re (r :: reads) c
  = one (counts re c r && (negb (needs_qualities c) || default false (next_qualities q r)))
    + histogram (next_qualities q r) re reads c.
Proof.
  unfold histogram, sample. destruct (needs_qualities c); simpl.
  - rewrite filter_app, length_app. f_equal.
    destruct (default false _); [|by rewrite andb_false_r].
    rewrite filter_cons, andb_true_r. by destruct (counts re c r).
  - rewrite filter_cons, andb_true_r. by destruct (counts re c r).
Qed.

(** With tracking on from the start, every read of the run is in the
    sample. *)
Lemma histogram_on re reads c :
  histogram (Some true) re reads c = length (filter (λ r, counts re c r = true) reads).
Proof. unfold histogram, sample. rewrite tracked_on. by destruct (needs_qualities c). Qed.

End sample.

(** ** Cells of a table that grows and is tallied *)

Section columns.
Context {A D : Type} (measure : D → nat).
Implicit Types (ds : list D) (b : BaseDicts.t D) (i n : nat).

Lemma column_extend c n b i :
  measure c = 0 → column measure (BaseDicts.extend c n b) i = column measure b i.
Proof. apply total_at_extend. Qed.

(** The loop over the items of a list adds the weight of the item of a
    position to the measure of that position. *)
Lemma column_tally (w : A → nat) (f : A → D → D) (l : list A) ds i :
  (∀ a d, measure (f a d) = measure d + w a) → length l ≤ length ds →
  total_at (measure <$> foldl (λ ds ix, alter (f ix.2) ix.1 ds) ds (enumerate 0 l)) i
  = total_at (measure <$> ds) i + default 0 (w <$> l !! i).
Proof.
  intros Hf Hl. unfold total_at. rewrite !list_lookup_fmap, foldl_alter_enumerate, Nat.sub_0_r.
  destruct (l !! i) as [a|] eqn:Ha; [|simpl; lia].
  apply lookup_lt_Some in Ha. rewrite decide_True by lia.
  destruct (lookup_lt_is_Some_2 ds i) as [d Hd]; [lia|]. rewrite Hd. simpl. apply Hf.
Qed.

End columns.

Section keys.
Context `{Countable K}.

Lemma getitem_incr_one (k k' : K) (d : gmap K nat) :
  CountingDict.__getitem__ (CountingDict.incr k d) k'
  = CountingDict.__getitem__ d k' + one (bool_decide (k = k')).
Proof.
  rewrite getitem_incr. unfold one.
  by destruct (decide (k = k')); [rewrite bool_decide_true | rewrite bool_decide_false].
Qed.

(** The weight of the item of a position, as a condition on the position. *)
Lemma one_lookup {B} (g : B → K) (o : option B) (k : K) :
  default 0 ((λ a, one (bool_decide (g a = k))) <$> o) = one (bool_decide (g <$> o = Some k)).
Proof.
  destruct o as [a|]; simpl; [|done]. unfold one. repeat case_bool_decide; naive_solver.
Qed.

End keys.

Section nested_keys.
Context `{Countable K1} `{Countable K2}.

Lemma nested_getitem_incr (k1 k1' : K1) (k2 k2' : K2) (d : gmap K1 (gmap K2 nat)) :
  nested_getitem (NestedDict.incr k1 k2 d) k1' k2'
  = nested_getitem d k1' k2' + one (bool_decide (k1 = k1' ∧ k2 = k2')).
Proof.
  unfold nested_getitem, NestedDict.incr. destruct (decide (k1 = k1')) as [<-|Hne].
  - rewrite lookup_insert_eq. cbn [from_option id]. rewrite getitem_incr_one. f_equal.
    unfold one. repeat case_bool_decide; naive_solver.
  - rewrite lookup_insert_ne by done. rewrite bool_decide_false by naive_solver.
    unfold one. lia.
Qed.

Lemma nested_getitem_empty (k1 : K1) (k2 : K2) : nested_getitem (∅ : gmap K1 (gmap K2 nat)) k1 k2 = 0.
Proof. done. Qed.

End nested_keys.

(** ** The cells after each part of [tabulate] *)

Section parts.
Implicit Types (r : Read.t) (s : t) (n i m : nat) (c : cell) (l : list (ascii * ascii)).

Lemma extended_value n s c : value c (extended n s) = value c s.
Proof.
  pose proof (extended_scalars n s) as [= _ Hc Hl Hg _ _ Hsq].
  assert (tile_sequence_qualities (extended n s) = tile_sequence_qualities s) as Htsq
    by (unfold extended; by repeat case_match).
  destruct c; simpl; rewrite ?Hc, ?Hl, ?Hg, ?Hsq, ?Htsq; try done.
  all: unfold extended, BaseCountingDicts.extend, BaseNestedDicts.extend,
         BaseCountingDicts.dict_class, BaseNestedDicts.dict_class.
  all: destruct (tracking s), (track_tiles s); simpl; rewrite ?column_extend by done; try done.
  all: try (destruct (base_qualities s); simpl; by rewrite ?column_extend by done).
  all: destruct (tile_base_qualities s); simpl; by rewrite ?column_extend by done.
Qed.

Lemma with_mean_quality_value m s c :
  is_Some (sequence_qualities s) →
  value c (with_mean_quality m s) = value c s + one (bool_decide (c = Means m)).
Proof.
  intros [sq Hsq]. destruct c; simpl; rewrite ?Hsq; simpl; try (unfold one; lia).
  rewrite getitem_incr_one. f_equal. unfold one. repeat case_bool_decide; naive_solver.
Qed.

Lemma with_tile_quality_value tile m s c :
  is_Some (tile_sequence_qualities s) →
  value c (with_tile_quality tile m s) = value c s + one (bool_decide (c = TileMeans tile m)).
Proof.
  intros [sq Hsq]. destruct c; simpl; rewrite ?Hsq; simpl; try (unfold one; lia).
  rewrite nested_getitem_incr. f_equal. unfold one. repeat case_bool_decide; naive_solver.
Qed.

(** The loop over the pairs of a read, on tables that reach [length l]. *)
Lemma tallied_value n tile s l c :
  ready n s → length l ≤ n → (is_Some tile → is_Some (tile_key_regexp s)) →
  value c (foldl (add_base_state tile) s (enumerate 0 l)) = value c s + one (hits tile c l).
Proof.
  intros (_ & Hb & _ & (bq & Hbq & Hq) & Htile) Hn Hre.
  pose proof (tallied_scalars tile s (enumerate 0 l)) as [= _ Hc Hl Hg _ _ Hsq].
  destruct c as [| | |i base|i qual| |i t qual|]; simpl;
    rewrite ?Hc, ?Hl, ?Hg, ?Hsq, ?tallied_tile_sequence_qualities; try done.
  - unfold column. rewrite tallied_bases, <- one_lookup.
    by apply (column_tally _ (λ bq : ascii * ascii, one (bool_decide (bq.1 = base)))
                (λ bq, CountingDict.incr bq.1)); [intros; apply getitem_incr_one|lia].
  - rewrite tallied_base_qualities, Hbq. simpl. unfold column. simpl. rewrite <- one_lookup.
    by apply (column_tally _ (λ bq : ascii * ascii, one (bool_decide (bq.2 = qual)))
                (λ bq, CountingDict.incr bq.2)); [intros; apply getitem_incr_one|lia].
  - rewrite tallied_tile_base_qualities. destruct tile as [tile|]; [|done].
    case_bool_decide as Ht; [by rewrite bool_decide_false by naive_solver|].
    destruct Htile as (_ & tq & Htq & Hlen); [by apply Hre|]. rewrite Htq. simpl.
    unfold column. simpl.
    rewrite (column_tally _ (λ bq : ascii * ascii, one (bool_decide (tile = t ∧ bq.2 = qual)))
               (λ bq, NestedDict.incr tile bq.2)) by (intros; apply nested_getitem_incr || lia).
    f_equal. destruct (l !! i) as [[b q]|]; simpl; unfold one; repeat case_bool_decide;
      naive_solver.
Qed.

End parts.

(** ** The cells after [tabulate] *)

Section tabulate.
Implicit Types (r : Read.t) (s : t) (n i m : nat) (c : cell).

(** A read with qualities falls in the cells of its mean quality, of the
    mean quality of its tile and of its pairs. *)
Lemma counts_parts re r quals c :
  has_bases r = true → needs_qualities c = true → Read.qualities r = Some quals →
  let m := mean_quality quals (length (Read.sequence r)) in
  let l := zip (Read.sequence r) quals in
  one (counts re c r)
  = one (bool_decide (c = Means m))
    + match re with
      | None => one (hits None c l)
      | Some f =>
          match f (Read.name r) with
          | None => 0
          | Some tile => one (bool_decide (c = TileMeans tile m)) + one (hits (Some tile) c l)
          end
      end.
Proof.
  intros Hb Hc Hq. unfold counts, pairs, tile_of, mean_of. rewrite Hb, Hq. simpl.
  destruct c, re as [f|]; try done; simpl; try destruct (f (Read.name r)) as [t0|]; simpl.
  all: unfold one; repeat case_bool_decide; try done; exfalso; naive_solver.
Qed.

Lemma counts_no_qualities re r c :
  needs_qualities c = true → Read.qualities r = None → counts re c r = false.
Proof.
  intros Hc Hq. unfold counts, pairs, tile_of, mean_of. rewrite Hq. simpl.
  rewrite zip_with_nil_r. apply andb_false_intro2. destruct c; try done; simpl.
  all: repeat case_bool_decide; try done; exfalso; naive_solver.
Qed.

(** What [tabulate] adds to a cell, on every branch. *)
Lemma tabulate_value r s c :
  allocated s → has_bases r = true → needs_qualities c = true →
  value c (tabulate_state r s) = value c s + one (tracking s && counts (tile_key_regexp s) c r).
Proof.
  intros Ha Hb Hc. set (n := length (Read.sequence r)). unfold tabulate_state. fold n.
  destruct (tracking s) eqn:Ht; [|by rewrite extended_value].
  destruct (Read.qualities r) as [quals|] eqn:Hq;
    [|by rewrite extended_value, counts_no_qualities].
  rewrite andb_true_l, (counts_parts _ _ quals) by done. fold n.
  set (m := mean_quality quals n). set (l := zip (Read.sequence r) quals).
  pose proof (extended_ready n s Ha Ht) as He. pose proof He as (_ & _ & Hsq & _).
  pose proof (ready_with_mean_quality n m _ He) as Hr.
  assert (length l ≤ n) as Hl by (unfold l; rewrite length_zip; lia).
  assert (value c (with_mean_quality m (extended n s))
          = value c s + one (bool_decide (c = Means m))) as Hm
    by by rewrite with_mean_quality_value, extended_value.
  destruct (tile_key_regexp s) as [re|] eqn:Hre; [destruct (re (Read.name r)) as [tile|]|].
  - assert (is_Some (tile_key_regexp (with_mean_quality m (extended n s)))) as Hre'
      by (change (is_Some (tile_key_regexp (extended n s))); by rewrite extended_regexp, Hre).
    pose proof (ready_with_tile_quality n tile m _ Hr Hre') as Hr'.
    rewrite (tallied_value n), with_tile_quality_value, Hm by done || by destruct Hr as (_ & _ & _ & _ & Ht'); destruct (Ht' Hre').
    lia.
  - rewrite Hm. lia.
  - rewrite (tallied_value n), Hm by done || by intros [? [=]]. lia.
Qed.

End tabulate.

(** ** The cells after [collect] *)

Section steps.
Implicit Types (r : Read.t) (s : t) (c : cell) (reads : list Read.t).

Lemma init_value q re c :
  value c (__init__ q re) = 0
  ∧ qualities (__init__ q re) = q ∧ tile_key_regexp (__init__ q re) = re.
Proof. by destruct q as [[]|], re, c. Qed.

(** Starting quality tracking empties the quality tables, which a collector
    that has not started does not have. *)
Lemma activate_value r s c : columns_ok s → value c (activate r s).1 = value c s.
Proof.
  intros [Hf _ _ _ _ _]. rewrite activate_state.
  case_bool_decide as Hq; simpl; [|done]. destruct (truthy _); [|done].
  destruct (Hf Hq) as (Hsq & Hbq & Htq & Htsq). unfold started.
  by case_bool_decide; destruct c; simpl; rewrite ?Hsq, ?Hbq, ?Htq, ?Htsq.
Qed.

Lemma counted_value re r s c :
  has_bases r = true →
  value c (counted r s) = value c s + one (negb (needs_qualities c) && counts re c r).
Proof.
  intros Hb. unfold counts, gc_content. rewrite Hb.
  destruct c; simpl; rewrite ?getitem_incr_one; try done; lia.
Qed.

Lemma tabulate_keeps r s c :
  needs_qualities c = false → value c (tabulate_state r s) = value c s.
Proof.
  intros Hc.
  destruct (tabulate_state_scalars r s) as [[= _ Hn Hl Hg _ _ _]|[m [= _ Hn Hl Hg _ _ _]]];
    destruct c; try done; simpl; congruence.
Qed.

Lemma activated_next r s : activated r s = default false (next_qualities (qualities s) r).
Proof.
  unfold activated, tracking, next_qualities.
  by destruct (qualities s) as [[]|], (truthy _).
Qed.

Lemma collect_next r s :
  reachable s →
  qualities (collect r s).1 = next_qualities (qualities s) r
  ∧ tile_key_regexp (collect r s).1 = tile_key_regexp s.
Proof.
  intros Hs. split; [|apply (collect_keeps_regexp r s)].
  rewrite collect_reachable by done. unfold collect_state. cbn [fst].
  assert (qualities (activate r s).1 = next_qualities (qualities s) r) as Ha.
  { rewrite activate_state. unfold next_qualities, started.
    destruct (qualities s) as [[]|] eqn:Hq, (truthy _); simpl; try done.
    by case_bool_decide. }
  case_bool_decide; [done|].
  by destruct (tabulate_state_scalars r (counted r (activate r s).1))
    as [[= _ _ _ _ -> _ _]|[m [= _ _ _ _ -> _ _]]].
Qed.

(** What [collect] adds to a cell, whether it returns or raises. *)
Lemma collect_value r s c :
  reachable s →
  value c (collect r s).1
  = value c s + one (counts (tile_key_regexp s) c r
                     && (negb (needs_qualities c) || activated r s)).
Proof.
  intros Hs. pose proof (reachable_columns s Hs) as Hok.
  pose proof (reachable_inv s Hs) as [_ _ Hal _ _ _].
  rewrite collect_reachable by done. unfold collect_state. cbn [fst].
  case_bool_decide as Hseq.
  { rewrite activate_value by done. unfold counts, has_bases.
    rewrite bool_decide_true by done. simpl. lia. }
  assert (has_bases r = true) as Hb by (unfold has_bases; by rewrite bool_decide_false).
  pose proof (activate_frame r s) as [= _ _ _ _ _ Hre].
  destruct (needs_qualities c) eqn:Hc.
  - rewrite tabulate_value by (done || by apply counted_allocated, activate_allocated).
    rewrite (counted_value (tile_key_regexp s)), Hc, activate_value by done.
    change (tracking (counted r ?x)) with (tracking x).
    change (tile_key_regexp (counted r ?x)) with (tile_key_regexp x).
    rewrite activate_tracking, <- Hre. simpl. rewrite (andb_comm (counts _ _ _)). lia.
  - rewrite tabulate_keeps, (counted_value (tile_key_regexp s)), Hc, activate_value by done.
    simpl. by rewrite andb_true_r.
Qed.

(** A run adds the histogram of its reads to every cell. *)
Lemma feed_value reads s c :
  reachable s →
  value c (feed reads s)
  = value c s + histogram (qualities s) (tile_key_regexp s) reads c.
Proof.
  revert s. induction reads as [|r reads IH]; intros s Hs.
  { rewrite histogram_nil. simpl. lia. }
  change (feed (r :: reads) s) with (feed reads (collect r s).1).
  destruct (collect_next r s Hs) as [Hq Hre].
  rewrite IH, collect_value by (done || by constructor).
  rewrite histogram_cons, Hq, Hre, activated_next. lia.
Qed.

(** C3: Refinement of the histogram by the collector.  After any run of
    [collect] on a new collector, whichever calls raised, every cell of the
    eight tables holds the number of reads that fall in it: [count] the
    reads that have bases; the length and GC tables those of that length
    and that GC percentage; the base and quality tables, at each position,
    the reads with that base and that quality there; the mean-quality table
    the reads with that mean; and the tile tables the same under each
    tile.  The quality tables count the reads from the first one with
    qualities on when the collector was not told whether to track them, and
    the positional tables skip the reads whose name does not show a tile
    when a tile pattern is set. *)
Theorem feed_histogram q re reads c :
  value c (feed reads (__init__ q re)) = histogram q re reads c.
Proof.
  destruct (init_value q re c) as (H0 & Hq & Hre).
  by rewrite feed_value, H0, Hq, Hre by apply reachable_init.
Qed.

End steps.

(** ** Bounds *)

Section bounds.
Implicit Types (r : Read.t) (c : cell) (reads : list Read.t) (q : option bool).

Lemma gc_content_le r : has_bases r = true → gc_content r ≤ 100.
Proof.
  unfold has_bases. intros Hb%negb_true_iff%bool_decide_eq_false.
  eapply gc_percent_le, gc_percent_nonempty, Hb.
Qed.

Lemma pairs_length re r : length (pairs re r) ≤ length (Read.sequence r).
Proof. unfold pairs. case_bool_decide; simpl; [rewrite length_zip|]; lia. Qed.

Lemma counts_in_range re c r n :
  length (Read.sequence r) ≤ n → out_of_range n c = true → counts re c r = false.
Proof.
  intros Hn Hc. unfold counts. destruct (has_bases r) eqn:Hb; [|done]. simpl.
  pose proof (gc_content_le r Hb). pose proof (pairs_length re r).
  assert (0 < length (Read.sequence r)).
  { unfold has_bases in Hb. destruct (Read.sequence r); [done | simpl; lia]. }
  assert (∀ i, n ≤ i → pairs re r !! i = None) as Hout
    by (intros; apply lookup_ge_None; lia).
  destruct c; try done; simpl in Hc; apply bool_decide_eq_true in Hc;
    apply bool_decide_eq_false; try lia.
  - by rewrite Hout.
  - by rewrite Hout.
  - destruct Hc as [Hi| ->]; [rewrite Hout by done|]; naive_solver.
Qed.

(** A cell counts reads that are counted. *)
Lemma histogram_le q re reads c : histogram q re reads c ≤ histogram q re reads Reads.
Proof.
  revert q. induction reads as [|r reads IH]; intros q; [by rewrite !histogram_nil|].
  rewrite !histogram_cons. specialize (IH (next_qualities q r)).
  unfold counts at 1 2. destruct (has_bases r); simpl; [|done].
  unfold one. repeat case_match; lia.
Qed.

Lemma histogram_reads q re reads : histogram q re reads Reads ≤ length reads.
Proof. apply length_filter. Qed.

Lemma histogram_none q re reads c :
  Forall (λ r, counts re c r = false) reads → histogram q re reads c = 0.
Proof.
  intros Hreads. revert q.
  induction Hreads as [|r reads Hr _ IH]; intros q; [apply histogram_nil|].
  by rewrite histogram_cons, Hr, IH.
Qed.

Lemma histogram_out_of_range q re reads c :
  out_of_range (widest reads) c = true → histogram q re reads c = 0.
Proof.
  intros Hc. apply histogram_none, Forall_forall. intros r Hr.
  apply (counts_in_range _ _ _ (widest reads)); [|done].
  apply max_list_elem_of_le, list_elem_of_fmap. eauto.
Qed.

(** C19: Bounds of the tables after a run.  No cell holds more than [count],
    and [count] no more than the number of reads fed.  The cells out of
    range are empty, whatever the reads were: a read length of 0 or above
    the longest read, a GC percentage above 100, a position at or past the
    length of the longest read, and every position of a tile whose name is
    empty. *)
Theorem cell_bounds q re reads c :
  let s := feed reads (__init__ q re) in
  value c s ≤ (if out_of_range (widest reads) c then 0 else count s)
  ∧ count s ≤ length reads.
Proof.
  intros s. pose proof (feed_value reads _ c (reachable_init q re)) as Hv.
  pose proof (feed_value reads _ Reads (reachable_init q re)) as Hn.
  destruct (init_value q re c) as (Hc & Hq & Hre). destruct (init_value q re Reads) as (H0 & _).
  rewrite Hc, Hq, Hre in Hv. rewrite H0, Hq, Hre in Hn. fold s in Hv, Hn.
  change (value Reads s) with (count s) in Hn. rewrite Hv, Hn. split.
  - destruct (out_of_range _ _) eqn:Hout; [by rewrite histogram_out_of_range|].
    apply histogram_le.
  - apply histogram_reads.
Qed.

End bounds.

(** ** The snapshot *)

Section stored.
Implicit Types (r : Read.t) (s : t).

Lemma scalars_stored s s' : scalars s' = scalars s → stored s → stored s'.
Proof. unfold stored. by intros [= _ _ -> -> _ _ ->]. Qed.

Lemma with_mean_quality_stored m s : stored s → stored (with_mean_quality m s).
Proof.
  intros (Hl & Hg & Hsq). split_and!; [done..|]. simpl. intros sq' Hsq'.
  destruct (sequence_qualities s) as [sq|]; [|done]. injection Hsq' as <-.
  by apply positive_incr, Hsq.
Qed.

Lemma collect_stored r s : reachable s → stored s → stored (collect r s).1.
Proof.
  intros Hs Hst. rewrite collect_reachable by done. unfold collect_state. cbn [fst].
  assert (stored (activate r s).1) as (Hl & Hg & Hsq).
  { rewrite activate_state. destruct (_ && _); [|done]. destruct Hst as (Hl & Hg & _).
    unfold started. case_bool_decide; (split_and!; [done..|]); intros sq [= <-];
      apply positive_empty. }
  case_bool_decide; [done|].
  assert (stored (counted r (activate r s).1)) as Hc
    by (split_and!; [by apply positive_incr..|done]).
  destruct (tabulate_state_scalars r (counted r (activate r s).1)) as [E|[m E]].
  - by apply (scalars_stored _ _ E).
  - by apply (scalars_stored _ _ E), with_mean_quality_stored.
Qed.

Lemma feed_stored q re reads : stored (feed reads (__init__ q re)).
Proof.
  assert (stored (__init__ q re)) as H0.
  { destruct q as [[]|], re; (split_and!; [apply positive_empty..|]); simpl;
      intros sq [= <-]; apply positive_empty. }
  pose proof (reachable_init q re) as Hs. revert H0 Hs.
  generalize (__init__ q re). induction reads as [|r reads IH]; intros s H0 Hs; [done|].
  apply IH; [by apply collect_stored | by constructor].
Qed.

End stored.

Section snapshot.
Implicit Types (r : Read.t) (s : t) (c : cell) (reads : list Read.t).

(** What a run leaves: a collector the methods can be called on, whose
    stored numbers are positive, whose base table reaches the longest read
    and whose cells are the histogram of the run. *)
Lemma run_state q re reads :
  let s := feed reads (__init__ q re) in
  reachable s ∧ stored s ∧ table_length s = widest reads
  ∧ ∀ c, value c s = histogram q re reads c.
Proof.
  intros s. pose proof (reachable_init q re) as H0. split_and!.
  - by apply reachable_feed.
  - apply feed_stored.
  - destruct (feed_reachable_totals reads _ H0) as [_ Hlen]. unfold s. rewrite Hlen.
    by destruct (init_totals q re) as [_ ->].
  - intros c. destruct (init_value q re c) as (Hc & Hq & Hre).
    unfold s. by rewrite feed_value, Hc, Hq, Hre.
Qed.

(** The items of a distribution are its cells that are not empty. *)
Lemma sorted_items_cells (d : gmap nat nat) n k :
  positive d →
  (n, k) ∈ CountingDict.sorted_items d ↔ k = CountingDict.__getitem__ d n ∧ 0 < k.
Proof.
  intros Hd. rewrite elem_of_sorted_items. unfold CountingDict.__getitem__. split.
  - intros Hn. rewrite Hn. split; [done | by eapply Hd].
  - intros [-> Hk]. destruct (d !! n); [done | simpl in Hk; lia].
Qed.

(** The mean qualities of a snapshot: absent when no mean quality was
    recorded, the cells that are not empty otherwise. *)
Lemma quality_items (o : option (gmap nat nat)) :
  (∀ sq, o = Some sq → positive sq) →
  let cell m := default 0 ((λ d, CountingDict.__getitem__ d m) <$> o) in
  let items := match o with
               | Some sq => if decide (sq = ∅) then None
                            else Some (CountingDict.sorted_items sq)
               | None => None
               end in
  (items = None ↔ ∀ m, cell m = 0)
  ∧ ∀ m k, (m, k) ∈ default [] items ↔ k = cell m ∧ 0 < k.
Proof.
  intros Hpos cell items. unfold cell, items.
  destruct o as [sq|]; simpl; [|split; [done | intros; rewrite elem_of_nil; lia]].
  specialize (Hpos sq eq_refl). case_decide as Hsq; simpl.
  - subst sq. split; [done|]. intros m k. rewrite elem_of_nil, getitem_empty. lia.
  - split; [|intros; by apply sorted_items_cells].
    split; [done|]. intros Hz. destruct (map_choose sq Hsq) as (m & k & Hm).
    specialize (Hz m). specialize (Hpos m k Hm).
    unfold CountingDict.__getitem__ in Hz. rewrite Hm in Hz. simpl in Hz. lia.
Qed.

(** A flattened table is the cells of its positions, row by row and column
    by column, under the header of its keys. *)
Lemma flatten_cells dt (b : BaseDicts.t (gmap ascii nat)) (cell : nat → ascii → nat) :
  (∀ i k, column (λ d, CountingDict.__getitem__ d k) b i = cell i k) →
  let keys := BaseCountingDicts.flatten_keys dt (BaseDicts.dicts b) in
  BaseCountingDicts.flatten dt b
  = (header_of dt keys,
     (λ i, (S i, cell i <$> keys)) <$> seq 0 (length (BaseDicts.dicts b))).
Proof.
  intros Hcell keys. rewrite (surjective_pairing (BaseCountingDicts.flatten dt b)).
  f_equal. apply list_eq. intros i. rewrite list_lookup_fmap.
  destruct (decide (i < length (BaseDicts.dicts b))) as [Hi|Hi].
  - rewrite lookup_seq_lt by done. destruct (lookup_lt_is_Some_2 _ _ Hi) as [d Hd].
    apply flatten_row. exists d. split; [done|]. simpl. f_equal.
    apply list_fmap_ext. intros _ k _. rewrite <- Hcell. unfold column, total_at.
    by rewrite list_lookup_fmap, Hd.
  - rewrite lookup_seq_ge by lia. apply lookup_ge_None.
    rewrite flatten_rows_length. lia.
Qed.

(** C8: From the reads to the snapshot.  [finish] returns on the collector
    that a run leaves, whichever calls of the run raised, and its snapshot
    is the histogram of the run: [count] is the number of reads with bases;
    the length and GC distributions list, for every length and percentage
    that occurs, the number of reads that have it, and nothing else; the
    mean qualities are absent when no read was rated and list the means that
    occur otherwise; the table of bases has one row per position up to the
    longest read, numbered from 1, which holds under every column of the
    header the number of tabulated reads with that base there; and the table
    of base qualities, when there is one, holds the number of reads with
    that quality there. *)
Theorem snapshot_histogram q re reads :
  let h := histogram q re reads in
  ∃ snap keys,
    (finish (feed reads (__init__ q re))).2 = Ret snap
    ∧ snap_count snap = h Reads
    ∧ (∀ n k, (n, k) ∈ snap_length snap ↔ k = h (Lengths n) ∧ 0 < k)
    ∧ (∀ pct k, (pct, k) ∈ snap_gc snap ↔ k = h (Gc pct) ∧ 0 < k)
    ∧ (snap_qualities snap = None ↔ ∀ m, h (Means m) = 0)
    ∧ (∀ m k, (m, k) ∈ default [] (snap_qualities snap) ↔ k = h (Means m) ∧ 0 < k)
    ∧ snap_bases snap
      = (HKey <$> keys,
         (λ i, (S i, (λ base, h (Bases i base)) <$> keys)) <$> seq 0 (widest reads))
    ∧ ∀ header rows, snap_base_qualities snap = Some (header, rows) →
        ∃ quals, header = (λ k, HQual (qual2int k)) <$> quals
          ∧ rows = (λ i, (S i, (λ qual, h (Quals i qual)) <$> quals))
                     <$> seq 0 (length rows).
Proof.
  intros h. subst h. destruct (run_state q re reads) as (Hs & (Hl & Hg & Hsq) & Hlen & Hv).
  set (s := feed reads (__init__ q re)) in *.
  pose proof (reachable_inv s Hs) as [_ _ Ha _ _ _].
  destruct (finish_returns s Ha) as (tbq & tsq & -> & _).
  destruct (quality_items (sequence_qualities s) Hsq) as [Hnone Hitems].
  eexists _, _. split; [done|].
  cbn [snap_count snap_length snap_gc snap_bases snap_qualities snap_base_qualities].
  split_and!.
  - apply (Hv Reads).
  - intros n k. rewrite sorted_items_cells by done. by rewrite <- (Hv (Lengths n)).
  - intros g k. rewrite sorted_items_cells by done. by rewrite <- (Hv (Gc g)).
  - rewrite Hnone. by setoid_rewrite <- (λ m, Hv (Means m)).
  - intros m k. by rewrite Hitems, <- (Hv (Means m)).
  - rewrite (flatten_cells _ _ (λ i base, histogram q re reads (Bases i base)))
      by (intros i k; apply (Hv (Bases i k))).
    unfold table_length in Hlen. by rewrite Hlen.
  - intros header rows Hbq. destruct (base_qualities s) as [bq|] eqn:Hb; [|done].
    cbn [fmap option_fmap option_map] in Hbq. rewrite (flatten_cells _ _ (λ i qual, histogram q re reads (Quals i qual))) in Hbq.
    + injection Hbq as <- <-. eexists. split; [done|].
      by rewrite length_fmap, length_seq.
    + intros i k. rewrite <- (Hv (Quals i k)). simpl. by rewrite Hb.
Qed.

End snapshot.

(** ** Examples *)

Example histogram_mixed :
  let h := histogram None (Some tile_of_m1) run_mixed in
  h Reads = 3 ∧ h (Lengths 4) = 2 ∧ h (Lengths 2) = 1
  ∧ h (Gc 50) = 1 ∧ h (Gc 75) = 1 ∧ h (Gc 100) = 1
  ∧ h (Bases 0 "G"%char) = 1 ∧ h (Quals 2 "H"%char) = 1
  ∧ h (Means 63) = 1 ∧ h (Means 54) = 1
  ∧ h (TileQuals 3 "1101" "#"%char) = 1 ∧ h (TileMeans "1101" 63) = 1
  ∧ h (TileMeans "1101" 54) = 0.
Proof. by vm_compute. Qed.

(** The tables of the collector hold the same numbers. *)
Example value_mixed :
  let s := feed run_mixed fresh_tiles in
  value Reads s = 3 ∧ value (Lengths 4) s = 2 ∧ value (Gc 75) s = 1
  ∧ value (Bases 0 "G"%char) s = 1 ∧ value (Bases 1 "G"%char) s = 0
  ∧ value (Quals 2 "H"%char) s = 1 ∧ value (Means 54) s = 1
  ∧ value (TileQuals 3 "1101" "#"%char) s = 1 ∧ value (TileMeans "1101" 54) s = 0.
Proof. by vm_compute. Qed.

(** A collector that was told not to track qualities counts the reads and
    tabulates none; one that was told to track them tabulates from the
    first read on, and the read without qualities raises. *)
Example histogram_settings :
  histogram (Some false) None run_mixed (Bases 0 "G"%char) = 0
  ∧ histogram (Some true) None run_mixed (Bases 0 "G"%char) = 2
  ∧ histogram (Some true) None run_mixed Reads = 3.
Proof. by vm_compute. Qed.

(** The cells out of the range of the run. *)
Example out_of_range_mixed :
  widest run_mixed = 4
  ∧ out_of_range 4 (Bases 4 "A"%char) = true ∧ out_of_range 4 (Bases 3 "A"%char) = false
  ∧ out_of_range 4 (Gc 101) = true ∧ out_of_range 4 (Lengths 0) = true
  ∧ out_of_range 4 (TileQuals 0 "" "I"%char) = true.
Proof. by vm_compute. Qed.
