(* ===== verification/Manager.v ===== *)
(** * Manager: the class [ReadStatistics] of [stats.py]

    The manager owns the collectors of the two phases: [pre], one collector
    per mate, created by the constructor when the mode asks for it, and
    [post], a dictionary from an output destination to the collectors of that
    destination, created when the destination receives its first record.
    A record is what the callers pass: a read, or a tuple of reads.  Indexing
    a read is done by the read class, which is not part of the sources; the
    model takes it as the function [getitem_read].

    [pre_run] is a run before trimming, the manager after a list of records;
    the last section relates it to the runs ([feed]) of its collectors. *)

From Stdlib Require Import Ascii.
From stdpp Require Import gmap strings list.
From S2P Require Import Prelude Reads Counting Dicts Collector.

(** A record handed to [pre_trim] or [post_trim]. *)
Inductive record : Type :=
  | One (read : Read.t)
  | Tuple (reads : list Read.t).

Module ReadStatistics.
Section defs.
Context {D : Type} `{EqDecision D}.
Context (getitem_read : Read.t → nat → outcome Read.t).

(** The keyword arguments kept for the collectors. *)
Record collector_args : Type := mk_args {
  arg_qualities : option bool;
  arg_tile_key_regexp : option (string → option string);
}.

Record t : Type := mk {
  mode : string;
  paired : bool;
  pre : option (list ReadStatCollector.t);
  post : option (list (D * list ReadStatCollector.t));
  args : collector_args;
}.

(** What [finish] returns: per phase, per destination, the snapshots of the
    collectors, numbered from 1. *)
Record result : Type := mk_result {
  result_pre : option (list (nat * ReadStatCollector.snapshot));
  result_post : option (list (D * list (nat * ReadStatCollector.snapshot)));
}.

Definition set_pre (p : option (list ReadStatCollector.t)) (self : t) : t :=
  mk (mode self) (paired self) p (post self) (args self).

Definition set_post (p : option (list (D * list ReadStatCollector.t))) (self : t) : t :=
  mk (mode self) (paired self) (pre self) p (args self).

Definition _make_collectors (self : t) : list ReadStatCollector.t :=
  replicate (if paired self then 2 else 1)
    (ReadStatCollector.__init__ (arg_qualities (args self))
                                (arg_tile_key_regexp (args self))).

Definition __init__ (mode : string) (paired : bool) (kwargs : collector_args) : t :=
  let self := mk mode paired None None kwargs in
  let self := if bool_decide (mode ∈ ["pre"; "both"]%string)
              then set_pre (Some (_make_collectors self)) self else self in
  if bool_decide (mode ∈ ["post"; "both"]%string)
  then set_post (Some []) self else self.

(** [record[i]]. *)
Definition getitem (rec : record) (i : nat) : outcome Read.t :=
  match rec with
  | One read => getitem_read read i
  | Tuple reads =>
      match reads !! i with
      | Some read => Ret read
      | None => Raise IndexError
      end
  end.

(** A record passed where a read is expected: a tuple has no [qualities]. *)
Definition as_read (rec : record) : outcome Read.t :=
  match rec with
  | One read => Ret read
  | Tuple _ => Raise AttributeError
  end.

(** [collectors[i].collect(read)]. *)
Definition collect_at (i : nat) (read : Read.t) : Py (list ReadStatCollector.t) unit :=
  λ collectors,
    match collectors !! i with
    | Some c =>
        let '(c', o) := ReadStatCollector.collect read c in (<[i := c']> collectors, o)
    | None => (collectors, Raise IndexError)
    end.

(** [self.pre[i].collect(...)]. *)
Definition collect_pre (i : nat) (read : Read.t) : Py t unit :=
  self <- get ;;
  match pre self with
  | Some collectors =>
      let '(collectors', o) := collect_at i read collectors in
      modify (set_pre (Some collectors')) ;; lift o
  | None => raise TypeError
  end.

Definition pre_trim (rec : record) : Py t unit :=
  self <- get ;;
  if bool_decide (pre self = None) then ret tt
  else if paired self then
    r0 <- lift (getitem rec 0) ;;
    collect_pre 0 r0 ;;
    r1 <- lift (getitem rec 1) ;;
    collect_pre 1 r1
  else
    r <- lift (as_read rec) ;;
    collect_pre 0 r.

(** [post[i].collect(...)] for [post = self.post[dest]]: the list is shared
    with the dictionary, which sees the update. *)
Definition collect_post (dest : D) (i : nat) (read : Read.t) : Py t unit :=
  self <- get ;;
  match post self with
  | Some d =>
      match od_get dest d with
      | Some collectors =>
          let '(collectors', o) := collect_at i read collectors in
          modify (set_post (Some (od_set dest collectors' d))) ;; lift o
      | None => raise KeyError
      end
  | None => raise TypeError
  end.

(** [if dest not in self.post: self.post[dest] = self._make_collectors()]. *)
Definition add_destination (dest : D) (self : t) : t :=
  match post self with
  | Some d =>
      if bool_decide (od_get dest d = None)
      then set_post (Some (od_set dest (_make_collectors self) d)) self
      else self
  | None => self
  end.

Definition post_trim (dest : D) (rec : record) : Py t unit :=
  self <- get ;;
  if bool_decide (post self = None) then ret tt
  else
    modify (add_destination dest) ;;
    r0 <- lift (getitem rec 0) ;;
    collect_post dest 0 r0 ;;
    when (paired self)
         (r1 <- lift (getitem rec 1) ;;
          collect_post dest 1 r1).

(** [dict(('read{}'.format(read), stats.finish()) for read, stats in
    enumerate(collectors, 1))]: the snapshots in order; a collector that
    raises stops the enumeration. *)
Fixpoint finish_all (read : nat) (collectors : list ReadStatCollector.t)
    : list ReadStatCollector.t * outcome (list (nat * ReadStatCollector.snapshot)) :=
  match collectors with
  | [] => ([], Ret [])
  | stats :: rest =>
      match ReadStatCollector.finish stats with
      | (stats', Ret snap) =>
          let '(rest', o) := finish_all (S read) rest in
          (stats' :: rest', outcome_map (cons (read, snap)) o)
      | (stats', Raise e) => (stats' :: rest, Raise e)
      end
  end.

(** [finish], the [pre] phase: [result['pre']], when the phase exists. *)
Definition finish_pre : Py t (option (list (nat * ReadStatCollector.snapshot))) :=
  self <- get ;;
  match pre self with
  | None => ret None
  | Some collectors =>
      let '(collectors', o) := finish_all 1 collectors in
      modify (set_pre (Some collectors')) ;;
      snaps <- lift o ;;
      ret (Some snaps)
  end.

(** [finish], the [post] phase: the snapshots of the first destination are
    computed before the assignment [result[post][dest] = ...] looks up the
    name [post], which is not defined. *)
Definition finish_post (res_pre : option (list (nat * ReadStatCollector.snapshot)))
    : Py t result :=
  self <- get ;;
  match post self with
  | None => ret (mk_result res_pre None)
  | Some [] => ret (mk_result res_pre (Some []))
  | Some ((dest, collectors) :: rest) =>
      let '(collectors', o) := finish_all 1 collectors in
      modify (set_post (Some ((dest, collectors') :: rest))) ;;
      lift o ;;
      raise NameError
  end.

Definition finish : Py t result :=
  res_pre <- finish_pre ;; finish_post res_pre.
End defs.
Arguments t D : clear implicits.
Arguments result D : clear implicits.
End ReadStatistics.

Import ReadStatistics ReadStatCollector.

(** ** Specification *)

(** The number of collectors of a phase or of a destination. *)
Definition mates {D} (self : ReadStatistics.t D) : nat :=
  if ReadStatistics.paired self then 2 else 1.

(** A list of collectors of the right size, each one reachable. *)
Definition collectors_ok (n : nat) (collectors : list ReadStatCollector.t) : Prop :=
  length collectors = n ∧ Forall reachable collectors.

(** What holds of a manager between two calls. *)
Record manager_ok {D} (self : ReadStatistics.t D) : Prop := mk_manager_ok {
  pre_ok : ∀ collectors, ReadStatistics.pre self = Some collectors →
           collectors_ok (mates self) collectors;
  post_ok : ∀ d, ReadStatistics.post self = Some d →
            NoDup d.*1 ∧ Forall (λ kv, collectors_ok (mates self) kv.2) d;
}.

(** The destinations that have collectors, oldest first. *)
Definition destinations {D} (self : ReadStatistics.t D) : list D :=
  default [] (fmap (M := list) fst <$> ReadStatistics.post self).

(** A call of the manager, and the manager that the call leaves, whether it
    returned or raised. *)
Inductive call (D : Type) : Type :=
  | PreTrim (rec : record)
  | PostTrim (dest : D) (rec : record)
  | Finish.
Arguments PreTrim {D} rec.
Arguments PostTrim {D} dest rec.
Arguments Finish {D}.

Definition after `{EqDecision D} (getitem_read : Read.t → nat → outcome Read.t)
    (self : ReadStatistics.t D) (c : call D) : ReadStatistics.t D :=
  match c with
  | PreTrim rec => (ReadStatistics.pre_trim getitem_read rec self).1
  | PostTrim dest rec => (ReadStatistics.post_trim getitem_read dest rec self).1
  | Finish => (ReadStatistics.finish self).1
  end.

(** A run before trimming: the manager after a list of records, errors
    caught by the caller. *)
Definition pre_run `{EqDecision D} (getitem_read : Read.t → nat → outcome Read.t)
    (records : list record) (self : ReadStatistics.t D) : ReadStatistics.t D :=
  foldl (λ m rec, (ReadStatistics.pre_trim getitem_read rec m).1) self records.

(** The second mates that reach their collector: those of the pairs whose
    first mate was collected without an exception. *)
Fixpoint second_mates (pairs : list (Read.t * Read.t)) (c0 : ReadStatCollector.t)
    : list Read.t :=
  match pairs with
  | [] => []
  | (r1, r2) :: pairs =>
      (if (collect r1 c0).2 is Ret _ then [r2] else [])
      ++ second_mates pairs (collect r1 c0).1
  end.

Definition pair_record (p : Read.t * Read.t) : record := Tuple [p.1; p.2].

(** What [finish] returns, nothing if it raises. *)
Definition result_of {D} (self : ReadStatistics.t D) : ReadStatistics.result D :=
  match (ReadStatistics.finish self).2 with
  | Ret res => res
  | Raise _ => mk_result None None
  end.

(** ** Lists of collectors *)

Section collectors.
Implicit Types (cs : list ReadStatCollector.t) (r : Read.t) (n i : nat).

Lemma collect_at_run i r cs c :
  cs !! i = Some c →
  collect_at i r cs = (<[i := (collect r c).1]> cs, (collect r c).2).
Proof. intros Hc. unfold collect_at. rewrite Hc. by destruct (collect r c). Qed.

Lemma collect_at_ok n i r cs : collectors_ok n cs → collectors_ok n (collect_at i r cs).1.
Proof.
  intros [Hlen Hall]. unfold collect_at. destruct (cs !! i) as [c|] eqn:Hc; [|done].
  destruct (collect r c) as [c' o] eqn:E. simpl. split; [by rewrite length_insert|].
  apply Forall_insert; [done|].
  pose proof (reachable_collect c r (Forall_lookup_1 _ _ _ _ Hall Hc)) as Hr.
  by rewrite E in Hr.
Qed.

(** A collector that is there is fed; the call raises only what [collect]
    raises. *)
Lemma collect_at_present n i r cs :
  collectors_ok n cs → i < n → ∃ c, cs !! i = Some c ∧ reachable c.
Proof.
  intros [Hlen Hall] Hi. destruct (lookup_lt_is_Some_2 cs i) as [c Hc]; [lia|].
  exists c. split; [done|]. by eapply Forall_lookup_1.
Qed.

Lemma finish_all_ok n read cs : collectors_ok n cs → collectors_ok n (finish_all read cs).1.
Proof.
  intros [<- Hall]. revert read. induction Hall as [|c cs Hc Hcs IH]; intros read; [done|].
  pose proof (reachable_finish c Hc) as Hr. simpl.
  destruct (ReadStatCollector.finish c) as [c' [snap|e]]; simpl in Hr.
  - destruct (IH (S read)) as [Hlen Hall'].
    destruct (finish_all (S read) cs) as [cs' o]. simpl in *.
    split; [simpl; by rewrite Hlen | by constructor].
  - split; [done | by constructor].
Qed.
(** The snapshots of reachable collectors are all computed, and numbered
    from [read]. *)
Lemma finish_all_returns n read cs :
  collectors_ok n cs →
  ∃ snaps, (finish_all read cs).2 = Ret snaps ∧ snaps.*1 = seq read n.
Proof.
  intros [<- Hall]. revert read. induction Hall as [|c cs Hc Hcs IH]; intros read.
  { by exists []. }
  destruct (reachable_inv c Hc) as [_ _ Ha _ _ _].
  destruct (finish_returns c Ha) as (tbq & tsq & Hf & _). simpl.
  destruct (ReadStatCollector.finish c) as [c' o]. simpl in Hf. subst o.
  destruct (IH (S read)) as (snaps & Hs & Hn).
  destruct (finish_all (S read) cs) as [cs' o]. simpl in *. subst o.
  eexists. split; [done|]. by rewrite fmap_cons, Hn.
Qed.
End collectors.

(** ** The manager's invariant *)

Section manager.
Context {D : Type} `{EqDecision D}.
Context (getitem_read : Read.t → nat → outcome Read.t).
Implicit Types (self : ReadStatistics.t D) (rec : record) (dest : D) (r : Read.t).

Lemma make_collectors_ok self : collectors_ok (mates self) (_make_collectors self).
Proof.
  unfold _make_collectors, mates. split; [by rewrite length_replicate|].
  apply Forall_replicate, reachable_init.
Qed.

Lemma set_pre_ok self cs :
  manager_ok self → collectors_ok (mates self) cs → manager_ok (set_pre (Some cs) self).
Proof. intros [Hpre Hpost] Hcs. split; [by intros ? [= <-] | done]. Qed.

Lemma set_post_ok self d :
  manager_ok self → NoDup d.*1 → Forall (λ kv, collectors_ok (mates self) kv.2) d →
  manager_ok (set_post (Some d) self).
Proof. intros [Hpre Hpost] Hnd Hd. split; [done | by intros ? [= <-]]. Qed.

Lemma init_ok mode paired kwargs :
  manager_ok (ReadStatistics.__init__ (D := D) mode paired kwargs).
Proof.
  unfold ReadStatistics.__init__. set (s0 := ReadStatistics.mk mode paired None None kwargs).
  assert (manager_ok s0) as H0 by (by split).
  assert (manager_ok (set_pre (Some (_make_collectors s0)) s0)) as H1.
  { apply set_pre_ok; [done | apply make_collectors_ok]. }
  repeat case_bool_decide; try done; by apply set_post_ok; [| constructor..].
Qed.

Lemma collect_pre_ok i r : preserves (stable (@manager_ok D)) (collect_pre i r).
Proof.
  intros self Hok. unfold collect_pre, bind, get. simpl.
  destruct (ReadStatistics.pre self) as [cs|] eqn:Hpre; [|done].
  pose proof (collect_at_ok _ i r cs (pre_ok self Hok cs Hpre)) as Hcs.
  destruct (collect_at i r cs) as [cs' o]. simpl. by apply set_pre_ok.
Qed.

(** Storing collectors under a destination keeps the dictionary well formed. *)
Lemma od_set_ok n dest cs (d : list (D * list ReadStatCollector.t)) :
  Forall (λ kv, collectors_ok n kv.2) d → collectors_ok n cs →
  Forall (λ kv, collectors_ok n kv.2) (od_set dest cs d).
Proof.
  intros Hd Hcs. induction Hd as [|[k v] d Hv Hd IH]; cbn; [by constructor|].
  case_decide; by constructor.
Qed.

Lemma add_destination_ok dest self : manager_ok self → manager_ok (add_destination dest self).
Proof.
  intros Hok. unfold add_destination.
  destruct (ReadStatistics.post self) as [d|] eqn:Hpost; [|done].
  case_bool_decide; [|done]. destruct (post_ok self Hok d Hpost) as [Hnd Hd].
  apply set_post_ok; [done | by apply od_set_NoDup |].
  apply od_set_ok; [done | apply make_collectors_ok].
Qed.

Lemma collect_post_ok dest i r : preserves (stable (@manager_ok D)) (collect_post dest i r).
Proof.
  intros self Hok. unfold collect_post, bind, get. simpl.
  destruct (ReadStatistics.post self) as [d|] eqn:Hpost; [|done].
  destruct (post_ok self Hok d Hpost) as [Hnd Hd].
  destruct (od_get dest d) as [cs|] eqn:Hget; [|done].
  assert (collectors_ok (mates self) cs) as Hcs.
  { rewrite Forall_forall in Hd. by apply (Hd (dest, cs)), od_get_lookup. }
  pose proof (collect_at_ok _ i r cs Hcs) as Hcs'.
  destruct (collect_at i r cs) as [cs' o]. simpl.
  apply set_post_ok; [done | by apply od_set_NoDup | by apply od_set_ok].
Qed.
#[local] Hint Resolve collect_pre_ok collect_post_ok : preserves.

Lemma pre_trim_ok rec : preserves (stable (@manager_ok D)) (pre_trim getitem_read rec).
Proof. solve_preserves ltac:(unfold pre_trim) ltac:(fail). Qed.

Lemma post_trim_ok dest rec :
  preserves (stable (@manager_ok D)) (post_trim getitem_read dest rec).
Proof.
  solve_preserves ltac:(unfold post_trim) ltac:(unfold stable; apply add_destination_ok).
Qed.

Lemma finish_pre_ok : preserves (stable (@manager_ok D)) finish_pre.
Proof.
  intros self Hok. unfold finish_pre, bind, get. simpl.
  destruct (ReadStatistics.pre self) as [cs|] eqn:Hpre; [|done].
  pose proof (finish_all_ok _ 1 cs (pre_ok self Hok cs Hpre)) as Hcs.
  destruct (finish_all 1 cs) as [cs' [snaps|e]]; simpl; by apply set_pre_ok.
Qed.

Lemma finish_post_ok res_pre : preserves (stable (@manager_ok D)) (finish_post res_pre).
Proof.
  intros self Hok. unfold finish_post, bind, get. simpl.
  destruct (ReadStatistics.post self) as [[|[dest cs] rest]|] eqn:Hp; try done.
  destruct (post_ok self Hok _ Hp) as [Hnd [Hcs Hrest]%Forall_cons].
  pose proof (finish_all_ok _ 1 cs Hcs) as Hcs'.
  destruct (finish_all 1 cs) as [cs' [snaps|e]]; simpl in *.
  all: apply set_post_ok; [done | done | by constructor].
Qed.

#[local] Hint Resolve finish_pre_ok finish_post_ok : preserves.

Lemma finish_ok : preserves (stable (@manager_ok D)) ReadStatistics.finish.
Proof. solve_preserves ltac:(unfold ReadStatistics.finish) ltac:(fail). Qed.

(** C22: Every manager that a program can hold satisfies the invariant: each
    phase and each destination has one collector per mate, every collector
    is a reachable one, and no destination appears twice. *)
Theorem manager_invariant mode paired kwargs (calls : list (call D)) :
  manager_ok (foldl (after getitem_read) (ReadStatistics.__init__ mode paired kwargs) calls).
Proof.
  generalize (init_ok mode paired kwargs).
  generalize (ReadStatistics.__init__ (D := D) mode paired kwargs).
  induction calls as [|c calls IH]; intros self Hok; [done|].
  apply IH. destruct c; [by apply pre_trim_ok | by apply post_trim_ok | by apply finish_ok].
Qed.
(** ** What the calls do *)

Lemma collect_pre_keeps_post i r :
  preserves (keeps (ReadStatistics.post (D := D))) (collect_pre i r).
Proof. solve_preserves_with ltac:(unfold collect_pre). Qed.

Lemma collect_post_keeps_pre dest i r :
  preserves (keeps (ReadStatistics.pre (D := D))) (collect_post dest i r).
Proof. solve_preserves_with ltac:(unfold collect_post). Qed.

#[local] Hint Resolve collect_pre_keeps_post collect_post_keeps_pre : preserves.

(** The two phases are independent: [pre_trim] never touches the [post]
    collectors and [post_trim] never touches the [pre] collectors, whatever
    they answer; and a phase that the mode did not ask for ignores its
    records. *)
Theorem trim_phases_independent dest rec self :
  ReadStatistics.post (pre_trim getitem_read rec self).1 = ReadStatistics.post self
  ∧ ReadStatistics.pre (post_trim getitem_read dest rec self).1 = ReadStatistics.pre self
  ∧ (ReadStatistics.pre self = None → pre_trim getitem_read rec self = (self, Ret tt))
  ∧ (ReadStatistics.post self = None →
     post_trim getitem_read dest rec self = (self, Ret tt)).
Proof.
  split_and!.
  - revert self. change (preserves (keeps (ReadStatistics.post (D := D)))
                           (pre_trim getitem_read rec)).
    solve_preserves_with ltac:(unfold pre_trim).
  - revert self. change (preserves (keeps (ReadStatistics.pre (D := D)))
                           (post_trim getitem_read dest rec)).
    solve_preserves ltac:(unfold post_trim)
      ltac:(unfold keeps, add_destination; by repeat case_match).
  - intros Hoff. unfold pre_trim, bind, get. simpl. by rewrite Hoff.
  - intros Hoff. unfold post_trim, bind, get. simpl. by rewrite Hoff.
Qed.

(** [pre_trim] in paired mode feeds mate 1 to the first collector and mate 2
    to the second one, in that order; if the first call raises, the second
    collector is not fed. *)
Theorem pre_trim_paired self c0 c1 r0 r1 :
  ReadStatistics.paired self = true → ReadStatistics.pre self = Some [c0; c1] →
  pre_trim getitem_read (Tuple [r0; r1]) self
  = match (collect r0 c0).2 with
    | Ret _ => (set_pre (Some [(collect r0 c0).1; (collect r1 c1).1]) self, (collect r1 c1).2)
    | Raise e => (set_pre (Some [(collect r0 c0).1; c1]) self, Raise e)
    end.
Proof.
  intros Hp Hpre. unfold pre_trim, collect_pre, collect_at, bind, get, modify, lift. simpl.
  rewrite Hpre, Hp. simpl. rewrite Hpre. simpl.
  destruct (collect r0 c0) as [c0' [[]|e]]; simpl; [|done].
  by destruct (collect r1 c1) as [c1' o].
Qed.

Lemma destinations_add dest self :
  ReadStatistics.post self ≠ None →
  destinations (add_destination dest self)
  = if decide (dest ∈ destinations self) then destinations self
    else destinations self ++ [dest].
Proof.
  unfold add_destination, destinations. intros Hpost.
  destruct (ReadStatistics.post self) as [d|] eqn:Hp; [|done]. simpl.
  case_bool_decide as Hget.
  - apply od_get_None in Hget. rewrite decide_False by done. simpl.
    by rewrite od_set_fresh, fmap_app.
  - rewrite Hp, decide_True; [done|]. apply dec_stable. by rewrite <- od_get_None.
Qed.

Lemma collect_post_destinations dest i r :
  preserves (keeps (destinations (D := D))) (collect_post dest i r).
Proof.
  intros self. unfold collect_post, bind, get, keeps. simpl.
  destruct (ReadStatistics.post self) as [d|] eqn:Hp; [|done].
  destruct (od_get dest d) as [cs|] eqn:Hget; [|done].
  destruct (collect_at i r cs) as [cs' o]. unfold destinations. simpl. rewrite Hp. simpl.
  rewrite od_set_keys_present; [done|].
  apply dec_stable. rewrite <- od_get_None. congruence.
Qed.

#[local] Hint Resolve collect_post_destinations : preserves.

(** [post_trim] creates the collectors of a destination when the destination
    receives its first record, and only then: the destinations are the old
    ones, followed by [dest] if it is new, whether the call returns or
    raises. *)
Theorem post_trim_destinations dest rec self :
  ReadStatistics.post self ≠ None →
  destinations (post_trim getitem_read dest rec self).1
  = if decide (dest ∈ destinations self) then destinations self
    else destinations self ++ [dest].
Proof.
  intros Hpost. rewrite <- destinations_add by done.
  unfold post_trim. unfold bind at 1, get. rewrite bool_decide_false by done.
  unfold bind at 1, modify.
  assert (preserves (keeps (destinations (D := D)))
    (r0 <- lift (getitem getitem_read rec 0) ;; collect_post dest 0 r0 ;;
     when (ReadStatistics.paired self)
          (r1 <- lift (getitem getitem_read rec 1) ;; collect_post dest 1 r1))) as Hk.
  { solve_preserves idtac ltac:(fail). }
  apply Hk.
Qed.

Lemma finish_pre_run self :
  manager_ok self →
  ∃ s1 res_pre, finish_pre self = (s1, Ret res_pre)
    ∧ ReadStatistics.post s1 = ReadStatistics.post self ∧ manager_ok s1
    ∧ (fmap (M := list) fst <$> res_pre)
      = (λ _, seq 1 (mates self)) <$> ReadStatistics.pre self.
Proof.
  intros Hok. unfold finish_pre. unfold bind at 1, get.
  destruct (ReadStatistics.pre self) as [cs|] eqn:Hpre.
  - pose proof (finish_all_ok _ 1 cs (pre_ok self Hok cs Hpre)) as Hcs.
    destruct (finish_all_returns _ 1 cs (pre_ok self Hok cs Hpre)) as (snaps & Hs & Hn).
    destruct (finish_all 1 cs) as [cs' o]. simpl in *. subst o.
    unfold bind, modify, lift. simpl. do 2 eexists. split; [done|].
    split; [done|]. split; [by apply set_pre_ok|]. simpl. by rewrite Hn.
  - by exists self, None.
Qed.

(** A result that [finish] returns has no destination in it. *)
Lemma finish_returns_post self self' res :
  ReadStatistics.finish self = (self', Ret res) →
  result_post res = None ∨ result_post res = Some [].
Proof.
  unfold ReadStatistics.finish, bind.
  destruct (finish_pre self) as [s1 [res_pre|]]; [|done].
  unfold finish_post. py_unfold. destruct (ReadStatistics.post s1) as [[|[dest cs] rest]|].
  - intros [= _ <-]. by right.
  - by destruct (finish_all 1 cs) as [cs' [snaps|]].
  - intros [= _ <-]. by left.
Qed.

(** C32: [finish] raises [NameError] as soon as one destination exists;
    otherwise it returns the snapshots of the [pre] phase, numbered from 1,
    and an empty [post] phase if the mode has one. *)
Theorem finish_outcome self :
  manager_ok self →
  match ReadStatistics.post self with
  | Some (_ :: _) => (ReadStatistics.finish self).2 = Raise NameError
  | _ =>
      ∃ res, (ReadStatistics.finish self).2 = Ret res
        ∧ result_post res = (λ _, []) <$> ReadStatistics.post self
        ∧ (fmap (M := list) fst <$> result_pre res)
          = (λ _, seq 1 (mates self)) <$> ReadStatistics.pre self
  end.
Proof.
  intros Hok. destruct (finish_pre_run self Hok) as (s1 & res_pre & Hrun & Hpost & Hok1 & Hres).
  assert (ReadStatistics.finish self = finish_post res_pre s1) as ->.
  { unfold ReadStatistics.finish, bind. by rewrite Hrun. }
  destruct (ReadStatistics.post self) as [[|[dest cs] rest]|] eqn:Hp.
  all: unfold finish_post, bind, get; simpl; rewrite Hpost; simpl; try by eexists.
  destruct (post_ok s1 Hok1 _ Hpost) as [_ [Hcs _]%Forall_cons].
  destruct (finish_all_returns _ 1 cs Hcs) as (snaps & Hs & _).
  destruct (finish_all 1 cs) as [cs' o]. simpl in *. by subst o.
Qed.

(** A single-end read goes to the [pre] collector as it is, and to the
    [post] collector through [record[0]]. *)
Theorem single_end_records dest r self :
  ReadStatistics.paired self = false →
  (ReadStatistics.pre self ≠ None →
   pre_trim getitem_read (One r) self = collect_pre 0 r self)
  ∧ (ReadStatistics.post self ≠ None →
     post_trim getitem_read dest (One r) self
     = (r0 <- lift (getitem_read r 0) ;; collect_post dest 0 r0 ;; ret tt)
         (add_destination dest self)).
Proof.
  intros Hp. split; intros Hon; [unfold pre_trim | unfold post_trim].
  all: unfold bind at 1, get; by rewrite bool_decide_false, Hp by done.
Qed.
(** ** Runs before trimming *)

(** Single-end records all reach the one collector. *)
Lemma pre_run_single self c reads :
  ReadStatistics.paired self = false → ReadStatistics.pre self = Some [c] →
  pre_run getitem_read (One <$> reads) self = set_pre (Some [feed reads c]) self.
Proof.
  revert self c. induction reads as [|r reads IH]; intros self c Hp Hpre; simpl.
  { destruct self. simpl in *. by subst. }
  assert ((pre_trim getitem_read (One r) self).1 = set_pre (Some [(collect r c).1]) self)
    as ->.
  { unfold pre_trim, collect_pre, collect_at, bind, get, modify, lift. simpl.
    rewrite Hpre, Hp. simpl. rewrite Hpre. simpl. by destruct (collect r c) as [c' o]. }
  by rewrite (IH _ (collect r c).1).
Qed.

(** Of a pair, the first mate always reaches its collector, and the second
    one only if the first was collected without an exception. *)
Lemma pre_run_paired self c0 c1 pairs :
  ReadStatistics.paired self = true → ReadStatistics.pre self = Some [c0; c1] →
  pre_run getitem_read (pair_record <$> pairs) self
  = set_pre (Some [feed pairs.*1 c0; feed (second_mates pairs c0) c1]) self.
Proof.
  revert self c0 c1.
  induction pairs as [|[r1 r2] pairs IH]; intros self c0 c1 Hp Hpre; simpl.
  { destruct self. simpl in *. by subst. }
  change (pair_record (r1, r2)) with (Tuple [r1; r2]).
  rewrite (pre_trim_paired self c0 c1) by done.
  destruct (collect r1 c0) as [c0' [[]|e]]; simpl.
  - by rewrite (IH _ c0' (collect r2 c1).1).
  - by rewrite (IH _ c0' c1).
Qed.

(** A first mate that is collected without an exception has bases. *)
Lemma second_mates_length pairs c0 :
  reachable c0 →
  length (second_mates pairs c0) ≤ length (filter (λ r, has_bases r = true) pairs.*1).
Proof.
  revert c0. induction pairs as [|[r1 r2] pairs IH]; intros c0 Hc; [done|].
  specialize (IH (collect r1 c0).1 (reachable_collect _ r1 Hc)).
  rewrite fmap_cons, filter_cons. cbn [second_mates]. rewrite length_app.
  rewrite collect_reachable in * by done.
  unfold collect_result. cbn [fst snd] in *. case_decide as Hb.
  - repeat case_match; cbn [length]; lia.
  - apply not_true_is_false, negb_false_iff, bool_decide_eq_true in Hb.
    rewrite bool_decide_true by done. cbn [length]. lia.
Qed.

(** [finish] on a manager with one collector and no destination. *)
Lemma finish_single self c :
  reachable c → ReadStatistics.pre self = Some [c] →
  ReadStatistics.post self = None ∨ ReadStatistics.post self = Some [] →
  (ReadStatistics.finish self).2 = Ret (result_of self)
  ∧ result_pre (result_of self) = Some [(1, snapshot_of c)].
Proof.
  intros [Hc _]%finish_snapshot_of Hpre Hpost. unfold result_of.
  unfold ReadStatistics.finish, finish_pre, finish_post. py_unfold. simpl.
  rewrite Hpre. simpl. rewrite Hc. simpl. by destruct Hpost as [-> | ->].
Qed.

(** The [pre] phase of a new manager, when the mode has one. *)
Lemma init_pre mode paired kwargs :
  mode ∈ ["pre"; "both"]%string →
  ReadStatistics.pre (ReadStatistics.__init__ (D := D) mode paired kwargs)
  = Some (replicate (if paired then 2 else 1)
            (ReadStatCollector.__init__ (arg_qualities kwargs)
                                        (arg_tile_key_regexp kwargs))).
Proof.
  intros Hm. unfold ReadStatistics.__init__. rewrite (bool_decide_true _ Hm).
  by case_bool_decide.
Qed.

Lemma init_post mode paired kwargs :
  ReadStatistics.post (ReadStatistics.__init__ (D := D) mode paired kwargs) = None
  ∨ ReadStatistics.post (ReadStatistics.__init__ (D := D) mode paired kwargs) = Some [].
Proof. unfold ReadStatistics.__init__. repeat case_bool_decide; auto. Qed.

Lemma init_paired mode paired kwargs :
  ReadStatistics.paired (ReadStatistics.__init__ (D := D) mode paired kwargs) = paired.
Proof. unfold ReadStatistics.__init__. by repeat case_bool_decide. Qed.

(** C23: A paired run before trimming, whatever the pairs and whichever calls
    raised: the first collector has been fed the first mate of every pair,
    the second one the second mates of those pairs only whose first mate was
    collected without an exception, so that the second collector has never
    counted more reads than the first, which has counted no more than there
    were pairs. *)
Theorem pre_run_pairs mode kwargs pairs :
  mode ∈ ["pre"; "both"]%string →
  let c := ReadStatCollector.__init__ (arg_qualities kwargs) (arg_tile_key_regexp kwargs) in
  let m := pre_run getitem_read (pair_record <$> pairs)
             (ReadStatistics.__init__ (D := D) mode true kwargs) in
  ReadStatistics.pre m = Some [feed pairs.*1 c; feed (second_mates pairs c) c]
  ∧ count (feed (second_mates pairs c) c) ≤ count (feed pairs.*1 c) ≤ length pairs.
Proof.
  intros Hm c m. pose proof (reachable_init (arg_qualities kwargs)
                               (arg_tile_key_regexp kwargs)) as Hc. fold c in Hc.
  split.
  - unfold m. rewrite (pre_run_paired _ c c); [done|apply init_paired|by apply init_pre].
  - destruct (feed_reachable_totals (second_mates pairs c) c Hc) as [-> _].
    destruct (feed_reachable_totals pairs.*1 c Hc) as [-> _].
    destruct (init_totals (arg_qualities kwargs) (arg_tile_key_regexp kwargs)) as [E _].
    fold c in E. rewrite E. pose proof (second_mates_length pairs c Hc).
    pose proof (length_filter (λ r, has_bases r = true) (second_mates pairs c)).
    pose proof (length_filter (λ r, has_bases r = true) pairs.*1).
    rewrite length_fmap in *. lia.
Qed.

End manager.



(** ** Examples *)

(** Indexing a read as a slice of one base, for the examples. *)
Definition read_getitem (r : Read.t) (i : nat) : outcome Read.t :=
  match Read.sequence r !! i with
  | Some base =>
      Ret (Read.mk (Read.name r) [base] ((λ q, take 1 (drop i q)) <$> Read.qualities r)
                   (Read.merged r) (Read.rmatch r))
  | None => Raise IndexError
  end.

(** A paired-end manager of both phases, and a single-end one. *)
Definition manager_both : ReadStatistics.t string :=
  ReadStatistics.__init__ "both" true (mk_args None None).

Definition manager_single : ReadStatistics.t string :=
  ReadStatistics.__init__ "both" false (mk_args None None).

Lemma pre_trim_paired_witness :
  pre_trim read_getitem (Tuple [read_tile; read_other]) manager_both
  = match (collect read_tile fresh).2 with
    | Ret _ => (set_pre (Some [(collect read_tile fresh).1; (collect read_other fresh).1])
                        manager_both, (collect read_other fresh).2)
    | Raise e => (set_pre (Some [(collect read_tile fresh).1; fresh]) manager_both, Raise e)
    end.
Proof. apply (pre_trim_paired read_getitem manager_both fresh fresh); reflexivity. Defined.

Lemma post_trim_destinations_witness :
  destinations (post_trim read_getitem "out.1.fq" (Tuple [read_tile; read_other]) manager_both).1
  = if decide ("out.1.fq" ∈ destinations manager_both) then destinations manager_both
    else destinations manager_both ++ ["out.1.fq"].
Proof. apply post_trim_destinations. discriminate. Defined.

Lemma finish_outcome_witness :
  ∃ res, (ReadStatistics.finish manager_both).2 = Ret res
    ∧ result_post res = (λ _, []) <$> ReadStatistics.post manager_both
    ∧ (fmap (M := list) fst <$> result_pre res)
      = (λ _, seq 1 (mates manager_both)) <$> ReadStatistics.pre manager_both.
Proof. apply (finish_outcome manager_both), init_ok. Defined.

Lemma single_end_records_witness :
  (ReadStatistics.pre manager_single ≠ None →
   pre_trim read_getitem (One read_tile) manager_single = collect_pre 0 read_tile manager_single)
  ∧ (ReadStatistics.post manager_single ≠ None →
     post_trim read_getitem "out.fq" (One read_tile) manager_single
     = (r0 <- lift (read_getitem read_tile 0) ;; collect_post "out.fq" 0 r0 ;; ret tt)
         (add_destination "out.fq" manager_single)).
Proof. apply single_end_records. reflexivity. Defined.

(** Once a destination has received a record, [finish] raises [NameError]. *)
Example finish_after_post_trim :
  (ReadStatistics.finish
     (post_trim read_getitem "out.1.fq" (Tuple [read_tile; read_tile]) manager_both).1).2
  = Raise NameError.
Proof. by vm_compute. Qed.

(** The length distribution of the first collector of a list. *)
Definition first_lengths (collectors : option (list ReadStatCollector.t))
    : option (list (nat * nat)) :=
  match collectors with
  | Some (c :: _) => Some (CountingDict.sorted_items (sequence_lengths c))
  | _ => None
  end.

(** The same single-end read counts four bases before trimming and one base
    after it: [post_trim] indexes the record. *)
Example single_end_lengths :
  let s1 := (pre_trim read_getitem (One read_tile) manager_single).1 in
  let s2 := (post_trim read_getitem "out.fq" (One read_tile) s1).1 in
  first_lengths (ReadStatistics.pre s2) = Some [(4, 1)]
  ∧ first_lengths (ReadStatistics.post s2 ≫= od_get "out.fq") = Some [(1, 1)].
Proof. by vm_compute. Qed.

(** Two pairs: the first mate of the second pair has no bases. *)
Definition pairs_run : list (Read.t * Read.t) :=
  [(read_tile, read_other); (read_empty, read_tile)].

Lemma pre_run_pairs_witness :
  ReadStatistics.pre (pre_run read_getitem (pair_record <$> pairs_run) manager_both)
  = Some [feed pairs_run.*1 fresh; feed (second_mates pairs_run fresh) fresh]
  ∧ count (feed (second_mates pairs_run fresh) fresh) ≤ count (feed pairs_run.*1 fresh)
    ≤ length pairs_run.
Proof.
  apply (pre_run_pairs read_getitem "both" (mk_args None None) pairs_run).
  by apply (bool_decide_unpack _).
Defined.

(** A first mate without qualities is counted and then raises: its second
    mate is never seen, and the two collectors disagree on the number of
    reads. *)
Example pre_run_mate_lost :
  let m := pre_run read_getitem [Tuple [read_acgt; read_tile]] manager_both in
  fmap (M := list) count <$> ReadStatistics.pre m = Some [1; 0].
Proof. by vm_compute. Qed.
