(* ===== verification/Destinations.v ===== *)
(** * Destinations: the runs of [ReadStatistics] after trimming

    After trimming every record is sent to an output destination, and
    [post_trim] files it with the collectors of that destination, which it
    creates when the destination receives its first record.  [post_run] is a
    run, the manager after a list of records with their destinations.  For a
    paired run the dictionary it leaves has a closed form,
    [destination_table]: the destinations in the order of their first record
    ([first_seen]), each with the collectors of the pairs that were sent to
    it ([sent_to]), fed as [pre_trim] feeds the collectors of the first
    phase.  The two phases do not read each other's collectors, so a call
    of one commutes with a call of the other, and a run in which they are
    interleaved leaves what the two runs leave one after the other. *)

From Stdlib Require Import Ascii.
From stdpp Require Import gmap strings list.
From S2P Require Import Prelude Reads Counting Dicts Collector Manager.
Import ReadStatCollector ReadStatistics.

(** A run after trimming: the manager after a list of records, each sent to
    a destination, errors caught by the caller. *)
Definition post_run `{EqDecision D} (getitem_read : Read.t → nat → outcome Read.t)
    (sends : list (D * record)) (self : ReadStatistics.t D) : ReadStatistics.t D :=
  foldl (λ m dr, (ReadStatistics.post_trim getitem_read dr.1 dr.2 m).1) self sends.

(** The pairs that were sent to a destination, in the order of the run. *)
Definition sent_to `{EqDecision D} (dest : D) (sends : list (D * (Read.t * Read.t)))
    : list (Read.t * Read.t) :=
  (filter (λ dp, dp.1 = dest) sends).*2.

(** The two collectors of a phase or destination after a list of pairs. *)
Definition paired_feed (pairs : list (Read.t * Read.t)) (c0 c1 : ReadStatCollector.t)
    : list ReadStatCollector.t :=
  [feed pairs.*1 c0; feed (second_mates pairs c0) c1].

(** The dictionary of destinations after a paired run that starts with no
    destination: every destination where it was first seen, with the
    collectors of the pairs sent to it. *)
Definition destination_table `{EqDecision D} (c : ReadStatCollector.t)
    (sends : list (D * (Read.t * Read.t))) : list (D * list ReadStatCollector.t) :=
  (λ d, (d, paired_feed (sent_to d sends) c c)) <$> first_seen sends.*1.

(** The reads that the first collectors of a dictionary have counted. *)
Definition counted {D} (table : list (D * list ReadStatCollector.t)) : nat :=
  sum_list_with (λ kv, from_option count 0 (kv.2 !! 0)) table.

Definition send_record {D} (dp : D * (Read.t * Read.t)) : D * record :=
  (dp.1, pair_record dp.2).

(** The records that a sequence of calls gives to each phase. *)
Definition pre_records {D} (calls : list (call D)) : list record :=
  omap (λ c, if c is PreTrim rec then Some rec else None) calls.

Definition post_sends {D} (calls : list (call D)) : list (D * record) :=
  omap (λ c, if c is PostTrim dest rec then Some (dest, rec) else None) calls.

Section sent.
Context `{EqDecision D}.
Implicit Types (d : D) (sends : list (D * (Read.t * Read.t))).

Lemma sent_to_snoc d d' p sends :
  sent_to d (sends ++ [(d', p)])
  = if decide (d' = d) then sent_to d sends ++ [p] else sent_to d sends.
Proof.
  unfold sent_to. rewrite filter_app, fmap_app, filter_cons, filter_nil. simpl.
  case_decide; simpl; [done|by rewrite app_nil_r].
Qed.

Lemma sent_to_cons d d' p sends :
  sent_to d ((d', p) :: sends)
  = if decide (d = d') then p :: sent_to d sends else sent_to d sends.
Proof. unfold sent_to. rewrite filter_cons. simpl. by repeat case_decide; subst. Qed.

(** Every pair is sent to one destination. *)
Lemma sent_to_cover (ks : list D) sends :
  NoDup ks → (∀ d, d ∈ sends.*1 → d ∈ ks) →
  sum_list_with (λ d, length (sent_to d sends)) ks = length sends.
Proof.
  intros Hnd. induction sends as [|[d p] sends IH]; intros Hks.
  { by rewrite (sum_list_with_ext _ (λ _, 0)), sum_list_with_0. }
  rewrite fmap_cons in Hks. setoid_rewrite elem_of_cons in Hks.
  transitivity (sum_list_with (λ k, if decide (d = k) then 1 else 0) ks
                + sum_list_with (λ k, length (sent_to k sends)) ks).
  - rewrite <- sum_list_with_add. apply sum_list_with_ext. intros k _.
    rewrite sent_to_cons. by repeat case_decide; subst.
  - by rewrite sum_list_with_indicator, IH by auto.
Qed.

(** The first mates with bases among the pairs sent to a destination. *)
Lemma sent_to_has_bases d sends :
  length (filter (λ r, has_bases r = true) (sent_to d sends).*1)
  = length (sent_to d (filter (λ dp, has_bases dp.2.1 = true) sends)).
Proof.
  induction sends as [|[d' [r1 r2]] sends IH]; [done|].
  rewrite filter_cons, sent_to_cons. cbn [fst snd].
  destruct (decide (d = d')) as [->|Hne], (decide (has_bases r1 = true)) as [Hb|Hb].
  all: rewrite ?sent_to_cons, ?decide_True, ?decide_False by done.
  all: rewrite ?fmap_cons, ?filter_cons; cbn [fst]; rewrite ?decide_True, ?decide_False by done.
  all: cbn [length]; by rewrite IH.
Qed.

Lemma sent_to_fresh d sends : d ∉ sends.*1 → sent_to d sends = [].
Proof.
  intros Hd. unfold sent_to. induction sends as [|[d' p] sends IH]; [done|].
  rewrite fmap_cons, not_elem_of_cons in Hd. destruct Hd as [Hne Hd].
  rewrite filter_cons. simpl. rewrite decide_False by done. by apply IH.
Qed.
End sent.

Section feeds.
Implicit Types (c : ReadStatCollector.t) (pairs : list (Read.t * Read.t)).

Lemma second_mates_app ps qs c :
  second_mates (ps ++ qs) c = second_mates ps c ++ second_mates qs (feed ps.*1 c).
Proof.
  revert c. induction ps as [|[r1 r2] ps IH]; intros c; [done|].
  rewrite <- app_comm_cons. cbn [second_mates]. by rewrite IH, <- app_assoc.
Qed.

(** One more pair: the first mate is collected, the second one if the first
    was collected without an exception. *)
Lemma paired_feed_snoc ps r1 r2 c0 c1 :
  paired_feed (ps ++ [(r1, r2)]) c0 c1
  = [(collect r1 (feed ps.*1 c0)).1;
     if (collect r1 (feed ps.*1 c0)).2 is Ret _
     then (collect r2 (feed (second_mates ps c0) c1)).1
     else feed (second_mates ps c0) c1].
Proof.
  unfold paired_feed. rewrite fmap_app, feed_app, second_mates_app, feed_app. simpl.
  by destruct (collect r1 _).2.
Qed.
End feeds.

Section destinations.
Context {D : Type} `{EqDecision D}.
Context (getitem_read : Read.t → nat → outcome Read.t).
Implicit Types (self : ReadStatistics.t D) (dest : D) (r : Read.t).
Implicit Types (od : list (D * list ReadStatCollector.t)).
Implicit Types (sends : list (D * (Read.t * Read.t))).

(** The destination has collectors after [add_destination]: its own, or new
    ones. *)
Lemma add_destination_run self od dest :
  ReadStatistics.post self = Some od →
  add_destination dest self
  = set_post (Some (od_set dest (default (_make_collectors self) (od_get dest od)) od)) self.
Proof.
  intros Hpost. unfold add_destination. rewrite Hpost.
  destruct (od_get dest od) as [cs|] eqn:Hget; simpl; [|done].
  rewrite od_set_get_id by done. destruct self. simpl in *. by subst.
Qed.

Lemma collect_post_run self od dest i r cs c :
  ReadStatistics.post self = Some od → od_get dest od = Some cs → cs !! i = Some c →
  collect_post dest i r self
  = (set_post (Some (od_set dest (<[i := (collect r c).1]> cs) od)) self, (collect r c).2).
Proof.
  intros Hpost Hget Hc. unfold collect_post. py_unfold. simpl.
  rewrite Hpost, Hget, (collect_at_run i r cs c) by done. done.
Qed.

(** [post_trim] in paired mode: the collectors of the destination, new ones
    if it has none, are fed mate 1 and then mate 2; if the first call
    raises, the second collector is not fed. *)
Lemma post_trim_paired self od dest r1 r2 c0 c1 :
  ReadStatistics.paired self = true → ReadStatistics.post self = Some od →
  default (_make_collectors self) (od_get dest od) = [c0; c1] →
  (post_trim getitem_read dest (Tuple [r1; r2]) self).1
  = set_post (Some (od_set dest
       [(collect r1 c0).1; if (collect r1 c0).2 is Ret _ then (collect r2 c1).1 else c1]
       od)) self.
Proof.
  intros Hp Hpost Hcs. unfold post_trim. unfold bind at 1, get.
  rewrite bool_decide_false by congruence. unfold bind at 1, modify.
  rewrite (add_destination_run self od) by done. rewrite Hcs, Hp.
  unfold bind at 1, lift. simpl. unfold bind at 1.
  erewrite (collect_post_run _ _ dest 0 r1 [c0; c1] c0); [|done|apply od_get_set_eq|done].
  simpl. destruct (collect r1 c0) as [c0' [[]|e]]; simpl.
  - unfold when, bind, lift. simpl.
    erewrite (collect_post_run _ _ dest 1 r2 [c0'; c1] c1); [|done|apply od_get_set_eq|done].
    simpl. by rewrite !od_set_set.
  - by rewrite od_set_set.
Qed.

Lemma destination_table_snoc c sends dest p :
  destination_table c (sends ++ [(dest, p)])
  = od_set dest (paired_feed (sent_to dest sends ++ [p]) c c) (destination_table c sends).
Proof.
  unfold destination_table. rewrite fmap_app.
  change ([(dest, p)].*1) with [dest]. rewrite first_seen_snoc.
  pose proof (NoDup_first_seen sends.*1) as Hnd. case_decide as Hin.
  - rewrite od_set_keyed by done. apply list_fmap_ext. intros _ d _.
    rewrite sent_to_snoc. by repeat case_decide; subst.
  - rewrite od_set_fresh by (by rewrite keyed_keys).
    rewrite fmap_app. simpl. rewrite sent_to_snoc, decide_True by done. f_equal.
    apply list_fmap_ext. intros _ d Hd%list_elem_of_lookup_2.
    rewrite sent_to_snoc, decide_False; [done|]. by intros ->.
Qed.

(** A paired run after trimming, from a manager without destinations. *)
Lemma post_run_paired self c sends :
  ReadStatistics.paired self = true → ReadStatistics.post self = Some [] →
  _make_collectors self = [c; c] →
  post_run getitem_read (send_record <$> sends) self
  = set_post (Some (destination_table c sends)) self.
Proof.
  intros Hp Hpost Hc. induction sends as [|[dest [r1 r2]] sends IH] using rev_ind.
  { destruct self. simpl in *. by subst. }
  unfold post_run in *. rewrite fmap_app, foldl_app, IH. simpl.
  change (pair_record (r1, r2)) with (Tuple [r1; r2]).
  erewrite post_trim_paired; [|done|done|].
  - by rewrite destination_table_snoc, paired_feed_snoc.
  - simpl. change (_make_collectors _) with (_make_collectors self). rewrite Hc.
    unfold destination_table. rewrite od_get_keyed. case_decide as Hin; [done|].
    rewrite sent_to_fresh; [done|]. by rewrite <- elem_of_first_seen.
Qed.

Lemma init_post_on mode paired kwargs :
  mode ∈ ["post"; "both"]%string →
  ReadStatistics.post (ReadStatistics.__init__ (D := D) mode paired kwargs) = Some [].
Proof.
  intros Hm. unfold ReadStatistics.__init__. rewrite (bool_decide_true _ Hm).
  by case_bool_decide.
Qed.

(** C24: A paired run after trimming, whatever the pairs, their destinations
    and whichever calls raised: the dictionary holds every destination once,
    in the order in which the destinations received their first pair, each
    with two collectors: the first one fed the first mates of the pairs sent
    there, the second one the second mates of those pairs whose first mate
    was collected without an exception.  Over all destinations the first
    collectors have counted every pair whose first mate has bases, once. *)
Theorem post_run_pairs mode kwargs sends :
  mode ∈ ["post"; "both"]%string →
  let c := ReadStatCollector.__init__ (arg_qualities kwargs) (arg_tile_key_regexp kwargs) in
  let m := post_run getitem_read (send_record <$> sends)
             (ReadStatistics.__init__ (D := D) mode true kwargs) in
  ReadStatistics.post m = Some (destination_table c sends)
  ∧ counted (destination_table c sends)
    = length (filter (λ dp, has_bases dp.2.1 = true) sends).
Proof.
  intros Hm c m. split.
  - unfold m. rewrite (post_run_paired _ c); [done|apply init_paired|by apply init_post_on|].
    unfold _make_collectors, ReadStatistics.__init__. by repeat case_bool_decide.
  - unfold counted, destination_table. rewrite sum_list_with_fmap.
    rewrite <- (sent_to_cover (first_seen sends.*1) (filter _ sends)).
    + apply sum_list_with_ext. intros d _.
      rewrite <- sent_to_has_bases, <- (count_feed_init (arg_qualities kwargs)
                                          (arg_tile_key_regexp kwargs)).
      done.
    + apply NoDup_first_seen.
    + intros d (dp & -> & [_ Hin]%list_elem_of_filter)%list_elem_of_fmap.
      apply elem_of_first_seen, list_elem_of_fmap. by exists dp.
Qed.
End destinations.

(** ** The two phases do not interfere *)

Section phases.
Context {D : Type} `{EqDecision D}.
Context (getitem_read : Read.t → nat → outcome Read.t).
Implicit Types (self : ReadStatistics.t D) (dest : D) (rec : record).

(** [pre_trim] does not read the [post] phase. *)
Lemma pre_trim_frame rec p self :
  pre_trim getitem_read rec (set_post p self)
  = (set_post p (pre_trim getitem_read rec self).1, (pre_trim getitem_read rec self).2).
Proof.
  destruct self as [m pd pr po a].
  unfold pre_trim, collect_pre, collect_at, set_post. py_unfold. simpl.
  repeat (case_match; simplify_eq/=; try done).
Qed.

(** [post_trim] does not read the [pre] phase. *)
Lemma post_trim_frame dest rec p self :
  post_trim getitem_read dest rec (set_pre p self)
  = (set_pre p (post_trim getitem_read dest rec self).1,
     (post_trim getitem_read dest rec self).2).
Proof.
  destruct self as [m pd pr po a].
  unfold post_trim, add_destination, collect_post, collect_at, set_pre, set_post,
    _make_collectors.
  py_unfold. simpl.
  repeat (case_match; simplify_eq/=; try done).
Qed.

Lemma pre_trim_keeps rec :
  preserves (keeps (λ self, (ReadStatistics.mode self, ReadStatistics.paired self,
                             ReadStatistics.post self, ReadStatistics.args self)))
    (pre_trim getitem_read rec).
Proof. solve_preserves_with ltac:(unfold pre_trim, collect_pre). Qed.

Lemma post_trim_keeps_pre dest rec :
  preserves (keeps (λ self, (ReadStatistics.mode self, ReadStatistics.paired self,
                             ReadStatistics.pre self, ReadStatistics.args self)))
    (post_trim getitem_read dest rec).
Proof.
  solve_preserves ltac:(unfold post_trim, collect_post)
    ltac:(unfold keeps, add_destination; by repeat case_match).
Qed.

(** What a call changes is its own phase. *)
Lemma pre_trim_shape rec self :
  (pre_trim getitem_read rec self).1
  = set_pre (ReadStatistics.pre (pre_trim getitem_read rec self).1) self.
Proof.
  pose proof (pre_trim_keeps rec self) as Hk. unfold keeps in Hk.
  destruct (pre_trim getitem_read rec self).1, self. by simplify_eq/=.
Qed.

Lemma post_trim_shape dest rec self :
  (post_trim getitem_read dest rec self).1
  = set_post (ReadStatistics.post (post_trim getitem_read dest rec self).1) self.
Proof.
  pose proof (post_trim_keeps_pre dest rec self) as Hk. unfold keeps in Hk.
  destruct (post_trim getitem_read dest rec self).1, self. by simplify_eq/=.
Qed.

(** A call before trimming and a call after trimming can be swapped. *)
Lemma trims_commute rec dest rec' self :
  (post_trim getitem_read dest rec' (pre_trim getitem_read rec self).1).1
  = (pre_trim getitem_read rec (post_trim getitem_read dest rec' self).1).1.
Proof.
  rewrite (pre_trim_shape rec self) at 1. rewrite post_trim_frame. cbn [fst].
  rewrite (post_trim_shape dest rec' self) at 2. rewrite pre_trim_frame. cbn [fst].
  rewrite (pre_trim_shape rec self) at 2. rewrite (post_trim_shape dest rec' self) at 1.
  by destruct self.
Qed.

Lemma post_trim_pre_run dest rec records self :
  pre_run getitem_read records (post_trim getitem_read dest rec self).1
  = (post_trim getitem_read dest rec (pre_run getitem_read records self)).1.
Proof.
  unfold pre_run. revert self.
  induction records as [|rec' records IH]; intros self; [done|].
  cbn [foldl]. by rewrite <- trims_commute, IH.
Qed.

(** ** Whole runs: the calls of the two phases in any order *)

(** However the calls of the two phases are interleaved, the manager is the
    one that the calls before trimming, followed by the calls after
    trimming, leave. *)
Lemma run_sorted (calls : list (call D)) self :
  Forall (λ c, c ≠ Finish) calls →
  foldl (after getitem_read) self calls
  = post_run getitem_read (post_sends calls) (pre_run getitem_read (pre_records calls) self).
Proof.
  intros Hcalls. revert self.
  induction Hcalls as [|[rec|dest rec|] calls Hc _ IH]; intros self; [done| | |done].
  - cbn [foldl after]. by rewrite IH.
  - cbn [foldl after]. rewrite IH. cbn [pre_records post_sends omap list_omap].
    by rewrite post_trim_pre_run.
Qed.

Lemma pre_run_keeps records :
  ∀ self, keeps (λ self, (ReadStatistics.mode self, ReadStatistics.paired self,
                          ReadStatistics.post self, ReadStatistics.args self))
            self (pre_run getitem_read records self).
Proof.
  intros self. unfold keeps, pre_run.
  apply (foldl_keeps (λ self, (ReadStatistics.mode self, ReadStatistics.paired self,
                               ReadStatistics.post self, ReadStatistics.args self))).
  intros s rec. apply (pre_trim_keeps rec s).
Qed.

(** A paired run of both phases, the calls before and after trimming in
    any order, whichever of them raised: the first phase holds the
    collectors of the pairs it was given, and the second phase every
    destination once, in the order of its first pair, with the collectors
    of the pairs sent to it, as if all the calls before trimming had come
    first; the second mate of a pair is lost with the exception of the
    first, in either phase. *)
Theorem run_interleaved kwargs (calls : list (call D)) pairs sends :
  Forall (λ c, c ≠ Finish) calls →
  pre_records calls = pair_record <$> pairs →
  post_sends calls = send_record <$> sends →
  let c := ReadStatCollector.__init__ (arg_qualities kwargs) (arg_tile_key_regexp kwargs) in
  let m := foldl (after getitem_read) (ReadStatistics.__init__ "both" true kwargs) calls in
  ReadStatistics.pre m = Some (paired_feed pairs c c)
  ∧ ReadStatistics.post m = Some (destination_table c sends).
Proof.
  intros Hcalls Hpre Hpost c m. unfold m. rewrite run_sorted, Hpre, Hpost by done.
  set (m0 := ReadStatistics.__init__ (D := D) "both" true kwargs).
  pose proof (pre_run_keeps (pair_record <$> pairs) m0) as Hk. unfold keeps in Hk.
  injection Hk as _ Hp Hpo Ha.
  rewrite (post_run_paired _ _ c).
  - split; [|done]. simpl. by rewrite (pre_run_paired _ m0 c c).
  - by rewrite Hp.
  - by rewrite Hpo.
  - unfold _make_collectors. by rewrite Hp, Ha.
Qed.
End phases.

(** ** Examples *)

(** Four pairs to two destinations: the first mate of the second pair has no
    bases, the first mate of the third one no qualities. *)
Definition sends_run : list (string * (Read.t * Read.t)) :=
  [("out", (read_tile, read_other)); ("short", (read_empty, read_tile));
   ("out", (read_acgt, read_tile)); ("out", (read_other, read_tile))]%string.

Lemma post_run_pairs_witness :
  ReadStatistics.post (post_run read_getitem (send_record <$> sends_run) manager_both)
  = Some (destination_table fresh sends_run)
  ∧ counted (destination_table fresh sends_run)
    = length (filter (λ dp, has_bases dp.2.1 = true) sends_run).
Proof.
  apply (post_run_pairs read_getitem "both" (mk_args None None) sends_run).
  by apply (bool_decide_unpack _).
Defined.

(** The reads counted per destination and mate. *)
Definition counts (table : list (string * list ReadStatCollector.t))
    : list (string * list nat) :=
  (λ kv, (kv.1, fmap (M := list) count kv.2)) <$> table.

(** The destinations appear in the order of their first pair.  The read
    without bases is not counted; the read without qualities is counted and
    then raises, so that its mate is never seen. *)
Example post_run_counts :
  let m := post_run read_getitem (send_record <$> sends_run) manager_both in
  counts (default [] (ReadStatistics.post m)) = [("out", [3; 2]); ("short", [0; 0])]%string.
Proof. by vm_compute. Qed.

(** The two phases of a run, interleaved: each pair is given to [pre_trim]
    before it is sent to a destination, but not always at once. *)
Definition calls_run : list (call string) :=
  [ PreTrim (Tuple [read_tile; read_other]);
    PostTrim "out" (Tuple [read_tile; read_other]);
    PreTrim (Tuple [read_empty; read_tile]);
    PreTrim (Tuple [read_acgt; read_tile]);
    PostTrim "short" (Tuple [read_empty; read_tile]);
    PostTrim "out" (Tuple [read_acgt; read_tile]) ]%string.

Definition pairs_before : list (Read.t * Read.t) :=
  [(read_tile, read_other); (read_empty, read_tile); (read_acgt, read_tile)].

Definition sends_after : list (string * (Read.t * Read.t)) :=
  [("out", (read_tile, read_other)); ("short", (read_empty, read_tile));
   ("out", (read_acgt, read_tile))]%string.

Lemma run_interleaved_witness :
  ReadStatistics.pre (foldl (after read_getitem) manager_both calls_run)
  = Some (paired_feed pairs_before fresh fresh)
  ∧ ReadStatistics.post (foldl (after read_getitem) manager_both calls_run)
    = Some (destination_table fresh sends_after).
Proof.
  apply (run_interleaved read_getitem (mk_args None None) calls_run pairs_before sends_after);
    [by repeat constructor|reflexivity..].
Defined.
