(* ===== verification/Samples.v ===== *)
(** * Samples: the statistics of a paired run as histograms

    [ReadStatistics] of [stats.py] hands the mates of every pair to the two
    collectors of the first phase, and after trimming to the two collectors
    of the destination of the pair; [collect] of the second mate is not
    reached when [collect] of the first one raises.  [Destinations] gives
    the collectors of a run as runs of [collect]; [Histograms] gives the
    tables of a run of [collect] as the histogram of its reads.  This file
    composes the two: the tables of every collector of a manager are the
    histogram of a sample of the reads of the run, which is written down
    without running anything: the first mates for a first collector, and for
    a second collector the second mates [passed] on by a first mate that
    was [collected]. *)

From Stdlib Require Import Ascii.
From stdpp Require Import gmap strings list.
From S2P Require Import Prelude Reads Counting Dicts Collector Columns Histograms.
From S2P Require Import Manager Destinations.

Import ReadStatCollector.

(** ** The second mates that are passed on *)

(** Whether [collect] returns on a read, given what the collector was told
    about qualities and tiles: the read has bases and qualities, qualities
    are tracked once the read has been seen, and the name shows a tile if
    one is asked for. *)
Definition collected (q : option bool) (re : option (string → option string))
    (r : Read.t) : bool :=
  has_bases r && default false (next_qualities q r)
  && bool_decide (is_Some (Read.qualities r))
  && bool_decide (is_Some re → is_Some (tile_of re r)).

(** The second mates of the pairs whose first mate is collected. *)
Fixpoint passed (q : option bool) (re : option (string → option string))
    (pairs : list (Read.t * Read.t)) : list Read.t :=
  match pairs with
  | [] => []
  | (r1, r2) :: pairs =>
      (if collected q re r1 then [r2] else []) ++ passed (next_qualities q r1) re pairs
  end.

(** The histograms of the two mates of a list of pairs, cell by cell. *)
Definition pair_histograms (q : option bool) (re : option (string → option string))
    (pairs : list (Read.t * Read.t)) (c : cell) : list nat :=
  [histogram q re pairs.*1 c; histogram q re (passed q re pairs) c].

Section passed.
Implicit Types (r : Read.t) (s : t) (pairs : list (Read.t * Read.t)) (c : cell).

Lemma collect_result_collected r s :
  (if collect_result r s is Ret _ then true else false)
  = collected (qualities s) (tile_key_regexp s) r.
Proof.
  unfold collect_result, collected, has_bases, tile_of. rewrite activated_next.
  destruct (bool_decide (Read.sequence r = [])), (default false _); simpl; try done.
  destruct (Read.qualities r), (tile_key_regexp s) as [re|]; simpl; try done.
  by destruct (re (Read.name r)).
Qed.

Lemma second_mates_passed pairs s :
  reachable s → second_mates pairs s = passed (qualities s) (tile_key_regexp s) pairs.
Proof.
  revert s. induction pairs as [|[r1 r2] pairs IH]; intros s Hs; [done|].
  cbn [second_mates passed]. destruct (collect_next r1 s Hs) as [Hq Hre].
  rewrite IH, Hq, Hre, <- collect_result_collected, collect_reachable
    by (done || by constructor).
  cbn [snd]. by destruct (collect_result r1 s).
Qed.

(** The tables of the two collectors of a phase or of a destination. *)
Lemma paired_feed_values q re pairs c :
  value c <$> paired_feed pairs (__init__ q re) (__init__ q re) = pair_histograms q re pairs c.
Proof.
  unfold paired_feed, pair_histograms. cbn [fmap list_fmap].
  destruct (init_value q re c) as (_ & Hq & Hre).
  rewrite second_mates_passed, Hq, Hre by apply reachable_init.
  destruct (run_state q re pairs.*1) as (_ & _ & _ & ->).
  by destruct (run_state q re (passed q re pairs)) as (_ & _ & _ & ->).
Qed.

(** A second collector counts a read for every collected first mate, so
    never more than the first collector counts. *)
Lemma passed_length q re pairs :
  length (passed q re pairs) ≤ histogram q re pairs.*1 Reads.
Proof.
  revert q. induction pairs as [|[r1 r2] pairs IH]; intros q; [simpl; lia|].
  cbn [passed]. rewrite fmap_cons, histogram_cons, length_app. cbn [fst].
  specialize (IH (next_qualities q r1)). destruct (collected q re r1) eqn:Hc; [|simpl; lia].
  unfold collected in Hc. apply andb_true_iff in Hc as [[[Hb _]%andb_true_iff _]%andb_true_iff _].
  unfold Histograms.counts. rewrite Hb. simpl. lia.
Qed.

End passed.

(** ** The tables of a manager *)

Section manager.
Context {D : Type} `{EqDecision D}.
Context (getitem_read : Read.t → nat → outcome Read.t).
Implicit Types (c : cell) (pairs : list (Read.t * Read.t)).

(** The tables of the collectors of every destination. *)
Lemma destination_table_values q re (sends : list (D * (Read.t * Read.t))) d cs c :
  (d, cs) ∈ destination_table (__init__ q re) sends →
  value c <$> cs = pair_histograms q re (sent_to d sends) c.
Proof.
  unfold destination_table. intros (d' & [= -> ->] & _)%list_elem_of_fmap.
  apply paired_feed_values.
Qed.

(** C25: The tables of a paired run of both phases, the calls before and after
    trimming in any order and whichever of them raised.  The two collectors
    of the first phase hold the histogram of the first mates and the
    histogram of the second mates whose first mate was collected; the second
    phase has every destination once, in the order of its first pair, and
    its two collectors hold the same two histograms of the pairs that were
    sent to it.  A second collector never counts more reads than the first
    one. *)
Theorem run_histograms kwargs (calls : list (call D)) pairs sends :
  Forall (λ x, x ≠ Finish) calls →
  pre_records calls = pair_record <$> pairs →
  post_sends calls = send_record <$> sends →
  let q := ReadStatistics.arg_qualities kwargs in
  let re := ReadStatistics.arg_tile_key_regexp kwargs in
  let m := foldl (after getitem_read) (ReadStatistics.__init__ "both" true kwargs) calls in
  ∃ pre post,
    ReadStatistics.pre m = Some pre ∧ ReadStatistics.post m = Some post
    ∧ (∀ c, value c <$> pre = pair_histograms q re pairs c)
    ∧ post.*1 = first_seen sends.*1
    ∧ (∀ d cs c, (d, cs) ∈ post → value c <$> cs = pair_histograms q re (sent_to d sends) c)
    ∧ histogram q re (passed q re pairs) Reads ≤ histogram q re pairs.*1 Reads.
Proof.
  intros Hcalls Hpre Hpost q re m.
  destruct (run_interleaved getitem_read kwargs calls pairs sends Hcalls Hpre Hpost)
    as [Hp Hd].
  eexists _, _. split_and!; [exact Hp | exact Hd | ..].
  - intros c. apply paired_feed_values.
  - unfold destination_table. rewrite <- list_fmap_compose. apply list_fmap_id.
  - intros d cs c. apply destination_table_values.
  - etrans; [apply histogram_reads | apply passed_length].
Qed.

End manager.

(** ** Witness and examples *)

Lemma run_histograms_witness :
  ∃ pre post,
    ReadStatistics.pre (foldl (after read_getitem) manager_both calls_run) = Some pre
    ∧ ReadStatistics.post (foldl (after read_getitem) manager_both calls_run) = Some post
    ∧ (∀ c, value c <$> pre = pair_histograms None None pairs_before c)
    ∧ post.*1 = first_seen sends_after.*1
    ∧ (∀ d cs c, (d, cs) ∈ post
         → value c <$> cs = pair_histograms None None (sent_to d sends_after) c)
    ∧ histogram None None (passed None None pairs_before) Reads
      ≤ histogram None None pairs_before.*1 Reads.
Proof.
  apply (run_histograms read_getitem (ReadStatistics.mk_args None None) calls_run pairs_before sends_after);
    [by repeat constructor|reflexivity..].
Defined.

(** Of three pairs the first mate of one has no bases and that of another no
    qualities: one second mate is passed on; three G are counted at the
    first position. *)
Example pair_histograms_run :
  passed None None pairs_before = [read_other]
  ∧ pair_histograms None None pairs_before Reads = [2; 1]
  ∧ pair_histograms None None pairs_before (Bases 0 "G"%char) = [1; 1]
  ∧ pair_histograms None None (sent_to "out"%string sends_after) (Lengths 4) = [2; 1].
Proof. by vm_compute. Qed.
