(* ===== verification/Texts.v ===== *)
(** * Texts: the string operations of Python that the report code calls

    [reports.py] and the accuracy script use a handful of operations of
    [str] and of [os.path]: slicing off the first character, the substring
    test [in], [str.join], [str.rfind] and [os.path.splitext].  None of them
    is defined under [src/]; they are modelled here from the documented
    behaviour of the library ([splitext] follows [genericpath._splitext] of
    CPython line by line, for the POSIX separators).  A text is a [string];
    the functions that work by index go through the list of its characters. *)

From Stdlib Require Import Ascii.
From stdpp Require Import strings list.
From S2P Require Import Prelude.

(** ** Texts and their characters *)

Definition chars : string → list ascii := String.list_ascii_of_string.

Definition text : list ascii → string := String.string_of_list_ascii.

(** [s[1:]] *)
Definition str_tail (s : string) : string :=
  match s with
  | "" => ""
  | String _ s' => s'
  end.

(** [sub in s] *)
Fixpoint contains (sub s : string) : bool :=
  String.prefix sub s ||
  match s with
  | "" => false
  | String _ s' => contains sub s'
  end.

(** [sep.join(items)] for items that are all texts. *)
Definition join (sep : string) (items : list string) : string :=
  String.concat sep items.

(** [p.rfind(c)]: the index of the last occurrence of [c], or -1. *)
Fixpoint rfind (c : ascii) (p : list ascii) : Z :=
  match p with
  | [] => -1
  | x :: p' =>
      let r := rfind c p' in
      if bool_decide (0 ≤ r)%Z then (r + 1)%Z
      else if bool_decide (x = c) then 0%Z else (-1)%Z
  end.

(** [p[i:j]] for indices that are not negative. *)
Definition slice (i j : Z) (p : list ascii) : list ascii :=
  take (Z.to_nat j - Z.to_nat i) (drop (Z.to_nat i) p).

(** [os.path.splitext] on the characters of a POSIX path: the extension starts
    at the last dot of the last component, unless only dots precede it
    there. *)
Definition sep : ascii := "/"%char.

Definition extsep : ascii := "."%char.

Definition splitext_chars (p : list ascii) : list ascii * list ascii :=
  let sepIndex := rfind sep p in
  let dotIndex := rfind extsep p in
  if bool_decide (sepIndex < dotIndex)%Z
     && existsb (λ c, negb (bool_decide (c = extsep)))
          (slice (sepIndex + 1) dotIndex p)
  then (take (Z.to_nat dotIndex) p, drop (Z.to_nat dotIndex) p)
  else (p, []).

Definition posix_splitext (p : string) : string * string :=
  prod_map text text (splitext_chars (chars p)).

(** The last component of a path. *)
Definition basename_chars (p : list ascii) : list ascii :=
  drop (Z.to_nat (rfind sep p + 1)) p.

(** ** Characters *)

Lemma text_chars s : text (chars s) = s.
Proof. apply String.string_of_list_ascii_of_string. Qed.

Lemma chars_text l : chars (text l) = l.
Proof. apply String.list_ascii_of_string_of_list_ascii. Qed.

Lemma app_cons a s1 s2 : String a s1 +:+ s2 = String a (s1 +:+ s2).
Proof. reflexivity. Qed.

Lemma app_empty_l s : "" +:+ s = s.
Proof. reflexivity. Qed.

Lemma chars_app s1 s2 : chars (s1 +:+ s2) = chars s1 ++ chars s2.
Proof.
  induction s1 as [|a s1 IH]; [done|]. rewrite app_cons. simpl. by rewrite <- IH.
Qed.

Lemma text_app l1 l2 : text (l1 ++ l2) = text l1 +:+ text l2.
Proof.
  induction l1 as [|a l1 IH]; [done|]. simpl. by rewrite app_cons, <- IH.
Qed.

#[export] Instance chars_inj : Inj (=) (=) chars.
Proof. intros s1 s2 H. by rewrite <- (text_chars s1), H, text_chars. Qed.

Lemma app_empty_r s : s +:+ "" = s.
Proof. induction s as [|a s IH]; [done|]. by rewrite app_cons, IH. Qed.

Lemma app_assoc_text s1 s2 s3 : (s1 +:+ s2) +:+ s3 = s1 +:+ s2 +:+ s3.
Proof. induction s1 as [|a s1 IH]; [done|]. by rewrite !app_cons, IH. Qed.

(** ** The substring test *)

Lemma prefix_true sub s : String.prefix sub s = true ↔ ∃ b, s = sub +:+ b.
Proof.
  revert s. induction sub as [|a sub IH]; intros [|c s]; simpl.
  - split; [by exists ""|done].
  - split; [by eexists|done].
  - split; [done|]. by intros [b ?].
  - setoid_rewrite app_cons. destruct (Ascii.ascii_dec a c) as [->|Hne].
    + rewrite IH. split; intros [b Hb]; exists b; [by rewrite Hb|by injection Hb].
    + split; [done|]. intros [b Hb]. by injection Hb as -> _.
Qed.

Lemma contains_true sub s :
  contains sub s = true ↔ ∃ a b, s = a +:+ sub +:+ b.
Proof.
  induction s as [|c s IH]; cbn [contains]; rewrite orb_true_iff, prefix_true.
  - split.
    + intros [[b Hb]|]; [|done]. by exists "", b.
    + intros ([|??] & b & Hb); [|done]. left. by exists b.
  - rewrite IH. split.
    + intros [[b Hb]|(a & b & ->)]; [by exists "", b|by exists (String c a), b].
    + intros ([|c' a] & b & Hb); [left; by exists b|].
      rewrite app_cons in Hb. injection Hb as -> ->. right. by exists a, b.
Qed.

(** ** [rfind] *)

Lemma rfind_range c p : (-1 ≤ rfind c p < Z.of_nat (length p))%Z.
Proof.
  induction p as [|x p IH]; simpl; [lia|].
  repeat case_bool_decide; lia.
Qed.

Lemma rfind_absent c p : rfind c p = (-1)%Z ↔ c ∉ p.
Proof.
  induction p as [|x p IH]; simpl.
  - split; [intros _; apply not_elem_of_nil|done].
  - pose proof (rfind_range c p). rewrite not_elem_of_cons.
    repeat case_bool_decide; subst; split; try lia; try tauto.
    + intros [_ ?%IH]. lia.
    + intros _. split; [done|]. apply IH. lia.
Qed.

Lemma rfind_app c p q :
  rfind c (p ++ q) =
    if bool_decide (0 ≤ rfind c q)%Z then (Z.of_nat (length p) + rfind c q)%Z
    else rfind c p.
Proof.
  induction p as [|x p IH]; simpl.
  - case_bool_decide; [lia|]. pose proof (rfind_range c q). lia.
  - rewrite IH. pose proof (rfind_range c q).
    repeat case_bool_decide; lia.
Qed.

Lemma rfind_last c p q : c ∉ q → rfind c (p ++ c :: q) = Z.of_nat (length p).
Proof.
  intros Hq%rfind_absent. rewrite rfind_app. simpl. rewrite Hq.
  repeat case_bool_decide; (done || lia).
Qed.

Lemma rfind_app_absent c p q : c ∉ q → rfind c (p ++ q) = rfind c p.
Proof.
  intros Hq%rfind_absent. rewrite rfind_app, Hq.
  by rewrite bool_decide_eq_false_2 by lia.
Qed.

Lemma rfind_drop c p (i : Z) :
  (rfind c p < i)%Z → c ∉ drop (Z.to_nat i) p.
Proof.
  intros Hlt Hin. pose proof (rfind_range c p).
  destruct (decide (Z.to_nat i ≤ length p)) as [Hle|Hgt].
  - rewrite <- (take_drop (Z.to_nat i) p), rfind_app in Hlt.
    pose proof (rfind_range c (drop (Z.to_nat i) p)).
    rewrite length_take_le in Hlt by done.
    case_bool_decide as Hr; [lia|].
    apply (proj1 (rfind_absent c (drop (Z.to_nat i) p))); [lia|done].
  - rewrite drop_ge in Hin by lia. by apply not_elem_of_nil in Hin.
Qed.

Lemma rfind_found c p :
  (0 ≤ rfind c p)%Z → p !! Z.to_nat (rfind c p) = Some c.
Proof.
  induction p as [|x p IH]; simpl; [lia|].
  case_bool_decide as Hr.
  - intros _. specialize (IH Hr).
    by replace (Z.to_nat (rfind c p + 1)) with (S (Z.to_nat (rfind c p))) by lia.
  - case_bool_decide as Hx; [|lia]. intros _. by subst x.
Qed.

(** ** [splitext] *)

Lemma splitext_chars_app p :
  (splitext_chars p).1 ++ (splitext_chars p).2 = p.
Proof.
  unfold splitext_chars. case_match; simpl; [apply take_drop|apply app_nil_r].
Qed.

Lemma splitext_chars_ext p :
  (splitext_chars p).2 = [] ∨
  ∃ e, (splitext_chars p).2 = extsep :: e ∧ (extsep ∉ e) ∧ (sep ∉ e).
Proof.
  unfold splitext_chars. case_match eqn:Hc; simpl; [right|by left].
  apply andb_true_iff in Hc as [Hlt%bool_decide_eq_true _].
  pose proof (rfind_range sep p).
  exists (drop (Z.to_nat (rfind extsep p + 1)) p). split_and!.
  - replace (Z.to_nat (rfind extsep p + 1))
      with (S (Z.to_nat (rfind extsep p))) by lia.
    apply drop_S, rfind_found. lia.
  - apply rfind_drop. lia.
  - apply rfind_drop. lia.
Qed.

Lemma existsb_elem_of {A} (f : A → bool) (l : list A) x :
  x ∈ l → f x = true → existsb f l = true.
Proof.
  induction 1 as [|x y l _ IH]; intros Hf; simpl; [by rewrite Hf|].
  rewrite IH by done. apply orb_true_r.
Qed.

Lemma splitext_chars_add p fmt :
  extsep ∉ fmt → sep ∉ fmt →
  (∃ c, c ∈ basename_chars p ∧ c ≠ extsep) →
  splitext_chars (p ++ extsep :: fmt) = (p, extsep :: fmt).
Proof.
  intros Hdot Hsep (c & Hc & Hne). unfold splitext_chars, basename_chars in *.
  rewrite rfind_last by done.
  rewrite (rfind_app_absent sep) by (rewrite not_elem_of_cons; done).
  pose proof (rfind_range sep p).
  rewrite bool_decide_eq_true_2 by lia. simpl.
  assert (slice (rfind sep p + 1) (Z.of_nat (length p)) (p ++ extsep :: fmt)
          = drop (Z.to_nat (rfind sep p + 1)) p) as ->.
  { unfold slice. rewrite drop_app_le by lia.
    rewrite take_app_le by (rewrite length_drop; lia).
    apply take_ge. rewrite length_drop. lia. }
  rewrite (existsb_elem_of _ _ c) by (by rewrite ?bool_decide_eq_false_2).
  rewrite Nat2Z.id. by rewrite take_app_length, drop_app_length.
Qed.

(** ** [posix_splitext] on texts *)

Lemma posix_splitext_join p :
  (posix_splitext p).1 +:+ (posix_splitext p).2 = p.
Proof.
  unfold posix_splitext. simpl. rewrite <- text_app, splitext_chars_app.
  apply text_chars.
Qed.

Lemma posix_splitext_add p fmt :
  extsep ∉ chars fmt → sep ∉ chars fmt →
  (∃ c, c ∈ basename_chars (chars p) ∧ c ≠ extsep) →
  posix_splitext (p +:+ "." +:+ fmt) = (p, "." +:+ fmt).
Proof.
  intros. unfold posix_splitext. rewrite !chars_app.
  change (chars ".") with [extsep]. simpl.
  rewrite splitext_chars_add by done. simpl.
  by rewrite text_chars, (text_chars fmt).
Qed.

Example splitext_archive :
  posix_splitext "out/run.1/report.tar.gz" = ("out/run.1/report.tar", ".gz").
Proof. reflexivity. Qed.

Example splitext_hidden : posix_splitext "out/.profile" = ("out/.profile", "").
Proof. reflexivity. Qed.

Example splitext_dir_dot : posix_splitext "out.d/report" = ("out.d/report", "").
Proof. reflexivity. Qed.
