(* ===== verification/Values.v ===== *)
(** * Values: the Python values that a summary is made of

    The report generator receives the summary as a dictionary whose values
    are numbers, texts, sequences and further dictionaries, and whose keys
    are texts, numbers or tuples.  A sequence is a tuple; a list is modelled
    as the tuple of its items, which is exact as long as the code does not
    mutate it (the one place where it could, [+=] on the file format, is
    outside the model when the file format is a list).  [reports.py] inspects it dynamically
    ([isinstance], indexing, truth tests, [+=], [/]), so the model keeps the
    dynamic types: [value] is the type of Python objects that can occur,
    [key] the hashable ones that occur as keys, and each operation of Python
    that the code applies is a function that answers what Python answers,
    including the exception on a value of the wrong type.  A dictionary is an
    association list in insertion order (which serialization observes); a
    float is the rational it denotes. *)

From Stdlib Require Import Ascii QArith.
From stdpp Require Import strings list pretty.
From S2P Require Import Prelude Texts.

(** ** Keys and values *)

Inductive scalar : Type :=
  | SNone
  | SBool (b : bool)
  | SInt (n : Z)
  | SStr (s : string).

Inductive key : Type :=
  | K (a : scalar)
  | KTuple (items : list scalar).

Abbreviation KStr s := (K (SStr s)).
Abbreviation KInt n := (K (SInt n)).

#[export] Instance scalar_eq_dec : EqDecision scalar.
Proof. solve_decision. Defined.

#[export] Instance key_eq_dec : EqDecision key.
Proof. solve_decision. Defined.

#[local] Unset Elimination Schemes.

Inductive value : Type :=
  | VNone
  | VBool (b : bool)
  | VInt (n : Z)
  | VFloat (q : Q)
  | VStr (s : string)
  | VTuple (items : list value)
  | VDict (items : list (key * value)).

#[local] Set Elimination Schemes.

Abbreviation dict := (list (key * value)).

(** ** The operations of Python that the report code applies *)

(** [isinstance(v, dict)] *)
Definition is_dict (v : value) : bool :=
  match v with
  | VDict _ => true
  | _ => false
  end.

(** [v is None] *)
Definition is_none (v : value) : bool :=
  match v with
  | VNone => true
  | _ => false
  end.

(** [str(a)] of a key that is neither a text nor a tuple. *)
Definition key_str (a : scalar) : string :=
  match a with
  | SNone => "None"
  | SBool true => "True"
  | SBool false => "False"
  | SInt n => pretty n
  | SStr s => s
  end.

Definition of_scalar (a : scalar) : value :=
  match a with
  | SNone => VNone
  | SBool b => VBool b
  | SInt n => VInt n
  | SStr s => VStr s
  end.

Definition of_key (k : key) : value :=
  match k with
  | K a => of_scalar a
  | KTuple items => VTuple (of_scalar <$> items)
  end.

(** The number that a value denotes in arithmetic, if it is one. *)
Definition number (v : value) : option Q :=
  match v with
  | VBool b => Some (inject_Z (Z.b2z b))
  | VInt n => Some (inject_Z n)
  | VFloat q => Some q
  | _ => None
  end.

(** [bool(v)] *)
Definition py_bool (v : value) : bool :=
  match v with
  | VNone => false
  | VBool b => b
  | VInt n => negb (n =? 0)%Z
  | VFloat q => negb (Qeq_bool q 0)
  | VStr s => negb (String.eqb s "")
  | VTuple items => negb (bool_decide (length items = 0))
  | VDict items => negb (bool_decide (length items = 0))
  end.

(** [v[name]] for a text [name]. *)
Definition getitem (v : value) (name : string) : outcome value :=
  match v with
  | VDict items =>
      match od_get (KStr name) items with
      | Some x => Ret x
      | None => Raise KeyError
      end
  | _ => Raise TypeError
  end.

(** [v[name] = x] for a text [name]. *)
Definition setitem (v : value) (name : string) (x : value) : outcome value :=
  match v with
  | VDict items => Ret (VDict (od_set (KStr name) x items))
  | _ => Raise TypeError
  end.

(** [iter(v)], fully consumed. *)
Definition iterate (v : value) : outcome (list value) :=
  match v with
  | VTuple items => Ret items
  | VDict items => Ret (of_key <$> items.*1)
  | VStr s => Ret ((λ c, VStr (String c "")) <$> chars s)
  | _ => Raise TypeError
  end.

(** [a / b] *)
Definition truediv (a b : value) : outcome value :=
  match number a, number b with
  | Some x, Some y =>
      if Qeq_bool y 0 then Raise ZeroDivisionError else Ret (VFloat (x / y))
  | _, _ => Raise TypeError
  end.

(** [v == n] for an integer constant [n]. *)
Definition eq_int (v : value) (n : Z) : bool :=
  match number v with
  | Some x => Qeq_bool x (inject_Z n)
  | None => false
  end.

(** [v += s] for a text [s]. *)
Definition iadd_text (v : value) (s : string) : outcome value :=
  match v with
  | VStr t => Ret (VStr (t +:+ s))
  | _ => Raise TypeError
  end.

(** How deep dictionaries nest inside the values of a dictionary. *)
Fixpoint depth (v : value) : nat :=
  match v with
  | VDict items =>
      S ((fix go (l : dict) : nat :=
            match l with
            | [] => 0
            | (_, x) :: l => depth x `max` go l
            end) items)
  | _ => 0
  end.

Definition items_depth (l : dict) : nat :=
  foldr (λ kv m, depth kv.2 `max` m) 0 l.

(** ** Induction on values *)

Section value_ind.

Context (P : value → Prop).
Context (HNone : P VNone) (HBool : ∀ b, P (VBool b)) (HInt : ∀ n, P (VInt n)).
Context (HFloat : ∀ q, P (VFloat q)) (HStr : ∀ s, P (VStr s)).
Context (HTuple : ∀ items, Forall P items → P (VTuple items)).
Context (HDict : ∀ items, Forall (λ kv, P kv.2) items → P (VDict items)).

Fixpoint value_ind (v : value) : P v :=
  let fix go (l : list value) : Forall P l :=
    match l with
    | [] => Forall_nil_2 P
    | x :: l => Forall_cons_2 P x l (value_ind x) (go l)
    end in
  let fix go_items (l : dict) : Forall (λ kv, P kv.2) l :=
    match l with
    | [] => Forall_nil_2 _
    | kv :: l => Forall_cons_2 (λ kv, P kv.2) kv l (value_ind kv.2) (go_items l)
    end in
  match v with
  | VNone => HNone
  | VBool b => HBool b
  | VInt n => HInt n
  | VFloat q => HFloat q
  | VStr s => HStr s
  | VTuple items => HTuple items (go items)
  | VDict items => HDict items (go_items items)
  end.

End value_ind.

(** ** Facts *)

Lemma depth_dict items : depth (VDict items) = S (items_depth items).
Proof.
  simpl. f_equal. induction items as [|[k x] items IH]; [done|].
  simpl. by rewrite IH.
Qed.

Lemma items_depth_cons k x items :
  items_depth ((k, x) :: items) = depth x `max` items_depth items.
Proof. reflexivity. Qed.

Lemma depth_not_dict v : is_dict v = false → depth v = 0.
Proof. by destruct v. Qed.

Lemma getitem_dict items name :
  getitem (VDict items) name =
    from_option Ret (Raise KeyError) (od_get (KStr name) items).
Proof. simpl. by destruct (od_get _ _). Qed.

Lemma getitem_setitem_eq v name x v' :
  setitem v name x = Ret v' → getitem v' name = Ret x.
Proof.
  destruct v; simpl; intros [= <-]. simpl. by rewrite od_get_set_eq.
Qed.

Lemma getitem_setitem_ne v name name' x v' :
  name ≠ name' → setitem v name x = Ret v' → getitem v' name' = getitem v name'.
Proof.
  intros Hne. destruct v; simpl; intros [= <-]. simpl.
  rewrite od_get_set_ne; [done|congruence].
Qed.

Lemma truediv_zero a b y :
  number b = Some y → Qeq_bool y 0 = true → is_Some (number a) →
  truediv a b = Raise ZeroDivisionError.
Proof. intros Hb Hy [x Ha]. unfold truediv. by rewrite Ha, Hb, Hy. Qed.

Lemma truediv_int (a b : Z) :
  b ≠ 0%Z → truediv (VInt a) (VInt b) = Ret (VFloat (inject_Z a / inject_Z b)).
Proof.
  intros Hb. unfold truediv. simpl.
  destruct (Qeq_bool (inject_Z b) 0) eqn:Hq; [|done].
  apply Qeq_bool_iff in Hq. unfold Qeq in Hq. simpl in Hq. lia.
Qed.
