(* ===== verification/Simplify.v ===== *)
(** * Simplify: [BaseReportGenerator.simplify] of [reports.py]

    Before a summary is written as JSON or YAML, [simplify] copies it into
    ordered dictionaries whose keys are all texts: a text key is kept, a tuple
    key is joined with commas, any other key is printed with [str].  The copy
    descends into the values that are dictionaries and into nothing else.

    [_recurse] is the nested function of the source: it fills the dictionary
    [dest], which is the state of the computation, and calls itself on the
    dictionary it has just stored under the key.  Its fuel [limit] is the
    number of frames that Python's recursion limit leaves.  [simplify_value]
    is the same copy by structural recursion; [simplify_refines] shows that
    the two agree as soon as [limit] exceeds the nesting depth, so every other
    theorem is stated on the code and proved through the reference.

    [presentable n v] says that [v] needs no simplification: the code
    returns it as it is, and JSON accepts it. *)

From Stdlib Require Import Ascii QArith.
From stdpp Require Import strings list pretty.
From S2P Require Import Prelude Texts Values.

#[local] Open Scope py_scope.

(** ** The code *)

Definition is_str (a : scalar) : bool :=
  match a with
  | SStr _ => true
  | _ => false
  end.

Definition str_of (a : scalar) : string :=
  match a with
  | SStr s => s
  | _ => ""
  end.

(** Lines 112-116: the text that replaces a key.  [','.join(key)] raises
    [TypeError] on an item that is not a text. *)
Definition simplify_key (k : key) : outcome string :=
  match k with
  | K (SStr s) => Ret s
  | KTuple items =>
      if forallb is_str items then Ret (join "," (str_of <$> items))
      else Raise TypeError
  | K a => Ret (key_str a)
  end.

(** [_recurse(dest[key], value)]: run [c] on the dictionary stored under
    [k], in place. *)
Definition inner (k : key) (c : Py dict unit) : Py dict unit := λ dest,
  match od_get k dest with
  | Some (VDict d) => let '(d', o) := c d in (od_set k (VDict d') dest, o)
  | _ => (dest, Raise KeyError)
  end.

Fixpoint _recurse (limit : nat) (src : dict) : Py dict unit :=
  match limit with
  | 0 => raise RecursionError
  | S limit =>
      for_each src (λ '(key, value),
        key <- lift (simplify_key key) ;;
        match value with
        | VDict items =>
            modify (od_set (KStr key) (VDict [])) ;;
            inner (KStr key) (_recurse limit items)
        | _ => modify (od_set (KStr key) value)
        end)
  end.

(** [simplify(summary)]; [items()] exists on dictionaries only. *)
Definition simplify (limit : nat) (summary : value) : outcome value :=
  match summary with
  | VDict items =>
      let '(simplified, o) := _recurse limit items [] in
      (λ _, VDict simplified) <$> o
  | _ => Raise AttributeError
  end.

(** ** The reference: structural recursion on the summary *)

Fixpoint simplify_value (v : value) : outcome value :=
  match v with
  | VDict items =>
      VDict <$>
      (fix go (src dest : dict) : outcome dict :=
         match src with
         | [] => Ret dest
         | (k, x) :: src =>
             s ← simplify_key k;
             x' ← simplify_value x;
             go src (od_set (KStr s) x' dest)
         end) items []
  | _ => Ret v
  end.

Fixpoint simplify_items (src dest : dict) : outcome dict :=
  match src with
  | [] => Ret dest
  | (k, x) :: src =>
      s ← simplify_key k;
      x' ← simplify_value x;
      simplify_items src (od_set (KStr s) x' dest)
  end.

(** What a simplified value looks like: below dictionaries, every key is a
    text and no key occurs twice. *)
Definition is_text_key (k : key) : bool :=
  match k with
  | K (SStr _) => true
  | _ => false
  end.

Fixpoint simplified (v : value) : bool :=
  match v with
  | VDict items =>
      bool_decide (NoDup items.*1) &&
      (fix go (l : dict) : bool :=
         match l with
         | [] => true
         | (k, x) :: l => is_text_key k && simplified x && go l
         end) items
  | _ => true
  end.

(** Every tuple key below dictionaries consists of texts. *)
Definition joinable_key (k : key) : bool :=
  match k with
  | KTuple items => forallb is_str items
  | _ => true
  end.

Fixpoint joinable (v : value) : bool :=
  match v with
  | VDict items =>
      (fix go (l : dict) : bool :=
         match l with
         | [] => true
         | (k, x) :: l => joinable_key k && joinable x && go l
         end) items
  | _ => true
  end.

(** What [json.dump] accepts of the values of the model: a key of a
    dictionary, wherever the dictionary is, must be a text, a number, a
    truth value or [None]; a tuple as a key raises [TypeError]. *)
Definition scalar_key (k : key) : bool :=
  match k with
  | K _ => true
  | KTuple _ => false
  end.

Fixpoint encodable (v : value) : bool :=
  match v with
  | VTuple items =>
      (fix go (l : list value) : bool :=
         match l with
         | [] => true
         | x :: l => encodable x && go l
         end) items
  | VDict items =>
      (fix go (l : dict) : bool :=
         match l with
         | [] => true
         | (k, x) :: l => scalar_key k && encodable x && go l
         end) items
  | _ => true
  end.

(** The summaries that [_recurse] visits completely: no dictionary lies
    inside a tuple. *)
Fixpoint dictless (v : value) : bool :=
  match v with
  | VTuple items =>
      (fix go (l : list value) : bool :=
         match l with
         | [] => true
         | x :: l => dictless x && go l
         end) items
  | VDict _ => false
  | _ => true
  end.

Fixpoint flat (v : value) : bool :=
  match v with
  | VTuple items => forallb dictless items
  | VDict items =>
      (fix go (l : dict) : bool :=
         match l with
         | [] => true
         | (_, x) :: l => flat x && go l
         end) items
  | _ => true
  end.

(** ** Example summaries *)

Definition summary_keys : value :=
  VDict [ (KStr "count", VInt 2);
          (KInt 7, VDict [ (KTuple [SStr "A"; SStr "C"], VInt 1);
                           (K SNone, VStr "n") ]) ].

Definition summary_clash : value :=
  VDict [ (KInt 1, VStr "a"); (KStr "x", VNone); (KStr "1", VStr "b") ].

Definition summary_listed : value :=
  VDict [ (KStr "rows", VTuple [ VDict [ (KInt 1, VInt 5) ] ]) ].

Definition summary_pairs : value :=
  VDict [ (KTuple [SInt 1; SInt 2], VInt 5) ].

Definition summary_hidden : value :=
  VDict [ (KStr "rows", VTuple [ VDict [ (KTuple [SStr "A"; SStr "C"], VInt 5) ] ]) ].

(** ** Unfolding lemmas *)

Definition run (limit : nat) (src dest : dict) : outcome dict :=
  let '(d, o) := _recurse limit src dest in (λ _, d) <$> o.

Lemma simplify_value_dict items :
  simplify_value (VDict items) = VDict <$> simplify_items items [].
Proof.
  reflexivity.
Qed.

Lemma simplify_value_other v : is_dict v = false → simplify_value v = Ret v.
Proof. by destruct v. Qed.

Lemma simplified_dict items :
  simplified (VDict items) =
    bool_decide (NoDup items.*1) &&
    forallb (λ kv, is_text_key kv.1 && simplified kv.2) items.
Proof.
  simpl. f_equal. induction items as [|[k x] items IH]; [done|].
  simpl. by rewrite IH.
Qed.

Lemma joinable_dict items :
  joinable (VDict items) = forallb (λ kv, joinable_key kv.1 && joinable kv.2) items.
Proof.
  simpl. induction items as [|[k x] items IH]; [done|]. simpl. by rewrite IH.
Qed.

Lemma simplify_dict limit items :
  simplify limit (VDict items) = VDict <$> run limit items [].
Proof.
  unfold simplify, run. destruct (_recurse limit items []) as [d [[]|e]]; done.
Qed.

(** One turn of the loop of [_recurse]. *)
Lemma run_cons limit k x src dest :
  run (S limit) ((k, x) :: src) dest =
    s ← simplify_key k;
    x' ← match x with
         | VDict items => VDict <$> run limit items []
         | _ => Ret x
         end;
    run (S limit) src (od_set (KStr s) x' dest).
Proof.
  unfold run. cbn [_recurse for_each]. py_unfold. simpl.
  destruct (simplify_key k) as [s|e]; simpl; [|done].
  destruct x; simpl; try done.
  unfold inner at 1. rewrite od_get_set_eq.
  destruct (_recurse limit items []) as [d [[]|e]]; simpl; [|done].
  by rewrite od_set_set.
Qed.

Lemma run_nil limit dest : run (S limit) [] dest = Ret dest.
Proof. reflexivity. Qed.

Lemma run_zero src dest : run 0 src dest = Raise RecursionError.
Proof. reflexivity. Qed.

(** ** Fuel: the code against the reference *)

Lemma run_step limit x :
  (∀ src dest, items_depth src < limit → run limit src dest = simplify_items src dest) →
  depth x ≤ limit →
  match x with
  | VDict items => VDict <$> run limit items []
  | _ => Ret x
  end = simplify_value x.
Proof.
  intros IH Hd. destruct x; try done.
  rewrite simplify_value_dict, IH; [done|]. rewrite depth_dict in Hd. lia.
Qed.

Lemma run_refines limit src dest :
  items_depth src < limit → run limit src dest = simplify_items src dest.
Proof.
  revert src dest. induction limit as [|limit IH]; intros src; [lia|].
  induction src as [|[k x] src IHsrc]; intros dest Hd; [done|].
  rewrite items_depth_cons in Hd. rewrite run_cons. simpl.
  destruct (simplify_key k) as [s|e]; simpl; [|done].
  rewrite (run_step limit x IH) by lia.
  destruct (simplify_value x); simpl; [|done]. apply IHsrc. lia.
Qed.

(** Too little fuel never returns. *)
Lemma run_deep limit src dest :
  limit ≤ items_depth src → ∃ e, run limit src dest = Raise e.
Proof.
  revert src dest. induction limit as [|limit IH]; intros src; [by eexists|].
  induction src as [|[k x] src IHsrc]; intros dest Hd; [simpl in Hd; lia|].
  rewrite items_depth_cons in Hd. rewrite run_cons.
  destruct (simplify_key k) as [s|e]; simpl; [|by eexists].
  destruct (decide (depth x ≤ limit)) as [Hx|Hx].
  - destruct x as [| | | | | |items]; simpl; try (apply IHsrc; simpl in Hd; lia).
    destruct (run limit items []); simpl; [apply IHsrc; lia|by eexists].
  - destruct x as [| | | | | |items]; try (simpl in Hx; lia).
    destruct (IH items []) as [e ->]; [rewrite depth_dict in Hx; lia|].
    by eexists.
Qed.

(** ** The reference: when it returns *)

Lemma simplify_key_joinable k :
  simplify_key k =
    if joinable_key k
    then Ret match k with
             | K a => key_str a
             | KTuple items => join "," (str_of <$> items)
             end
    else Raise TypeError.
Proof. by destruct k as [[]|items]. Qed.

Definition returns_or_type_error {A} (b : bool) (o : outcome A) : Prop :=
  if b then ∃ a, o = Ret a else o = Raise TypeError.

Lemma simplify_items_outcome src :
  Forall (λ kv, returns_or_type_error (joinable kv.2) (simplify_value kv.2)) src →
  ∀ dest, returns_or_type_error
            (forallb (λ kv, joinable_key kv.1 && joinable kv.2) src)
            (simplify_items src dest).
Proof.
  induction 1 as [|[k x] src Hx _ IH]; intros dest; simpl; [by eexists|].
  rewrite simplify_key_joinable. simpl in Hx.
  destruct (joinable_key k); simpl; [|done].
  destruct (joinable x); simpl; [|by rewrite Hx].
  destruct Hx as [x' ->]. simpl. apply IH.
Qed.

Lemma simplify_value_outcome v :
  returns_or_type_error (joinable v) (simplify_value v).
Proof.
  induction v as [| | | | | |items IH] using value_ind; try by eexists.
  rewrite simplify_value_dict, joinable_dict.
  pose proof (simplify_items_outcome items IH []) as H.
  destruct (forallb _ items); simpl in *; [|by rewrite H].
  destruct H as [d ->]. by eexists.
Qed.

(** ** The reference: what it returns *)

Definition dest_ok (d : dict) : Prop :=
  NoDup d.*1 ∧ Forall (λ kv, is_text_key kv.1 = true ∧ simplified kv.2 = true) d.

Lemma simplified_dict_ok items : simplified (VDict items) = true ↔ dest_ok items.
Proof.
  rewrite simplified_dict, andb_true_iff, bool_decide_eq_true, forallb_forall.
  unfold dest_ok. rewrite Forall_forall.
  setoid_rewrite andb_true_iff. by setoid_rewrite list_elem_of_In.
Qed.

Lemma simplify_items_ok src :
  Forall (λ kv, ∀ v', simplify_value kv.2 = Ret v' → simplified v' = true) src →
  ∀ dest d, dest_ok dest → simplify_items src dest = Ret d → dest_ok d.
Proof.
  induction 1 as [|[k x] src Hx _ IH]; intros dest d Hdest; simpl in *.
  { by intros [= <-]. }
  destruct (simplify_key k) as [s|]; simpl; [|done].
  destruct (simplify_value x) as [x'|]; simpl; [|done].
  apply IH. destruct Hdest as [Hnd Hall]. split.
  - by apply od_set_NoDup.
  - apply od_set_Forall; [|done]. split; [done|]. by apply Hx.
Qed.

Lemma simplify_value_simplified v v' :
  simplify_value v = Ret v' → simplified v' = true.
Proof.
  revert v'. induction v as [| | | | | |items IH] using value_ind;
    intros v'; try by intros [= <-].
  rewrite simplify_value_dict.
  destruct (simplify_items items []) as [d|] eqn:Hd; simpl; [|done].
  intros [= <-]. apply simplified_dict_ok.
  apply (simplify_items_ok items IH [] d); [|done].
  split; [constructor|constructor].
Qed.

(** ** The reference: what JSON accepts of it *)

Lemma encodable_tuple items : encodable (VTuple items) = forallb encodable items.
Proof. simpl. induction items as [|x items IH]; [done|]. simpl. by rewrite IH. Qed.

Lemma encodable_dict items :
  encodable (VDict items) = forallb (λ kv, scalar_key kv.1 && encodable kv.2) items.
Proof. simpl. induction items as [|[k x] items IH]; [done|]. simpl. by rewrite IH. Qed.

Lemma dictless_tuple items : dictless (VTuple items) = forallb dictless items.
Proof. simpl. induction items as [|x items IH]; [done|]. simpl. by rewrite IH. Qed.

Lemma flat_dict items : flat (VDict items) = forallb (λ kv, flat kv.2) items.
Proof. simpl. induction items as [|[k x] items IH]; [done|]. simpl. by rewrite IH. Qed.

Lemma forallb_Forall {A} (f : A → bool) l : forallb f l = true ↔ Forall (λ x, f x = true) l.
Proof. rewrite forallb_forall, Forall_forall. by setoid_rewrite list_elem_of_In. Qed.

Lemma dictless_encodable v : dictless v = true → encodable v = true.
Proof.
  induction v as [| | | | |items IH|items IH] using value_ind; try done.
  rewrite dictless_tuple, encodable_tuple, !forallb_Forall. intros Hd.
  induction IH as [|x items Hx _ IHl]; [done|].
  apply Forall_cons in Hd as [? ?]. constructor; auto.
Qed.

Lemma simplify_items_encodable src :
  Forall (λ kv, flat kv.2 = true →
                ∀ v', simplify_value kv.2 = Ret v' → encodable v' = true) src →
  Forall (λ kv, flat kv.2 = true) src →
  ∀ dest d, Forall (λ kv, scalar_key kv.1 && encodable kv.2 = true) dest →
            simplify_items src dest = Ret d →
            Forall (λ kv, scalar_key kv.1 && encodable kv.2 = true) d.
Proof.
  induction 1 as [|[k x] src Hx _ IH]; intros Hflat dest d Hdest; simpl in *.
  { by intros [= <-]. }
  apply Forall_cons in Hflat as [Hfx Hflat].
  destruct (simplify_key k) as [s|]; simpl; [|done].
  destruct (simplify_value x) as [x'|]; simpl; [|done].
  apply IH; [done|]. apply od_set_Forall; [|done]. simpl. by apply Hx.
Qed.

Lemma simplify_value_encodable v v' :
  flat v = true → simplify_value v = Ret v' → encodable v' = true.
Proof.
  revert v'. induction v as [| | | | |items _|items IH] using value_ind;
    intros v' Hf; try by intros [= <-].
  - intros [= <-]. apply dictless_encodable. by rewrite dictless_tuple.
  - rewrite simplify_value_dict.
    destruct (simplify_items items []) as [d|] eqn:Hd; simpl; [|done].
    intros [= <-]. rewrite flat_dict, forallb_Forall in Hf.
    rewrite encodable_dict, forallb_Forall.
    apply (simplify_items_encodable items) with (dest := []); try done.
    eapply Forall_impl; [apply IH|]. intros kv H ? v'. by apply H.
Qed.

(** ** The reference: simplified values are fixed points *)

Lemma simplify_key_text k : is_text_key k = true → ∃ s, k = KStr s ∧ simplify_key k = Ret s.
Proof. destruct k as [[]|]; try done. by eexists. Qed.

Lemma simplify_items_fixed src :
  Forall (λ kv, simplified kv.2 = true → simplify_value kv.2 = Ret kv.2) src →
  ∀ dest, NoDup (dest ++ src).*1 →
    Forall (λ kv, is_text_key kv.1 = true ∧ simplified kv.2 = true) src →
    simplify_items src dest = Ret (dest ++ src).
Proof.
  induction 1 as [|[k x] src Hx _ IH]; intros dest Hnd Hall; simpl.
  { by rewrite app_nil_r. }
  apply Forall_cons in Hall as [[Hk Hs] Hall]. simpl in *.
  destruct (simplify_key_text k Hk) as (s & -> & ->). simpl.
  rewrite Hx by done. simpl. rewrite od_set_fresh.
  - rewrite IH; [by rewrite <- app_assoc| by rewrite <- app_assoc |done].
  - rewrite fmap_app in Hnd. apply NoDup_app in Hnd as (_ & Hd & _).
    intros Hin. apply (Hd _ Hin). simpl. left.
Qed.

Lemma simplify_value_fixed v : simplified v = true → simplify_value v = Ret v.
Proof.
  induction v as [| | | | | |items IH] using value_ind; try done.
  intros [Hnd Hall]%simplified_dict_ok.
  by rewrite simplify_value_dict, (simplify_items_fixed items IH []).
Qed.

(** ** The reference never nests deeper than its argument *)

Lemma items_depth_od_set k x d :
  items_depth (od_set k x d) ≤ depth x `max` items_depth d.
Proof.
  induction d as [|[k' x'] d IH]; simpl; [lia|].
  case_decide; rewrite !items_depth_cons; lia.
Qed.

Lemma simplify_items_depth src :
  Forall (λ kv, ∀ v', simplify_value kv.2 = Ret v' → depth v' ≤ depth kv.2) src →
  ∀ dest d, simplify_items src dest = Ret d →
    items_depth d ≤ items_depth dest `max` items_depth src.
Proof.
  induction 1 as [|[k x] src Hx _ IH]; intros dest d; simpl in *.
  { intros [= <-]. lia. }
  destruct (simplify_key k) as [s|]; simpl; [|done].
  destruct (simplify_value x) as [x'|]; simpl; [|done].
  intros Hd%IH. pose proof (items_depth_od_set (KStr s) x' dest).
  specialize (Hx x' eq_refl). simpl in Hx. fold (items_depth src). lia.
Qed.

Lemma simplify_value_depth v v' : simplify_value v = Ret v' → depth v' ≤ depth v.
Proof.
  revert v'. induction v as [| | | | | |items IH] using value_ind;
    intros v'; try by intros [= <-].
  rewrite simplify_value_dict, depth_dict.
  destruct (simplify_items items []) as [d|] eqn:Hd; simpl; [|done].
  intros [= <-]. rewrite depth_dict.
  apply (simplify_items_depth items IH) in Hd. simpl in Hd. lia.
Qed.

(** ** The code: outcomes *)

Lemma simplify_returns limit v v' :
  simplify limit v = Ret v' →
  is_dict v = true ∧ depth v ≤ limit ∧ simplify_value v = Ret v'.
Proof.
  destruct v as [| | | | | |items]; try done.
  rewrite simplify_dict, depth_dict. intros Hr.
  destruct (decide (items_depth items < limit)) as [Hd|Hd].
  - rewrite run_refines in Hr by done. by rewrite simplify_value_dict.
  - destruct (run_deep limit items []) as [e He]; [lia|]. by rewrite He in Hr.
Qed.

Definition type_or_recursion (limit : nat) (src : dict) (e : exn) : Prop :=
  e = TypeError ∧ forallb (λ kv, joinable_key kv.1 && joinable kv.2) src = false
  ∨ e = RecursionError ∧ limit ≤ items_depth src.

Lemma type_or_recursion_tail limit k x src e :
  type_or_recursion limit src e → type_or_recursion limit ((k, x) :: src) e.
Proof.
  intros [[-> H]|[-> H]]; [left|right]; (split; [done|]).
  - simpl. by rewrite H, andb_false_r.
  - rewrite items_depth_cons. lia.
Qed.

Lemma type_or_recursion_head limit k items src e :
  type_or_recursion limit items e →
  type_or_recursion (S limit) ((k, VDict items) :: src) e.
Proof.
  intros [[-> H]|[-> H]]; [left|right]; (split; [done|]).
  - cbn [forallb fst snd]. by rewrite joinable_dict, H, andb_false_r.
  - rewrite items_depth_cons, depth_dict. lia.
Qed.

Lemma run_raises limit src dest e :
  run limit src dest = Raise e → type_or_recursion limit src e.
Proof.
  revert src dest. induction limit as [|limit IH]; intros src.
  { intros dest [= <-]. right. split; [done|lia]. }
  induction src as [|[k x] src IHsrc]; intros dest; [done|].
  rewrite run_cons, simplify_key_joinable.
  destruct (joinable_key k) eqn:Hk; simpl.
  2:{ intros [= <-]. left. split; [done|]. simpl. by rewrite Hk. }
  destruct x as [| | | | | |items]; simpl;
    try (intros ?%IHsrc; by apply type_or_recursion_tail).
  destruct (run limit items []) as [d|e'] eqn:Hrun; simpl.
  - intros ?%IHsrc. by apply type_or_recursion_tail.
  - intros [= <-]. by apply type_or_recursion_head, (IH items []).
Qed.

Lemma simplify_value_raises v e :
  simplify_value v = Raise e → e = TypeError ∧ joinable v = false.
Proof.
  intros He. pose proof (simplify_value_outcome v) as H. rewrite He in H.
  destruct (joinable v); simpl in H; [by destruct H|]. split; congruence.
Qed.

Lemma simplify_value_is_dict v v' :
  simplify_value v = Ret v' → is_dict v' = is_dict v.
Proof.
  destruct v as [| | | | | |items]; try by intros [= <-].
  rewrite simplify_value_dict. by destruct (simplify_items _ _); intros [= <-].
Qed.

Lemma simplify_again limit v v' :
  simplify limit v = Ret v' → simplify limit v' = Ret v'.
Proof.
  intros (Hdict & Hd & Hv)%simplify_returns.
  pose proof (simplify_value_depth _ _ Hv).
  pose proof (simplify_value_simplified _ _ Hv) as Hs.
  pose proof (simplify_value_is_dict _ _ Hv) as Hdict'. rewrite Hdict in Hdict'.
  destruct v' as [| | | | | |items']; try done.
  rewrite simplify_dict, run_refines, <- simplify_value_dict
    by (rewrite depth_dict in *; lia).
  by apply simplify_value_fixed.
Qed.

(** The code leaves a normal form as it is, when the frames suffice. *)
Lemma simplify_fixed limit v :
  is_dict v = true → simplified v = true → depth v ≤ limit → simplify limit v = Ret v.
Proof.
  destruct v as [| | | | | |items]; try done. intros _ Hs. rewrite depth_dict. intros Hd.
  rewrite simplify_dict, run_refines, <- simplify_value_dict by lia.
  by apply simplify_value_fixed.
Qed.

(** The code: what it returns is accepted by JSON, on a summary without
    dictionaries inside sequences. *)
Lemma simplify_encodable limit v v' :
  simplify limit v = Ret v' → flat v = true → encodable v' = true.
Proof. intros (_ & _ & Hv)%simplify_returns Hf. by apply (simplify_value_encodable v). Qed.

(** ** Summaries that are ready for every format *)

(** A value that [simplify] has nothing to do on: no dictionary lies inside
    a sequence, the keys of every dictionary are distinct texts, and the
    dictionaries nest [n] deep at most. *)
Record presentable (n : nat) (v : value) : Prop := mk_presentable {
  presentable_flat : flat v = true;
  presentable_simplified : simplified v = true;
  presentable_depth : depth v ≤ n;
}.

Lemma presentable_mono n m v : n ≤ m → presentable n v → presentable m v.
Proof. intros Hle [? ? ?]. split; [done..|lia]. Qed.

Lemma presentable_dictless n v : dictless v = true → presentable n v.
Proof.
  intros Hd. destruct v as [| | | | |items|items]; [..|discriminate Hd].
  all: split; [done..|simpl; lia].
Qed.

Lemma items_depth_le n (items : dict) :
  items_depth items ≤ n ↔ Forall (λ kv, depth kv.2 ≤ n) items.
Proof.
  induction items as [|[k x] items IH]; [by split; [constructor|simpl; lia]|].
  rewrite items_depth_cons, Forall_cons, <- IH. simpl. lia.
Qed.

(** A dictionary is presentable when its keys are distinct texts and its
    values are presentable one level below. *)
Lemma presentable_dict n items :
  presentable (S n) (VDict items) ↔
  NoDup items.*1 ∧ Forall (λ kv, is_text_key kv.1 = true ∧ presentable n kv.2) items.
Proof.
  split.
  - intros [Hf [Hnd Hs]%simplified_dict_ok Hd]. split; [done|].
    rewrite flat_dict, forallb_Forall in Hf.
    rewrite depth_dict in Hd. apply Nat.succ_le_mono, items_depth_le in Hd.
    rewrite Forall_forall in *. intros kv Hkv.
    destruct (Hs kv Hkv). split; [done|]. split; auto.
  - intros [Hnd Hall]. split.
    + rewrite flat_dict, forallb_Forall. eapply Forall_impl; [done|]. by intros kv [_ []].
    + apply simplified_dict_ok. split; [done|].
      eapply Forall_impl; [done|]. by intros kv [? []].
    + rewrite depth_dict. apply -> Nat.succ_le_mono. apply items_depth_le.
      eapply Forall_impl; [done|]. by intros kv [_ []].
Qed.

(** Storing a presentable value under a text keeps a dictionary presentable. *)
Lemma presentable_set n name x items :
  presentable (S n) (VDict items) → presentable n x →
  presentable (S n) (VDict (od_set (KStr name) x items)).
Proof.
  rewrite !presentable_dict. intros [Hnd Hall] Hx. split; [by apply od_set_NoDup|].
  by apply od_set_Forall.
Qed.

(** The code on a presentable dictionary: it returns its argument, which
    JSON accepts, provided the frames suffice. *)
Lemma presentable_simplify limit n v :
  is_dict v = true → presentable n v → n ≤ limit →
  simplify limit v = Ret v ∧ encodable v = true.
Proof.
  intros Hd [Hf Hs Hn] Hle.
  assert (simplify limit v = Ret v) as Hfix by (apply simplify_fixed; [done..|lia]).
  split; [done|]. by apply (simplify_encodable limit v).
Qed.

(** ** The theorems on [simplify] *)

(** C9: [simplify] refines the structural copy: when Python's recursion limit
    leaves at least as many frames as the dictionaries of the summary nest,
    the nested function [_recurse], which fills its destination in place,
    computes exactly [simplify_value]; on a summary that is not a dictionary
    it raises [AttributeError]. *)
Theorem simplify_refines limit v :
  depth v ≤ limit →
  simplify limit v = if is_dict v then simplify_value v else Raise AttributeError.
Proof.
  destruct v as [| | | | | |items]; try done.
  rewrite depth_dict, simplify_dict, simplify_value_dict. intros Hd.
  by rewrite run_refines by lia.
Qed.

(** C26: Termination of [simplify] on a dictionary: it returns exactly when every
    tuple key below dictionaries consists of texts and the nesting depth does
    not exceed the frames that are left. *)
Theorem simplify_returns_iff limit items :
  (∃ v', simplify limit (VDict items) = Ret v') ↔
  joinable (VDict items) = true ∧ depth (VDict items) ≤ limit.
Proof.
  split.
  - intros [v' (_ & Hd & Hv)%simplify_returns]. split; [|done].
    pose proof (simplify_value_outcome (VDict items)) as H. rewrite Hv in H.
    by destruct (joinable (VDict items)).
  - intros [Hj Hd]. rewrite depth_dict in Hd.
    rewrite simplify_dict, run_refines, <- simplify_value_dict by lia.
    pose proof (simplify_value_outcome (VDict items)) as H. by rewrite Hj in H.
Qed.

(** C27: What [simplify] returns is a normal form: in it and in every
    dictionary below it each key is a text and no key occurs twice, it nests
    no deeper than the summary, and simplifying it again, with the same
    recursion limit, returns it unchanged.  It is fit for JSON when no
    dictionary of the summary lies inside a sequence, where [_recurse] does
    not look. *)
Theorem simplify_normal_form limit v v' :
  simplify limit v = Ret v' →
  simplified v' = true ∧ depth v' ≤ depth v ∧ simplify limit v' = Ret v'
  ∧ (flat v = true → encodable v' = true).
Proof.
  intros Hr. pose proof (simplify_again _ _ _ Hr).
  apply simplify_returns in Hr as (_ & _ & Hv).
  split_and!; [by apply (simplify_value_simplified v)|by apply simplify_value_depth|done|].
  intros Hf. by apply (simplify_value_encodable v).
Qed.

(** The exceptions of [simplify]: [AttributeError] on a summary that is not a
    dictionary, [TypeError] only when some tuple key holds an item that is not
    a text, [RecursionError] only when the dictionaries nest deeper than the
    frames that are left. *)
Theorem simplify_raises limit v e :
  simplify limit v = Raise e →
  e = AttributeError ∧ is_dict v = false
  ∨ e = TypeError ∧ joinable v = false
  ∨ e = RecursionError ∧ limit < depth v.
Proof.
  destruct v as [| | | | | |items]; try (intros [= <-]; by left).
  rewrite simplify_dict, depth_dict, joinable_dict. right.
  destruct (run limit items []) as [|e'] eqn:Hrun; simplify_eq/=.
  apply run_raises in Hrun as [?|[-> ?]]; [by left|right]. split; [done|lia].
Qed.

(** *** Witnesses and examples *)

Lemma simplify_refines_witness :
  simplify 2 summary_keys =
    Ret (VDict [ (KStr "count", VInt 2);
                 (KStr "7", VDict [ (KStr "A,C", VInt 1); (KStr "None", VStr "n") ]) ]).
Proof. rewrite (simplify_refines 2 summary_keys); [reflexivity|simpl; lia]. Defined.

Lemma simplify_returns_iff_witness :
  ¬ ∃ v', simplify 1 (VDict [ (KInt 7, VDict []) ]) = Ret v'.
Proof.
  intros [_ H]%simplify_returns_iff. simpl in H. lia.
Defined.

Lemma simplify_normal_form_witness :
  simplify 5 (VDict [ (KStr "1", VStr "b"); (KStr "x", VNone) ]) =
    Ret (VDict [ (KStr "1", VStr "b"); (KStr "x", VNone) ]).
Proof. by apply (simplify_normal_form 5 summary_clash). Defined.

Lemma simplify_raises_witness :
  joinable summary_pairs = false.
Proof.
  destruct (simplify_raises 5 summary_pairs TypeError eq_refl)
    as [[? _]|[[_ H]|[? _]]]; done.
Defined.

(** Two keys that print alike collapse into one entry: the later value wins
    and takes the place of the earlier key. *)
Example simplify_clash :
  simplify 5 summary_clash = Ret (VDict [ (KStr "1", VStr "b"); (KStr "x", VNone) ]).
Proof. reflexivity. Qed.

(** A dictionary inside a sequence is not visited: its keys stay as they are. *)
Example simplify_listed : simplify 5 summary_listed = Ret summary_listed.
Proof. reflexivity. Qed.

(** ... so that a tuple key in there reaches JSON, which rejects it. *)
Example simplify_hidden :
  simplify 5 summary_hidden = Ret summary_hidden ∧ encodable summary_hidden = false.
Proof. done. Qed.

(** A tuple key of numbers cannot be joined. *)
Example simplify_pairs : simplify 5 summary_pairs = Raise TypeError.
Proof. reflexivity. Qed.
