(* ===== verification/Reports.v ===== *)
(** * Reports: [BaseReportGenerator] of [reports.py]

    A report generator is built from a file name (or the name that stands for
    a standard stream) and a list of formats; [generate_reports] adds derived
    fields to the summary and writes one report per format: pickle, JSON and
    YAML through the serializer of that name, every other format through a
    template.

    What the generator calls but does not define is the class [Platform]:
    the constants of [atropos.io], [os.path.splitext], [str.format],
    [importlib], the serializers, the template engine and the file system.
    The file system and the streams are written to only; every report that
    was written is recorded as an event in the [log] of the [world], in the
    order of the writes (a report that fails leaves no event: the file it may
    have opened is not part of the model).  Keyword arguments are the two
    that [generate_from_template] names and a list of all others; an
    argument that is [None] is an argument that was not given.
    The [world] also holds the objects that the caller shares with the
    generator and that the generator mutates: the summary dictionary and the
    list of template paths.  The generator itself is the [self] of the
    world, because its [report_files] may be a Python generator, which every
    iteration consumes.

    The statements on the events of a call follow from one induction rule of
    the loop, [report_loop_rule]; [carries] says which summary an event
    holds. *)

From Stdlib Require Import Ascii QArith.
From stdpp Require Import strings list pretty.
From S2P Require Import Prelude Texts Values Simplify.

#[local] Open Scope py_scope.

(** ** The platform *)

Inductive stream : Type :=
  | stdout
  | stderr.

(** Where a report goes: [sys.stdout], [sys.stderr], or a path. *)
Inductive outfile : Type :=
  | Stream (s : stream)
  | Path (p : string).

#[export] Instance stream_eq_dec : EqDecision stream.
Proof. solve_decision. Defined.

#[export] Instance outfile_eq_dec : EqDecision outfile.
Proof. solve_decision. Defined.

(** The keyword arguments that [generate_reports] hands on to every report:
    the two that [generate_from_template] names, and all others.  (The third
    that it names, [template_paths], is a list that it may change, and lives
    in the world.) *)
Record kwargs : Type := mk_kwargs {
  template_name : option string;
  template_globals : option value;
  others : list (string * value)
}.

Class Platform : Type := {
  (** [atropos.io.STDOUT], [atropos.io.STDERR], [atropos.io.seqio.PAIRED] *)
  STDOUT : string;
  STDERR : string;
  PAIRED : Z;
  (** [os.path.splitext] *)
  splitext : string → string * string;
  (** ['{}'.format(v)] *)
  format_value : value → string;
  (** whether [import name] and [importlib.import_module(name)] find the
      module *)
  importable : string → bool;
  (** [jinja2.Environment(loader=FileSystemLoader(paths))], updated with the
      globals, then [get_template(name)]; [None] when any of it raises *)
  template : Type;
  get_template : list string → option value → string → option template;
  render : template → value → outcome string;
  (** [mod.dump(obj, stream, **kwargs)] of the module of that name, with
      the keyword arguments and the template paths it is given *)
  dump : string → value → kwargs → option (list string) → outcome unit;
  (** whether [open] and [print] succeed on the target *)
  writable : outfile → bool;
  (** the frames that the recursion limit leaves to [simplify] *)
  recursion_limit : nat
}.

(** ** Events *)

(** [print] writes a text as it is, and a [bytes] object as its [repr]. *)
Inductive payload : Type :=
  | Text (s : string)
  | BytesRepr (s : string).

Inductive event : Type :=
  | Dumped (module : string) (obj : value) (mode : string) (path : string) (kw : kwargs)
  | Printed (out : payload) (to : outfile)
  | PrettyPrinted (summary : value) (path : string).

Definition TEXT_SERIALIZERS : list string := ["json"; "yaml"].

Definition BINARY_SERIALIZERS : list string := ["pickle"].

(** [report_files]: a tuple, or a generator with the items it has left. *)
Inductive files : Type :=
  | Tuple (items : list outfile)
  | Generator (rest : list outfile).

Module BaseReportGenerator.

Record t : Type := mk {
  report_formats : list string;
  report_files : files;
  template_path : option string
}.

Record world : Type := mk_world {
  self : t;
  summary : value;
  template_paths : option (list string);
  log : list event
}.

Definition set_self (f : t → t) (w : world) : world :=
  mk_world (f (self w)) (summary w) (template_paths w) (log w).

Definition set_summary (v : value) (w : world) : world :=
  mk_world (self w) v (template_paths w) (log w).

Definition set_template_paths (p : option (list string)) (w : world) : world :=
  mk_world (self w) (summary w) p (log w).

Definition emit (e : event) (w : world) : world :=
  mk_world (self w) (summary w) (template_paths w) (log w ++ [e]).

Definition set_report_files (f : files) (g : t) : t :=
  mk (report_formats g) f (template_path g).

Section methods.
Context `{Platform}.

(** [x or default] on an optional sequence. *)
Definition or_default {A} (x : option (list A)) (default : list A) : list A :=
  match x with
  | Some (a :: l) => a :: l
  | _ => default
  end.

Definition __init__ (report_file : string) (formats : option (list string))
    (template_path : option string) : t :=
  if bool_decide (report_file = STDOUT) || bool_decide (report_file = STDERR) then
    let report_formats := or_default formats ["txt"] in
    mk report_formats
       (Tuple (replicate (length report_formats)
                 (Stream (if bool_decide (report_file = STDERR) then stderr else stdout))))
       template_path
  else
    let file_parts := splitext report_file in
    let report_formats :=
      or_default formats
        [if bool_decide (file_parts.2 = "") then "txt" else str_tail file_parts.2] in
    if bool_decide (length report_formats = 1) then
      mk report_formats (Tuple [Path report_file]) template_path
    else
      mk report_formats
         (Generator ((λ fmt, Path (report_file +:+ "." +:+ fmt)) <$> report_formats))
         template_path.

(** Lines 66-68: the average length per read end, [None] where there is no
    count.  The record count is looked up once per item that is not [None]. *)
Definition avg_sequence_length (summary : value) : outcome value :=
  bps ← getitem summary "total_bp_counts";
  items ← iterate bps;
  avg ← mapM (λ bp,
    match bp with
    | VNone => Ret VNone
    | _ => count ← getitem summary "total_record_count"; truediv bp count
    end) items;
  Ret (VTuple avg).

(** Lines 70-84: the description of the input. *)
Definition input_format (summary : value) : outcome value :=
  inp ← getitem summary "input";
  fmt ← getitem inp "file_format";
  input_read ← getitem inp "input_read";
  fmt ← (if eq_int input_read PAIRED then iadd_text fmt ", Paired"
         else iadd_text fmt (", Read " +:+ format_value input_read));
  colorspace ← getitem inp "colorspace";
  fmt ← (if py_bool colorspace then iadd_text fmt ", Colorspace" else Ret fmt);
  interleaved ← getitem inp "interleaved";
  fmt ← (if py_bool interleaved then iadd_text fmt ", Interleaved" else Ret fmt);
  delivers_qualities ← getitem inp "delivers_qualities";
  if py_bool delivers_qualities then iadd_text fmt ", w/ Qualities"
  else iadd_text fmt ", w/o Qualities".

Definition derived_data (summary : value) : outcome value :=
  avg ← avg_sequence_length summary;
  fmt ← input_format summary;
  Ret (VDict [ (KStr "avg_sequence_length", avg); (KStr "input_format", fmt) ]).

Definition add_derived_data : Py world unit :=
  w <- get ;;
  derived <- lift (derived_data (summary w)) ;;
  summary' <- lift (setitem (summary w) "derived" derived) ;;
  modify (set_summary summary').

(** [open(outfile, mode)]: a stream is not a path. *)
Definition open (outfile : outfile) : Py world string :=
  match outfile with
  | Stream _ => raise TypeError
  | Path p => if writable outfile then ret p else raise IOError
  end.

(** Whether a keyword argument has the name of a parameter of [serialize]
    itself: the call then raises. *)
Definition names_parameter (kw : kwargs) : bool :=
  existsb (λ kv, bool_decide (kv.1 ∈ ["obj"; "fmt"; "mode"; "outfile"])) (others kw).

Definition serialize (obj : value) (fmt mode : string) (outfile : outfile)
    (kw : kwargs) : Py world unit :=
  when (names_parameter kw) (raise TypeError) ;;
  when (negb (importable fmt)) (raise ImportError) ;;
  path <- open outfile ;;
  w <- get ;;
  lift (dump fmt obj kw (template_paths w)) ;;
  modify (emit (Dumped fmt obj mode path kw)).

Definition truthy_text (s : option string) : bool :=
  match s with
  | Some (String _ _) => true
  | _ => false
  end.

Definition generate_from_template (fmt : string) (summary : value)
    (outfile : outfile) (kw : kwargs) : Py world unit :=
  let template_name :=
    if truthy_text (template_name kw) then default "" (template_name kw)
    else "template." +:+ fmt in
  (* a keyword that the signature does not name *)
  when (negb (bool_decide (length (others kw) = 0))) (raise TypeError) ;;
  when (negb (importable "jinja2")) (raise ImportError) ;;
  w <- get ;;
  (* [if not template_paths: template_paths = []] makes a list of its own;
     otherwise [append] changes the list of the caller *)
  let shared := match template_paths w with Some (_ :: _) => true | _ => false end in
  let paths := or_default (template_paths w) [] in
  let paths :=
    match template_path (self w) with
    | Some p => paths ++ [p]
    | None => paths
    end in
  when shared (modify (set_template_paths (Some paths))) ;;
  match get_template paths (template_globals kw) template_name with
  | None => raise IOError
  | Some template =>
      report_output <- lift (render template summary) ;;
      match outfile with
      | Path p =>
          if writable outfile then modify (emit (Printed (Text report_output) outfile))
          else raise IOError
      | Stream _ =>
          if writable outfile
          then modify (emit (Printed (BytesRepr report_output) outfile))
          else raise IOError
      end
  end.

Definition generate_text_report (fmt : string) (summary : value)
    (outfile : outfile) (kw : kwargs) : Py world unit :=
  generate_from_template fmt summary outfile kw.

(** The iterator that [zip] holds over [report_files]: one of its own over a
    tuple, the generator itself otherwise. *)
Definition iterator : Type := option (list outfile).

Definition iter (f : files) : iterator :=
  match f with
  | Tuple items => Some items
  | Generator _ => None
  end.

Definition next (it : iterator) : Py world (option (outfile * iterator)) :=
  match it with
  | Some [] => ret None
  | Some (f :: items) => ret (Some (f, Some items))
  | None =>
      w <- get ;;
      match report_files (self w) with
      | Generator (f :: rest) =>
          modify (set_self (set_report_files (Generator rest))) ;;
          ret (Some (f, None))
      | _ => ret None
      end
  end.

(** Lines 52-60: one report; answers the summary that the next turn of the
    loop sees. *)
Definition report (fmt : string) (summary : value) (outfile : outfile)
    (kw : kwargs) : Py world value :=
  if bool_decide (fmt ∈ BINARY_SERIALIZERS) then
    serialize summary fmt "b" outfile kw ;; ret summary
  else if bool_decide (fmt ∈ TEXT_SERIALIZERS) then
    summary <- lift (simplify recursion_limit summary) ;;
    serialize summary fmt "t" outfile kw ;; ret summary
  else
    generate_text_report fmt summary outfile kw ;; ret summary.

(** [for fmt, outfile in zip(self.report_formats, self.report_files)]: [zip]
    asks the formats first and the files second, and stops at the first
    that is exhausted. *)
Fixpoint report_loop (formats : list string) (it : iterator) (summary : value)
    (kw : kwargs) : Py world unit :=
  match formats with
  | [] => ret tt
  | fmt :: formats =>
      o <- next it ;;
      match o with
      | None => ret tt
      | Some (outfile, it) =>
          summary <- report fmt summary outfile kw ;;
          report_loop formats it summary kw
      end
  end.

Definition generate_reports (kw : kwargs) : Py world unit :=
  add_derived_data ;;
  w <- get ;;
  report_loop (report_formats (self w)) (iter (report_files (self w)))
    (summary w) kw.

End methods.
End BaseReportGenerator.

(** [prettyprint_summary(summary, outfile='summary.dump.txt')] *)
Definition prettyprint_summary `{Platform} (summary : value)
    (outfile : option string) : Py BaseReportGenerator.world unit :=
  let outfile := default "summary.dump.txt" outfile in
  if writable (Path outfile)
  then modify (BaseReportGenerator.emit (PrettyPrinted summary outfile))
  else raise IOError.

Import BaseReportGenerator.

(** ** Specification *)

(** The files that a generator still has to give. *)
Definition files_left (f : files) : list outfile :=
  match f with
  | Tuple items => items
  | Generator rest => rest
  end.

(** A generator object as the constructor makes it and as iteration leaves
    it: at least one format, and never more files than formats (exactly as
    many in a tuple). *)
Definition wf (g : t) : Prop :=
  report_formats g ≠ [] ∧
  match report_files g with
  | Tuple items => length items = length (report_formats g)
  | Generator rest => length rest ≤ length (report_formats g)
  end.

(** A tuple stays what it is; a generator only loses items from its front. *)
Definition consumed (f f' : files) : Prop :=
  match f, f' with
  | Tuple items, Tuple items' => items' = items
  | Generator rest, Generator rest' => rest' `suffix_of` rest
  | _, _ => False
  end.

(** What no method ever undoes: the formats and the template path are fixed,
    the files are only consumed, the log only grows. *)
Record evolves (w w' : world) : Prop := mk_evolves {
  ev_formats : report_formats (self w') = report_formats (self w);
  ev_template : template_path (self w') = template_path (self w);
  ev_files : consumed (report_files (self w)) (report_files (self w'));
  ev_log : log w `prefix_of` log w'
}.

(** Where an event went. *)
Definition target (e : event) : outfile :=
  match e with
  | Dumped _ _ _ path _ => Path path
  | Printed _ to => to
  | PrettyPrinted _ path => Path path
  end.

Definition is_path (f : outfile) : bool :=
  match f with
  | Path _ => true
  | Stream _ => false
  end.

Definition is_serializer (fmt : string) : bool :=
  bool_decide (fmt ∈ BINARY_SERIALIZERS) || bool_decide (fmt ∈ TEXT_SERIALIZERS).

(** Keyword arguments that every report accepts: none at all. *)
Definition plain (kw : kwargs) (paths : option (list string)) : bool :=
  match template_name kw, template_globals kw, others kw, paths with
  | None, None, [], None => true
  | _, _, _, _ => false
  end.

(** ... and those that the report of a format accepts at least: a
    serializer none, a template those that [generate_from_template] names. *)
Definition accepts (kw : kwargs) (paths : option (list string)) (fmt : string) : bool :=
  if is_serializer fmt then plain kw paths else bool_decide (length (others kw) = 0).

(** ** A platform to compute with *)

(** POSIX paths, the constants of atropos 1.1, the standard library without
    PyYAML, one template directory, and a file system on which everything
    but [/proc] can be written. *)
Definition scalar_format (v : value) : string :=
  match v with
  | VNone => "None"
  | VBool true => "True"
  | VBool false => "False"
  | VInt n => pretty n
  | VStr s => s
  | _ => "?"
  end.

Definition show_keys (v : value) : string :=
  match v with
  | VDict items =>
      join " " ((λ kv, match kv.1 with
                       | K (SStr s) => s
                       | K a => "<" +:+ key_str a +:+ ">"
                       | KTuple _ => "<tuple>"
                       end) <$> items)
  | _ => ""
  end.

(** The serializers of the standard library: each knows some keywords and
    rejects the others, those of the templates among them; JSON rejects a
    dictionary with a tuple as a key. *)
Definition known_keywords (fmt : string) : list string :=
  if String.eqb fmt "json" then ["indent"; "sort_keys"]
  else if String.eqb fmt "pickle" then ["protocol"]
  else [].

Definition stdlib_dump (fmt : string) (obj : value) (kw : kwargs)
    (paths : option (list string)) : outcome unit :=
  match template_name kw, template_globals kw, paths with
  | None, None, None =>
      if forallb (λ kv, bool_decide (kv.1 ∈ known_keywords fmt)) (others kw)
         && (negb (String.eqb fmt "json") || encodable obj)
      then Ret tt
      else Raise TypeError
  | _, _, _ => Raise TypeError
  end.

Definition posix : Platform := {|
  STDOUT := "-";
  STDERR := "_";
  PAIRED := 3;
  splitext := posix_splitext;
  format_value := scalar_format;
  importable := λ name, bool_decide (name ∈ ["json"; "pickle"; "jinja2"]);
  template := string;
  get_template := λ paths _ name,
    if bool_decide ("templates" ∈ paths) && bool_decide (name ∈ ["template.txt"; "template.html"])
    then Some name else None;
  render := λ name summary, Ret (name +:+ ": " +:+ show_keys summary);
  dump := stdlib_dump;
  writable := λ f, negb (bool_decide (f = Path "/proc/report.txt"));
  recursion_limit := 100
|}.

(** The same platform with nothing missing and nothing read-only. *)
Definition ideal : Platform := {|
  STDOUT := "-";
  STDERR := "_";
  PAIRED := 3;
  splitext := posix_splitext;
  format_value := scalar_format;
  importable := λ _, true;
  template := string;
  get_template := λ _ _ name, Some name;
  render := λ name summary, Ret (name +:+ ": " +:+ show_keys summary);
  dump := stdlib_dump;
  writable := λ _, true;
  recursion_limit := 100
|}.

Definition summary_run : value :=
  VDict [ (KStr "total_record_count", VInt 4);
          (KStr "total_bp_counts", VTuple [VInt 400; VNone]);
          (KStr "input", VDict [ (KStr "file_format", VStr "FASTQ");
                                 (KStr "input_read", VInt 1);
                                 (KStr "colorspace", VBool false);
                                 (KStr "interleaved", VBool false);
                                 (KStr "delivers_qualities", VBool true) ]);
          (KInt 1, VDict [ (KStr "count", VInt 4) ]) ].

Definition summary_empty_run : value :=
  VDict [ (KStr "total_record_count", VInt 0);
          (KStr "total_bp_counts", VTuple [VInt 0; VNone]);
          (KStr "input", VDict [ (KStr "file_format", VStr "FASTQ");
                                 (KStr "input_read", VInt 3);
                                 (KStr "colorspace", VBool false);
                                 (KStr "interleaved", VBool true);
                                 (KStr "delivers_qualities", VBool true) ]) ].

Definition no_kwargs : kwargs := mk_kwargs None None [].

Definition start (g : t) (summary : value) : world :=
  mk_world g summary None [].

(** ** Frames *)

#[export] Instance consumed_preorder : PreOrder consumed.
Proof.
  split.
  - intros []; simpl; reflexivity.
  - intros [] [] []; simpl; try done; [congruence|]. intros ??. by etrans.
Qed.

#[export] Instance evolves_preorder : PreOrder evolves.
Proof.
  split.
  - by intros w.
  - intros w1 w2 w3 [] []. split; [congruence| congruence| by etrans| by etrans].
Qed.

Lemma evolves_same_self w w' :
  self w' = self w → log w `prefix_of` log w' → evolves w w'.
Proof. intros Hs Hl. split; rewrite ?Hs; done. Qed.

Lemma evolves_wf w w' : evolves w w' → wf (self w) → wf (self w').
Proof.
  intros [Hf _ Hc _] [Hne Hlen]. unfold wf. rewrite Hf. split; [done|].
  destruct (report_files (self w)), (report_files (self w')); simpl in Hc;
    try done; [by subst|].
  apply suffix_length in Hc. lia.
Qed.

Section frames.
Context `{Platform}.

Lemma next_evolves it : preserves evolves (next it).
Proof.
  intros w. destruct it as [[|f items]|]; simpl; try done.
  unfold bind, get. simpl. destruct (report_files (self w)) as [|[|f rest]] eqn:Hf;
    simpl; try done.
  all: split; simpl; rewrite ?Hf; try done; simpl; by apply suffix_cons_r.
Qed.

#[local] Hint Resolve next_evolves : preserves.

#[local] Ltac side :=
  first [ by apply evolves_same_self
        | apply evolves_same_self; [done|]; by apply prefix_app_r ].

Lemma add_derived_data_evolves : preserves evolves add_derived_data.
Proof. solve_preserves ltac:(unfold add_derived_data) side. Qed.

Lemma serialize_evolves obj fmt mode outfile kw :
  preserves evolves (serialize obj fmt mode outfile kw).
Proof. solve_preserves ltac:(unfold serialize, open) side. Qed.

Lemma generate_from_template_evolves fmt summary outfile kw :
  preserves evolves (generate_from_template fmt summary outfile kw).
Proof. solve_preserves ltac:(unfold generate_from_template) side. Qed.

#[local] Hint Resolve add_derived_data_evolves serialize_evolves
  generate_from_template_evolves : preserves.

Lemma report_evolves fmt summary outfile kw :
  preserves evolves (report fmt summary outfile kw).
Proof. solve_preserves ltac:(unfold report, generate_text_report) side. Qed.

#[local] Hint Resolve report_evolves : preserves.

Lemma report_loop_evolves formats it summary kw :
  preserves evolves (report_loop formats it summary kw).
Proof.
  revert it summary. induction formats as [|fmt formats IH]; intros it summary.
  - solve_preserves ltac:(cbn [report_loop]) side.
  - solve_preserves ltac:(cbn [report_loop]) side.
Qed.

#[local] Hint Resolve report_loop_evolves : preserves.

Lemma generate_reports_evolves kw : preserves evolves (generate_reports kw).
Proof. solve_preserves ltac:(unfold generate_reports) side. Qed.

End frames.

(** ** What the theorems need of the platform *)

Class PlatformLaws `{Platform} : Prop := {
  (** the two halves of [splitext] make up the path *)
  splitext_join p : (splitext p).1 +:+ (splitext p).2 = p;
  (** an extension without dot and separator is split off again, unless the
      file name consists of dots only *)
  splitext_add p fmt :
    extsep ∉ chars fmt → sep ∉ chars fmt →
    (∃ c, c ∈ basename_chars (chars p) ∧ c ≠ extsep) →
    splitext (p +:+ "." +:+ fmt) = (p, "." +:+ fmt)
}.

Lemma posix_laws : @PlatformLaws posix.
Proof. split; [apply posix_splitext_join|apply posix_splitext_add]. Qed.

(** A platform on which nothing fails: every module is installed, every
    template is found and renders, every serializer takes what it should,
    every target can be written. *)
Class Healthy `{Platform} : Prop := {
  healthy_import name : importable name = true;
  healthy_template paths globals name : is_Some (get_template paths globals name);
  healthy_render tpl v : ∃ out, render tpl v = Ret out;
  (** a serializer takes what it is given without keywords, JSON and YAML
      provided that no key is a tuple *)
  healthy_dump fmt obj kw paths :
    plain kw paths = true → (fmt ∈ TEXT_SERIALIZERS → encodable obj = true) →
    dump fmt obj kw paths = Ret tt;
  healthy_write f : writable f = true
}.

Lemma stdlib_dump_plain fmt obj kw paths :
  plain kw paths = true → (fmt ∈ TEXT_SERIALIZERS → encodable obj = true) →
  stdlib_dump fmt obj kw paths = Ret tt.
Proof.
  unfold plain, stdlib_dump. intros Hp He.
  destruct (template_name kw), (template_globals kw), (others kw), paths; try done.
  simpl. destruct (String.eqb_spec fmt "json") as [->|]; [|done].
  simpl. rewrite He; [done|]. by left.
Qed.

Lemma ideal_healthy : @Healthy ideal.
Proof. split; simpl; eauto using stdlib_dump_plain. Qed.

(** ** The constructor *)

Section constructor.
Context `{Platform}.

Lemma or_default_nonempty {A} (x : option (list A)) d : d ≠ [] → or_default x d ≠ [].
Proof. by destruct x as [[|]|]. Qed.

Lemma init_wf report_file formats tp : wf (__init__ report_file formats tp).
Proof.
  unfold __init__.
  destruct (_ || _); [|case_bool_decide as Hl]; unfold wf; simpl;
    (split; [by apply or_default_nonempty|]);
    by rewrite ?length_replicate, ?length_fmap.
Qed.

Lemma init_formats report_file formats tp a l :
  formats = Some (a :: l) →
  report_formats (__init__ report_file formats tp) = a :: l.
Proof. intros ->. unfold __init__. by repeat case_match. Qed.

(** Whatever is asked for, the extension or [txt] fills in when no format
    is given. *)
Lemma init_default_format report_file tp :
  report_file ≠ STDOUT → report_file ≠ STDERR →
  __init__ report_file None tp =
    mk [if bool_decide ((splitext report_file).2 = "") then "txt"
        else str_tail (splitext report_file).2]
       (Tuple [Path report_file]) tp.
Proof.
  intros H1 H2. unfold __init__.
  by rewrite !bool_decide_eq_false_2 by done.
Qed.

Lemma init_generator report_file formats tp :
  report_file ≠ STDOUT → report_file ≠ STDERR → 2 ≤ length formats →
  __init__ report_file (Some formats) tp =
    mk formats (Generator ((λ fmt, Path (report_file +:+ "." +:+ fmt)) <$> formats)) tp.
Proof.
  intros H1 H2 Hlen. unfold __init__.
  rewrite !bool_decide_eq_false_2 by done. simpl.
  destruct formats as [|a [|b l]]; simpl in *; try lia. done.
Qed.

Lemma init_stream report_file formats tp :
  report_file = STDOUT ∨ report_file = STDERR →
  __init__ report_file formats tp =
    mk (or_default formats ["txt"])
       (Tuple (replicate (length (or_default formats ["txt"]))
                 (Stream (if bool_decide (report_file = STDERR) then stderr else stdout))))
       tp.
Proof.
  intros Hs. unfold __init__.
  assert (bool_decide (report_file = STDOUT) || bool_decide (report_file = STDERR)
          = true) as ->; [|done].
  apply orb_true_iff. rewrite !bool_decide_eq_true. done.
Qed.

End constructor.

(** ** One report *)

(** The event that reports [summary] in format [fmt] to [f]: a dump by the
    serializer of that name in its mode into a path, or a print of the
    rendered template, as a text into a path and as the [repr] of its bytes
    onto a stream. *)
Definition writes (fmt : string) (f : outfile) (e : event) : bool :=
  match e with
  | Dumped module _ mode path _ =>
      is_serializer fmt && bool_decide (module = fmt) && bool_decide (Path path = f)
      && bool_decide (mode = if bool_decide (fmt ∈ BINARY_SERIALIZERS) then "b" else "t")
  | Printed payload to =>
      negb (is_serializer fmt) && bool_decide (to = f)
      && match payload with
         | Text _ => is_path f
         | BytesRepr _ => negb (is_path f)
         end
  | PrettyPrinted _ _ => false
  end.

Section report.
Context `{Platform}.

Lemma serialize_run obj fmt mode outfile kw w :
  serialize obj fmt mode outfile kw w =
    if names_parameter kw then (w, Raise TypeError)
    else if negb (importable fmt) then (w, Raise ImportError)
    else match outfile with
         | Stream _ => (w, Raise TypeError)
         | Path p =>
             if writable outfile then
               match dump fmt obj kw (template_paths w) with
               | Ret _ => (emit (Dumped fmt obj mode p kw) w, Ret tt)
               | Raise e => (w, Raise e)
               end
             else (w, Raise IOError)
         end.
Proof.
  unfold serialize, open. py_unfold. destruct (names_parameter kw); simpl; [done|].
  destruct (importable fmt); simpl; [|done].
  destruct outfile; simpl; [done|]. destruct (writable _); simpl; [|done].
  by destruct (dump _ _ _ _).
Qed.

(** The template that a report asks for, where it is searched, and the
    world once the path of the generator was appended to the caller's list. *)
Definition template_for (fmt : string) (kw : kwargs) : string :=
  if truthy_text (template_name kw) then default "" (template_name kw)
  else "template." +:+ fmt.

Definition search_path (w : world) : list string :=
  let paths := or_default (template_paths w) [] in
  match template_path (self w) with
  | Some p => paths ++ [p]
  | None => paths
  end.

Definition searched (w : world) : world :=
  match template_paths w with
  | Some (_ :: _) => set_template_paths (Some (search_path w)) w
  | _ => w
  end.

Definition printed (outfile : outfile) (out : string) : event :=
  Printed ((if is_path outfile then Text else BytesRepr) out) outfile.

Lemma generate_from_template_run fmt summary outfile kw w :
  generate_from_template fmt summary outfile kw w =
    if negb (bool_decide (length (others kw) = 0)) then (w, Raise TypeError)
    else if negb (importable "jinja2") then (w, Raise ImportError)
    else match get_template (search_path w) (template_globals kw) (template_for fmt kw) with
         | None => (searched w, Raise IOError)
         | Some template =>
             match render template summary with
             | Ret out =>
                 if writable outfile then (emit (printed outfile out) (searched w), Ret tt)
                 else (searched w, Raise IOError)
             | Raise e => (searched w, Raise e)
             end
         end.
Proof.
  unfold generate_from_template, searched, search_path, template_for, printed. py_unfold.
  destruct (bool_decide (length (others kw) = 0)); simpl; [|done].
  destruct (importable "jinja2"); simpl; [|done].
  destruct (template_paths w) as [[|]|]; simpl;
    (destruct (get_template _ _ _); simpl; [|done]);
    (destruct (render _ _) as [out|]; simpl; [|done]);
    destruct outfile; simpl; by destruct (writable _).
Qed.

Lemma searched_frame w :
  self (searched w) = self w ∧ log (searched w) = log w
  ∧ BaseReportGenerator.summary (searched w) = BaseReportGenerator.summary w.
Proof. unfold searched. by destruct (template_paths w) as [[|]|]. Qed.

(** Whatever a template report answers, it has touched nothing but the log
    and the caller's list of template paths; it has printed one event, a
    text on a path and the [repr] of the encoded bytes on a stream, when it
    returns, and nothing when it raises. *)
Lemma generate_from_template_log fmt summary outfile kw w w' o :
  generate_from_template fmt summary outfile kw w = (w', o) →
  self w' = self w ∧ BaseReportGenerator.summary w' = BaseReportGenerator.summary w
  ∧ match o with
    | Ret _ => ∃ out, log w' = log w ++ [printed outfile out]
    | Raise _ => log w' = log w
    end.
Proof.
  rewrite generate_from_template_run. destruct (searched_frame w) as (Hs & Hl & Hv).
  repeat case_match; intros [= <- <-]; simpl; rewrite ?Hs, ?Hl, ?Hv; eauto.
Qed.

Lemma report_keeps_self fmt summary outfile kw :
  preserves (keeps self) (report fmt summary outfile kw).
Proof.
  solve_preserves_with
    ltac:(unfold report, generate_text_report, generate_from_template, serialize, open).
Qed.

Lemma add_derived_data_keeps {X} (f : world → X) :
  (∀ v w, f (set_summary v w) = f w) → preserves (keeps f) add_derived_data.
Proof.
  intros Hf. solve_preserves ltac:(unfold add_derived_data) ltac:(by unfold keeps).
Qed.

Lemma serializers_disjoint fmt :
  fmt ∈ BINARY_SERIALIZERS → fmt ∉ TEXT_SERIALIZERS.
Proof.
  intros ->%list_elem_of_singleton.
  by intros [?|[?|?%elem_of_nil]%elem_of_cons]%elem_of_cons.
Qed.

(** The summary that a report hands to the next one. *)
Lemma report_summary fmt summary outfile kw w w' s :
  report fmt summary outfile kw w = (w', Ret s) →
  if bool_decide (fmt ∈ BINARY_SERIALIZERS) then s = summary
  else if bool_decide (fmt ∈ TEXT_SERIALIZERS)
       then simplify recursion_limit summary = Ret s
       else s = summary.
Proof.
  unfold report. repeat case_bool_decide; py_unfold.
  - destruct (serialize _ _ _ _ _ w) as [? []]; simpl; congruence.
  - destruct (simplify _ _); simpl; [|done].
    destruct (serialize _ _ _ _ _ w) as [? []]; simpl; congruence.
  - unfold generate_text_report.
    destruct (generate_from_template _ _ _ _ w) as [? []]; simpl; congruence.
Qed.

Lemma report_serializer_stream fmt summary s kw w :
  is_serializer fmt = true →
  ∃ e, report fmt summary (Stream s) kw w = (w, Raise e).
Proof.
  unfold is_serializer, report. intros Hs.
  case_bool_decide; py_unfold; [|case_bool_decide; [|done]].
  - rewrite serialize_run. repeat case_match; simplify_eq/=; by eexists.
  - destruct (simplify _ _); simpl; [|by eexists].
    rewrite serialize_run. repeat case_match; simplify_eq/=; by eexists.
Qed.

Lemma is_serializer_binary fmt : fmt ∈ BINARY_SERIALIZERS → is_serializer fmt = true.
Proof. intros. unfold is_serializer. by rewrite bool_decide_eq_true_2. Qed.

Lemma is_serializer_text fmt : fmt ∈ TEXT_SERIALIZERS → is_serializer fmt = true.
Proof.
  intros. unfold is_serializer.
  by rewrite (bool_decide_eq_true_2 (fmt ∈ TEXT_SERIALIZERS)), orb_true_r.
Qed.

Lemma serialize_event obj fmt mode kw f w w' o :
  serialize obj fmt mode f kw w = (w', o) →
  is_serializer fmt = true →
  mode = (if bool_decide (fmt ∈ BINARY_SERIALIZERS) then "b" else "t") →
  match o with
  | Ret _ => ∃ e, log w' = log w ++ [e] ∧ writes fmt f e = true
  | Raise _ => log w' = log w
  end.
Proof.
  rewrite serialize_run. intros Hrun Hs Hm.
  destruct (names_parameter kw); [by injection Hrun as <- <-|].
  destruct (importable fmt); simpl in Hrun; [|by injection Hrun as <- <-].
  destruct f as [|p]; [by injection Hrun as <- <-|].
  destruct (writable _); [|by injection Hrun as <- <-].
  destruct (dump _ _ _ _); injection Hrun as <- <-; [|done].
  eexists. split; [done|]. simpl. by rewrite Hs, !bool_decide_eq_true_2.
Qed.

(** One report leaves exactly one event, the one of its format and file,
    when it returns, and none when it raises. *)
Lemma report_event fmt summary f kw w w' o :
  report fmt summary f kw w = (w', o) →
  match o with
  | Ret _ => ∃ e, log w' = log w ++ [e] ∧ writes fmt f e = true
  | Raise _ => log w' = log w
  end.
Proof.
  unfold report. case_bool_decide as Hb; [|case_bool_decide as Ht]; py_unfold.
  - destruct (serialize _ _ _ _ _ w) as [w2 [[]|e]] eqn:Hrun; simpl; intros [= <- <-];
      apply serialize_event in Hrun; auto using is_serializer_binary;
      by rewrite bool_decide_eq_true_2.
  - destruct (simplify _ _) as [s|e]; simpl; [|by intros [= <- <-]].
    destruct (serialize _ _ _ _ _ w) as [w2 [[]|e]] eqn:Hrun; simpl; intros [= <- <-];
      apply serialize_event in Hrun; auto using is_serializer_text;
      by rewrite bool_decide_eq_false_2.
  - unfold generate_text_report.
    destruct (generate_from_template _ _ _ _ w) as [w2 [[]|e]] eqn:Hg; simpl;
      intros [= <- <-].
    + apply generate_from_template_log in Hg as (_ & _ & out & ->).
      eexists. split; [done|]. unfold printed, writes, is_serializer.
      rewrite !bool_decide_eq_false_2, bool_decide_eq_true_2 by done.
      by destruct f.
    + by apply generate_from_template_log in Hg as (_ & _ & ?).
Qed.

End report.

(** ** The loop over formats and files *)

Section loop.
Context `{Platform}.

(** The files that the iterator of [zip] has ahead of it. *)
Definition ahead (it : iterator) (w : world) : list outfile :=
  match it with
  | Some items => items
  | None =>
      match report_files (self w) with
      | Generator rest => rest
      | Tuple _ => []
      end
  end.

(** The world and the iterator after one item was taken. *)
Definition advance (it : iterator) (rest : list outfile) (w : world) : world * iterator :=
  match it with
  | Some _ => (w, Some rest)
  | None => (set_self (set_report_files (Generator rest)) w, None)
  end.

Lemma next_run it w :
  next it w =
    match ahead it w with
    | [] => (w, Ret None)
    | f :: rest => ((advance it rest w).1, Ret (Some (f, (advance it rest w).2)))
    end.
Proof.
  destruct it as [[|]|]; simpl; try done. unfold bind, get. simpl.
  by destruct (report_files (self w)) as [|[|]].
Qed.

Lemma ahead_advance it rest w w' :
  self w' = self (advance it rest w).1 → ahead (advance it rest w).2 w' = rest.
Proof. destruct it; simpl; [done|]. by intros ->. Qed.

Lemma advance_log it rest w : log (advance it rest w).1 = log w.
Proof. by destruct it. Qed.

Lemma report_loop_exhausted formats it summary kw w :
  ahead it w = [] → report_loop formats it summary kw w = (w, Ret tt).
Proof.
  intros Ha. destruct formats; [done|]. cbn [report_loop]. unfold bind.
  by rewrite next_run, Ha.
Qed.

(** One turn of the loop. *)
Lemma report_loop_cons fmt formats it summary kw w f rest :
  ahead it w = f :: rest →
  report_loop (fmt :: formats) it summary kw w =
    (summary <- report fmt summary f kw ;;
     report_loop formats (advance it rest w).2 summary kw) (advance it rest w).1.
Proof. intros Ha. cbn [report_loop]. unfold bind at 1. by rewrite next_run, Ha. Qed.

(** A loop that returns has taken as many files from the generator as
    there were formats. *)
Lemma report_loop_generator formats summary kw w w1 rest :
  report_files (self w) = Generator rest →
  report_loop formats None summary kw w = (w1, Ret tt) →
  report_files (self w1) = Generator (drop (length formats) rest).
Proof.
  revert rest summary w.
  induction formats as [|fmt formats IH]; intros rest summary w Hf.
  { by intros [= <-]. }
  assert (ahead None w = rest) as Ha by (simpl; by rewrite Hf).
  destruct rest as [|f rest].
  { rewrite report_loop_exhausted by done. by intros [= <-]. }
  rewrite (report_loop_cons _ _ _ _ _ _ f rest) by done. unfold bind.
  pose proof (report_keeps_self fmt summary f kw (advance None rest w).1) as Hk.
  destruct (report fmt summary f kw _) as [w2 [s|]]; simpl in *; [|done].
  apply IH. by rewrite Hk.
Qed.

(** The rule of the loop: a property of the events that every report which
    returns establishes, from a property of the summary that it hands on,
    holds of the events of the loop, which are those of a prefix of the pairs
    of [zip], in their order, and of all of them when the loop returns. *)
Section rule.
Context (Q : value → Prop) (P : string → outfile → event → Prop) (kw : kwargs).
Context (Hstep : ∀ fmt summary f w w' s,
  Q summary → report fmt summary f kw w = (w', Ret s) →
  Q s ∧ ∃ e, log w' = log w ++ [e] ∧ P fmt f e).

Lemma report_loop_rule formats it summary w w' o :
  Q summary → report_loop formats it summary kw w = (w', o) →
  ∃ events, log w' = log w ++ events
    ∧ Forall2 (λ ff e, P ff.1 ff.2 e)
        (take (length events) (zip formats (ahead it w))) events
    ∧ (o = Ret tt → length events = length (zip formats (ahead it w))).
Proof.
  revert it summary w. induction formats as [|fmt formats IH]; intros it summary w HQ.
  { intros [= <- <-]. exists []. by rewrite app_nil_r. }
  destruct (ahead it w) as [|f rest] eqn:Ha.
  { rewrite report_loop_exhausted by done. intros [= <- <-]. exists [].
    by rewrite app_nil_r. }
  rewrite (report_loop_cons _ _ _ _ _ _ f rest) by done. unfold bind.
  pose proof (report_keeps_self fmt summary f kw (advance it rest w).1) as Hk.
  pose proof (report_event fmt summary f kw (advance it rest w).1) as He.
  destruct (report fmt summary f kw _) as [w2 [s|e]] eqn:Hr; simpl in *.
  - destruct (Hstep _ _ _ _ _ _ HQ Hr) as (HQ' & e & Hlog & Hw).
    rewrite advance_log in Hlog.
    intros (events & Hlog' & Hall & Hlen)%(IH _ _ _ HQ').
    rewrite ahead_advance in Hall, Hlen by done.
    exists (e :: events). split_and!.
    + by rewrite Hlog', Hlog, <- app_assoc.
    + simpl. by constructor.
    + intros Ho. simpl. by rewrite Hlen.
  - intros [= <- <-]. exists []. rewrite (He _ _ eq_refl), advance_log, app_nil_r.
    by split_and!.
Qed.
End rule.

(** Whatever the loop answers, it has reported a prefix of the pairs of
    [zip], in their order, and all of them when it returns. *)
Lemma report_loop_events formats it summary kw w w' o :
  report_loop formats it summary kw w = (w', o) →
  ∃ events, log w' = log w ++ events
    ∧ Forall2 (λ ff e, writes ff.1 ff.2 e = true)
        (take (length events) (zip formats (ahead it w))) events
    ∧ (o = Ret tt → length events = length (zip formats (ahead it w))).
Proof.
  apply (report_loop_rule (λ _, True) (λ fmt f e, writes fmt f e = true)); [|done].
  intros fmt s f w0 w1 s1 _ Hr. split; [done|]. apply (report_event _ _ _ _ _ _ _ Hr).
Qed.

(** What an event says of the summary it reports: a dump holds the object
    itself, a print the rendering of the template of its format. *)
Definition payload_text (p : payload) : string :=
  match p with
  | Text s | BytesRepr s => s
  end.

Definition carries (fmt : string) (kw : kwargs) (summary : value) (e : event) : Prop :=
  match e with
  | Dumped _ obj _ _ _ => obj = summary
  | Printed p _ =>
      ∃ paths template,
        get_template paths (template_globals kw) (template_for fmt kw) = Some template
        ∧ render template summary = Ret (payload_text p)
  | PrettyPrinted v _ => v = summary
  end.

(** A report of a summary that [simplify] leaves as it is hands the same
    summary on, and its event carries it. *)
Lemma report_carries fmt summary f kw w w' s :
  simplify recursion_limit summary = Ret summary →
  report fmt summary f kw w = (w', Ret s) →
  s = summary ∧ ∃ e, log w' = log w ++ [e] ∧ writes fmt f e = true ∧ carries fmt kw summary e.
Proof.
  intros Hfix Hr. pose proof (report_event _ _ _ _ _ _ _ Hr) as (e & Hlog & Hw).
  pose proof (report_summary _ _ _ _ _ _ _ Hr) as Hs.
  assert (s = summary) as -> by (repeat case_bool_decide; congruence).
  split; [done|]. exists e. split_and!; [done..|]. revert Hr Hlog.
  unfold report. repeat case_bool_decide; py_unfold; rewrite ?Hfix; simpl.
  1,2: rewrite serialize_run; repeat case_match; intros; simplify_list_eq; done.
  unfold generate_text_report. rewrite generate_from_template_run.
  destruct (searched_frame w) as (_ & Hl & _).
  repeat case_match; intros; simplify_list_eq; try done.
  rewrite Hl in *. simplify_list_eq. unfold printed. simpl.
  eexists _, _. split; [done|]. by destruct (is_path f).
Qed.

Lemma report_loop_carries formats it summary kw w w' o :
  simplify recursion_limit summary = Ret summary →
  report_loop formats it summary kw w = (w', o) →
  ∃ events, log w' = log w ++ events
    ∧ Forall2 (λ ff e, writes ff.1 ff.2 e = true ∧ carries ff.1 kw summary e)
        (take (length events) (zip formats (ahead it w))) events
    ∧ (o = Ret tt → length events = length (zip formats (ahead it w))).
Proof.
  intros Hfix.
  apply (report_loop_rule (λ s, s = summary)
           (λ fmt f e, writes fmt f e = true ∧ carries fmt kw summary e)); [|done].
  intros fmt s f w0 w1 s1 -> Hr. by apply report_carries.
Qed.

End loop.

(** ** On a healthy platform every file gets its report *)

(** A summary that JSON and YAML can take: [simplify] returns, and what it
    returns has no tuple left as a key. *)
Definition reportable `{Platform} (v : value) : Prop :=
  ∃ s, simplify recursion_limit v = Ret s ∧ encodable s = true.

Lemma flat_reportable `{Platform} v s :
  simplify recursion_limit v = Ret s → flat v = true → reportable v.
Proof. intros Hs Hf. exists s. split; [done|]. by eapply simplify_encodable. Qed.

Lemma plain_names_parameter kw paths : plain kw paths = true → names_parameter kw = false.
Proof.
  unfold plain, names_parameter.
  by destruct (template_name kw), (template_globals kw), (others kw), paths.
Qed.

Lemma accepts_searched kw w fmt :
  accepts kw (template_paths (searched w)) fmt = accepts kw (template_paths w) fmt.
Proof.
  unfold accepts, plain, searched. destruct (is_serializer fmt); [|done].
  destruct (template_name kw), (template_globals kw), (others kw); try done.
  destruct (template_paths w) as [[|]|] eqn:Hp; simpl; by rewrite ?Hp.
Qed.

Section healthy.
Context `{Healthy}.

Lemma serialize_path obj fmt mode p kw w :
  plain kw (template_paths w) = true → (fmt ∈ TEXT_SERIALIZERS → encodable obj = true) →
  serialize obj fmt mode (Path p) kw w = (emit (Dumped fmt obj mode p kw) w, Ret tt).
Proof.
  intros Hp He.
  by rewrite serialize_run, (plain_names_parameter _ _ Hp), healthy_import,
    healthy_write, healthy_dump.
Qed.

Lemma generate_from_template_path fmt summary p kw w :
  length (others kw) = 0 →
  ∃ out, generate_from_template fmt summary (Path p) kw w
         = (emit (printed (Path p) out) (searched w), Ret tt).
Proof.
  intros Hk. rewrite generate_from_template_run, bool_decide_eq_true_2 by done.
  rewrite healthy_import. simpl.
  destruct (healthy_template (search_path w) (template_globals kw) (template_for fmt kw))
    as [tpl ->].
  destruct (healthy_render tpl summary) as [out ->]. rewrite healthy_write. by exists out.
Qed.

(** A report into a path returns, and leaves the next report a summary and
    keyword arguments that are as good. *)
Lemma report_path fmt summary p kw w :
  reportable summary → accepts kw (template_paths w) fmt = true →
  ∃ w' s, report fmt summary (Path p) kw w = (w', Ret s) ∧ reportable s
          ∧ ∀ fmt', accepts kw (template_paths w') fmt' = accepts kw (template_paths w) fmt'.
Proof.
  intros (s0 & Hs0 & He0). unfold report, accepts, is_serializer.
  case_bool_decide as Hb; [|case_bool_decide as Ht]; simpl; intros Ha; py_unfold.
  - rewrite serialize_path; [|done|]. { eexists _, _. by split_and!; [|exists s0|]. }
    by intros ?%serializers_disjoint.
  - rewrite Hs0. simpl. rewrite serialize_path by done. simpl.
    eexists _, _. split_and!; [done| |done]. exists s0. split; [|done].
    by apply simplify_again in Hs0.
  - unfold generate_text_report.
    destruct (generate_from_template_path fmt summary p kw w) as [out ->].
    { by apply bool_decide_eq_true in Ha. }
    simpl. eexists _, _. split_and!; [done|by exists s0|].
    intros fmt'. apply (accepts_searched kw w fmt').
Qed.

Lemma report_loop_returns formats it summary kw w :
  Forall (λ f, is_path f = true) (ahead it w) → reportable summary →
  Forall (λ fmt, accepts kw (template_paths w) fmt = true) formats →
  ∃ w', report_loop formats it summary kw w = (w', Ret tt).
Proof.
  revert it summary w.
  induction formats as [|fmt formats IH]; intros it summary w Hp Hs Hacc.
  { by exists w. }
  destruct (ahead it w) as [|f rest] eqn:Ha.
  { exists w. by rewrite report_loop_exhausted. }
  apply Forall_cons in Hp as [Hf Hp]. destruct f as [|p]; [done|].
  apply Forall_cons in Hacc as [Hfmt Hacc].
  rewrite (report_loop_cons _ _ _ _ _ _ (Path p) rest) by done. unfold bind.
  pose proof (report_keeps_self fmt summary (Path p) kw (advance it rest w).1) as Hk.
  destruct (report_path fmt summary p kw (advance it rest w).1 Hs)
    as (w2 & s & Hrun & Hs2 & Hacc2); [by destruct it|].
  rewrite Hrun in Hk |- *. simpl in *. apply IH; [by rewrite ahead_advance|done|].
  eapply Forall_impl; [exact Hacc|]. intros fmt' Hf'. rewrite Hacc2. by destruct it.
Qed.

End healthy.

(** ** Derived data *)

Section derived.
Context `{Platform}.

(** The text that lines 71-84 build from a well-typed description of the
    input. *)
Definition describe (file_format : string) (input_read : Z)
    (colorspace interleaved delivers_qualities : bool) : string :=
  file_format
  +:+ (if (input_read =? PAIRED)%Z then ", Paired" else ", Read " +:+ pretty input_read)
  +:+ (if colorspace then ", Colorspace" else "")
  +:+ (if interleaved then ", Interleaved" else "")
  +:+ (if delivers_qualities then ", w/ Qualities" else ", w/o Qualities").

Definition input_dict (file_format : string) (input_read : Z)
    (colorspace interleaved delivers_qualities : bool) : value :=
  VDict [ (KStr "file_format", VStr file_format);
          (KStr "input_read", VInt input_read);
          (KStr "colorspace", VBool colorspace);
          (KStr "interleaved", VBool interleaved);
          (KStr "delivers_qualities", VBool delivers_qualities) ].

(** The average of one entry of [total_bp_counts]. *)
Definition average (count : Z) (bp : value) : value :=
  match bp with
  | VInt n => VFloat (inject_Z n / inject_Z count)
  | _ => VNone
  end.

Definition is_count (bp : value) : bool :=
  match bp with
  | VInt _ | VNone => true
  | _ => false
  end.

Lemma eq_int_int (n m : Z) : eq_int (VInt n) m = (n =? m)%Z.
Proof.
  unfold eq_int. simpl. unfold Qeq_bool. simpl. f_equal; lia.
Qed.

Lemma mapM_average summary (count : Z) bps :
  getitem summary "total_record_count" = Ret (VInt count) → count ≠ 0%Z →
  forallb is_count bps = true →
  mapM (λ bp, match bp with
              | VNone => Ret VNone
              | _ => c ← getitem summary "total_record_count"; truediv bp c
              end) bps = Ret (average count <$> bps).
Proof.
  intros Hc Hne. induction bps as [|bp bps IH]; [done|].
  simpl. intros [Hbp Hall]%andb_true_iff. rewrite IH by done.
  destruct bp; try done. by rewrite Hc; simpl; rewrite truediv_int by done.
Qed.

Lemma mapM_zero summary c bps :
  getitem summary "total_record_count" = Ret c → eq_int c 0 = true →
  forallb is_count bps = true → existsb (λ bp, negb (is_none bp)) bps = true →
  mapM (M := outcome) (λ bp, match bp with
              | VNone => Ret VNone
              | _ => c ← getitem summary "total_record_count"; truediv bp c
              end) bps = Raise ZeroDivisionError.
Proof.
  intros Hc Hz. unfold eq_int in Hz. destruct (number c) as [y|] eqn:Hy; [|done].
  change (Qeq_bool y 0 = true) in Hz. induction bps as [|bp bps IH]; [done|]. simpl.
  intros [Hbp Hall]%andb_true_iff. destruct bp; try done; simpl.
  - intros Hex. by rewrite IH.
  - intros _. rewrite Hc. simpl. unfold truediv. simpl. by rewrite Hy, Hz.
Qed.

(** The description of the input is a text. *)
Lemma input_format_text summary fmt :
  input_format summary = Ret fmt → ∃ text, fmt = VStr text.
Proof.
  unfold input_format. intros Hf.
  repeat (apply outcome_bind_Ret in Hf as (? & _ & Hf)).
  unfold iadd_text in Hf. repeat case_match; simplify_eq/=; by eexists.
Qed.

(** The averages are numbers or [None]. *)
Lemma avg_sequence_length_dictless summary avg :
  avg_sequence_length summary = Ret avg → dictless avg = true.
Proof.
  unfold avg_sequence_length. intros Ha.
  do 2 (apply outcome_bind_Ret in Ha as (? & _ & Ha)).
  apply outcome_bind_Ret in Ha as (items & Hm%mapM_Ret & [= <-]).
  rewrite dictless_tuple. apply forallb_Forall.
  induction Hm as [|bp y ? ? Hy _ IH]; constructor; [|done].
  destruct bp; simplify_eq/=; try done.
  all: apply outcome_bind_Ret in Hy as (? & _ & Hy); unfold truediv in Hy;
    repeat case_match; by simplify_eq/=.
Qed.

(** The derived data hold numbers and a text, and no dictionary. *)
Lemma derived_data_presentable summary derived :
  derived_data summary = Ret derived → is_dict derived = true ∧ presentable 1 derived.
Proof.
  unfold derived_data.
  intros (avg & Ha%avg_sequence_length_dictless
          & (fmt & [text ->]%input_format_text & [= <-])%outcome_bind_Ret)%outcome_bind_Ret.
  split; [done|]. apply presentable_dict. split; [by apply (bool_decide_unpack _)|].
  repeat (apply Forall_cons_2; [split; [done|by apply presentable_dictless]|]).
  constructor.
Qed.

End derived.

(** ** The theorems on the report generator *)

(** The world after a sequence of calls of [generate_reports], whatever each
    of them answers. *)
Definition run_calls `{Platform} (w : world) (calls : list kwargs) : world :=
  foldl (λ w kw, (generate_reports kw w).1) w calls.

Lemma run_calls_evolves `{Platform} w calls : evolves w (run_calls w calls).
Proof.
  revert w. induction calls as [|kw calls IH]; intros w; simpl; [reflexivity|].
  etrans; [apply generate_reports_evolves|apply IH].
Qed.

Section theorems.
Context `{Platform}.

(** Every generator that a program can hold is well formed: after the
    constructor and any number of calls of [generate_reports], returning or
    raising, it has at least one format, never more files than formats, the
    formats and the template path it was built with, files that were only
    consumed from the front, and a log that was only extended. *)
Theorem reports_invariant report_file formats tp summary paths calls :
  let w0 := mk_world (__init__ report_file formats tp) summary paths [] in
  wf (self (run_calls w0 calls)) ∧ evolves w0 (run_calls w0 calls).
Proof.
  intros w0. pose proof (run_calls_evolves w0 calls) as He.
  split; [|done]. apply (evolves_wf _ _ He), init_wf.
Qed.

(** What [add_derived_data] has done when it returns. *)
Lemma add_derived_data_returns w w1 :
  add_derived_data w = (w1, Ret tt) →
  ∃ derived s1,
    derived_data (BaseReportGenerator.summary w) = Ret derived
    ∧ setitem (BaseReportGenerator.summary w) "derived" derived = Ret s1
    ∧ w1 = set_summary s1 w.
Proof.
  unfold add_derived_data. py_unfold. simpl.
  destruct (derived_data _) as [derived|]; simpl; [|done].
  destruct (setitem _ _ _) as [s1|] eqn:Hset; simpl; [|done]. intros [= <-].
  by eexists _, _.
Qed.

(** [generate_reports] once the derived data are there: the loop, over the
    formats and the files of the generator as they were. *)
Lemma generate_reports_loop kw w w1 :
  add_derived_data w = (w1, Ret tt) →
  generate_reports kw w
  = report_loop (report_formats (self w)) (iter (report_files (self w)))
      (BaseReportGenerator.summary w1) kw w1
  ∧ ahead (iter (report_files (self w))) w1 = files_left (report_files (self w))
  ∧ log w1 = log w ∧ template_paths w1 = template_paths w.
Proof.
  intros Hd. unfold generate_reports, bind, get. rewrite Hd. simpl.
  apply add_derived_data_returns in Hd as (derived & s1 & _ & _ & ->). simpl.
  split_and!; try done. destruct (report_files (self w)) eqn:Hf; simpl; by rewrite ?Hf.
Qed.

(** C10: Liveness of [generate_reports] on a healthy platform: when the derived
    data can be computed, [simplify] makes of the summary something without
    tuples as keys, every format accepts the keyword arguments and the
    generator holds one path per format, the call returns, and the log is
    extended by exactly one event per format, in the order of the formats,
    each the dump or the print that reports this format to the file at its
    position. *)
Theorem generate_reports_writes_all `{!Healthy} kw w w1 :
  add_derived_data w = (w1, Ret tt) → reportable (BaseReportGenerator.summary w1) →
  Forall (λ fmt, accepts kw (template_paths w) fmt = true) (report_formats (self w)) →
  Forall (λ f, is_path f = true) (files_left (report_files (self w))) →
  length (files_left (report_files (self w))) = length (report_formats (self w)) →
  ∃ events w',
    generate_reports kw w = (w', Ret tt) ∧ log w' = log w ++ events
    ∧ length events = length (report_formats (self w))
    ∧ Forall2 (λ ff e, writes ff.1 ff.2 e = true)
        (zip (report_formats (self w)) (files_left (report_files (self w)))) events.
Proof.
  intros (Hrun & Ha & Hlog & Hpaths)%(generate_reports_loop kw) Hs Hacc Hp Hlen.
  destruct (report_loop_returns (report_formats (self w)) (iter (report_files (self w)))
              (BaseReportGenerator.summary w1) kw w1) as [w' Hret];
    [by rewrite Ha|done|by rewrite Hpaths|].
  destruct (report_loop_events _ _ _ _ _ _ _ Hret) as (events & Hl & Hall & Hn).
  rewrite Ha in Hall, Hn. specialize (Hn eq_refl).
  rewrite Hn, firstn_all in Hall. rewrite length_zip in Hn.
  exists events, w'. rewrite Hrun, Hret. split_and!; [done|congruence|lia|done].
Qed.

(** The same for a summary that is ready for every format: every event
    carries the summary with its derived data, unchanged. *)
Lemma generate_reports_carries `{!Healthy} kw w w1 :
  add_derived_data w = (w1, Ret tt) →
  is_dict (BaseReportGenerator.summary w1) = true →
  presentable recursion_limit (BaseReportGenerator.summary w1) →
  Forall (λ fmt, accepts kw (template_paths w) fmt = true) (report_formats (self w)) →
  Forall (λ f, is_path f = true) (files_left (report_files (self w))) →
  length (files_left (report_files (self w))) = length (report_formats (self w)) →
  ∃ events w',
    generate_reports kw w = (w', Ret tt) ∧ log w' = log w ++ events
    ∧ Forall2 (λ ff e, writes ff.1 ff.2 e = true
                       ∧ carries ff.1 kw (BaseReportGenerator.summary w1) e)
        (zip (report_formats (self w)) (files_left (report_files (self w)))) events.
Proof.
  intros (Hrun & Ha & Hlog & Hpaths)%(generate_reports_loop kw) Hd Hs Hacc Hp Hlen.
  destruct (presentable_simplify recursion_limit _ _ Hd Hs) as [Hfix He]; [done|].
  destruct (report_loop_returns (report_formats (self w)) (iter (report_files (self w)))
              (BaseReportGenerator.summary w1) kw w1) as [w' Hret];
    [by rewrite Ha|by eexists|by rewrite Hpaths|].
  destruct (report_loop_carries _ _ _ _ _ _ _ Hfix Hret) as (events & Hl & Hall & Hn).
  rewrite Ha in Hall, Hn. specialize (Hn eq_refl). rewrite Hn, firstn_all in Hall.
  exists events, w'. rewrite Hrun, Hret. split_and!; [done|congruence|done].
Qed.

(** C20: A generator over several files works once: a call that returns has
    used up the Python generator behind [report_files], so that every later
    call, with whatever summary and arguments, computes the derived data and
    writes nothing. *)
Theorem generator_one_shot kw w w1 rest :
  wf (self w) → report_files (self w) = Generator rest →
  generate_reports kw w = (w1, Ret tt) →
  report_files (self w1) = Generator []
  ∧ ∀ kw2 summary2, log (generate_reports kw2 (set_summary summary2 w1)).1 = log w1.
Proof.
  intros [_ Hwf] Hf. rewrite Hf in Hwf. unfold generate_reports, bind, get.
  pose proof (add_derived_data_keeps self ltac:(done) w) as Hself.
  destruct (add_derived_data w) as [w0 [[]|]]; simpl in *; [|done].
  unfold keeps in Hself. rewrite Hself, Hf. simpl. intros Hloop.
  apply (report_loop_generator _ _ _ _ _ rest) in Hloop; [|by rewrite Hself].
  rewrite drop_ge in Hloop by done. split; [done|]. intros kw2 summary2.
  pose proof (add_derived_data_keeps self ltac:(done) (set_summary summary2 w1)) as Hs2.
  pose proof (add_derived_data_keeps log ltac:(done) (set_summary summary2 w1)) as Hl2.
  destruct (add_derived_data (set_summary summary2 w1)) as [w2 [[]|]];
    unfold keeps in *; simpl in *; [|done].
  rewrite Hs2, Hloop. simpl. rewrite report_loop_exhausted; [done|].
  simpl. by rewrite Hs2, Hloop.
Qed.

Lemma report_loop_stream formats n s summary kw w :
  length formats ≤ n → existsb is_serializer formats = true →
  ∃ e, (report_loop formats (Some (replicate n (Stream s))) summary kw w).2 = Raise e.
Proof.
  revert n summary w. induction formats as [|fmt formats IH]; intros n summary w; [done|].
  destruct n as [|n]; [simpl; lia|]. cbn [replicate existsb length]. intros Hn Hex.
  rewrite (report_loop_cons _ _ _ _ _ _ (Stream s) (replicate n (Stream s))) by done.
  unfold bind. cbn [advance fst snd]. destruct (is_serializer fmt) eqn:Hfmt.
  - destruct (report_serializer_stream fmt summary s kw w Hfmt) as [e ->]. by exists e.
  - destruct (report fmt summary (Stream s) kw w) as [w2 [s2|e]]; simpl; [|by exists e].
    apply IH; [lia|done].
Qed.

(** C29: No serialized report can go to a standard stream: a generator built
    for [STDOUT] or [STDERR] with pickle, JSON or YAML among its formats
    raises in [generate_reports], because [serialize] opens its target as a
    path. *)
Theorem stream_serializer_raises report_file formats tp summary paths kw :
  report_file = STDOUT ∨ report_file = STDERR →
  existsb is_serializer (or_default formats ["txt"]) = true →
  ∃ e, (generate_reports kw
          (mk_world (__init__ report_file formats tp) summary paths [])).2 = Raise e.
Proof.
  intros Hs Hex. rewrite init_stream by done. unfold generate_reports, bind, get.
  pose proof (add_derived_data_keeps self ltac:(done)) as Hself.
  match goal with |- context [add_derived_data ?w] =>
    specialize (Hself w); destruct (add_derived_data w) as [w1 [[]|e]] end;
    simpl in *; [|by exists e].
  unfold keeps in Hself. rewrite Hself. simpl. by apply report_loop_stream.
Qed.

(** C11: Safety of [generate_reports] on every platform: whatever the call
    answers, the log is extended by reports of a prefix of the pairs of
    formats and files that [zip] forms, one event per pair and in their order,
    each the dump, the printed text (on a path) or the printed [repr] of the
    bytes (on a stream) that belongs to the format and goes to the file of its
    pair; a report that raises leaves no event, and a call that returns has
    reported every pair. *)
Theorem generate_reports_events kw w w' o :
  generate_reports kw w = (w', o) →
  let pairs := zip (report_formats (self w)) (files_left (report_files (self w))) in
  ∃ events, log w' = log w ++ events
    ∧ Forall2 (λ ff e, writes ff.1 ff.2 e = true) (take (length events) pairs) events
    ∧ (o = Ret tt → length events = length pairs).
Proof.
  unfold generate_reports, bind, get.
  pose proof (add_derived_data_keeps self ltac:(done) w) as Hself.
  pose proof (add_derived_data_keeps log ltac:(done) w) as Hlog.
  destruct (add_derived_data w) as [w1 [[]|e]]; unfold keeps in *; simpl in *.
  - intros (events & Hl & Hall & Hlen)%report_loop_events.
    assert (ahead (iter (report_files (self w1))) w1 = files_left (report_files (self w)))
      as Ha by (rewrite Hself; by destruct (report_files (self w)) eqn:Hf; simpl;
                  rewrite ?Hself, ?Hf).
    rewrite Ha, Hself in Hall, Hlen. exists events. by rewrite Hl, Hlog.
  - intros [= <- <-]. exists []. by rewrite Hlog, app_nil_r.
Qed.


(** C37: The names that a generator for several formats gives its files lead back
    to the formats: a generator built from such a name alone has exactly that
    format and that file. *)
Theorem init_roundtrip `{!PlatformLaws} report_file formats fmt tp :
  report_file ≠ STDOUT → report_file ≠ STDERR → 2 ≤ length formats →
  fmt ∈ formats →
  extsep ∉ chars fmt → sep ∉ chars fmt →
  (∃ c, c ∈ basename_chars (chars report_file) ∧ c ≠ extsep) →
  let name := report_file +:+ "." +:+ fmt in
  name ≠ STDOUT → name ≠ STDERR →
  Path name ∈ files_left (report_files (__init__ report_file (Some formats) tp))
  ∧ __init__ name None tp = mk [fmt] (Tuple [Path name]) tp.
Proof.
  intros H1 H2 Hlen Hin Hdot Hsep Hbase name Hn1 Hn2. split.
  - rewrite init_generator by done. simpl. apply list_elem_of_fmap. by exists fmt.
  - rewrite init_default_format by done. unfold name.
    by rewrite splitext_add by done.
Qed.

(** [add_derived_data] changes the summary under the key [derived] and
    nowhere else: when it returns, [derived] holds the derived data and every
    other key holds what it held; when it raises, nothing has changed; the
    generator, the template paths and the log are never touched. *)
Theorem add_derived_data_frame w :
  let '(w', o) := add_derived_data w in
  self w' = self w ∧ log w' = log w ∧ template_paths w' = template_paths w
  ∧ match o with
    | Ret _ =>
        getitem (BaseReportGenerator.summary w') "derived"
          = derived_data (BaseReportGenerator.summary w)
        ∧ ∀ name, name ≠ "derived" →
            getitem (BaseReportGenerator.summary w') name
            = getitem (BaseReportGenerator.summary w) name
    | Raise _ => w' = w
    end.
Proof.
  unfold add_derived_data. py_unfold. simpl.
  destruct (derived_data _) as [derived|]; simpl; [|done].
  destruct (setitem _ _ _) as [summary'|] eqn:Hset; simpl; [|done].
  split_and!; try done.
  - by apply (getitem_setitem_eq (BaseReportGenerator.summary w)).
  - intros name Hne. by apply (getitem_setitem_ne _ "derived" _ derived).
Qed.

(** The keyword arguments of [generate_reports] go to every report alike: a
    keyword that [generate_from_template] does not name, such as one meant
    for a serializer, makes every template format raise [TypeError] before
    it writes. *)
Theorem template_rejects_keywords fmt summary outfile kw w :
  is_serializer fmt = false → others kw ≠ [] →
  report fmt summary outfile kw w = (w, Raise TypeError).
Proof.
  unfold is_serializer, report. intros [Hb Ht]%orb_false_iff Hk. rewrite Hb, Ht.
  unfold generate_text_report. py_unfold. rewrite generate_from_template_run.
  by destruct (others kw).
Qed.

(** C33: A run without records has no report: when [total_record_count] is zero
    and some entry of [total_bp_counts] is a number, the division for the
    average length raises [ZeroDivisionError] in [generate_reports] before
    anything is written, and the summary is left as it was. *)
Theorem no_records_no_report kw w bps c :
  getitem (BaseReportGenerator.summary w) "total_bp_counts" = Ret (VTuple bps) →
  getitem (BaseReportGenerator.summary w) "total_record_count" = Ret c →
  eq_int c 0 = true →
  forallb is_count bps = true → existsb (λ bp, negb (is_none bp)) bps = true →
  generate_reports kw w = (w, Raise ZeroDivisionError).
Proof.
  intros Hb Hc Hz Hall Hex.
  unfold generate_reports, add_derived_data, derived_data, avg_sequence_length.
  py_unfold. simpl. rewrite Hb. simpl.
  by rewrite (mapM_zero _ c).
Qed.

(** The derived data of a well-typed summary: the averages are the base
    counts divided by the record count, [None] where there is no count, and
    the input format is the text [describe] builds. *)
Theorem derived_data_spec summary (count : Z) bps ff (r : Z) cs il dq :
  getitem summary "total_bp_counts" = Ret (VTuple bps) →
  getitem summary "total_record_count" = Ret (VInt count) → count ≠ 0%Z →
  forallb is_count bps = true →
  getitem summary "input" = Ret (input_dict ff r cs il dq) →
  format_value (VInt r) = pretty r →
  derived_data summary =
    Ret (VDict [ (KStr "avg_sequence_length", VTuple (average count <$> bps));
                 (KStr "input_format", VStr (describe ff r cs il dq)) ]).
Proof.
  intros Hb Hc Hne Hall Hi Hf. unfold derived_data, avg_sequence_length, input_format.
  rewrite Hb, Hi. simpl. rewrite (mapM_average _ count) by done. simpl.
  rewrite eq_int_int, Hf. unfold describe.
  destruct (r =? PAIRED)%Z, cs, il, dq; simpl;
    by rewrite ?app_assoc_text, ?app_empty_r.
Qed.

End theorems.

(** *** Witnesses and examples *)

Definition two_formats : world :=
  start (@__init__ posix "out/report" (Some ["json"; "txt"]) (Some "templates")) summary_run.

Definition three_formats : world :=
  start (@__init__ posix "out/report" (Some ["json"; "yaml"; "txt"]) (Some "templates"))
    summary_run.

Lemma generate_reports_writes_all_witness :
  ∃ events w',
    @generate_reports ideal no_kwargs two_formats = (w', Ret tt)
    ∧ log w' = events ∧ length events = 2
    ∧ Forall2 (λ ff e, writes ff.1 ff.2 e = true)
        [("json", Path "out/report.json"); ("txt", Path "out/report.txt")] events.
Proof.
  eapply (@generate_reports_writes_all ideal ideal_healthy no_kwargs two_formats).
  - vm_compute. reflexivity.
  - eexists. split; vm_compute; reflexivity.
  - by repeat constructor.
  - by repeat constructor.
  - reflexivity.
Defined.

Definition after_first_call : world :=
  (@generate_reports posix no_kwargs two_formats).1.

Lemma generator_one_shot_witness :
  report_files (self after_first_call) = Generator []
  ∧ log (@generate_reports posix no_kwargs (set_summary summary_run after_first_call)).1
    = log after_first_call.
Proof.
  destruct (@generator_one_shot posix no_kwargs two_formats after_first_call
              [Path "out/report.json"; Path "out/report.txt"]) as [Hf Hlog].
  - apply (@init_wf posix).
  - vm_compute. reflexivity.
  - vm_compute. reflexivity.
  - split; [exact Hf|apply Hlog].
Defined.

Lemma stream_serializer_raises_witness :
  ∃ e, (@generate_reports posix no_kwargs
          (mk_world (@__init__ posix "-" (Some ["txt"; "json"]) (Some "templates"))
             summary_run None [])).2 = Raise e.
Proof. apply (@stream_serializer_raises posix); [by left|reflexivity]. Defined.

Definition on_stdout : world :=
  start (@__init__ posix "-" None (Some "templates")) summary_run.

Lemma generate_reports_events_witness :
  ∃ events,
    log (@generate_reports posix no_kwargs three_formats).1 = [] ++ events
    ∧ Forall2 (λ ff e, writes ff.1 ff.2 e = true)
        (take (length events)
           [("json", Path "out/report.json"); ("yaml", Path "out/report.yaml");
            ("txt", Path "out/report.txt")]) events
    ∧ (Raise ImportError = Ret tt → length events = 3).
Proof.
  apply (@generate_reports_events posix no_kwargs three_formats _ (Raise ImportError)).
  vm_compute. reflexivity.
Defined.

Definition simplified_run : value :=
  VDict [ (KStr "total_record_count", VInt 4);
          (KStr "total_bp_counts", VTuple [VInt 400; VNone]);
          (KStr "input", VDict [ (KStr "file_format", VStr "FASTQ");
                                 (KStr "input_read", VInt 1);
                                 (KStr "colorspace", VBool false);
                                 (KStr "interleaved", VBool false);
                                 (KStr "delivers_qualities", VBool true) ]);
          (KStr "1", VDict [ (KStr "count", VInt 4) ]) ].


Lemma init_roundtrip_witness :
  Path "out/report.txt"
    ∈ files_left (report_files (@__init__ posix "out/report" (Some ["json"; "txt"]) None))
  ∧ @__init__ posix "out/report.txt" None None
    = mk ["txt"] (Tuple [Path "out/report.txt"]) None.
Proof.
  apply (@init_roundtrip posix posix_laws "out/report" ["json"; "txt"] "txt" None);
    [done|done|simpl; lia|by right; left|by apply (bool_decide_unpack _)
    |by apply (bool_decide_unpack _)| |done|done].
  exists "r"%char. split; [by apply (bool_decide_unpack _)|done].
Defined.

Lemma no_records_no_report_witness :
  @generate_reports posix no_kwargs (start (@__init__ posix "-" None None) summary_empty_run)
  = (start (@__init__ posix "-" None None) summary_empty_run, Raise ZeroDivisionError).
Proof.
  by apply (@no_records_no_report posix no_kwargs _ [VInt 0; VNone] (VInt 0)).
Defined.

Lemma derived_data_spec_witness :
  @derived_data posix summary_run =
    Ret (VDict [ (KStr "avg_sequence_length",
                  VTuple [VFloat (inject_Z 400 / inject_Z 4); VNone]);
                 (KStr "input_format", VStr "FASTQ, Read 1, w/ Qualities") ]).
Proof.
  by apply (@derived_data_spec posix summary_run 4 [VInt 400; VNone] "FASTQ" 1
              false false true).
Defined.

Lemma template_rejects_keywords_witness :
  @report posix "txt" summary_run (Path "out/report.txt")
    (mk_kwargs None None [("indent", VInt 2)]) two_formats
  = (two_formats, Raise TypeError).
Proof. by apply (@template_rejects_keywords posix). Defined.

(** No keyword suits both kinds of report: indentation for JSON stops the
    text report behind it, and a template name stops JSON. *)
Example keywords_clash :
  let indent := mk_kwargs None None [("indent", VInt 2)] in
  let named := mk_kwargs (Some "template.html") None [] in
  (@generate_reports posix indent two_formats).2 = Raise TypeError
  ∧ target <$> log (@generate_reports posix indent two_formats).1 = [Path "out/report.json"]
  ∧ (@generate_reports posix named two_formats).2 = Raise TypeError
  ∧ log (@generate_reports posix named two_formats).1 = [].
Proof. vm_compute. by repeat split. Qed.

(** After JSON every later format reports the simplified copy: the text
    report sees the key [1] as a text, where it would have seen a number had
    it come first. *)
Example leak_json_txt :
  log (@generate_reports posix no_kwargs two_formats).1
  = [ Dumped "json"
        (VDict (od_set (KStr "derived")
                  (VDict [ (KStr "avg_sequence_length",
                            VTuple [VFloat (inject_Z 400 / inject_Z 4); VNone]);
                           (KStr "input_format", VStr "FASTQ, Read 1, w/ Qualities") ])
                  match simplified_run with VDict items => items | _ => [] end))
        "t" "out/report.json" no_kwargs;
      Printed (Text "template.txt: total_record_count total_bp_counts input 1 derived")
        (Path "out/report.txt") ].
Proof. vm_compute. reflexivity. Qed.

Example txt_first_sees_numbers :
  log (@generate_reports posix no_kwargs
         (start (@__init__ posix "out/report" (Some ["txt"; "json"]) (Some "templates"))
            summary_run)).1 !! 0
  = Some (Printed
            (Text "template.txt: total_record_count total_bp_counts input <1> derived")
            (Path "out/report.txt")).
Proof. vm_compute. reflexivity. Qed.

(** PyYAML is not installed: the call raises after JSON was written, and the
    file meant for YAML is used up.  A second call pairs the first format
    with the file that is left, writes JSON into the file meant for the text
    report, and returns. *)
Example retry_misaligned :
  let w1 := (@generate_reports posix no_kwargs three_formats).1 in
  (@generate_reports posix no_kwargs three_formats).2 = Raise ImportError
  ∧ target <$> log w1 = [Path "out/report.json"]
  ∧ report_files (self w1) = Generator [Path "out/report.txt"]
  ∧ (@generate_reports posix no_kwargs w1).2 = Ret tt
  ∧ (λ e, writes "json" (Path "out/report.txt") e) <$>
      drop 1 (log (@generate_reports posix no_kwargs w1).1) = [true].
Proof. vm_compute. by repeat split. Qed.

(** The default report, text on standard output, prints the [repr] of the
    encoded bytes. *)
Example txt_to_stdout :
  log (@generate_reports posix no_kwargs on_stdout).1
  = [ Printed
        (BytesRepr "template.txt: total_record_count total_bp_counts input <1> derived")
        (Stream stdout) ].
Proof. vm_compute. reflexivity. Qed.
