(* ===== verification/Pipeline.v ===== *)
(** * Pipeline: the statistics as the reports receive them

    [ReadStatCollector.finish] and [ReadStatistics.finish] of [stats.py]
    return dictionaries, which the caller stores in the summary that
    [BaseReportGenerator.generate_reports] of [reports.py] writes out.  This
    file builds these dictionaries as values of the report model
    ([snapshot_value], [result_value]), states what the reports need of them
    as the class [Statistics], shows that the collector and the manager
    provide it, and proves against the class alone that a summary which holds
    the statistics goes through [generate_reports] unchanged, on a platform
    on which nothing fails.  [collector_reported] and [manager_reported]
    follow the reads of a run from [collect], respectively [pre_trim], to
    the files.  The dictionary of [Filters.summarize] of [filters.py] takes
    the same way ([summary_value]): the filter chain is a third instance of
    the class, and [filters_reported] follows the pairs of a run from
    [filter] to the files.

    The wide table of [tile_sequence_qualities] is [NestedDict.flatten] of
    [Counting], which follows the specification. *)

From Stdlib Require Import Ascii QArith.
From stdpp Require Import gmap strings list pretty.
From S2P Require Import Prelude Reads Predicates Wrappers Chain Runs.
From S2P Require Import Counting Dicts Collector Manager.
From S2P Require Import Texts Values Simplify Reports.

#[local] Open Scope py_scope.

(** ** The values that [finish] builds *)

Section values.
Import ReadStatCollector.

Definition int_value (n : nat) : value := VInt (Z.of_nat n).

(** [sorted_items()]: a sequence of pairs. *)
Definition pairs_value (l : list (nat * nat)) : value :=
  VTuple ((λ kv, VTuple [int_value kv.1; int_value kv.2]) <$> l).

(** A column of a header: the key itself, or the Phred score of a quality. *)
Definition header_value (h : header_key) : value :=
  match h with
  | HKey c => VStr (String c "")
  | HQual q => VInt q
  end.

(** A flattened table [(header, rows)]: a row is the tuple of its labels,
    the position and perhaps the tile, followed by its counts. *)
Definition table_value {H L} (head : H → value) (label : L → list value)
    (tbl : list H * list (L * list nat)) : value :=
  VTuple [ VTuple (head <$> tbl.1);
           VTuple ((λ row, VTuple (label row.1 ++ (int_value <$> row.2))) <$> tbl.2) ].

Definition at_position (i : nat) : list value := [int_value i].

Definition at_position_tile (it : nat * string) : list value :=
  [int_value it.1; VStr it.2].

Definition at_tile (tile : string) : list value := [VStr tile].

(** A key that is set only under a condition. *)
Definition entry {A} (name : string) (f : A → value) (x : option A) : dict :=
  match x with
  | Some a => [(KStr name, f a)]
  | None => []
  end.

(** The dictionary of [ReadStatCollector.finish]: four keys always, the
    others in the order in which they are assigned. *)
Definition snapshot_value (snap : snapshot) : value :=
  VDict ([ (KStr "count", int_value (snap_count snap));
           (KStr "length", pairs_value (snap_length snap));
           (KStr "gc", pairs_value (snap_gc snap));
           (KStr "bases", table_value header_value at_position (snap_bases snap)) ]
         ++ entry "qualities" pairs_value (snap_qualities snap)
         ++ entry "base_qualities" (table_value header_value at_position)
              (snap_base_qualities snap)
         ++ entry "tile_base_qualities" (table_value header_value at_position_tile)
              (snap_tile_base_qualities snap)
         ++ entry "tile_sequence_qualities"
              (λ d, table_value int_value at_tile (NestedDict.flatten d))
              (snap_tile_sequence_qualities snap)).

(** [dict(('read{}'.format(read), stats.finish()) for ...)]. *)
Definition reads_value (snaps : list (nat * snapshot)) : value :=
  VDict (foldl (λ d ns, od_set (KStr ("read" +:+ pretty ns.1)) (snapshot_value ns.2) d)
           [] snaps).

(** The dictionary of [ReadStatistics.finish]; [dest_key] is the destination
    as a key of a dictionary. *)
Definition result_value {D} (dest_key : D → key) (res : ReadStatistics.result D) : value :=
  VDict (entry "pre" reads_value (ReadStatistics.result_pre res)
         ++ entry "post"
              (λ d, VDict (foldl (λ acc kv, od_set (dest_key kv.1) (reads_value kv.2) acc)
                             [] d))
              (ReadStatistics.result_post res)).

(** [dict(records_filtered=self.filtered)], as a value. *)
Definition counter_value (d : list (string * nat)) : value :=
  VDict ((λ kv, (KStr kv.1, int_value kv.2)) <$> d).

(** The dictionary of [Filters.summarize], as a value. *)
Definition summary_value (d : list (string * list (string * nat))) : value :=
  VDict ((λ kv, (KStr kv.1, counter_value kv.2)) <$> d).

End values.

(** ** What the reports need of the statistics *)

(** A producer of statistics: the method that ends a run, the dictionary it
    returns as a value, and the promise that this value is a dictionary that
    every report format can take as it is, nesting [stats_layers] deep at
    most. *)
Class Statistics (State A : Type) : Type := {
  stats_finish : Py State A;
  stats_value : A → value;
  stats_layers : nat;
  stats_dict s s' a : stats_finish s = (s', Ret a) → is_dict (stats_value a) = true;
  stats_presentable s s' a :
    stats_finish s = (s', Ret a) → presentable stats_layers (stats_value a);
}.

(** ** The collector and the manager provide it *)

Section producers.
Import ReadStatCollector.

Lemma dictless_pairs_value l : dictless (pairs_value l) = true.
Proof.
  unfold pairs_value. rewrite dictless_tuple. apply forallb_Forall, Forall_fmap.
  by apply Forall_true.
Qed.

Lemma dictless_header_value h : dictless (header_value h) = true.
Proof. by destruct h. Qed.

Lemma dictless_table_value {H L} (head : H → value) (label : L → list value) tbl :
  (∀ h, dictless (head h) = true) → (∀ l, forallb dictless (label l) = true) →
  dictless (table_value head label tbl) = true.
Proof.
  intros Hh Hl. unfold table_value. rewrite dictless_tuple. cbn [forallb].
  rewrite !dictless_tuple, !andb_true_iff. split_and!; [| |done].
  - apply forallb_Forall, Forall_fmap. by apply Forall_true.
  - apply forallb_Forall, Forall_fmap, Forall_true. intros row. cbn beta.
    unfold compose. rewrite dictless_tuple, forallb_app, Hl. cbn [andb].
    apply forallb_Forall, Forall_fmap. by apply Forall_true.
Qed.

Lemma entry_presentable {A} n name (f : A → value) x :
  (∀ a, dictless (f a) = true) →
  Forall (λ kv, is_text_key kv.1 = true ∧ presentable n kv.2) (entry name f x).
Proof.
  intros Hf. destruct x as [a|]; [|constructor].
  apply Forall_cons_2; [|constructor]. split; [done|apply presentable_dictless, Hf].
Qed.

(** Every snapshot is a dictionary of distinct texts to numbers and tables,
    whichever of the optional keys are there. *)
Lemma snapshot_presentable snap : presentable 1 (snapshot_value snap).
Proof.
  apply presentable_dict. split.
  { destruct (snap_qualities snap), (snap_base_qualities snap),
      (snap_tile_base_qualities snap), (snap_tile_sequence_qualities snap);
      by apply (bool_decide_unpack _). }
  rewrite !Forall_app. split_and!.
  - repeat (apply Forall_cons_2; [split; [done|apply presentable_dictless]|]);
      [done|apply dictless_pairs_value..| |constructor].
    by apply dictless_table_value; [apply dictless_header_value|].
  - apply entry_presentable, dictless_pairs_value.
  - apply entry_presentable. intros tbl.
    by apply dictless_table_value; [apply dictless_header_value|].
  - apply entry_presentable. intros tbl.
    by apply dictless_table_value; [apply dictless_header_value|].
  - apply entry_presentable. intros d. by apply dictless_table_value.
Qed.

(** A dictionary built by assignments under texts. *)
Lemma assigned_presentable {A} n (name : A → string) (f : A → value) (l : list A) acc :
  (∀ a, presentable n (f a)) → presentable (S n) (VDict acc) →
  presentable (S n) (VDict (foldl (λ d a, od_set (KStr (name a)) (f a) d) acc l)).
Proof.
  intros Hf. revert acc. induction l as [|a l IH]; intros acc Hacc; [done|].
  simpl. by apply IH, presentable_set.
Qed.

Lemma empty_presentable n : presentable (S n) (VDict []).
Proof. apply presentable_dict. split; constructor. Qed.

Lemma reads_presentable snaps : presentable 2 (reads_value snaps).
Proof.
  apply (assigned_presentable 1 (λ ns, "read" +:+ pretty ns.1) (λ ns, snapshot_value ns.2));
    [intros; apply snapshot_presentable|apply empty_presentable].
Qed.

Lemma result_presentable {D} (dest_key : D → key) (res : ReadStatistics.result D) :
  ReadStatistics.result_post res = None ∨ ReadStatistics.result_post res = Some [] →
  presentable 3 (result_value dest_key res).
Proof.
  intros Hpost. apply presentable_dict. unfold result_value.
  split.
  - destruct (ReadStatistics.result_pre res), (ReadStatistics.result_post res);
      by apply (bool_decide_unpack _).
  - apply Forall_app. split.
    + destruct (ReadStatistics.result_pre res); [|constructor].
      apply Forall_cons_2; [|constructor]. split; [done|apply reads_presentable].
    + destruct Hpost as [-> | ->]; [constructor|].
      apply Forall_cons_2; [|constructor]. split; [done|].
      by apply (presentable_mono 1); [lia|apply empty_presentable].
Qed.

#[export] Instance collector_statistics : Statistics ReadStatCollector.t snapshot := {|
  stats_finish := ReadStatCollector.finish;
  stats_value := snapshot_value;
  stats_layers := 1;
  stats_dict _ _ _ _ := eq_refl;
  stats_presentable _ _ snap _ := snapshot_presentable snap;
|}.

#[export] Instance manager_statistics `{EqDecision D} (dest_key : D → key)
    : Statistics (ReadStatistics.t D) (ReadStatistics.result D) := {|
  stats_finish := ReadStatistics.finish;
  stats_value := result_value dest_key;
  stats_layers := 3;
  stats_dict _ _ _ _ := eq_refl;
  stats_presentable s s' res Hrun :=
    result_presentable dest_key res (finish_returns_post s s' res Hrun);
|}.

End producers.

(** ** The filter chain provides it as well *)

Section filter_summary.
Context `{EqDecision Cls} `{FilterClass Cls Args F} `{!ReadFilter F}.
Implicit Types (self : Filters.t Cls F) (w : Wrapper.t F).

(** A dictionary under distinct texts whose values are ready is ready. *)
Lemma texts_presentable {A} n (f : A → value) (d : list (string * A)) :
  NoDup d.*1 → Forall (λ kv, presentable n (f kv.2)) d →
  presentable (S n) (VDict ((λ kv, (KStr kv.1, f kv.2)) <$> d)).
Proof.
  intros Hnd Hall. apply presentable_dict. split.
  - assert (((λ kv, (KStr kv.1, f kv.2)) <$> d).*1 = (λ s, KStr s) <$> d.*1) as ->
      by (by rewrite <- !list_fmap_compose).
    assert (Inj (=) (=) (λ s, KStr s)) by (by intros s1 s2 [= ->]).
    by apply (NoDup_fmap_2 _).
  - apply Forall_fmap. eapply Forall_impl; [exact Hall|]. by intros [name a].
Qed.

Lemma counter_presentable n w : presentable (S n) (counter_value (FilterWrapper.summarize w)).
Proof.
  apply (texts_presentable n int_value [("records_filtered"%string, Wrapper.filtered w)]).
  - apply NoDup_singleton.
  - apply Forall_cons_2; [by apply presentable_dictless|constructor].
Qed.

(** [summarize] files every summary under a name of its own. *)
Lemma summarize_entries self :
  NoDup (Filters.summarize self).*1
  ∧ Forall (λ kv, ∃ w, kv.2 = FilterWrapper.summarize w) (Filters.summarize self).
Proof.
  unfold Filters.summarize.
  assert (NoDup ([] : list (string * list (string * nat))).*1
          ∧ Forall (λ kv, ∃ w : Wrapper.t F, kv.2 = FilterWrapper.summarize w)
              ([] : list (string * list (string * nat)))) as Hacc
    by (split; constructor).
  revert Hacc. generalize ([] : list (string * list (string * nat))).
  induction (Filters.filters self) as [|[k w] items IH]; intros acc [Hnd Hall]; [done|].
  simpl. apply IH. split; [by apply od_set_NoDup|].
  apply od_set_Forall; [by exists w|done].
Qed.

Lemma summary_presentable self : presentable 2 (summary_value (Filters.summarize self)).
Proof.
  destruct (summarize_entries self) as [Hnd Hall].
  apply (texts_presentable 1 counter_value); [done|].
  eapply Forall_impl; [exact Hall|]. intros kv [w ->]. apply counter_presentable.
Qed.

Lemma summarize_presentable self self' d :
  (self, Ret (Filters.summarize self)) = (self', Ret d) → presentable 2 (summary_value d).
Proof. intros [= _ <-]. apply summary_presentable. Qed.

#[export] Instance filters_statistics
    : Statistics (Filters.t Cls F) (list (string * list (string * nat))) := {|
  stats_finish self := (self, Ret (Filters.summarize self));
  stats_value := summary_value;
  stats_layers := 2;
  stats_dict _ _ _ _ := eq_refl;
  stats_presentable := summarize_presentable;
|}.
End filter_summary.

(** ** The reports of a summary that holds statistics *)

Section client.
Context `{Platform} `{!Healthy} `{Stats : Statistics State A}.
Import BaseReportGenerator.

(** [summary[name] = stats.finish()], on the entries that the caller has
    put into the summary. *)
Definition with_statistics (name : string) (a : A) (base : dict) : value :=
  VDict (od_set (KStr name) (stats_value a) base).

Lemma with_statistics_presentable n name base s s' a :
  stats_finish s = (s', Ret a) → presentable (S n) (VDict base) → stats_layers ≤ n →
  presentable (S n) (with_statistics name a base).
Proof.
  intros Hrun Hbase Hn. apply presentable_set; [done|].
  eapply presentable_mono; [done|]. by eapply stats_presentable.
Qed.

(** The summary once the derived data are there. *)
Lemma derived_presentable n name base s s' a w w1 :
  stats_finish s = (s', Ret a) → summary w = with_statistics name a base →
  presentable (S n) (VDict base) → stats_layers ≤ n → 1 ≤ n →
  add_derived_data w = (w1, Ret tt) →
  is_dict (summary w1) = true ∧ presentable (S n) (summary w1)
  ∧ (name ≠ "derived" → getitem (summary w1) name = Ret (stats_value a)).
Proof.
  intros Hrun Hw Hbase Hn Hone (derived & s1 & Hd & Hset & ->)%add_derived_data_returns.
  apply derived_data_presentable in Hd as [_ Hd]. simpl. split_and!.
  - rewrite Hw in Hset. by injection Hset as <-.
  - rewrite Hw in Hset. injection Hset as <-. apply presentable_set.
    + by eapply with_statistics_presentable.
    + by eapply presentable_mono.
  - intros Hne. rewrite (getitem_setitem_ne _ _ _ _ _ (not_eq_sym Hne) Hset), Hw.
    simpl. by rewrite od_get_set_eq.
Qed.

(** Proved against the class: a summary that holds the statistics of any
    producer under a name, next to entries that are ready themselves, is
    reported to every file, and every event carries the summary with the
    derived data added and the statistics as they were returned. *)
Lemma statistics_reported name base s s' a kw w w1 :
  stats_finish s = (s', Ret a) → summary w = with_statistics name a base →
  presentable recursion_limit (VDict base) →
  stats_layers < recursion_limit → 1 < recursion_limit →
  add_derived_data w = (w1, Ret tt) →
  Forall (λ fmt, accepts kw (template_paths w) fmt = true) (report_formats (self w)) →
  Forall (λ f, is_path f = true) (files_left (report_files (self w))) →
  length (files_left (report_files (self w))) = length (report_formats (self w)) →
  ∃ events w',
    generate_reports kw w = (w', Ret tt) ∧ log w' = log w ++ events
    ∧ Forall2 (λ ff e, writes ff.1 ff.2 e = true ∧ carries ff.1 kw (summary w1) e)
        (zip (report_formats (self w)) (files_left (report_files (self w)))) events
    ∧ (name ≠ "derived" → getitem (summary w1) name = Ret (stats_value a)).
Proof.
  intros Hrun Hw Hbase Hn Hone Hd Hacc Hp Hlen.
  destruct recursion_limit as [|n] eqn:Hlimit; [lia|].
  destruct (derived_presentable n name base s s' a w w1) as (Hdict & Hs & Hget);
    [done..|lia|lia|done|].
  destruct (generate_reports_carries kw w w1) as (events & w' & ? & ? & ?);
    [done|done|by rewrite Hlimit|done..|].
  by exists events, w'.
Qed.

End client.

(** ** A run, from the reads to the files *)

Section run.
Context `{Platform} `{!Healthy}.
Import ReadStatCollector BaseReportGenerator.

(** C13: From the reads to the files.  Whatever reads a collector was fed, and
    whichever of the calls raised, its snapshot stored in a summary under a
    name, next to entries that are ready for every format, is reported: on a
    platform on which nothing fails [generate_reports] returns, it leaves one
    event per format, in order, each of which writes its file and carries
    the summary with the derived data, and the count that the reports carry
    under that name is the number of reads that had bases. *)
Theorem collector_reported q re records name base kw w w1 :
  let snap := snapshot_of (feed records (ReadStatCollector.__init__ q re)) in
  summary w = VDict (od_set (KStr name) (snapshot_value snap) base) →
  presentable recursion_limit (VDict base) → 1 < recursion_limit →
  add_derived_data w = (w1, Ret tt) → name ≠ "derived" →
  Forall (λ fmt, accepts kw (template_paths w) fmt = true) (report_formats (self w)) →
  Forall (λ f, is_path f = true) (files_left (report_files (self w))) →
  length (files_left (report_files (self w))) = length (report_formats (self w)) →
  ∃ events w',
    generate_reports kw w = (w', Ret tt) ∧ log w' = log w ++ events
    ∧ Forall2 (λ ff e, writes ff.1 ff.2 e = true ∧ carries ff.1 kw (summary w1) e)
        (zip (report_formats (self w)) (files_left (report_files (self w)))) events
    ∧ (getitem (summary w1) name ≫= λ stats, getitem stats "count")
      = Ret (int_value (length (filter (λ r, has_bases r = true) records))).
Proof.
  intros snap Hw Hbase Hlimit Hd Hname Hacc Hp Hlen.
  pose proof (reachable_feed records _ (reachable_init q re)) as Hs.
  destruct (finish_snapshot_of _ Hs) as [Hrun Hcount]. fold snap in Hrun, Hcount.
  destruct (statistics_reported (Stats := collector_statistics)
              name base _ _ snap kw w w1 Hrun)
    as (events & w' & ? & ? & ? & Hget); [done..|].
  exists events, w'. split_and!; [done..|]. rewrite (Hget Hname). simpl.
  rewrite Hcount. f_equal. f_equal.
  destruct (feed_reachable_totals records _ (reachable_init q re)) as [-> _].
  by destruct (init_totals q re) as [-> _].
Qed.

(** The number of reads in the result of a manager with one collector. *)
Lemma result_count {D} (dest_key : D → key) (res : ReadStatistics.result D) snap :
  ReadStatistics.result_pre res = Some [(1, snap)] →
  (getitem (result_value dest_key res) "pre" ≫= λ pre,
   getitem pre "read1" ≫= λ read1, getitem read1 "count")
  = Ret (int_value (snap_count snap)).
Proof. intros Hpre. unfold result_value. by rewrite Hpre. Qed.

(** C12: From the records to the files, through the manager.  Whatever
    single-end records a manager with a [pre] phase was given, and whichever
    calls raised, what its [finish] returns, stored in a summary under a
    name next to entries that are ready for every format, is reported: on a
    platform on which nothing fails [generate_reports] returns, it leaves one
    event per format, in order, each of which writes its file and carries
    the summary with the derived data, and the reports carry, under that
    name, [pre] and [read1], as [count] the number of reads that had
    bases. *)
Theorem manager_reported `{EqDecision D} (dest_key : D → key) getitem_read mode kwargs
    reads name base kw w w1 :
  let m := pre_run getitem_read (One <$> reads)
             (ReadStatistics.__init__ (D := D) mode false kwargs) in
  mode ∈ ["pre"; "both"]%string →
  summary w = VDict (od_set (KStr name) (result_value dest_key (result_of m)) base) →
  presentable recursion_limit (VDict base) → 3 < recursion_limit →
  add_derived_data w = (w1, Ret tt) → name ≠ "derived" →
  Forall (λ fmt, accepts kw (template_paths w) fmt = true) (report_formats (self w)) →
  Forall (λ f, is_path f = true) (files_left (report_files (self w))) →
  length (files_left (report_files (self w))) = length (report_formats (self w)) →
  ∃ events w',
    generate_reports kw w = (w', Ret tt) ∧ log w' = log w ++ events
    ∧ Forall2 (λ ff e, writes ff.1 ff.2 e = true ∧ carries ff.1 kw (summary w1) e)
        (zip (report_formats (self w)) (files_left (report_files (self w)))) events
    ∧ (getitem (summary w1) name ≫= λ stats, getitem stats "pre" ≫= λ pre,
       getitem pre "read1" ≫= λ read1, getitem read1 "count")
      = Ret (int_value (length (filter (λ r, has_bases r = true) reads))).
Proof.
  intros m Hm Hw Hbase Hlimit Hd Hname Hacc Hp Hlen.
  set (c := ReadStatCollector.__init__ (ReadStatistics.arg_qualities kwargs)
              (ReadStatistics.arg_tile_key_regexp kwargs)).
  pose proof (reachable_feed reads c (reachable_init _ _)) as Hc.
  assert (m = ReadStatistics.set_pre (Some [feed reads c])
                (ReadStatistics.__init__ mode false kwargs)) as Em.
  { apply pre_run_single; [apply init_paired|by apply init_pre]. }
  destruct (finish_single m (feed reads c) Hc) as [Hfin Hpre];
    [by rewrite Em|rewrite Em; apply init_post|].
  destruct (statistics_reported (Stats := manager_statistics dest_key)
              name base m (ReadStatistics.finish m).1 (result_of m) kw w w1)
    as (events & w' & ? & ? & ? & Hget); [|done|done|exact Hlimit|lia|done..|].
  { simpl. rewrite <- Hfin. by destruct (ReadStatistics.finish m). }
  exists events, w'. split_and!; [done..|]. rewrite (Hget Hname).
  etrans; [apply (result_count dest_key _ _ Hpre)|].
  destruct (finish_snapshot_of _ Hc) as [_ ->].
  destruct (feed_reachable_totals reads c (reachable_init _ _)) as [-> _].
  unfold c. by destruct (init_totals (ReadStatistics.arg_qualities kwargs)
                           (ReadStatistics.arg_tile_key_regexp kwargs)) as [-> _].
Qed.

End run.

(** ** A run of the filter chain, from the pairs to the files *)

Section filter_run.
Context `{Platform} `{!Healthy}.
Import BaseReportGenerator.

(** C16: From the pairs to the files, through the filter chain.  For every
    chain that a program has built with [add_filter], after a run over any
    pairs, the dictionary that [summarize] returns, stored in a summary
    under a name next to entries that are ready for every format, is
    reported: on a platform on which nothing fails [generate_reports]
    returns, it leaves one event per format, in order, each of which writes
    its file and carries the summary with the derived data, and under that
    name the reports carry one dictionary per configured class, in
    configuration order, under the display name of the class, whose
    [records_filtered] is the number of pairs the class discarded among
    those that every class before it kept. *)
Theorem filters_reported pairs (chain : Filters.t filter_type AnyFilter.t)
    name base kw w w1 :
  built chain →
  summary w = VDict (od_set (KStr name)
                       (summary_value (Filters.summarize (filter_all pairs chain).1)) base) →
  presentable recursion_limit (VDict base) → 2 < recursion_limit →
  add_derived_data w = (w1, Ret tt) → name ≠ "derived" →
  Forall (λ fmt, accepts kw (template_paths w) fmt = true) (report_formats (self w)) →
  Forall (λ f, is_path f = true) (files_left (report_files (self w))) →
  length (files_left (report_files (self w))) = length (report_formats (self w)) →
  ∃ events w',
    generate_reports kw w = (w', Ret tt) ∧ log w' = log w ++ events
    ∧ Forall2 (λ ff e, writes ff.1 ff.2 e = true ∧ carries ff.1 kw (summary w1) e)
        (zip (report_formats (self w)) (files_left (report_files (self w)))) events
    ∧ getitem (summary w1) name
      = Ret (VDict ((λ kw, (KStr (display_name kw.1),
                            VDict [(KStr "records_filtered",
                                    int_value (Wrapper.filtered kw.2))]))
                      <$> credited (Filters.filters chain) pairs)).
Proof.
  intros Hb Hw Hbase Hlimit Hd Hname Hacc Hp Hlen.
  set (chain' := (filter_all pairs chain).1) in *.
  destruct (statistics_reported (Stats := filters_statistics)
              name base chain' chain' (Filters.summarize chain') kw w w1)
    as (events & w' & ? & ? & ? & Hget); [done|done|done|exact Hlimit|lia|done..|].
  exists events, w'. split_and!; [done..|]. rewrite (Hget Hname). simpl.
  unfold chain'. rewrite built_summarize by done.
  unfold summary_value. by rewrite <- list_fmap_compose.
Qed.
End filter_run.

(** ** Witnesses and examples *)

Section examples.
Import ReadStatCollector BaseReportGenerator.

(** What the caller knows of a run of three reads, one of them empty. *)
Definition base_run : dict :=
  [ (KStr "total_record_count", VInt 2);
    (KStr "total_bp_counts", VTuple [VInt 8; VNone]);
    (KStr "input", input_dict "FASTQ" 1 false false true) ].

Definition reads_run : list Read.t := [read_tile; read_empty; read_other].

(** The summary of the run with the snapshot of a collector that tracks
    tiles, and a generator for two formats. *)
Definition world_run : world :=
  start (@__init__ ideal "out/report" (Some ["json"; "txt"]) (Some "templates"))
    (VDict (od_set (KStr "pre")
              (snapshot_value (snapshot_of (feed reads_run (ReadStatCollector.__init__ None None))))
              base_run)).

Lemma collector_reported_witness :
  ∃ events w',
    @generate_reports ideal no_kwargs world_run = (w', Ret tt)
    ∧ log w' = log world_run ++ events
    ∧ Forall2 (λ ff e, writes ff.1 ff.2 e = true
                       ∧ @carries ideal ff.1 no_kwargs
                           (summary (@add_derived_data ideal world_run).1) e)
        [("json", Path "out/report.json"); ("txt", Path "out/report.txt")] events
    ∧ (getitem (summary (@add_derived_data ideal world_run).1) "pre"
         ≫= λ stats, getitem stats "count") = Ret (int_value 2).
Proof.
  apply (@collector_reported ideal ideal_healthy None None reads_run "pre" base_run
           no_kwargs world_run (@add_derived_data ideal world_run).1).
  - reflexivity.
  - split; [by vm_compute..|vm_compute; lia].
  - vm_compute; lia.
  - by vm_compute.
  - done.
  - by repeat constructor.
  - by repeat constructor.
  - reflexivity.
Defined.

(** The tables as JSON gets them: the header of the bases in bases order,
    and one row per position, the position first. *)
Example reported_bases :
  ∃ obj mode kw rest,
    log (@generate_reports ideal no_kwargs world_run).1
    = Dumped "json" obj mode "out/report.json" kw :: rest
    ∧ (getitem obj "pre" ≫= λ stats, getitem stats "bases")
      = Ret (VTuple [ VTuple [VStr "A"; VStr "C"; VStr "G"; VStr "T"];
                      VTuple [ VTuple [VInt 1; VInt 0; VInt 0; VInt 2; VInt 0];
                               VTuple [VInt 2; VInt 0; VInt 1; VInt 1; VInt 0];
                               VTuple [VInt 3; VInt 1; VInt 1; VInt 0; VInt 0];
                               VTuple [VInt 4; VInt 1; VInt 0; VInt 0; VInt 1] ] ]).
Proof. eexists _, _, _, _. split; by vm_compute. Qed.

(** A manager for single-end reads before trimming, fed the three reads. *)
Definition manager_run : ReadStatistics.t string :=
  pre_run read_getitem (One <$> reads_run)
    (ReadStatistics.__init__ "pre" false (ReadStatistics.mk_args None None)).

(** The summary of the run with what the manager returns, and a generator
    for two formats. *)
Definition world_manager : world :=
  start (@__init__ ideal "out/report" (Some ["json"; "txt"]) (Some "templates"))
    (VDict (od_set (KStr "stats") (result_value (λ d, KStr d) (result_of manager_run))
              base_run)).

Lemma manager_reported_witness :
  ∃ events w',
    @generate_reports ideal no_kwargs world_manager = (w', Ret tt)
    ∧ log w' = log world_manager ++ events
    ∧ Forall2 (λ ff e, writes ff.1 ff.2 e = true
                       ∧ @carries ideal ff.1 no_kwargs
                           (summary (@add_derived_data ideal world_manager).1) e)
        [("json", Path "out/report.json"); ("txt", Path "out/report.txt")] events
    ∧ (getitem (summary (@add_derived_data ideal world_manager).1) "stats" ≫= λ stats,
       getitem stats "pre" ≫= λ pre,
       getitem pre "read1" ≫= λ read1, getitem read1 "count") = Ret (int_value 2).
Proof.
  apply (@manager_reported ideal ideal_healthy string _ (λ d, KStr d) read_getitem "pre"
           (ReadStatistics.mk_args None None) reads_run "stats" base_run no_kwargs
           world_manager (@add_derived_data ideal world_manager).1).
  - by apply (bool_decide_unpack _).
  - reflexivity.
  - split; [by vm_compute..|vm_compute; lia].
  - vm_compute; lia.
  - by vm_compute.
  - done.
  - by repeat constructor.
  - by repeat constructor.
  - reflexivity.
Defined.

(** Destinations that are texts, such as file names. *)
Definition by_name : Statistics (ReadStatistics.t string) (ReadStatistics.result string) :=
  manager_statistics (λ d, KStr d).

(** Its result holds the snapshot of its one collector under [pre],
    [read1]. *)
Example manager_result_value :
  (res ← (@stats_finish _ _ by_name manager_run).2;
   pre ← getitem (@stats_value _ _ by_name res) "pre";
   read1 ← getitem pre "read1";
   getitem read1 "count")
  = Ret (VInt 2).
Proof. by vm_compute. Qed.

(** The summary of the run of [Runs] with the summary of its filter chain,
    and a generator for two formats. *)
Definition world_filters : world :=
  start (@__init__ ideal "out/report" (Some ["json"; "txt"]) (Some "templates"))
    (VDict (od_set (KStr "filters")
              (summary_value (Filters.summarize (filter_all run_pairs chain_short_n).1))
              base_run)).

Lemma filters_reported_witness :
  ∃ events w',
    @generate_reports ideal no_kwargs world_filters = (w', Ret tt)
    ∧ log w' = log world_filters ++ events
    ∧ Forall2 (λ ff e, writes ff.1 ff.2 e = true
                       ∧ @carries ideal ff.1 no_kwargs
                           (summary (@add_derived_data ideal world_filters).1) e)
        [("json", Path "out/report.json"); ("txt", Path "out/report.txt")] events
    ∧ getitem (summary (@add_derived_data ideal world_filters).1) "filters"
      = Ret (VDict [ (KStr "too_short", VDict [(KStr "records_filtered", VInt 2)]);
                     (KStr "too_many_n", VDict [(KStr "records_filtered", VInt 1)]) ]).
Proof.
  apply (@filters_reported ideal ideal_healthy run_pairs chain_short_n "filters" base_run
           no_kwargs world_filters (@add_derived_data ideal world_filters).1).
  - exact chain_short_n_built.
  - reflexivity.
  - split; [by vm_compute..|vm_compute; lia].
  - vm_compute; lia.
  - by vm_compute.
  - done.
  - by repeat constructor.
  - by repeat constructor.
  - reflexivity.
Defined.

End examples.
