(* ===== verification/Cli.v ===== *)
(** * Cli: the command-line entry point, [scripts/atropos.py]

    The script checks at import time that the extension modules can be
    loaded, defines [main], whose default arguments are the command line as
    it was when the [def] statement ran, and, when run as a program, calls
    [main()].  [main] hands the arguments to [execute_cli] and passes its
    answer to [sys.exit], so it never returns: it raises [SystemExit] with
    the status, or whatever [execute_cli] raises.  [check_importability] and
    [execute_cli] are defined in other modules; the model takes them as the
    class [Commands]. *)

From stdpp Require Import strings list.
From S2P Require Import Prelude.

Module Atropos.

Class Commands : Type := {
  (** [atropos.check_importability()] *)
  check_importability : outcome unit;
  (** [atropos.commands.execute_cli(args)]: the exit status *)
  execute_cli : list string → outcome Z
}.

(** The module after its import: the default of [main]'s parameter. *)
Record script : Type := mk_script {
  default_args : list string
}.

Section script.
Context `{Commands}.

(** Lines 5-12: the import runs the check, then the [def], which evaluates
    [sys.argv[1:]] once. *)
Definition import (argv : list string) : outcome script :=
  _ ← check_importability;
  Ret (mk_script (drop 1 argv)).

(** [sys.exit(status)] *)
Definition sys_exit {A} (status : Z) : outcome A := Raise (SystemExit status).

Definition main (m : script) (args : option (list string)) : outcome unit :=
  status ← execute_cli (default (default_args m) args);
  sys_exit status.

(** Lines 20-21: the script run as a program. *)
Definition run (argv : list string) : outcome unit :=
  m ← import argv;
  main m None.

Lemma main_raises m args :
  main m args =
    match execute_cli (default (default_args m) args) with
    | Ret status => Raise (SystemExit status)
    | Raise e => Raise e
    end.
Proof. unfold main. by destruct (execute_cli _). Qed.

(** The program never ends normally: it ends with the exception of the
    importability check, with the exception of [execute_cli] run on the
    arguments behind the program name, or with [SystemExit] carrying the
    status that [execute_cli] answered. *)
Theorem run_exits argv :
  run argv =
    match check_importability with
    | Raise e => Raise e
    | Ret _ =>
        match execute_cli (drop 1 argv) with
        | Ret status => Raise (SystemExit status)
        | Raise e => Raise e
        end
    end
  ∧ ∀ u, run argv ≠ Ret u.
Proof.
  assert (run argv =
    match check_importability with
    | Raise e => Raise e
    | Ret _ =>
        match execute_cli (drop 1 argv) with
        | Ret status => Raise (SystemExit status)
        | Raise e => Raise e
        end
    end) as Hrun.
  { unfold run, import. destruct check_importability; simpl; [|done].
    apply main_raises. }
  split; [done|]. intros u. rewrite Hrun.
  destruct check_importability; [|done]. by destruct (execute_cli _).
Qed.

End script.

(** A command set whose only command is [trim] and that rejects anything
    else with status 2. *)
Definition demo_commands : Commands := {|
  check_importability := Ret tt;
  execute_cli := λ args,
    match args with
    | "trim" :: _ => Ret 0%Z
    | [] => Raise ValueError
    | _ => Ret 2%Z
    end
|}.

Example run_trim : @run demo_commands ["atropos"; "trim"; "-a"; "ACGT"] = Raise (SystemExit 0).
Proof. reflexivity. Qed.

Example run_unknown : @run demo_commands ["atropos"; "frobnicate"] = Raise (SystemExit 2).
Proof. reflexivity. Qed.

End Atropos.
