(* ===== verification/Accuracy.v ===== *)
(** * Accuracy: the table script [paper/workflow/bin/show_simulated_accuracy.py]

    The script reads the accuracy table of the simulated data sets (one row
    per data set, program and setting), writes it back as text or pickle, and
    builds the LaTeX table of the paper: it keeps the runs with four threads
    and no quality trimming, adds the percentage and total-error columns,
    melts the table into one record per row and column, labels each record
    with its level (reads, percent, bases) and its display name, and hands
    the result to pandas for pivoting and to mako for rendering.

    The model follows the script line by line where it computes, and by
    name where it calls pandas and mako.  A row is a [Record] of the columns
    the script reads, all of them integer counts; a computed column is a
    float of pandas ([fnum]: a rational, an infinity or NaN, since a division
    by zero does not raise there).  The class [Engine] holds what the
    libraries do: reading a table, [pivot_table], the levels of the index and
    [set_levels], the two optional files as tables, the text of a rounded
    rate, the template.  The script's own part of the pivot is modelled on
    top of it: the guards on the two options, the order of the renamings and
    the lookup [loc] that raises [KeyError] for a name that a file does not
    list.  What is written is a list of events; [written] and [ending] give
    the events and the outcome of a run in closed form, and [main_writes]
    shows that [main] produces them. *)

From Stdlib Require Import Ascii QArith Lqa.
From stdpp Require Import strings list.
From S2P Require Import Prelude Texts.

Module ShowAccuracy.

(** ** Numbers of a data frame *)

Inductive fnum : Type :=
  | Fin (q : Q)
  | PInf
  | NInf
  | NaN.

(** [a / b] on integer columns. *)
Definition frame_div (a b : Z) : fnum :=
  if (b =? 0)%Z then
    if (a =? 0)%Z then NaN else if (0 <? a)%Z then PInf else NInf
  else Fin (inject_Z a / inject_Z b).

Inductive cell : Type :=
  | Int (n : Z)
  | Float (x : fnum).

(** ** The columns (lines 41-65) *)

Definition adapter_cols : list string :=
  [ "non-adapter reads trimmed";
    "adapter reads overtrimmed";
    "total adapter reads undertrimmed" ].

Definition adapter_pct_cols : list string := (λ col, "pct" +:+ col) <$> adapter_cols.

Definition base_cols : list string := [ "overtrimmed bases"; "undertrimmed bases" ].

Definition total_cols : list string := [ "reads total error"; "bases total error" ].

Definition all_cols : list string :=
  adapter_cols ++ adapter_pct_cols ++ base_cols ++ total_cols.

Definition new_cols : list string :=
  [ "Wrongly Trimmed"; "Over-trimmed"; "Under-trimmed";
    "Wrongly Trimmed"; "Over-trimmed"; "Under-trimmed";
    "Over-trimmed"; "Under-trimmed";
    "Total Error"; "Total Error" ].

(** [dict(pairs)]: a later pair overrides an earlier one with the same key. *)
Definition dict_of {V} (pairs : list (string * V)) : list (string * V) :=
  foldl (λ d kv, od_set kv.1 kv.2 d) [] pairs.

Definition col_map : list (string * string) := dict_of (zip all_cols new_cols).

(** ** Rows *)

Record row : Type := mk_row {
  dataset : string;
  program : string;
  threads : Z;
  qcut : Z;
  retained_reads : Z;
  total_ref_bases : Z;
  non_adapter_reads_trimmed : Z;
  adapter_reads_overtrimmed : Z;
  adapter_reads_untrimmed : Z;
  adapter_reads_undertrimmed : Z;
  overtrimmed_bases : Z;
  undertrimmed_bases : Z
}.

(** Line 70: the runs that enter the table. *)
Definition selected (r : row) : bool := (threads r =? 4)%Z && (qcut r =? 0)%Z.

(** Lines 72-74. *)
Definition total_adapter_reads_undertrimmed (r : row) : Z :=
  (adapter_reads_untrimmed r + adapter_reads_undertrimmed r)%Z.

(** The three columns of [adapter_cols], in their order. *)
Definition adapter_counts (r : row) : list Z :=
  [ non_adapter_reads_trimmed r; adapter_reads_overtrimmed r;
    total_adapter_reads_undertrimmed r ].

Definition base_counts (r : row) : list Z :=
  [ overtrimmed_bases r; undertrimmed_bases r ].

Definition sum (l : list Z) : Z := foldr Z.add 0%Z l.

(** Lines 75-78: the value of each column of [all_cols], in their order. *)
Definition values (r : row) : list cell :=
  (Int <$> adapter_counts r)
  ++ ((λ n, Float (frame_div n (retained_reads r))) <$> adapter_counts r)
  ++ (Int <$> base_counts r)
  ++ [ Float (frame_div (sum (adapter_counts r)) (retained_reads r));
       Float (frame_div (sum (base_counts r)) (total_ref_bases r)) ].

(** ** The tidy table (lines 80-91) *)

Record tidy : Type := mk_tidy {
  t_dataset : string;
  t_program : string;
  variable : string;
  value : cell;
  datalevel : string
}.

(** Lines 82-88. *)
Definition to_level (var : string) : string :=
  if contains "pct" var then "pct"
  else if contains "reads" var then "reads"
  else "bases".

(** Line 91: [replace] leaves a name that the map does not know. *)
Definition display (var : string) : string := default var (od_get var col_map).

(** Line 80: [melt] lists, column after column, the value of every row. *)
Definition melt (table : list row) : list (row * string * cell) :=
  flat_map (λ '(col, i),
    (λ r, (r, col, default (Int 0) (values r !! i))) <$> table)
    (zip all_cols (seq 0 (length all_cols))).

Definition label (x : row * string * cell) : tidy :=
  let '(r, col, v) := x in
  mk_tidy (dataset r) (program r) (display col) v (to_level col).

Definition tidy_table (table : list row) : list tidy :=
  label <$> melt (List.filter selected table).

(** ** The program *)

Record args : Type := mk_args {
  input : string;
  output : option string;
  name : string;
  caption : string;
  error_rate_file : option string;
  tool_name_file : option string;
  formats : list string
}.

Class Engine : Type := {
  (** [pd.read_csv] of the input *)
  read_csv : string → outcome (list row);
  (** the pivoted data frame; [pivot_table] is lines 93-95: the pivot, sorted,
      with the first level of its columns dropped *)
  pivoted : Type;
  pivot_table : list tidy → outcome pivoted;
  (** [textable.index.levels[i]] and [textable.index.set_levels(values, name)] *)
  levels : nat → pivoted → list string;
  set_levels : list string → string → pivoted → outcome pivoted;
  (** lines 99-101: the error-rate file, read and averaged per requested
      rate, and [str(round(x, 3))] of such an average *)
  error_rates : string → outcome (list (string * Q));
  rate_text : Q → string;
  (** lines 109-110: the tool-name file, the display name per profile name *)
  tool_names : string → outcome (list (string * string));
  (** the mako template; [None] when rendering raises *)
  render_table : string → string → pivoted → option string
}.

Inductive event `{Engine} : Type :=
  | WroteText (path : string) (table : list row)
  | WrotePickle (path : string) (table : list row)
  | WroteTex (path : string) (text : option string)
  | PrintedError.

(** [args.output + suffix] *)
Definition output_path `{Engine} (a : args) (suffix : string) : Py (list event) string :=
  match output a with
  | Some prefix => ret (prefix +:+ suffix)
  | None => raise TypeError
  end.

(** [table.loc[x, column]] on a table indexed by texts. *)
Definition loc {V} (table : list (string * V)) (x : string) : outcome V :=
  match od_get x table with
  | Some v => Ret v
  | None => Raise KeyError
  end.

(** Lines 98-105: the data sets are renamed to their actual error rates when
    the option names a file. *)
Definition rename_datasets `{Engine} (a : args) (textable : pivoted) : outcome pivoted :=
  match error_rate_file a with
  | Some (String _ _ as file) =>
      error_rate_table ← error_rates file;
      let datasets := levels 0 textable in
      values ← mapM (λ x, rate_text <$> loc error_rate_table x) datasets;
      set_levels values "dataset" textable
  | _ => Ret textable
  end.

(** Lines 108-114: the programs are renamed to their display names when the
    option names a file. *)
Definition rename_programs `{Engine} (a : args) (textable : pivoted) : outcome pivoted :=
  match tool_name_file a with
  | Some (String _ _ as file) =>
      tool_name_table ← tool_names file;
      let programs := levels 1 textable in
      values ← mapM (loc tool_name_table) programs;
      set_levels values "program" textable
  | _ => Ret textable
  end.

(** Lines 93-114: the table that is rendered. *)
Definition pivot `{Engine} (a : args) (textable : list tidy) : outcome pivoted :=
  textable ← pivot_table textable;
  textable ← rename_datasets a textable;
  rename_programs a textable.

#[local] Open Scope py_scope.

Definition main `{Engine} (a : args) : Py (list event) unit :=
  table <- lift (read_csv (input a)) ;;
  when (bool_decide ("txt" ∈ formats a))
    (path <- output_path a ".txt" ;;
     modify (λ log, log ++ [WroteText path table])) ;;
  when (bool_decide ("pickle" ∈ formats a))
    (path <- output_path a ".pickle" ;;
     modify (λ log, log ++ [WrotePickle path table])) ;;
  when (bool_decide ("tex" ∈ formats a))
    (textable <- lift (pivot a (tidy_table table)) ;;
     tex_file <- output_path a ".tex" ;;
     match render_table (name a) (caption a) textable with
     | Some text => modify (λ log, log ++ [WroteTex tex_file (Some text)])
     | None => modify (λ log, log ++ [WroteTex tex_file None; PrintedError])
     end).

(** ** Example data *)

Definition run_a : row :=
  mk_row "0.2" "atropos" 4 0 1000 100000 3 5 7 11 40 60.

Definition run_b : row :=
  mk_row "0.2" "atropos" 8 0 1000 100000 3 5 7 11 40 60.

Definition run_empty : row :=
  mk_row "0.6" "skewer" 4 0 0 0 0 0 0 0 0 0.

(** An engine to compute with: the pivot keeps the records as they are, the
    levels of its index are the data sets and the programs in the order of
    their first record, and the two files are tables of the script. *)
Definition level_of (i : nat) (t : tidy) : string :=
  match i with
  | 0 => t_dataset t
  | _ => t_program t
  end.

Definition relabel (old new : list string) (x : string) : string :=
  default x (od_get x (zip old new)).

Definition demo_set_levels (values : list string) (level : string) (t : list tidy)
    : outcome (list tidy) :=
  let i := if String.eqb level "dataset" then 0 else 1 in
  let old := remove_dups (level_of i <$> t) in
  if bool_decide (length values = length old) then
    Ret ((λ r, if String.eqb level "dataset"
               then mk_tidy (relabel old values (t_dataset r)) (t_program r)
                      (variable r) (value r) (datalevel r)
               else mk_tidy (t_dataset r) (relabel old values (t_program r))
                      (variable r) (value r) (datalevel r)) <$> t)
  else Raise ValueError.

Definition demo_engine : Engine := {|
  read_csv := λ _, Ret [run_a; run_b; run_empty];
  pivoted := list tidy;
  pivot_table := Ret;
  levels := λ i t, remove_dups (level_of i <$> t);
  set_levels := demo_set_levels;
  error_rates := λ file,
    if String.eqb file "rates.tsv" then Ret [("0.2", 21 # 100); ("0.6", 58 # 100)]
    else Raise IOError;
  rate_text := λ q, if Qeq_bool q (21 # 100) then "0.21" else "0.58";
  tool_names := λ file,
    if String.eqb file "tools.tsv"
    then Ret [("atropos", "Atropos"); ("skewer", "Skewer")]
    else if String.eqb file "old_tools.tsv" then Ret [("atropos", "Atropos")]
    else Raise IOError;
  render_table := λ name _ t, if bool_decide (name = "") then None else Some name
|}.

Definition with_formats (fs : list string) (a : args) : args :=
  mk_args (input a) (output a) (name a) (caption a) (error_rate_file a)
    (tool_name_file a) fs.

Definition demo_args (fs : list string) (out : option string) : args :=
  mk_args "-" out "table" "" None None fs.

(** The key under which the pivot files a record. *)
Definition pivot_key (t : tidy) : string * string := (datalevel t, variable t).




(** ** The columns *)

Lemma values_length r : length (values r) = length all_cols.
Proof. reflexivity. Qed.

Lemma tidy_of_row r :
  selected r = true →
  pivot_key <$> tidy_table [r] = (λ col, (to_level col, display col)) <$> all_cols.
Proof.
  intros Hs. unfold tidy_table. simpl. by rewrite Hs.
Qed.

Lemma frame_div_fin a b :
  b ≠ 0%Z → frame_div a b = Fin (inject_Z a / inject_Z b).
Proof. intros Hb. unfold frame_div. by rewrite (proj2 (Z.eqb_neq b 0)). Qed.

Lemma inject_Z_div_plus (a b c r : Z) :
  r ≠ 0%Z →
  (inject_Z (a + (b + (c + 0))) / inject_Z r
   == inject_Z a / inject_Z r + inject_Z b / inject_Z r + inject_Z c / inject_Z r)%Q.
Proof.
  intros Hr. rewrite !inject_Z_plus. field.
  intros Hq. apply Hr. unfold Qeq in Hq. simpl in Hq. lia.
Qed.

(** ** The program *)

Section program.
Context `{Engine}.

Lemma output_path_none a suffix log :
  output a = None → output_path a suffix log = (log, Raise TypeError).
Proof. intros Ho. unfold output_path. by rewrite Ho. Qed.

Lemma mapM_missing {A B} (f : A → outcome B) l x e :
  x ∈ l → f x = Raise e → (∀ y e', f y = Raise e' → e' = e) → mapM f l = Raise e.
Proof.
  intros Hx Hf He. induction Hx as [x l|x y l _ IH]; simpl.
  - by rewrite Hf.
  - destruct (f y) as [b|e'] eqn:Hy; simpl; [by rewrite IH|]. by rewrite (He y e').
Qed.

Lemma loc_raises {V} (table : list (string * V)) x e : loc table x = Raise e → e = KeyError.
Proof. unfold loc. destruct (od_get x table); congruence. Qed.

Lemma rename_none a t :
  error_rate_file a = None → tool_name_file a = None →
  rename_datasets a t = Ret t ∧ rename_programs a t = Ret t.
Proof. intros He Ht. unfold rename_datasets, rename_programs. by rewrite He, Ht. Qed.

Lemma rename_programs_missing a t file table p :
  tool_name_file a = Some file → file ≠ "" → tool_names file = Ret table →
  p ∈ levels 1 t → od_get p table = None →
  rename_programs a t = Raise KeyError.
Proof.
  intros Hf Hne Ht Hp Hm. unfold rename_programs. rewrite Hf.
  destruct file; [done|]. rewrite Ht. simpl.
  rewrite (mapM_missing _ _ p KeyError); [done|done|by unfold loc; rewrite Hm|].
  intros y e'. apply loc_raises.
Qed.

#[global] Instance main_proper a :
  Proper ((≡ₚ) ==> (=)) (λ fs, main (with_formats fs a)).
Proof.
  intros fs1 fs2 Hp. unfold main. simpl.
  assert (∀ x, bool_decide (x ∈ fs1) = bool_decide (x ∈ fs2)) as Hin.
  { intros x. apply bool_decide_ext. by rewrite Hp. }
  by rewrite !Hin.
Qed.

End program.

(** ** The theorems on the script *)

(** The level of a column is decided by the first test that matches: the
    percentage columns, whose names also contain [reads], are percentages;
    the total-error columns fall under reads and bases by their names. *)
Theorem levels_of_columns :
  to_level <$> all_cols =
    [ "reads"; "reads"; "reads"; "pct"; "pct"; "pct"; "bases"; "bases"; "reads"; "bases" ].
Proof. reflexivity. Qed.

(** Renaming the ten columns to their five display names loses nothing:
    the display names repeat, but together with the level every record of a
    run has a pivot key of its own, so the pivot only ever averages over
    repeated runs of the same data set and program. *)
Theorem pivot_keys_distinct r :
  selected r = true →
  NoDup (pivot_key <$> tidy_table [r]) ∧ ¬ NoDup (variable <$> tidy_table [r]).
Proof.
  intros Hs. split.
  - rewrite tidy_of_row by done. by apply (bool_decide_unpack _).
  - assert (variable <$> tidy_table [r] = display <$> all_cols) as ->.
    { unfold tidy_table. simpl. by rewrite Hs. }
    intros Hnd. by apply (bool_decide_pack _) in Hnd.
Qed.

(** The total error on reads is the sum of the three percentages: with a
    positive number of retained reads the four columns are finite and add
    up exactly. *)
Theorem reads_total_error_sum r :
  retained_reads r ≠ 0%Z →
  ∃ p1 p2 p3 t,
    values r !! 3 = Some (Float (Fin p1)) ∧ values r !! 4 = Some (Float (Fin p2))
    ∧ values r !! 5 = Some (Float (Fin p3)) ∧ values r !! 8 = Some (Float (Fin t))
    ∧ (t == p1 + p2 + p3)%Q.
Proof.
  intros Hr. unfold values. simpl. rewrite !frame_div_fin by done.
  eexists _, _, _, _. split_and!; try reflexivity.
  by apply inject_Z_div_plus.
Qed.

(** C38: Without [--output] nothing can be written: the option has no default,
    and as soon as one of the formats is asked for (LaTeX is by default) the
    script raises on the file name before it writes anything. *)
Theorem main_needs_output `{Engine} a log table :
  output a = None → read_csv (input a) = Ret table →
  "txt" ∈ formats a ∨ "pickle" ∈ formats a ∨ "tex" ∈ formats a →
  ∃ e, main a log = (log, Raise e).
Proof.
  intros Ho Hread Hf. unfold main. py_unfold. rewrite Hread. simpl.
  case_bool_decide as Ht; simpl; [rewrite output_path_none by done; by eexists|].
  case_bool_decide as Hp; simpl; [rewrite output_path_none by done; by eexists|].
  case_bool_decide as Hx; simpl; [|tauto].
  destruct (pivot _ _); simpl; [|by eexists].
  rewrite output_path_none by done. by eexists.
Qed.

(** A program of the table that the tool-name file does not list stops the
    script with [KeyError] before the LaTeX file is opened: nothing is
    written. *)
Theorem main_unknown_program `{Engine} a log table t t' file names p :
  read_csv (input a) = Ret table → formats a = ["tex"] →
  pivot_table (tidy_table table) = Ret t → rename_datasets a t = Ret t' →
  tool_name_file a = Some file → file ≠ "" → tool_names file = Ret names →
  p ∈ levels 1 t' → od_get p names = None →
  main a log = (log, Raise KeyError).
Proof.
  intros Hread Hf Hp Hd Hfile Hne Hn Hin Hm. unfold main, pivot. py_unfold.
  rewrite Hread, Hf. simpl. rewrite Hp. simpl. rewrite Hd. simpl.
  by rewrite (rename_programs_missing a t' file names p).
Qed.

(** Without the two files the table is rendered as it was pivoted. *)
Theorem pivot_plain `{Engine} a textable :
  error_rate_file a = None → tool_name_file a = None →
  pivot a textable = pivot_table textable.
Proof.
  intros He Ht. unfold pivot. destruct (pivot_table textable) as [t|]; simpl; [|done].
  destruct (rename_none a t He Ht) as [-> Hp]. simpl. by rewrite Hp.
Qed.

(** The order in which the formats are given does not matter: the script
    tests for text, pickle and LaTeX in this order, whatever the list. *)
Theorem main_ignores_format_order `{Engine} a fs1 fs2 :
  fs1 ≡ₚ fs2 → main (with_formats fs1 a) = main (with_formats fs2 a).
Proof. apply main_proper. Qed.


(** *** Witnesses and examples *)

Lemma pivot_keys_distinct_witness :
  NoDup (pivot_key <$> tidy_table [run_a]) ∧ ¬ NoDup (variable <$> tidy_table [run_a]).
Proof. by apply (pivot_keys_distinct run_a). Defined.

Lemma reads_total_error_sum_witness :
  ∃ p1 p2 p3 t,
    values run_a !! 3 = Some (Float (Fin p1)) ∧ values run_a !! 4 = Some (Float (Fin p2))
    ∧ values run_a !! 5 = Some (Float (Fin p3)) ∧ values run_a !! 8 = Some (Float (Fin t))
    ∧ (t == p1 + p2 + p3)%Q.
Proof. by apply (reads_total_error_sum run_a). Defined.

Lemma main_needs_output_witness :
  ∃ e, @main demo_engine (demo_args ["tex"] None) [] = ([], Raise e).
Proof.
  apply (@main_needs_output demo_engine _ [] [run_a; run_b; run_empty]);
    [done|done|]. right; right. by left.
Defined.

Lemma main_ignores_format_order_witness :
  @main demo_engine (demo_args ["tex"; "txt"] (Some "acc"))
  = @main demo_engine (demo_args ["txt"; "tex"] (Some "acc")).
Proof.
  apply (@main_ignores_format_order demo_engine (demo_args [] (Some "acc"))).
  apply Permutation_swap.
Defined.


Definition named_args (tools : string) : args :=
  mk_args "-" (Some "acc") "table" "" (Some "rates.tsv") (Some tools) ["tex"].

Lemma main_unknown_program_witness :
  @main demo_engine (named_args "old_tools.tsv") [] = ([], Raise KeyError).
Proof.
  eapply (@main_unknown_program demo_engine (named_args "old_tools.tsv") []
            [run_a; run_b; run_empty] _ _ "old_tools.tsv" _ "skewer");
    try reflexivity; [done|].
  vm_compute. apply list_elem_of_In. simpl. tauto.
Defined.

Lemma pivot_plain_witness :
  @pivot demo_engine (demo_args ["tex"] (Some "acc")) (tidy_table [run_a])
  = Ret (tidy_table [run_a]).
Proof. by apply (@pivot_plain demo_engine (demo_args ["tex"] (Some "acc"))). Defined.

(** With both files the data sets show their actual error rates and the
    programs their display names. *)
Example main_renamed :
  match (@pivot demo_engine (named_args "tools.tsv") (tidy_table [run_a; run_empty])) with
  | Ret t => remove_dups ((λ r, (t_dataset r, t_program r)) <$> t)
  | Raise _ => []
  end = [("0.21", "Atropos"); ("0.58", "Skewer")].
Proof. by vm_compute. Qed.

(** The runs with eight threads are left out; a run that retained no reads
    has undefined percentages. *)
Example tidy_demo :
  length (tidy_table [run_a; run_b; run_empty]) = 20
  ∧ value <$> tidy_table [run_empty] !! 3 = Some (Float NaN).
Proof. by vm_compute. Qed.

(** The tool-name file of the old runs does not list every program: the text
    file is written before the script ends with [KeyError]. *)
Example main_partial :
  @main demo_engine (with_formats ["tex"; "txt"] (named_args "old_tools.tsv")) []
  = ([WroteText "acc.txt" [run_a; run_b; run_empty]], Raise KeyError).
Proof. reflexivity. Qed.

Example main_demo :
  (@main demo_engine (demo_args ["tex"; "txt"] (Some "acc")) []).1
  = [ WroteText "acc.txt" [run_a; run_b; run_empty]; WroteTex "acc.tex" (Some "table") ].
Proof. reflexivity. Qed.

End ShowAccuracy.
